(** * block/bio-integrity.c: bio data integrity extensions

    A shallow embedding of the integrity payload code of
    [block/bio-integrity.c] and the properties its design document
    states about it.

    Integers are [Z]; a field narrower than the value stored in it wraps
    ([u16], [u32]).  Objects the C code reaches through pointers (bios,
    payloads, pool-allocated vectors) live in finite maps keyed by their
    address, so that two payloads can point at one vector.  Functions
    that touch that store run in a small state monad whose second outcome
    is a kernel oops ([BUG_ON], a NULL or out-of-bounds access). *)

From stdpp Require Import base option list gmap.
From Stdlib Require Import ZArith Lia.

Local Open Scope Z_scope.

(** ** Constants of the headers *)

Definition PAGE_SHIFT : Z := 12.
Definition PAGE_SIZE : Z := 4096.
Definition SECTOR_SHIFT : Z := 9.
Definition BIO_MAX_VECS : Z := 256.
Definition BIO_INLINE_VECS : Z := 4.
Definition UIO_FASTIOV : Z := 8.

Definition EINVAL : Z := 22.
Definition E2BIG : Z := 7.
Definition ENOMEM : Z := 12.
Definition EFAULT : Z := 14.
Definition EOPNOTSUPP : Z := 95.

Definition BLK_STS_OK : Z := 0.
Definition BLK_STS_PROTECTION : Z := 8.
Definition BLK_STS_RESOURCE : Z := 9.

Definition REQ_OP_READ : Z := 0.
Definition REQ_OP_WRITE : Z := 1.
Definition REQ_OP_DISCARD : Z := 3.
Definition REQ_OP_MASK : Z := 255.
Definition REQ_INTEGRITY : Z := Z.shiftl 1 16.

Definition READ : Z := 0.
Definition WRITE : Z := 1.

Definition ITER_SOURCE : Z := 1.
Definition ITER_DEST : Z := 0.

Definition GFP_KERNEL : Z := 3264.
Definition GFP_NOIO : Z := 3072.
Definition __GFP_ZERO : Z := 256.

Definition BIP_BLOCK_INTEGRITY : Z := Z.shiftl 1 0.
Definition BIP_MAPPED_INTEGRITY : Z := Z.shiftl 1 1.
Definition BIP_CTRL_NOCHECK : Z := Z.shiftl 1 2.
Definition BIP_DISK_NOCHECK : Z := Z.shiftl 1 3.
Definition BIP_IP_CHECKSUM : Z := Z.shiftl 1 4.
Definition BIP_COPY_USER : Z := Z.shiftl 1 5.

Definition BLK_INTEGRITY_NOVERIFY : Z := Z.shiftl 1 0.
Definition BLK_INTEGRITY_NOGENERATE : Z := Z.shiftl 1 1.

Definition BLK_INTEGRITY_CSUM_NONE : Z := 0.
Definition BLK_INTEGRITY_CSUM_IP : Z := 1.
Definition BLK_INTEGRITY_CSUM_CRC : Z := 2.

(** Truncation to an unsigned field. *)
Definition u16 (x : Z) : Z := x mod 2 ^ 16.
Definition u32 (x : Z) : Z := x mod 2 ^ 32.

(** A C condition on an integer: non-zero is true. *)
Definition nonzero (x : Z) : bool := negb (x =? 0).

(** ** Data model *)

(** [struct bio_vec]; a [struct page *] is the page frame number. *)
Record bio_vec := BioVec {
  bv_page : Z;
  bv_len : Z;
  bv_offset : Z
}.

(** [struct bvec_iter] *)
Record bvec_iter := BvecIter {
  bi_sector : Z;
  bi_size : Z;
  bi_idx : Z;
  bi_bvec_done : Z
}.

(** What a [struct bio_vec *] can point at: the inline vectors at the
    end of a payload, or an array of the biovec pool. *)
Inductive vec_ptr :=
| InlineVecs (bip : Z)
| PoolVecs (a : Z).

(** The work function a [struct work_struct] was initialised with. *)
Inductive work_fn :=
| bio_integrity_verify_fn_work.

(** [struct bio_integrity_payload] *)
Record bio_integrity_payload := Bip {
  bip_bio : Z;
  bip_iter : bvec_iter;
  bip_vcnt : Z;
  bip_max_vcnt : Z;
  bip_flags : Z;
  bio_iter : bvec_iter;
  bip_work : option work_fn;
  bip_vec : option vec_ptr;
  bip_inline_vecs : list bio_vec
}.

(** [struct blk_integrity], the integrity profile of a disk. *)
Record blk_integrity := BlkIntegrity {
  flags : Z;
  csum_type : Z;
  tuple_size : Z;
  interval_exp : Z
}.

(** The fields of [struct queue_limits] this file reads. *)
Record queue_limits := QueueLimits {
  max_hw_sectors : Z;
  max_integrity_segments : Z;
  dma_alignment : Z;
  dma_pad_mask : Z;
  seg_boundary_mask : Z;
  max_segment_size : Z;
  virt_boundary_mask : Z
}.

(** [struct block_device] with its disk and request queue. *)
Record block_device := BlockDevice {
  limits : queue_limits;
  bd_integrity : option blk_integrity
}.

(** [struct bio_set]: whether its integrity mempool was initialised. *)
Record bio_set := BioSet {
  bio_integrity_pool : bool
}.

(** [struct bio] *)
Record bio := Bio {
  bi_bdev : block_device;
  bi_opf : Z;
  bi_status : Z;
  bi_iter : bvec_iter;
  bi_integrity : option Z;
  bi_pool : option bio_set;
  bi_crypt_context : bool
}.

(** Calls that leave this file, in the order they are made. *)
Inductive event :=
| EvKfree (a : Z)
| EvKvfreePages
| EvMempoolFree (bip : Z)
| EvBvecFree (p : vec_ptr) (nr : Z)
| EvPin (page : Z)
| EvUnpin (page : Z)
| EvSetPageDirty (page : Z)
| EvCopyToIter (src : Z) (bytes : Z)
| EvCopyFromIter (dst : Z) (bytes : Z)
| EvGenerate (bio : Z)
| EvVerify (bio : Z)
| EvQueueWork (bip : Z)
| EvEndio (bio : Z).

(** The kernel state the code runs in.  The three [_ans] lists are the
    answers the allocators will give, in order: [None] is a failed
    allocation, and an allocator whose list is used up fails.  An answer
    of the biovec pool carries the vector count the pool grants.  The
    checksum of the profile is carried as two functions of memory, the
    request and its payload: [csum_generate] gives the bytes of
    protection information for the request's data, [csum_verify] tells
    whether the protection information read matches the data. *)
Record kernel := Kernel {
  bios : gmap Z bio;
  bips : gmap Z bio_integrity_payload;
  bvec_pool : gmap Z (list bio_vec);
  mem : Z -> Z;
  user_pt : Z -> option Z;
  page_folio : Z -> Z;
  PageCompound : Z -> bool;
  trace : list event;
  kmalloc_ans : list (option Z);
  mempool_ans : list (option Z);
  bvec_ans : list (option (Z * Z));
  csum_generate : (Z -> Z) -> bio -> bio_integrity_payload -> list Z;
  csum_verify : (Z -> Z) -> bio -> bio_integrity_payload -> bool
}.

Definition set_bios (f : gmap Z bio -> gmap Z bio) (k : kernel) : kernel :=
  Kernel (f (bios k)) (bips k) (bvec_pool k) (mem k) (user_pt k)
    (page_folio k) (PageCompound k) (trace k)
    (kmalloc_ans k) (mempool_ans k) (bvec_ans k)
    (csum_generate k) (csum_verify k).

Definition set_bips
    (f : gmap Z bio_integrity_payload -> gmap Z bio_integrity_payload)
    (k : kernel) : kernel :=
  Kernel (bios k) (f (bips k)) (bvec_pool k) (mem k) (user_pt k)
    (page_folio k) (PageCompound k) (trace k)
    (kmalloc_ans k) (mempool_ans k) (bvec_ans k)
    (csum_generate k) (csum_verify k).

Definition set_bvec_pool
    (f : gmap Z (list bio_vec) -> gmap Z (list bio_vec))
    (k : kernel) : kernel :=
  Kernel (bios k) (bips k) (f (bvec_pool k)) (mem k) (user_pt k)
    (page_folio k) (PageCompound k) (trace k)
    (kmalloc_ans k) (mempool_ans k) (bvec_ans k)
    (csum_generate k) (csum_verify k).

Definition set_mem (f : (Z -> Z) -> Z -> Z) (k : kernel) : kernel :=
  Kernel (bios k) (bips k) (bvec_pool k) (f (mem k)) (user_pt k)
    (page_folio k) (PageCompound k) (trace k)
    (kmalloc_ans k) (mempool_ans k) (bvec_ans k)
    (csum_generate k) (csum_verify k).

Definition set_trace (f : list event -> list event) (k : kernel) : kernel :=
  Kernel (bios k) (bips k) (bvec_pool k) (mem k) (user_pt k)
    (page_folio k) (PageCompound k) (f (trace k))
    (kmalloc_ans k) (mempool_ans k) (bvec_ans k)
    (csum_generate k) (csum_verify k).

Definition set_kmalloc_ans
    (f : list (option Z) -> list (option Z)) (k : kernel) : kernel :=
  Kernel (bios k) (bips k) (bvec_pool k) (mem k) (user_pt k)
    (page_folio k) (PageCompound k) (trace k)
    (f (kmalloc_ans k)) (mempool_ans k) (bvec_ans k)
    (csum_generate k) (csum_verify k).

Definition set_mempool_ans
    (f : list (option Z) -> list (option Z)) (k : kernel) : kernel :=
  Kernel (bios k) (bips k) (bvec_pool k) (mem k) (user_pt k)
    (page_folio k) (PageCompound k) (trace k)
    (kmalloc_ans k) (f (mempool_ans k)) (bvec_ans k)
    (csum_generate k) (csum_verify k).

Definition set_bvec_ans
    (f : list (option (Z * Z)) -> list (option (Z * Z)))
    (k : kernel) : kernel :=
  Kernel (bios k) (bips k) (bvec_pool k) (mem k) (user_pt k)
    (page_folio k) (PageCompound k) (trace k)
    (kmalloc_ans k) (mempool_ans k) (f (bvec_ans k))
    (csum_generate k) (csum_verify k).

(** ** The monad *)

Inductive outcome (A : Type) :=
| Ret (a : A) (k : kernel)
| Oops.
Arguments Ret {A} a k.
Arguments Oops {A}.

Definition M (A : Type) : Type := kernel -> outcome A.

#[global] Instance M_ret : MRet M := λ A a k, Ret a k.
#[global] Instance M_bind : MBind M := λ A B f m k,
  match m k with
  | Ret a k' => f a k'
  | Oops => Oops
  end.

Definition oops {A} : M A := λ _, Oops.
Definition modify (f : kernel -> kernel) : M unit := λ k, Ret tt (f k).
Definition gets {A} (f : kernel -> A) : M A := λ k, Ret (f k) k.
Definition emit (e : event) : M unit := modify (set_trace (λ t, t ++ [e])).

(** Dereference of a possibly-NULL pointer. *)
Definition deref {A} (o : option A) : M A :=
  match o with
  | Some a => mret a
  | None => oops
  end.

Definition load_bio (p : Z) : M bio := λ k, deref (bios k !! p) k.
Definition store_bio (p : Z) (b : bio) : M unit :=
  modify (set_bios (insert p b)).
Definition load_bip (p : Z) : M bio_integrity_payload :=
  λ k, deref (bips k !! p) k.
Definition store_bip (p : Z) (b : bio_integrity_payload) : M unit :=
  modify (set_bips (insert p b)).

(** Field updates. *)
Definition bio_with_opf (v : Z) (b : bio) : bio :=
  Bio (bi_bdev b) v (bi_status b) (bi_iter b) (bi_integrity b)
    (bi_pool b) (bi_crypt_context b).
Definition bio_with_status (v : Z) (b : bio) : bio :=
  Bio (bi_bdev b) (bi_opf b) v (bi_iter b) (bi_integrity b)
    (bi_pool b) (bi_crypt_context b).
Definition bio_with_integrity (v : option Z) (b : bio) : bio :=
  Bio (bi_bdev b) (bi_opf b) (bi_status b) (bi_iter b) v
    (bi_pool b) (bi_crypt_context b).

Definition bip_with_iter (v : bvec_iter) (p : bio_integrity_payload) :=
  Bip (bip_bio p) v (bip_vcnt p) (bip_max_vcnt p) (bip_flags p)
    (bio_iter p) (bip_work p) (bip_vec p) (bip_inline_vecs p).
Definition bip_with_vcnt (v : Z) (p : bio_integrity_payload) :=
  Bip (bip_bio p) (bip_iter p) v (bip_max_vcnt p) (bip_flags p)
    (bio_iter p) (bip_work p) (bip_vec p) (bip_inline_vecs p).
Definition bip_with_max_vcnt (v : Z) (p : bio_integrity_payload) :=
  Bip (bip_bio p) (bip_iter p) (bip_vcnt p) v (bip_flags p)
    (bio_iter p) (bip_work p) (bip_vec p) (bip_inline_vecs p).
Definition bip_with_flags (v : Z) (p : bio_integrity_payload) :=
  Bip (bip_bio p) (bip_iter p) (bip_vcnt p) (bip_max_vcnt p) v
    (bio_iter p) (bip_work p) (bip_vec p) (bip_inline_vecs p).
Definition bip_with_bio_iter (v : bvec_iter) (p : bio_integrity_payload) :=
  Bip (bip_bio p) (bip_iter p) (bip_vcnt p) (bip_max_vcnt p) (bip_flags p)
    v (bip_work p) (bip_vec p) (bip_inline_vecs p).
Definition bip_with_work (v : option work_fn) (p : bio_integrity_payload) :=
  Bip (bip_bio p) (bip_iter p) (bip_vcnt p) (bip_max_vcnt p) (bip_flags p)
    (bio_iter p) v (bip_vec p) (bip_inline_vecs p).
Definition bip_with_vec (v : option vec_ptr) (p : bio_integrity_payload) :=
  Bip (bip_bio p) (bip_iter p) (bip_vcnt p) (bip_max_vcnt p) (bip_flags p)
    (bio_iter p) (bip_work p) v (bip_inline_vecs p).
Definition bip_with_inline_vecs (v : list bio_vec)
    (p : bio_integrity_payload) :=
  Bip (bip_bio p) (bip_iter p) (bip_vcnt p) (bip_max_vcnt p) (bip_flags p)
    (bio_iter p) (bip_work p) (bip_vec p) v.
Definition bip_with_bio (v : Z) (p : bio_integrity_payload) :=
  Bip v (bip_iter p) (bip_vcnt p) (bip_max_vcnt p) (bip_flags p)
    (bio_iter p) (bip_work p) (bip_vec p) (bip_inline_vecs p).

Definition iter_with_sector (v : Z) (i : bvec_iter) : bvec_iter :=
  BvecIter v (bi_size i) (bi_idx i) (bi_bvec_done i).
Definition iter_with_size (v : Z) (i : bvec_iter) : bvec_iter :=
  BvecIter (bi_sector i) v (bi_idx i) (bi_bvec_done i).

(** ** Helpers of the headers and of the rest of the block layer

    The functions below are called by [bio-integrity.c] and defined
    elsewhere in the tree. *)

(** Modelled from the spec: [bio_integrity] of [linux/bio.h], the
    request's payload slot; it is read only when the request is flagged
    as carrying integrity metadata. *)
Definition bio_integrity (b : bio) : option Z :=
  if nonzero (Z.land (bi_opf b) REQ_INTEGRITY) then bi_integrity b else None.

(** Modelled from the spec: [bio_has_crypt_ctx] of [linux/blk-crypto.h]. *)
Definition bio_has_crypt_ctx (b : bio) : bool := bi_crypt_context b.

(** Modelled from the spec: [bio_op], [bio_data_dir] and [bio_sectors] of
    the bio headers: the request's operation, direction and sector
    count. *)
Definition bio_op (b : bio) : Z := Z.land (bi_opf b) REQ_OP_MASK.
Definition op_is_write (op : Z) : bool := nonzero (Z.land op 1).
Definition bio_data_dir (b : bio) : Z :=
  if op_is_write (bio_op b) then WRITE else READ.
Definition bio_sectors (b : bio) : Z :=
  Z.shiftr (bi_size (bi_iter b)) SECTOR_SHIFT.

(** Modelled from the spec: [blk_get_integrity] of [linux/blk-integrity.h],
    the integrity profile bound to the target device, if any. *)
Definition blk_get_integrity (d : block_device) : option blk_integrity :=
  bd_integrity d.

(** Modelled from the spec: [bio_integrity_intervals] and
    [bio_integrity_bytes] of [linux/blk-integrity.h]: a sector count as a
    count of integrity intervals, and the bytes of metadata they take
    (interval size times interval count). *)
Definition bio_integrity_intervals (bi : blk_integrity) (sectors : Z) : Z :=
  Z.shiftr sectors (interval_exp bi - 9).
Definition bio_integrity_bytes (bi : blk_integrity) (sectors : Z) : Z :=
  u32 (bio_integrity_intervals bi sectors * tuple_size bi).

(** Modelled from the spec: the device limits of [linux/blkdev.h]. *)
Definition queue_max_integrity_segments (q : queue_limits) : Z :=
  max_integrity_segments q.
Definition queue_max_hw_sectors (q : queue_limits) : Z := max_hw_sectors q.
Definition blk_lim_dma_alignment_and_pad (q : queue_limits) : Z :=
  Z.lor (dma_alignment q) (dma_pad_mask q).

(** Modelled from the spec: kernel addresses.  The direct map is the
    identity, so a kernel buffer at address [a] lies in page
    [a / PAGE_SIZE] at offset [a mod PAGE_SIZE]. *)
Definition virt_to_page (a : Z) : Z := a / PAGE_SIZE.
Definition offset_in_page (a : Z) : Z := a mod PAGE_SIZE.
Definition page_to_phys (page : Z) : Z := page * PAGE_SIZE.
Definition bvec_phys (bv : bio_vec) : Z := page_to_phys (bv_page bv) + bv_offset bv.
Definition bvec_virt (bv : bio_vec) : Z := bvec_phys bv.

(** Modelled from the spec: [bvec_try_merge_hw_page] of [block/bio.c].
    The new region extends [bv] when it starts at the byte after [bv]
    ends, the merged segment stays within one segment boundary window of
    the device and its length within the device's segment size; [bv]
    then grows by [len]. *)
Definition bvec_try_merge_hw_page (q : queue_limits) (bv : bio_vec)
    (page len offset : Z) : option bio_vec :=
  let mask := seg_boundary_mask q in
  let addr1 := bvec_phys bv in
  let addr2 := page_to_phys page + offset + len - 1 in
  if negb (Z.lor addr1 mask =? Z.lor addr2 mask) then None
  else if max_segment_size q - bv_len bv <? len then None
  else if negb (addr1 + bv_len bv =? page_to_phys page + offset) then None
  else Some (BioVec (bv_page bv) (bv_len bv + len) (bv_offset bv)).

(** Modelled from the spec: [bvec_gap_to_prev] of [block/blk.h]: a device
    with a virtual boundary forbids a segment that does not start on the
    boundary, or that follows one not ending on it. *)
Definition bvec_gap_to_prev (q : queue_limits) (bprv : bio_vec)
    (offset : Z) : bool :=
  if virt_boundary_mask q =? 0 then false
  else nonzero (Z.land offset (virt_boundary_mask q))
       || nonzero (Z.land (bv_offset bprv + bv_len bprv)
                     (virt_boundary_mask q)).

(** Modelled from the spec: [bvec_iter_advance] of [linux/bvec.h]: the
    cursor moves [bytes] on, leaving behind the segments it has fully
    consumed; an advance past the end empties the cursor. *)
Fixpoint bvec_iter_skip (bv : list bio_vec) (idx bytes : Z)
    : option (Z * Z) :=
  if bytes =? 0 then Some (idx, bytes)
  else
    match bv with
    | [] => None
    | v :: rest =>
        if bv_len v <=? bytes
        then bvec_iter_skip rest (idx + 1) (bytes - bv_len v)
        else Some (idx, bytes)
    end.

(** [None]: the walk left the array. *)
Definition bvec_iter_advance (bv : list bio_vec) (iter : bvec_iter)
    (bytes : Z) : option bvec_iter :=
  if bi_size iter <? bytes then Some (iter_with_size 0 iter)
  else
    match bvec_iter_skip (drop (Z.to_nat (bi_idx iter)) bv) (bi_idx iter)
            (bytes + bi_bvec_done iter) with
    | Some (idx, done) =>
        Some (BvecIter (bi_sector iter) (u32 (bi_size iter - bytes)) idx done)
    | None => None
    end.

(** *** Allocators *)

Definition mem_fill (a len v : Z) (m : Z -> Z) : Z -> Z :=
  λ x, if (a <=? x) && (x <? a + len) then v else m x.

(** Modelled from the spec: [kmalloc] of the general allocator.  It takes
    the next answer; [__GFP_ZERO] clears the buffer. *)
Definition kmalloc (size gfp : Z) : M (option Z) := λ k,
  match kmalloc_ans k with
  | Some a :: rest =>
      let k1 := set_kmalloc_ans (λ _, rest) k in
      Ret (Some a)
        (if nonzero (Z.land gfp __GFP_ZERO)
         then set_mem (mem_fill a size 0) k1 else k1)
  | None :: rest => Ret None (set_kmalloc_ans (λ _, rest) k)
  | [] => Ret None k
  end.

Definition kfree (a : Z) : M unit := emit (EvKfree a).

(** [kmalloc] and [kcalloc] of a structure: a payload, kept as a record
    in [bips], or the temporary vector of [bio_integrity_map_user].  The
    bytes of such an object are not part of [mem]. *)
Definition kmalloc_obj (gfp : Z) : M (option Z) := λ k,
  match kmalloc_ans k with
  | a :: rest => Ret a (set_kmalloc_ans (λ _, rest) k)
  | [] => Ret None k
  end.

(** Modelled from the spec: [mempool_alloc] and [mempool_free] on the
    payload pool of a request set. *)
Definition mempool_alloc (gfp : Z) : M (option Z) := λ k,
  match mempool_ans k with
  | a :: rest => Ret a (set_mempool_ans (λ _, rest) k)
  | [] => Ret None k
  end.

Definition mempool_free (p : Z) : M unit := emit (EvMempoolFree p).

(** Modelled from the spec: [bvec_alloc] and [bvec_free] on the companion
    segment-array pool.  The pool answers with an array and the vector
    count it grants, which is written back through the [unsigned short]
    [nr_vecs]; the array has that many entries. *)
Definition bvec_alloc (nr_vecs gfp : Z) : M (option (Z * Z)) := λ k,
  match bvec_ans k with
  | Some (a, n) :: rest =>
      Ret (Some (a, u16 n))
        (set_bvec_pool
           (insert a (replicate (Z.to_nat (u16 n)) (BioVec 0 0 0)))
           (set_bvec_ans (λ _, rest) k))
  | None :: rest => Ret None (set_bvec_ans (λ _, rest) k)
  | [] => Ret None k
  end.

Definition bvec_free (p : vec_ptr) (nr : Z) : M unit := emit (EvBvecFree p nr).

(** *** Access to a vector through a pointer *)

Definition vec_at (k : kernel) (p : vec_ptr) : option (list bio_vec) :=
  match p with
  | InlineVecs b => bip_inline_vecs <$> bips k !! b
  | PoolVecs a => bvec_pool k !! a
  end.

Definition vec_load (p : vec_ptr) : M (list bio_vec) :=
  λ k, deref (vec_at k p) k.

Definition vec_store (p : vec_ptr) (v : list bio_vec) : M unit :=
  match p with
  | InlineVecs b => bp ← load_bip b; store_bip b (bip_with_inline_vecs v bp)
  | PoolVecs a => modify (set_bvec_pool (insert a v))
  end.

(** [p[i]] as an rvalue and as an lvalue; an index outside the array is
    an invalid access. *)
Definition vec_get (p : vec_ptr) (i : Z) : M bio_vec :=
  v ← vec_load p;
  if (i <? 0) then oops else deref (v !! Z.to_nat i).

Definition vec_set (p : vec_ptr) (i : Z) (x : bio_vec) : M unit :=
  v ← vec_load p;
  if (i <? 0) || (Z.of_nat (length v) <=? i) then oops
  else vec_store p (<[Z.to_nat i := x]> v).

(** [memcpy(&p[i], src, n * sizeof( *src))] *)
Definition vec_memcpy (p : vec_ptr) (i : Z) (src : list bio_vec) : M unit :=
  v ← vec_load p;
  if (i <? 0) || (Z.of_nat (length v) <? i + Z.of_nat (length src)) then oops
  else vec_store p (take (Z.to_nat i) v ++ src
                      ++ drop (Z.to_nat i + length src) v).

Definition bip_update (p : Z)
    (f : bio_integrity_payload -> bio_integrity_payload) : M unit :=
  bp ← load_bip p; store_bip p (f bp).

Definition bio_update (p : Z) (f : bio -> bio) : M unit :=
  b ← load_bio p; store_bio p (f b).

(** ** bio-integrity.c *)

(** A pointer result that may be an [ERR_PTR]. *)
Inductive ptr_or_err :=
| Ptr (p : Z)
| ERR_PTR (e : Z).

Definition mempool_initialized (bs : bio_set) : bool := bio_integrity_pool bs.

Definition pool_in_use (bs : option bio_set) : bool :=
  match bs with
  | Some s => mempool_initialized s
  | None => false
  end.

(** [bio_integrity_free] - Free bio integrity payload *)
Definition bio_integrity_free (bio : Z) : M unit :=
  b ← load_bio bio;
  bip ← deref (bio_integrity b);
  let bs := bi_pool b in
  (if pool_in_use bs then
     bp ← load_bip bip;
     (match bip_vec bp with
      | Some v => bvec_free v (bip_max_vcnt bp)
      | None => mret tt
      end);;
     mempool_free bip
   else kfree bip);;
  modify (set_bips (delete bip));;
  bio_update bio (bio_with_integrity None);;
  bio_update bio (λ b, bio_with_opf (Z.land (bi_opf b) (Z.lnot REQ_INTEGRITY)) b).

(** The payload header after [memset(bip, 0, sizeof( *bip))]; the inline
    vectors that follow it are not cleared by the C code and are
    [inline_vecs] zero entries here. *)
Definition bip_zero (inline_vecs : Z) : bio_integrity_payload :=
  Bip 0 (BvecIter 0 0 0 0) 0 0 0 (BvecIter 0 0 0 0) None None
    (replicate (Z.to_nat inline_vecs) (BioVec 0 0 0)).

(** [bio_integrity_alloc] - Allocate integrity payload and attach it to bio *)
Definition bio_integrity_alloc (bio : Z) (gfp_mask : Z) (nr_vecs : Z)
    : M ptr_or_err :=
  b ← load_bio bio;
  let bs := bi_pool b in
  if bio_has_crypt_ctx b then mret (ERR_PTR (- EOPNOTSUPP)) else
  '(obip, inline_vecs) ←
     (if negb (pool_in_use bs)
      then p ← kmalloc_obj gfp_mask; mret (p, nr_vecs)
      else p ← mempool_alloc gfp_mask; mret (p, BIO_INLINE_VECS));
  match obip with
  | None => mret (ERR_PTR (- ENOMEM))
  | Some bip =>
      store_bip bip (bip_with_max_vcnt (u16 nr_vecs) (bip_zero inline_vecs));;
      ok ← (if inline_vecs <? nr_vecs then
              r ← bvec_alloc (u16 nr_vecs) gfp_mask;
              match r with
              | Some (a, n) =>
                  bip_update bip (λ p, bip_with_vec (Some (PoolVecs a))
                                         (bip_with_max_vcnt n p));;
                  mret true
              | None => mret false
              end
            else if nonzero nr_vecs then
              bip_update bip (bip_with_vec (Some (InlineVecs bip)));;
              mret true
            else mret true);
      if ok : bool then
        bip_update bip (bip_with_bio bio);;
        bio_update bio (bio_with_integrity (Some bip));;
        bio_update bio (λ b, bio_with_opf (Z.lor (bi_opf b) REQ_INTEGRITY) b);;
        mret (Ptr bip)
      else
        (if pool_in_use bs then mempool_free bip else kfree bip);;
        modify (set_bips (delete bip));;
        mret (ERR_PTR (- ENOMEM))
  end.

(** *** Pages and user memory *)

(** Modelled from the spec: [set_page_dirty_lock] and [unpin_user_page]
    of the memory manager. *)
Definition set_page_dirty_lock (page : Z) : M unit := emit (EvSetPageDirty page).
Definition unpin_user_page (page : Z) : M unit := emit (EvUnpin page).

(** [n] bytes of memory from address [a]. *)
Definition mem_read (m : Z -> Z) (a : Z) (n : nat) : list Z :=
  map (λ i, m (a + Z.of_nat i)) (seq 0 n).

(** Memory with [data] stored from address [a]. *)
Definition mem_write (a : Z) (data : list Z) (m : Z -> Z) : Z -> Z :=
  λ x, if (a <=? x) && (x <? a + Z.of_nat (length data))
       then nth (Z.to_nat (x - a)) data 0 else m x.

(** The bytes of a segment, and of a list of segments in order. *)
Definition bvec_read (m : Z -> Z) (bv : bio_vec) : list Z :=
  mem_read m (bvec_virt bv) (Z.to_nat (bv_len bv)).

(** The copy loops of the iterator: [n] bytes move between the kernel
    buffer at [buf] and the segments in order, segment by segment; the
    result is the memory and the count of bytes moved. *)
Fixpoint scatter (bv : list bio_vec) (src n : Z) (m : Z -> Z)
    : (Z -> Z) * Z :=
  match bv with
  | [] => (m, 0)
  | v :: rest =>
      let c := Z.min n (bv_len v) in
      let m1 := mem_write (bvec_virt v) (mem_read m src (Z.to_nat c)) m in
      let '(m2, t) := scatter rest (src + c) (n - c) m1 in
      (m2, c + t)
  end.

Fixpoint gather (bv : list bio_vec) (dst n : Z) (m : Z -> Z)
    : (Z -> Z) * Z :=
  match bv with
  | [] => (m, 0)
  | v :: rest =>
      let c := Z.min n (bv_len v) in
      let m1 := mem_write dst (mem_read m (bvec_virt v) (Z.to_nat c)) m in
      let '(m2, t) := gather rest (dst + c) (n - c) m1 in
      (m2, c + t)
  end.

(** Modelled from the spec: [copy_to_iter] of [lib/iov_iter.c] on an
    iterator over [bv] with [count] bytes of room: copies [bytes] bytes
    from the kernel buffer at [src] into the segments, and returns the
    count copied. *)
Definition copy_to_iter (src bytes : Z) (bv : list bio_vec) (count : Z)
    : M Z := λ k,
  let '(m, c) := scatter bv src (Z.min bytes count) (mem k) in
  Ret c (set_trace (λ t, t ++ [EvCopyToIter src bytes]) (set_mem (λ _, m) k)).

(** Modelled from the spec: [copy_from_iter_full] of [lib/iov_iter.c] on
    an iterator over [bv] with [count] bytes left: gathers [bytes] bytes
    from the segments into the kernel buffer at [dst]; a partial copy is
    a failure. *)
Definition copy_from_iter_full (dst bytes : Z) (bv : list bio_vec)
    (count : Z) : M bool := λ k,
  let '(m, c) := gather bv dst (Z.min bytes count) (mem k) in
  Ret (c =? bytes)
    (set_trace (λ t, t ++ [EvCopyFromIter dst bytes]) (set_mem (λ _, m) k)).

(** Modelled from the spec: the iterator over a user buffer of
    [lib/iov_iter.c]: the pages it spans, its alignment, and the
    extraction (pinning) of its backing pages through the page table. *)
Definition iov_iter_npages (ubuf count maxpages : Z) : Z :=
  if count =? 0 then 0
  else Z.min ((offset_in_page ubuf + count + PAGE_SIZE - 1) / PAGE_SIZE)
         maxpages.

Definition iov_iter_is_aligned (ubuf count addr_mask len_mask : Z) : bool :=
  (Z.land ubuf addr_mask =? 0) && (Z.land count len_mask =? 0).

Fixpoint user_pages (pt : Z -> option Z) (vpn : Z) (n : nat)
    : option (list Z) :=
  match n with
  | O => Some []
  | S n' =>
      match pt vpn, user_pages pt (vpn + 1) n' with
      | Some p, Some ps => Some (p :: ps)
      | _, _ => None
      end
  end.

Fixpoint pin_user_pages (pages : list Z) : M unit :=
  match pages with
  | [] => mret tt
  | p :: rest => emit (EvPin p);; pin_user_pages rest
  end.

(** The result is the return value, the page array and the offset of the
    buffer in its first page. *)
Definition iov_iter_extract_pages (ubuf bytes maxpages : Z)
    : M (Z * list Z * Z) :=
  pt ← gets user_pt;
  match user_pages pt (ubuf / PAGE_SIZE) (Z.to_nat maxpages) with
  | None => mret (- EFAULT, [], 0)
  | Some pages =>
      pin_user_pages pages;;
      mret (bytes, pages, offset_in_page ubuf)
  end.

(** Modelled from the spec: the generator of the checksum provider,
    [blk_integrity_generate].  It runs against the payload of the
    request: the protection information the profile's checksum gives
    for the request is stored in the payload's buffer, segment 0 of its
    vector, no further than the segment reaches. *)
Definition blk_integrity_generate (bio : Z) : M unit :=
  emit (EvGenerate bio);;
  b ← load_bio bio;
  bip ← deref (bio_integrity b);
  bp ← load_bip bip;
  vp ← deref (bip_vec bp);
  v0 ← vec_get vp 0;
  gen ← gets csum_generate;
  modify (set_mem (λ m,
    mem_write (bvec_virt v0)
      (take (Z.to_nat (bv_len v0)) (gen m b bp)) m)).

(** Modelled from the spec: the verifier of the checksum provider,
    [blk_integrity_verify].  It checks the payload of the request
    against the data in memory; a mismatch is surfaced as the
    data-integrity error status of the request. *)
Definition blk_integrity_verify (bio : Z) : M unit :=
  emit (EvVerify bio);;
  b ← load_bio bio;
  bip ← deref (bio_integrity b);
  bp ← load_bip bip;
  ok ← gets (λ k, csum_verify k (mem k) b bp);
  if ok : bool then mret tt
  else bio_update bio (bio_with_status BLK_STS_PROTECTION).

(** Modelled from the spec: the completion signal [bio_endio], and
    [queue_work] on the verification workqueue.  Only the call is
    recorded. *)
Definition bio_endio (bio : Z) : M unit := emit (EvEndio bio).
Definition queue_work (bip : Z) : M unit := emit (EvQueueWork bip).

(** *** The functions of the file, continued *)

Fixpoint unpin_bvecs (bv : list bio_vec) (dirty : bool) : M unit :=
  match bv with
  | [] => mret tt
  | v :: rest =>
      compound ← gets (λ k, PageCompound k (bv_page v));
      (if dirty && negb compound
       then set_page_dirty_lock (bv_page v) else mret tt);;
      unpin_user_page (bv_page v);;
      unpin_bvecs rest dirty
  end.

(** [bio_integrity_unpin_bvec]: [bv] is the array from the pointer
    passed on. *)
Definition bio_integrity_unpin_bvec (bv : list bio_vec) (nr_vecs : Z)
    (dirty : bool) : M unit :=
  if Z.of_nat (length bv) <? nr_vecs then oops
  else unpin_bvecs (take (Z.to_nat nr_vecs) bv) dirty.

(** [bio_integrity_uncopy_user] *)
Definition bio_integrity_uncopy_user (bip : Z) : M unit :=
  bp ← load_bip bip;
  let orig_nr_vecs := u16 (bip_max_vcnt bp - 1) in
  vp ← deref (bip_vec bp);
  vec ← vec_load vp;
  let orig_bvecs := drop 1 vec in
  bounce_bvec ← deref (vec !! 0%nat);
  let bytes := bv_len bounce_bvec in
  copy_to_iter (bvec_virt bounce_bvec) bytes
    (take (Z.to_nat orig_nr_vecs) orig_bvecs) bytes;;
  bio_integrity_unpin_bvec orig_bvecs orig_nr_vecs true.

(** [bio_integrity_unmap_user] - Unmap user integrity payload *)
Definition bio_integrity_unmap_user (bio : Z) : M unit :=
  b ← load_bio bio;
  bip ← deref (bio_integrity b);
  bp ← load_bip bip;
  if nonzero (Z.land (bip_flags bp) BIP_COPY_USER) then
    (if bio_data_dir b =? READ
     then bio_integrity_uncopy_user bip else mret tt);;
    vp ← deref (bip_vec bp);
    v0 ← vec_get vp 0;
    kfree (bvec_virt v0)
  else
    vec ← (match bip_vec bp with
           | Some vp => vec_load vp
           | None => mret []
           end);
    bio_integrity_unpin_bvec vec (bip_max_vcnt bp) (bio_data_dir b =? READ).

(** [bio_integrity_add_page] - Attach integrity metadata.  The result is
    the returned [int] read as an [unsigned int], the way both callers
    compare it with [len]. *)
Definition bio_integrity_add_page (bio page len offset : Z) : M Z :=
  b ← load_bio bio;
  let q := limits (bi_bdev b) in
  bip ← deref (bio_integrity b);
  bp ← load_bip bip;
  let append : M Z :=
    vp ← deref (bip_vec bp);
    vec_set vp (bip_vcnt bp) (BioVec page len offset);;
    bip_update bip (λ p, bip_with_vcnt (u16 (bip_vcnt p + 1)) p);;
    bip_update bip (λ p,
      bip_with_iter (iter_with_size (u32 (bi_size (bip_iter p) + len))
                       (bip_iter p)) p);;
    mret len in
  if 0 <? bip_vcnt bp then
    vp ← deref (bip_vec bp);
    bv ← vec_get vp (bip_vcnt bp - 1);
    match bvec_try_merge_hw_page q bv page len offset with
    | Some bv' =>
        vec_set vp (bip_vcnt bp - 1) bv';;
        bip_update bip (λ p,
          bip_with_iter (iter_with_size (u32 (bi_size (bip_iter p) + len))
                           (bip_iter p)) p);;
        mret len
    | None =>
        if Z.min (bip_max_vcnt bp) (queue_max_integrity_segments q)
             <=? bip_vcnt bp
        then mret 0
        else if bvec_gap_to_prev q bv offset then mret 0
        else append
    end
  else append.

Definition bip_or_flags (f : Z) (p : bio_integrity_payload) :=
  bip_with_flags (u16 (Z.lor (bip_flags p) f)) p.

(** Modelled from the spec: [bip_set_seed] of [linux/bio.h]. *)
Definition bip_set_seed (seed : Z) (p : bio_integrity_payload) :=
  bip_with_iter (iter_with_sector seed (bip_iter p)) p.

(** [bio_integrity_copy_user] *)
Definition bio_integrity_copy_user (bio : Z) (bvec : list bio_vec)
    (nr_vecs len direction seed : Z) : M Z :=
  let write := direction =? ITER_SOURCE in
  obuf ← kmalloc len GFP_KERNEL;
  match obuf with
  | None => mret (- ENOMEM)
  | Some buf =>
      let free_buf (ret : Z) : M Z := kfree buf;; mret ret in
      let free_bip (ret : Z) : M Z := bio_integrity_free bio;; free_buf ret in
      r ← (if write then
             ok ← copy_from_iter_full buf len
                    (take (Z.to_nat nr_vecs) bvec) len;
             if ok : bool
             then a ← bio_integrity_alloc bio GFP_KERNEL 1; mret (inr a)
             else mret (inl (- EFAULT))
           else
             modify (set_mem (mem_fill buf len 0));;
             a ← bio_integrity_alloc bio GFP_KERNEL (nr_vecs + 1);
             mret (inr a));
      match r with
      | inl e => free_buf e
      | inr (ERR_PTR e) => free_buf e
      | inr (Ptr bip) =>
          (if write then bio_integrity_unpin_bvec bvec nr_vecs false
           else
             bp ← load_bip bip;
             vp ← deref (bip_vec bp);
             vec_memcpy vp 1 (take (Z.to_nat nr_vecs) bvec));;
          ret ← bio_integrity_add_page bio (virt_to_page buf) len
                  (offset_in_page buf);
          if negb (ret =? len) then free_bip (- ENOMEM)
          else
            bip_update bip (bip_or_flags BIP_COPY_USER);;
            bip_update bip (bip_set_seed seed);;
            bip_update bip (bip_with_vcnt (u16 nr_vecs));;
            mret 0
      end
  end.

(** [bio_integrity_init_user] *)
Definition bio_integrity_init_user (bio : Z) (bvec : list bio_vec)
    (nr_vecs len seed : Z) : M Z :=
  r ← bio_integrity_alloc bio GFP_KERNEL nr_vecs;
  match r with
  | ERR_PTR e => mret e
  | Ptr bip =>
      bp ← load_bip bip;
      (match bip_vec bp with
       | Some vp => vec_memcpy vp 0 (take (Z.to_nat nr_vecs) bvec)
       | None => if nr_vecs =? 0 then mret tt else oops
       end);;
      bip_update bip (bip_set_seed seed);;
      bip_update bip (λ p,
        bip_with_iter (iter_with_size (u32 len) (bip_iter p)) p);;
      bip_update bip (bip_with_vcnt (u16 nr_vecs));;
      mret 0
  end.

(** The inner loop of [bvec_from_pages]: from [j], pages of the same
    folio that follow one another are joined to the segment, and
    unpinned.  The result is [j], [size] and [bytes] when it ends. *)
Fixpoint bvec_from_pages_run (fuel : nat) (pages : list Z)
    (nr_vecs folio j size bytes : Z) : M (Z * Z * Z) :=
  match fuel with
  | O => mret (j, size, bytes)
  | S fuel' =>
      if j <? nr_vecs then
        let next := Z.min PAGE_SIZE bytes in
        pj ← deref (pages !! Z.to_nat j);
        pj1 ← deref (pages !! Z.to_nat (j - 1));
        pf ← gets page_folio;
        if negb (pf pj =? folio) || negb (pj =? pj1 + 1)
        then mret (j, size, bytes)
        else
          unpin_user_page pj;;
          bvec_from_pages_run fuel' pages nr_vecs folio (j + 1)
            (size + next) (bytes - next)
      else mret (j, size, bytes)
  end.

(** The outer loop of [bvec_from_pages]; [bvec] is the part of the
    array filled so far. *)
Fixpoint bvec_from_pages_loop (fuel : nat) (pages : list Z)
    (nr_vecs i bytes offset : Z) (bvec : list bio_vec)
    : M (list bio_vec) :=
  match fuel with
  | O => mret bvec
  | S fuel' =>
      if i <? nr_vecs then
        let size := Z.min bytes (PAGE_SIZE - offset) in
        pi ← deref (pages !! Z.to_nat i);
        pf ← gets page_folio;
        let folio := pf pi in
        '(j, size', bytes') ←
          bvec_from_pages_run (Z.to_nat nr_vecs) pages nr_vecs folio
            (i + 1) size (bytes - size);
        bvec_from_pages_loop fuel' pages nr_vecs j bytes' 0
          (bvec ++ [BioVec pi size' offset])
      else mret bvec
  end.

(** [bvec_from_pages]: the segments written to [bvec]; their count is
    the function's result. *)
Definition bvec_from_pages (pages : list Z) (nr_vecs bytes offset : Z)
    : M (list bio_vec) :=
  bvec_from_pages_loop (Z.to_nat nr_vecs) pages nr_vecs 0 bytes offset [].

(** [bio_integrity_map_user] *)
Definition bio_integrity_map_user (bio ubuf bytes seed : Z) : M Z :=
  b ← load_bio bio;
  let q := limits (bi_bdev b) in
  let align := blk_lim_dma_alignment_and_pad q in
  if bool_decide (is_Some (bio_integrity b)) then mret (- EINVAL)
  else if queue_max_hw_sectors q <? Z.shiftr bytes SECTOR_SHIFT
  then mret (- E2BIG)
  else
    let direction :=
      if bio_data_dir b =? READ then ITER_DEST else ITER_SOURCE in
    let nr_vecs := iov_iter_npages ubuf bytes (BIO_MAX_VECS + 1) in
    if BIO_MAX_VECS <? nr_vecs then mret (- E2BIG)
    else
      (* [Some None]: on the stack; [Some (Some a)]: from [kcalloc] *)
      obvec ← (if UIO_FASTIOV <? nr_vecs
               then a ← kmalloc_obj GFP_KERNEL;
                    mret (match a with
                          | Some a => Some (Some a)
                          | None => None
                          end)
               else mret (Some None));
      match obvec with
      | None => mret (- ENOMEM)
      | Some heap_bvec =>
          let free_bvec (ret : Z) : M Z :=
            (match heap_bvec with
             | Some a => kfree a
             | None => mret tt
             end);;
            mret ret in
          let copy0 := negb (iov_iter_is_aligned ubuf bytes align align) in
          '(ret, pages, offset) ← iov_iter_extract_pages ubuf bytes nr_vecs;
          if ret <? 0 then free_bvec ret
          else
            bvec ← bvec_from_pages pages nr_vecs bytes offset;
            let nr_bvecs := Z.of_nat (length bvec) in
            (if UIO_FASTIOV <? nr_vecs then emit EvKvfreePages else mret tt);;
            let copy :=
              if queue_max_integrity_segments q <? nr_bvecs
              then true else copy0 in
            ret ← (if copy
                   then bio_integrity_copy_user bio bvec nr_bvecs bytes
                          direction seed
                   else bio_integrity_init_user bio bvec nr_bvecs bytes seed);
            if nonzero ret then
              bio_integrity_unpin_bvec bvec nr_bvecs false;;
              free_bvec ret
            else free_bvec 0
      end.

(** The [switch] on the operation in [bio_integrity_prep]: [None] when
    it returns true, the allocation flags when it goes on. *)
Definition bio_integrity_prep_switch (bi : blk_integrity) (b : bio)
    : option Z :=
  if bio_op b =? REQ_OP_READ then
    if nonzero (Z.land (flags bi) BLK_INTEGRITY_NOVERIFY)
    then None else Some GFP_NOIO
  else if bio_op b =? REQ_OP_WRITE then
    if nonzero (Z.land (flags bi) BLK_INTEGRITY_NOGENERATE)
    then None
    else if csum_type bi =? BLK_INTEGRITY_CSUM_NONE
    then Some (Z.lor GFP_NOIO __GFP_ZERO)
    else Some GFP_NOIO
  else None.

(** [bio_integrity_prep] - Prepare bio for integrity I/O *)
Definition bio_integrity_prep (bio : Z) : M bool :=
  b ← load_bio bio;
  let err_end_io : M bool :=
    bio_update bio (bio_with_status BLK_STS_RESOURCE);;
    bio_endio bio;;
    mret false in
  match blk_get_integrity (bi_bdev b) with
  | None => mret true
  | Some bi =>
      if bio_sectors b =? 0 then mret true
      else if bool_decide (is_Some (bio_integrity b)) then mret true
      else
        let sw := bio_integrity_prep_switch bi b in
        match sw with
        | None => mret true
        | Some gfp =>
            let len := bio_integrity_bytes bi (bio_sectors b) in
            obuf ← kmalloc len gfp;
            match obuf with
            | None => err_end_io
            | Some buf =>
                r ← bio_integrity_alloc bio GFP_NOIO 1;
                match r with
                | ERR_PTR _ => kfree buf;; err_end_io
                | Ptr bip =>
                    bip_update bip (bip_or_flags BIP_BLOCK_INTEGRITY);;
                    bip_update bip
                      (bip_set_seed (bi_sector (bi_iter b)));;
                    (if csum_type bi =? BLK_INTEGRITY_CSUM_IP
                     then bip_update bip (bip_or_flags BIP_IP_CHECKSUM)
                     else mret tt);;
                    ret ← bio_integrity_add_page bio (virt_to_page buf) len
                            (offset_in_page buf);
                    if ret <? len then err_end_io
                    else
                      (if bio_data_dir b =? WRITE
                       then blk_integrity_generate bio
                       else bip_update bip (bip_with_bio_iter (bi_iter b)));;
                      mret true
                end
            end
        end
  end.

(** [kfree(bvec_virt(bip->bip_vec))] *)
Definition kfree_bip_buf (bip : Z) : M unit :=
  bp ← load_bip bip;
  vp ← deref (bip_vec bp);
  v0 ← vec_get vp 0;
  kfree (bvec_virt v0).

(** [bio_integrity_verify_fn] - Integrity I/O completion worker; [bip]
    is the payload the work item is embedded in. *)
Definition bio_integrity_verify_fn (bip : Z) : M unit :=
  bp ← load_bip bip;
  let bio := bip_bio bp in
  blk_integrity_verify bio;;
  kfree_bip_buf bip;;
  bio_integrity_free bio;;
  bio_endio bio.

(** [__bio_integrity_endio] - Integrity I/O completion function *)
Definition __bio_integrity_endio (bio : Z) : M bool :=
  b ← load_bio bio;
  let bi := blk_get_integrity (bi_bdev b) in
  let bip := bio_integrity b in
  verify ← (if (bio_op b =? REQ_OP_READ) && negb (nonzero (bi_status b))
            then i ← deref bi; mret (nonzero (csum_type i))
            else mret false);
  if verify : bool then
    p ← deref bip;
    bip_update p (bip_with_work (Some bio_integrity_verify_fn_work));;
    queue_work p;;
    mret false
  else
    p ← deref bip;
    kfree_bip_buf p;;
    bio_integrity_free bio;;
    mret true.

Definition u64 (x : Z) : Z := x mod 2 ^ 64.

(** [bio_integrity_advance] - Advance integrity vector *)
Definition bio_integrity_advance (bio : Z) (bytes_done : Z) : M unit :=
  b ← load_bio bio;
  bip ← deref (bio_integrity b);
  bi ← deref (blk_get_integrity (bi_bdev b));
  let bytes := bio_integrity_bytes bi (Z.shiftr bytes_done 9) in
  bip_update bip (λ p,
    bip_set_seed
      (u64 (bi_sector (bip_iter p)
            + bio_integrity_intervals bi (Z.shiftr bytes_done 9))) p);;
  bp ← load_bip bip;
  vec ← (match bip_vec bp with
         | Some vp => vec_load vp
         | None => mret []
         end);
  iter ← deref (bvec_iter_advance vec (bip_iter bp) bytes);
  bip_update bip (bip_with_iter iter).

(** [bio_integrity_trim] - Trim integrity vector *)
Definition bio_integrity_trim (bio : Z) : M unit :=
  b ← load_bio bio;
  bip ← deref (bio_integrity b);
  bi ← deref (blk_get_integrity (bi_bdev b));
  bip_update bip (λ p,
    bip_with_iter
      (iter_with_size (bio_integrity_bytes bi (bio_sectors b)) (bip_iter p))
      p).

(** [bio_integrity_clone] - Callback for cloning bios with integrity
    metadata *)
Definition bio_integrity_clone (bio bio_src : Z) (gfp_mask : Z) : M Z :=
  bs ← load_bio bio_src;
  match bio_integrity bs with
  | None => oops
  | Some bip_src =>
      r ← bio_integrity_alloc bio gfp_mask 0;
      match r with
      | ERR_PTR e => mret e
      | Ptr bip =>
          src ← load_bip bip_src;
          bip_update bip (bip_with_vec (bip_vec src));;
          bip_update bip (bip_with_iter (bip_iter src));;
          bip_update bip
            (bip_with_flags
               (u16 (Z.land (bip_flags src) (Z.lnot BIP_BLOCK_INTEGRITY))));;
          mret 0
      end
  end.

(** * Vocabulary of the properties *)

(** The calls [bio_integrity_free] makes for the payload [bip] of a
    request [b]. *)
Definition payload_free_events (b : bio) (bip : Z)
    (bp : bio_integrity_payload) : list event :=
  if pool_in_use (bi_pool b)
  then match bip_vec bp with
       | Some v => [EvBvecFree v (bip_max_vcnt bp)]
       | None => []
       end ++ [EvMempoolFree bip]
  else [EvKfree bip].

(** The request once its payload is detached. *)
Definition bio_detached (b : bio) : bio :=
  bio_with_opf (Z.land (bi_opf b) (Z.lnot REQ_INTEGRITY))
    (bio_with_integrity None b).

(** The request once the payload [bip] is attached. *)
Definition bio_attached (bip : Z) (b : bio) : bio :=
  bio_with_opf (Z.lor (bi_opf b) REQ_INTEGRITY)
    (bio_with_integrity (Some bip) b).

(** The request once the verifier has given its verdict: a mismatch is
    the data-integrity error status of the request. *)
Definition bio_verified (ok : bool) (b : bio) : bio :=
  if ok then b else bio_with_status BLK_STS_PROTECTION b.

(** The condition under which completion defers to the verification
    worker: a read, completed without error, on a profile with a
    checksum kind. *)
Definition verify_deferred (b : bio) (bi : blk_integrity) : bool :=
  (bio_op b =? REQ_OP_READ) && (bi_status b =? BLK_STS_OK)
  && negb (csum_type bi =? BLK_INTEGRITY_CSUM_NONE).

(** ** Sample states

    A device with a CRC profile of eight bytes per 512-byte interval and
    room for four integrity segments; a write and a read of eight
    sectors at sector 100; an allocator with three buffers to give. *)
Definition sample_limits : queue_limits :=
  QueueLimits 2048 4 511 0 (2 ^ 32 - 1) 65536 0.
Definition sample_profile : blk_integrity := BlkIntegrity 0 2 8 9.
Definition sample_bdev : block_device :=
  BlockDevice sample_limits (Some sample_profile).
Definition sample_write : bio :=
  Bio sample_bdev REQ_OP_WRITE 0 (BvecIter 100 4096 0 0) None None false.
Definition sample_read : bio :=
  Bio sample_bdev REQ_OP_READ 0 (BvecIter 100 4096 0 0) None None false.

(** A sample checksum: every byte of protection information is the low
    byte of the payload's seed, one byte for each byte the payload
    counts; the information read matches when the first inline segment
    of the payload holds that byte throughout. *)
Definition sample_generate (m : Z -> Z) (b : bio)
    (bp : bio_integrity_payload) : list Z :=
  replicate (Z.to_nat (bi_size (bip_iter bp)))
    (bi_sector (bip_iter bp) mod 256).
Definition sample_verify (m : Z -> Z) (b : bio)
    (bp : bio_integrity_payload) : bool :=
  forallb (λ v, forallb (λ x, x =? bi_sector (bip_iter bp) mod 256)
                  (bvec_read m v))
    (take 1 (bip_inline_vecs bp)).

Definition sample_kernel : kernel :=
  Kernel {[ 1 := sample_write; 2 := sample_read ]} ∅ ∅ (λ _, 0)
    (λ v, Some (v + 1000)) (λ p, p) (λ _, false) []
    [Some 8192; Some 500; Some 600] [] []
    sample_generate sample_verify.

(** The state an action leaves, or the state itself after an oops. *)
Definition exec {A} (m : M A) (k : kernel) : kernel :=
  match m k with
  | Ret _ k' => k'
  | Oops => k
  end.

(** Whether an action returns, rather than stops the kernel. *)
Definition returns {A} (m : M A) (k : kernel) : bool :=
  match m k with
  | Ret _ _ => true
  | Oops => false
  end.

(** The sample state once the read has been prepared. *)
Definition sample_prepared_read : kernel :=
  exec (bio_integrity_prep 2) sample_kernel.

(** The payload of the prepared read, and the prepared read once the
    device has delivered protection information that matches the
    sample checksum. *)
Definition sample_read_bip : bio_integrity_payload :=
  Bip 2 (BvecIter 100 64 0 0) 1 1 1 (BvecIter 100 4096 0 0) None
    (Some (InlineVecs 500)) [BioVec 2 64 0].
Definition sample_delivered_prepared_read : kernel :=
  set_mem (mem_fill 8192 64 100) sample_prepared_read.

(** The reading of the design document on a second attachment: mapping a
    user buffer onto a request that already has a payload is fatal. *)
Definition double_attach_is_fatal : Prop :=
  ∀ (k : kernel) (b : bio) (bio ubuf bytes seed : Z),
    bios k !! bio = Some b ->
    is_Some (bio_integrity b) ->
    bio_integrity_map_user bio ubuf bytes seed k = Oops.

(** A payload as [bio_integrity_alloc] leaves it: attached to [bio],
    empty, with [max_vcnt] vectors at [vec] and [inline] inline ones. *)
Definition bip_fresh (bio max_vcnt : Z) (vec : option vec_ptr)
    (inline : Z) : bio_integrity_payload :=
  Bip bio (BvecIter 0 0 0 0) 0 max_vcnt 0 (BvecIter 0 0 0 0) None vec
    (replicate (Z.to_nat inline) (BioVec 0 0 0)).

(** The parts of the state no function of the file writes, and those
    an allocation leaves alone. *)
Definition same_machine (k k' : kernel) : Prop :=
  user_pt k' = user_pt k ∧ page_folio k' = page_folio k
  ∧ PageCompound k' = PageCompound k
  ∧ csum_generate k' = csum_generate k ∧ csum_verify k' = csum_verify k.

(** An action that leaves those parts as they are, whatever it
    returns. *)
Definition keeps_machine {A} (m : M A) : Prop :=
  ∀ k a k', m k = Ret a k' -> same_machine k k'.

(** Memory once [bio_integrity_prep] has allocated the buffer at [buf]
    for the request [b]: the buffer is cleared for a write on a profile
    without a checksum. *)
Definition prep_allocated (m : Z -> Z) (b : bio) (bi : blk_integrity)
    (buf : Z) : Z -> Z :=
  if (bio_op b =? REQ_OP_WRITE)
     && (csum_type bi =? BLK_INTEGRITY_CSUM_NONE)
  then mem_fill buf (bio_integrity_bytes bi (bio_sectors b)) 0 m
  else m.

(** The state once the array at [p] holds [v]. *)
Definition vec_put (p : vec_ptr) (v : list bio_vec) (k : kernel) : kernel :=
  match p with
  | InlineVecs b =>
      match bips k !! b with
      | Some bp => set_bips (insert b (bip_with_inline_vecs v bp)) k
      | None => k
      end
  | PoolVecs a => set_bvec_pool (insert a v) k
  end.

(** The payload at [bip] once the array at [p] holds [v]: it changes
    when [p] is its own inline array. *)
Definition own_inline (bip : Z) (p : vec_ptr) (v : list bio_vec)
    (bp : bio_integrity_payload) : bio_integrity_payload :=
  match p with
  | InlineVecs b => if decide (b = bip) then bip_with_inline_vecs v bp else bp
  | PoolVecs _ => bp
  end.

(** [bytes_remaining] grown by [len]. *)
Definition bip_add_size (len : Z) (p : bio_integrity_payload) :=
  bip_with_iter (iter_with_size (u32 (bi_size (bip_iter p) + len))
                   (bip_iter p)) p.

(** [bio_integrity_add_page] appended the segment as entry [n] of the
    vector [vec] at [vp]. *)
Definition add_page_appended (k : kernel) (bio bip : Z)
    (bp : bio_integrity_payload) (vp : vec_ptr) (vec : list bio_vec)
    (page len offset : Z) : Prop :=
  let vec' := <[Z.to_nat (bip_vcnt bp) := BioVec page len offset]> vec in
  ∃ k', bio_integrity_add_page bio page len offset k = Ret len k'
    ∧ vec_at k' vp = Some vec'
    ∧ bips k' !! bip
      = Some (bip_add_size len
                (bip_with_vcnt (u16 (bip_vcnt bp + 1))
                   (own_inline bip vp vec' bp)))
    ∧ bios k' = bios k ∧ trace k' = trace k ∧ mem k' = mem k.

(** [bio_integrity_add_page] grew the last segment to [bv']. *)
Definition add_page_merged (k : kernel) (bio bip : Z)
    (bp : bio_integrity_payload) (vp : vec_ptr) (vec : list bio_vec)
    (bv' : bio_vec) (page len offset : Z) : Prop :=
  let vec' := <[Z.to_nat (bip_vcnt bp - 1) := bv']> vec in
  ∃ k', bio_integrity_add_page bio page len offset k = Ret len k'
    ∧ vec_at k' vp = Some vec'
    ∧ bips k' !! bip = Some (bip_add_size len (own_inline bip vp vec' bp))
    ∧ bios k' = bios k ∧ trace k' = trace k ∧ mem k' = mem k.

(** The second case of the design document's [addSegment], read without
    the code's guard: a payload already at the segment limit takes
    nothing, also when it is empty. *)
Definition add_page_rejects_at_limit : Prop :=
  ∀ (k : kernel) (b : bio) (bp : bio_integrity_payload)
    (bio bip page len offset : Z),
    bios k !! bio = Some b ->
    bio_integrity b = Some bip ->
    bips k !! bip = Some bp ->
    bip_vcnt bp = 0 ->
    Z.min (bip_max_vcnt bp)
      (queue_max_integrity_segments (limits (bi_bdev b))) <= bip_vcnt bp ->
    bio_integrity_add_page bio page len offset k = Ret 0 k.

(** A device without room for integrity segments, and a write on it
    with an empty payload of one vector attached. *)
Definition nosegs_limits : queue_limits :=
  QueueLimits 2048 0 511 0 (2 ^ 32 - 1) 65536 0.
Definition nosegs_write : bio :=
  Bio (BlockDevice nosegs_limits None) REQ_OP_WRITE 0
    (BvecIter 100 4096 0 0) None None false.
Definition nosegs_kernel : kernel :=
  exec (bio_integrity_alloc 1 GFP_KERNEL 1)
    (Kernel {[ 1 := nosegs_write ]} ∅ ∅ (λ _, 0) (λ v, Some (v + 1000))
       (λ p, p) (λ _, false) [] [Some 500] [] []
       sample_generate sample_verify).

(** The conditions the design document lists for [prepare] to be a
    no-op. *)
Definition prep_listed_noop (b : bio) : Prop :=
  match blk_get_integrity (bi_bdev b) with
  | None => True
  | Some bi =>
      bio_sectors b = 0
      ∨ is_Some (bio_integrity b)
      ∨ (bio_op b = REQ_OP_READ
         ∧ Z.land (flags bi) BLK_INTEGRITY_NOVERIFY ≠ 0)
      ∨ (bio_op b = REQ_OP_WRITE
         ∧ Z.land (flags bi) BLK_INTEGRITY_NOGENERATE ≠ 0)
  end.

(** The design document's [prepare], read as an equivalence: the call
    is a no-op exactly under the listed conditions. *)
Definition prep_noop_exactly_when_listed : Prop :=
  ∀ (k : kernel) (b : bio) (bio : Z),
    bios k !! bio = Some b ->
    (bio_integrity_prep bio k = Ret true k <-> prep_listed_noop b).

(** A discard of eight sectors on the sample device. *)
Definition sample_discard : bio :=
  Bio sample_bdev REQ_OP_DISCARD 0 (BvecIter 100 4096 0 0) None None false.
Definition discard_kernel : kernel :=
  Kernel {[ 3 := sample_discard ]} ∅ ∅ (λ _, 0) (λ v, Some (v + 1000))
    (λ p, p) (λ _, false) [] [Some 8192; Some 500] [] []
    sample_generate sample_verify.

(** The payload [bio_integrity_prep] builds, apart from its inline
    array: one segment of [len] bytes, seeded with the request's
    sector. *)
Definition prep_flags (bi : blk_integrity) : Z :=
  if csum_type bi =? BLK_INTEGRITY_CSUM_IP
  then Z.lor BIP_BLOCK_INTEGRITY BIP_IP_CHECKSUM
  else BIP_BLOCK_INTEGRITY.

(** The conditions under which [bio_integrity_prep] is a no-op: the
    listed ones, and an operation that is neither a read nor a write. *)
Definition prep_noop (b : bio) : Prop :=
  prep_listed_noop b
  ∨ (bio_op b ≠ REQ_OP_READ ∧ bio_op b ≠ REQ_OP_WRITE).

(** What a successful [bio_integrity_prep] leaves for the request [b]
    at [bio], with its buffer at [buf] and its payload at [bip]. *)
Definition prep_attached (k k' : kernel) (b : bio) (bi : blk_integrity)
    (bio buf bip : Z) : Prop :=
  let len := bio_integrity_bytes bi (bio_sectors b) in
  ∃ bp,
    bios k' !! bio = Some (bio_attached bip b)
    ∧ bips k' !! bip = Some bp
    ∧ bip_bio bp = bio
    ∧ bip_max_vcnt bp = 1 ∧ bip_vcnt bp = 1
    ∧ bip_vec bp = Some (InlineVecs bip)
    ∧ bip_inline_vecs bp !! 0%nat
      = Some (BioVec (virt_to_page buf) len (offset_in_page buf))
    ∧ bip_iter bp = BvecIter (bi_sector (bi_iter b)) len 0 0
    ∧ bip_flags bp = prep_flags bi
    ∧ (bio_op b = REQ_OP_WRITE ->
       trace k' = trace k ++ [EvGenerate bio])
    ∧ (bio_op b = REQ_OP_READ ->
       trace k' = trace k ∧ bio_iter bp = bi_iter b).

(** The sample state once the write has been prepared, and the payload
    it then carries. *)
Definition sample_prepared_write : kernel :=
  exec (bio_integrity_prep 1) sample_kernel.
Definition sample_write_bip : bio_integrity_payload :=
  Bip 1 (BvecIter 100 64 0 0) 1 1 1 (BvecIter 0 0 0 0) None
    (Some (InlineVecs 500)) [BioVec 2 64 0].

(** The sample write under inline encryption, and the sample state with
    an allocator that has nothing to give. *)
Definition crypt_write : bio :=
  Bio sample_bdev REQ_OP_WRITE 0 (BvecIter 100 4096 0 0) None None true.
Definition crypt_kernel : kernel :=
  Kernel {[ 1 := crypt_write ]} ∅ ∅ (λ _, 0) (λ v, Some (v + 1000))
    (λ p, p) (λ _, false) [] [Some 500] [] []
    sample_generate sample_verify.
Definition starved_kernel : kernel :=
  Kernel {[ 1 := sample_write; 2 := sample_read ]} ∅ ∅ (λ _, 0)
    (λ v, Some (v + 1000)) (λ p, p) (λ _, false) [] [] [] []
    sample_generate sample_verify.

(** The allocators hand out addresses no payload lives at. *)
Definition allocator_fresh (k : kernel) : Prop :=
  ∀ a, Some a ∈ kmalloc_ans k ++ mempool_ans k -> bips k !! a = None.

(** What a successful [bio_integrity_clone] leaves: the destination [b]
    at [bio] carries a new payload without vectors of its own, that
    points at the source's vector, holds a copy of the source's cursor
    and the source's flags less [BIP_BLOCK_INTEGRITY]; the source and
    every vector are as they were. *)
Definition cloned (k k' : kernel) (b : bio) (bio bip_src : Z)
    (src : bio_integrity_payload) : Prop :=
  ∃ bip bp,
    bip ≠ bip_src
    ∧ bios k' !! bio = Some (bio_attached bip b)
    ∧ bips k' !! bip = Some bp
    ∧ bip_max_vcnt bp = 0 ∧ bip_vcnt bp = 0
    ∧ bip_vec bp = bip_vec src
    ∧ bip_iter bp = bip_iter src
    ∧ bip_flags bp = Z.land (bip_flags src) (Z.lnot BIP_BLOCK_INTEGRITY)
    ∧ bips k' !! bip_src = Some src
    ∧ (∀ p, p ≠ InlineVecs bip -> vec_at k' p = vec_at k p)
    ∧ bvec_pool k' = bvec_pool k
    ∧ mem k' = mem k
    ∧ trace k' = trace k.

(** The design document's [clone], read on the cursor: the clone's
    cursor is the source's, so that moving the source's cursor moves the
    clone's. *)
Definition clone_shares_cursor : Prop :=
  ∀ (k k' k'' : kernel) (bs : bio) (bio bio_src bip_src bip gfp n : Z),
    bios k !! bio_src = Some bs ->
    bio_integrity bs = Some bip_src ->
    bio_integrity_clone bio bio_src gfp k = Ret 0 k' ->
    bio_integrity <$> bios k' !! bio = Some (Some bip) ->
    bio_integrity_advance bio_src n k' = Ret tt k'' ->
    bip_iter <$> bips k'' !! bip = bip_iter <$> bips k'' !! bip_src.

(** The state once the sample write has been made a clone of the
    prepared read. *)
Definition sample_cloned : kernel :=
  exec (bio_integrity_clone 1 2 GFP_NOIO) sample_prepared_read.

(** ** Memory ranges *)





(** The total length of the segments. *)
Definition segs_len (bv : list bio_vec) : Z :=
  foldr (λ v s, bv_len v + s) 0 bv.


(** The calls [bio_integrity_unpin_bvec] makes for the segments. *)
Definition unpin_events (compound : Z -> bool) (bv : list bio_vec)
    (dirty : bool) : list event :=
  flat_map (λ v,
    (if dirty && negb (compound (bv_page v))
     then [EvSetPageDirty (bv_page v)] else [])
    ++ [EvUnpin (bv_page v)]) bv.

(** What a successful [bio_integrity_copy_user] leaves for a write: the
    bounce buffer [buf] holds the bytes of the user segments, the
    payload has the buffer as its one segment, [BIP_COPY_USER] set and
    the count of user segments in [bip_vcnt], and the user pages are
    unpinned without being marked dirty. *)
Definition copy_user_written (k k' : kernel) (b : bio) (bio : Z)
    (bvec : list bio_vec) (nr len seed buf : Z) : Prop :=
  ∃ rest m2 bip bp,
    kmalloc_ans k = Some buf :: rest
    ∧ gather (take (Z.to_nat nr) bvec) buf len (mem k) = (m2, len)
    ∧ mem k' = m2
    ∧ bios k' !! bio = Some (bio_attached bip b)
    ∧ bips k' !! bip = Some bp
    ∧ Z.land (bip_flags bp) BIP_COPY_USER ≠ 0
    ∧ bip_vcnt bp = u16 nr
    ∧ bip_max_vcnt bp = 1
    ∧ bi_size (bip_iter bp) = len
    ∧ bi_sector (bip_iter bp) = seed
    ∧ bip_vec bp = Some (InlineVecs bip)
    ∧ bip_inline_vecs bp !! 0%nat
      = Some (BioVec (virt_to_page buf) len (offset_in_page buf))
    ∧ trace k'
      = trace k ++ [EvCopyFromIter buf len]
          ++ unpin_events (PageCompound k) (take (Z.to_nat nr) bvec) false.

(** What a successful [bio_integrity_copy_user] leaves for a read: the
    bounce buffer [buf] is cleared and is segment 0 of the payload's
    vector, the user segments follow it from index 1, [BIP_COPY_USER] is
    set and [bip_vcnt] holds the count of user segments.  [bip_max_vcnt]
    is that count plus one unless the vector came from the biovec pool,
    which grants a count of its own. *)
Definition copy_user_read_mapped (k k' : kernel) (b : bio) (bio : Z)
    (bvec : list bio_vec) (nr len seed buf : Z) : Prop :=
  ∃ rest bip bp vp pad,
    kmalloc_ans k = Some buf :: rest
    ∧ mem k' = mem_fill buf len 0 (mem k)
    ∧ bios k' !! bio = Some (bio_attached bip b)
    ∧ bips k' !! bip = Some bp
    ∧ Z.land (bip_flags bp) BIP_COPY_USER ≠ 0
    ∧ bip_vcnt bp = u16 nr
    ∧ bi_size (bip_iter bp) = len
    ∧ bi_sector (bip_iter bp) = seed
    ∧ bip_vec bp = Some vp
    ∧ vec_at k' vp
      = Some (BioVec (virt_to_page buf) len (offset_in_page buf)
                :: take (Z.to_nat nr) bvec ++ pad)
    ∧ (bip_max_vcnt bp = u16 (nr + 1)
       ∨ ∃ a, vp = PoolVecs a
           ∧ bip_max_vcnt bp = 1 + Z.of_nat (length (take (Z.to_nat nr) bvec
                                                       ++ pad)))
    ∧ trace k' = trace k.

(** What a successful [bio_integrity_init_user] leaves: the payload's
    vector is the user segments themselves, no flag is set, and the
    cursor stands at the start with [len] bytes to go. *)
Definition init_user_mapped (k k' : kernel) (b : bio) (bio : Z)
    (bvec : list bio_vec) (nr len seed : Z) : Prop :=
  ∃ bip bp,
    bios k' !! bio = Some (bio_attached bip b)
    ∧ bips k' !! bip = Some bp
    ∧ bip_flags bp = 0
    ∧ bip_vcnt bp = u16 nr
    ∧ bip_iter bp = BvecIter seed (u32 len) 0 0
    ∧ (nr <= Z.of_nat (length bvec) -> nr < 2 ^ 16 ->
       bip_vcnt bp <= bip_max_vcnt bp)
    ∧ ((nr = 0 ∧ bip_vec bp = None)
       ∨ ∃ vp pad, bip_vec bp = Some vp
           ∧ vec_at k' vp = Some (take (Z.to_nat nr) bvec ++ pad))
    ∧ trace k' = trace k
    ∧ mem k' = mem k.

(** [k'] is [k] with calls added to its trace. *)
Definition only_trace (k k' : kernel) : Prop :=
  ∃ evs, k' = set_trace (λ t, t ++ evs) k.

(** The parts of the state that hold objects and memory are the same. *)
Definition same_store (k k' : kernel) : Prop :=
  bios k' = bios k ∧ bips k' = bips k ∧ bvec_pool k' = bvec_pool k
  ∧ mem k' = mem k ∧ same_machine k k'.

(** The test [bio_integrity_map_user] makes once the user pages are
    coalesced into [nr_bvecs] segments: copy when the buffer is not
    aligned to the device's DMA alignment, or the segments are more than
    the device takes. *)
Definition map_user_copies (b : bio) (ubuf bytes nr_bvecs : Z) : bool :=
  let q := limits (bi_bdev b) in
  let align := blk_lim_dma_alignment_and_pad q in
  (queue_max_integrity_segments q <? nr_bvecs)
  || negb (iov_iter_is_aligned ubuf bytes align align).

Definition map_user_direction (b : bio) : Z :=
  if bio_data_dir b =? READ then ITER_DEST else ITER_SOURCE.

(** ** Pins in the trace *)

(** The pages pinned, the pages unpinned and the pages marked dirty by
    the calls of a trace, in order. *)
Definition pinned_pages (evs : list event) : list Z :=
  flat_map (λ e, match e with EvPin p => [p] | _ => [] end) evs.
Definition unpinned_pages (evs : list event) : list Z :=
  flat_map (λ e, match e with EvUnpin p => [p] | _ => [] end) evs.
Definition dirtied_pages (evs : list event) : list Z :=
  flat_map (λ e, match e with EvSetPageDirty p => [p] | _ => [] end) evs.

(** The addresses handed to [kfree] by the calls of a trace. *)
Definition kfreed (evs : list event) : list Z :=
  flat_map (λ e, match e with EvKfree a => [a] | _ => [] end) evs.

(** The release of the temporary vector at the end of
    [bio_integrity_map_user]. *)
Definition free_bvec_events (heap : option Z) : list event :=
  match heap with
  | Some a => [EvKfree a]
  | None => []
  end.


(** The sample read with an aligned user buffer of 1024 bytes mapped. *)
Definition sample_mapped_read : kernel :=
  exec (bio_integrity_map_user 2 20992 1024 7) sample_kernel.

(** The sample read with an unaligned user buffer of 4096 bytes over two
    pages mapped in copy mode, and the same once the device has filled
    the bounce buffer with the byte 85. *)
Definition sample_bounced_read : kernel :=
  exec (bio_integrity_map_user 2 20993 4096 7) sample_kernel.

(** A read of a request set with a payload pool, on a machine whose
    user pages do not follow one another and whose biovec pool grants
    arrays of sixteen; the state once an unaligned buffer of 16384
    bytes on five pages is mapped, and once it is unmapped again. *)
Definition pooled_read : bio :=
  Bio sample_bdev REQ_OP_READ 0 (BvecIter 100 4096 0 0) None
    (Some (BioSet true)) false.
Definition scattered_kernel : kernel :=
  Kernel {[ 4 := pooled_read ]} ∅ ∅ (λ _, 0) (λ v, Some (2 * v + 1000))
    (λ p, p) (λ _, false) [] [Some 8192] [Some 700] [Some (900, 16)]
    sample_generate sample_verify.
Definition scattered_mapped : kernel :=
  exec (bio_integrity_map_user 4 20993 16384 7) scattered_kernel.
Definition scattered_unmapped : kernel :=
  exec (bio_integrity_unmap_user 4) scattered_mapped.

(** ** The consistency of a payload *)

(** The segments the cursor has still to pass: the entries from
    [bi_idx] up to [bip_vcnt] of the payload's vector. *)
Definition bip_remaining (k : kernel) (bp : bio_integrity_payload)
    : list bio_vec :=
  match bip_vec bp ≫= vec_at k with
  | Some vec =>
      drop (Z.to_nat (bi_idx (bip_iter bp)))
        (take (Z.to_nat (bip_vcnt bp)) vec)
  | None => []
  end.

(** The count is within the capacity, and the byte total is what the
    remaining segments hold past the cursor. *)
Definition bip_consistent (k : kernel) (bp : bio_integrity_payload)
    : Prop :=
  bip_vcnt bp <= bip_max_vcnt bp
  ∧ bi_size (bip_iter bp)
    = segs_len (bip_remaining k bp) - bi_bvec_done (bip_iter bp).

(** The payload of the request at [bio] is consistent. *)
Definition bio_consistent (k : kernel) (bio : Z) : Prop :=
  ∃ b bip bp,
    bios k !! bio = Some b ∧ bio_integrity b = Some bip
    ∧ bips k !! bip = Some bp ∧ bip_consistent k bp.

(** The design document's invariant, read on the three operations that
    do not keep it: after any successful mapping of a user buffer, after
    any clone, and after any trim of a consistent payload, the payload
    of the request is consistent. *)
Definition map_user_keeps_consistent : Prop :=
  ∀ (k k' : kernel) (bio ubuf bytes seed : Z),
    bio_integrity_map_user bio ubuf bytes seed k = Ret 0 k' ->
    bio_consistent k' bio.
Definition clone_keeps_consistent : Prop :=
  ∀ (k k' : kernel) (bio bio_src gfp : Z),
    bio_consistent k bio_src ->
    bio_integrity_clone bio bio_src gfp k = Ret 0 k' ->
    bio_consistent k' bio.
Definition trim_keeps_consistent : Prop :=
  ∀ (k k' : kernel) (bio : Z),
    bio_consistent k bio ->
    bio_integrity_trim bio k = Ret tt k' ->
    bio_consistent k' bio.

(** The sample write with an unaligned user buffer of 4096 bytes over
    two pages mapped in copy mode; and the prepared read once the
    request has been cut to its first four sectors. *)
Definition sample_bounced_write : kernel :=
  exec (bio_integrity_map_user 1 20993 4096 7) sample_kernel.
Definition sample_split_read : kernel :=
  set_bios
    (insert 2
       (Bio sample_bdev (Z.lor REQ_OP_READ REQ_INTEGRITY) 0
          (BvecIter 100 2048 0 0) (Some 500) None false))
    sample_prepared_read.

(** ** Further sample states *)

(** A write of a request set with an initialised payload pool; a state
    whose biovec pool has no array to give, and one whose pool grants
    an array of eight. *)
Definition pooled_write : bio :=
  Bio sample_bdev REQ_OP_WRITE 0 (BvecIter 100 4096 0 0) None
    (Some (BioSet true)) false.
Definition pooled_kernel : kernel :=
  Kernel {[ 3 := pooled_write ]} ∅ ∅ (λ _, 0) (λ v, Some (v + 1000))
    (λ p, p) (λ _, false) [] [Some 8192] [Some 700] [None]
    sample_generate sample_verify.
Definition pooled_kernel_granting : kernel :=
  Kernel {[ 3 := pooled_write ]} ∅ ∅ (λ _, 0) (λ v, Some (v + 1000))
    (λ p, p) (λ _, false) [] [Some 8192] [Some 700] [Some (900, 8)]
    sample_generate sample_verify.
Definition pooled_granted : kernel :=
  exec (bio_integrity_alloc 3 GFP_NOIO 5) pooled_kernel_granting.

(** The prepared read in a state whose allocator has nothing left. *)
Definition starved_read_prepared : kernel :=
  set_kmalloc_ans (λ _, []) sample_prepared_read.

(** The sample state with page 1006 part of a compound page. *)
Definition compound_kernel : kernel :=
  Kernel {[ 1 := sample_write; 2 := sample_read ]} ∅ ∅ (λ _, 0)
    (λ v, Some (v + 1000)) (λ p, p) (λ p, p =? 1006) []
    [Some 8192; Some 500; Some 600] [] []
    sample_generate sample_verify.

(** The payload of the sample read mapped without a copy. *)
Definition sample_mapped_bip : bio_integrity_payload :=
  Bip 2 (BvecIter 7 1024 0 0) 1 1 0 (BvecIter 0 0 0 0) None
    (Some (InlineVecs 8192)) [BioVec 1005 1024 512].

(** ** Pages that follow one another *)

(** The test of the inner loop of [bvec_from_pages]: page [j] of the
    array belongs to [folio] and is the page after page [j - 1]. *)
Definition joins (pf : Z -> Z) (folio : Z) (pages : list Z) (j : Z)
    : bool :=
  match pages !! Z.to_nat j, pages !! Z.to_nat (j - 1) with
  | Some pj, Some pj1 => (pf pj =? folio) && (pj =? pj1 + 1)
  | _, _ => false
  end.

(** The sample state on a machine whose folios are of sixteen pages. *)
Definition folio_kernel : kernel :=
  Kernel {[ 1 := sample_write; 2 := sample_read ]} ∅ ∅ (λ _, 0)
    (λ v, Some (v + 1000)) (λ p, p / 16) (λ _, true) []
    [Some 8192; Some 500; Some 600] [] []
    sample_generate sample_verify.

(** The releases at the completion of a prepared request: the buffer,
    and then the payload as [bio_integrity_free] releases it. *)
Definition prep_release_events (b : bio) (buf bip : Z) : list event :=
  EvKfree buf
  :: (if pool_in_use (bi_pool b)
      then [EvBvecFree (InlineVecs bip) 1; EvMempoolFree bip]
      else [EvKfree bip]).

(** A write of eight sectors on a device whose profile has no checksum,
    in a state whose memory holds the byte 7 everywhere and whose
    generator gives sixty bytes of the sample checksum. *)
Definition nocsum_profile : blk_integrity := BlkIntegrity 0 0 8 9.
Definition nocsum_write : bio :=
  Bio (BlockDevice sample_limits (Some nocsum_profile)) REQ_OP_WRITE 0
    (BvecIter 100 4096 0 0) None None false.
Definition nocsum_kernel : kernel :=
  Kernel {[ 1 := nocsum_write ]} ∅ ∅ (λ _, 7) (λ v, Some (v + 1000))
    (λ p, p) (λ _, false) [] [Some 8192; Some 500] [] []
    (λ m b bp, take 60 (sample_generate m b bp)) sample_verify.

(** The sample state with one buffer to give and nothing after it. *)
Definition one_buffer_kernel : kernel :=
  Kernel {[ 1 := sample_write; 2 := sample_read ]} ∅ ∅ (λ _, 0)
    (λ v, Some (v + 1000)) (λ p, p) (λ _, false) [] [Some 8192] [] []
    sample_generate sample_verify.
(** * Properties *)

(** ** Running the monad *)

Ltac kproj :=
  cbn [bios bips bvec_pool mem user_pt page_folio PageCompound trace
       kmalloc_ans mempool_ans bvec_ans csum_generate csum_verify
       set_bios set_bips set_bvec_pool set_mem set_trace
       set_kmalloc_ans set_mempool_ans set_bvec_ans] in *.

Lemma bind_run {A B} (m : M A) (f : A -> M B) (k : kernel) :
  (m ≫= f) k = match m k with Ret a k' => f a k' | Oops => Oops end.
Proof. reflexivity. Qed.

Lemma bind_Ret {A B} (m : M A) (f : A -> M B) (k k' : kernel) (a : A) :
  m k = Ret a k' -> (m ≫= f) k = f a k'.
Proof. intros H. rewrite bind_run, H. reflexivity. Qed.

Lemma load_bio_run (k : kernel) (p : Z) (b : bio) :
  bios k !! p = Some b -> load_bio p k = Ret b k.
Proof. intros H. unfold load_bio. rewrite H. reflexivity. Qed.

Lemma load_bip_run (k : kernel) (p : Z) (bp : bio_integrity_payload) :
  bips k !! p = Some bp -> load_bip p k = Ret bp k.
Proof. intros H. unfold load_bip. rewrite H. reflexivity. Qed.

Lemma bip_update_run (k : kernel) (p : Z) f (bp : bio_integrity_payload) :
  bips k !! p = Some bp ->
  bip_update p f k = Ret tt (set_bips (insert p (f bp)) k).
Proof.
  intros H. unfold bip_update.
  rewrite (bind_Ret _ _ _ _ _ (load_bip_run _ _ _ H)). reflexivity.
Qed.

Lemma bio_update_run (k : kernel) (p : Z) f (b : bio) :
  bios k !! p = Some b ->
  bio_update p f k = Ret tt (set_bios (insert p (f b)) k).
Proof.
  intros H. unfold bio_update.
  rewrite (bind_Ret _ _ _ _ _ (load_bio_run _ _ _ H)). reflexivity.
Qed.

Lemma emit_run (e : event) (k : kernel) :
  emit e k = Ret tt (set_trace (λ t, t ++ [e]) k).
Proof. reflexivity. Qed.

Lemma vec_load_run (k : kernel) (p : vec_ptr) (v : list bio_vec) :
  vec_at k p = Some v -> vec_load p k = Ret v k.
Proof. intros H. unfold vec_load. rewrite H. reflexivity. Qed.

Ltac bipproj :=
  cbn [bip_bio bip_iter bip_vcnt bip_max_vcnt bip_flags bio_iter bip_work
       bip_vec bip_inline_vecs
       bip_with_iter bip_with_vcnt bip_with_max_vcnt bip_with_flags
       bip_with_bio_iter bip_with_work bip_with_vec bip_with_inline_vecs
       bip_with_bio bip_or_flags bip_set_seed
       iter_with_sector iter_with_size
       bi_sector bi_size bi_idx bi_bvec_done] in *.

Ltac split_forall :=
  repeat match goal with
         | |- Forall _ [] => apply Forall_nil
         | |- Forall _ (_ :: _) => apply Forall_cons_2
         | |- _ ∧ _ => split
         | |- True => exact I
         end.

Ltac solve_lookup :=
  kproj;
  first [ eassumption
        | simplify_map_eq; first [ reflexivity | eassumption ] ].

Ltac mstep :=
  match goal with
  | |- context [ (?m ≫= ?f) ?k ] => rewrite (bind_run m f k)
  | |- context [ load_bio ?p ?k ] =>
      erewrite (load_bio_run k p) by solve_lookup
  | |- context [ load_bip ?p ?k ] =>
      erewrite (load_bip_run k p) by solve_lookup
  | |- context [ bip_update ?p ?f ?k ] =>
      erewrite (bip_update_run k p f) by solve_lookup
  | |- context [ bio_update ?p ?f ?k ] =>
      erewrite (bio_update_run k p f) by solve_lookup
  | |- context [ vec_load ?p ?k ] =>
      erewrite (vec_load_run k p) by solve_lookup
  | |- context [ emit ?e ?k ] => rewrite (emit_run e k)
  | |- context [ @mret M _ ?A ?a ?k ] =>
      change (@mret M _ A a k) with (Ret a k)
  | |- context [ modify ?f ?k ] => change (modify f k) with (Ret tt (f k))
  | |- context [ gets ?f ?k ] => change (gets f k) with (Ret (f k) k)
  | |- context [ deref (Some ?a) ?k ] =>
      change (deref (Some a) k) with (Ret a k)
  | |- context [ @deref ?A None ?k ] =>
      change (@deref A None k) with (@Oops A)
  | |- context [ @oops ?A ?k ] => change (@oops A k) with (@Oops A)
  end.

Ltac mrun := repeat (mstep; cbn beta iota).

(** ** The machine under the code *)

Lemma same_machine_refl (k : kernel) : same_machine k k.
Proof. repeat split. Qed.

Lemma same_machine_trans (k1 k2 k3 : kernel) :
  same_machine k1 k2 -> same_machine k2 k3 -> same_machine k1 k3.
Proof.
  unfold same_machine.
  intros (H1 & H2 & H3 & H4 & H5) (G1 & G2 & G3 & G4 & G5).
  repeat split; etransitivity; eassumption.
Qed.

Lemma keeps_bind {A B} (m : M A) (f : A -> M B) :
  keeps_machine m -> (∀ a, keeps_machine (f a)) -> keeps_machine (m ≫= f).
Proof.
  intros Hm Hf k b k'. rewrite bind_run.
  destruct (m k) as [a k1|] eqn:E; [|discriminate].
  intros H. eapply same_machine_trans; [exact (Hm _ _ _ E)|].
  exact (Hf _ _ _ _ H).
Qed.

Lemma keeps_ret {A} (a : A) : keeps_machine (mret a : M A).
Proof. intros k x k' [= <- <-]. apply same_machine_refl. Qed.

Lemma keeps_oops {A} : keeps_machine (@oops A).
Proof. intros k x k'. discriminate. Qed.

Lemma keeps_gets {A} (f : kernel -> A) : keeps_machine (gets f).
Proof. intros k x k' [= <- <-]. apply same_machine_refl. Qed.

Lemma keeps_deref {A} (o : option A) : keeps_machine (deref o).
Proof.
  destruct o; [apply keeps_ret|apply keeps_oops].
Qed.

Lemma keeps_modify (f : kernel -> kernel) :
  (∀ k, same_machine k (f k)) -> keeps_machine (modify f).
Proof. intros Hf k x k' H. injection H as H. subst k'. apply Hf. Qed.

Lemma keeps_emit (e : event) : keeps_machine (emit e).
Proof. apply keeps_modify. intros k. repeat split. Qed.

Lemma keeps_load_bio (p : Z) : keeps_machine (load_bio p).
Proof. intros k. unfold load_bio. apply keeps_deref. Qed.

Lemma keeps_load_bip (p : Z) : keeps_machine (load_bip p).
Proof. intros k. unfold load_bip. apply keeps_deref. Qed.

Lemma keeps_vec_load (p : vec_ptr) : keeps_machine (vec_load p).
Proof. intros k. unfold vec_load. apply keeps_deref. Qed.

Lemma keeps_kmalloc (size gfp : Z) : keeps_machine (kmalloc size gfp).
Proof.
  intros k r k'. unfold kmalloc.
  destruct (kmalloc_ans k) as [|[a|] rest].
  - intros [= <- <-]. apply same_machine_refl.
  - destruct (nonzero (Z.land gfp __GFP_ZERO));
      intros [= <- <-]; repeat split.
  - intros [= <- <-]. repeat split.
Qed.

Lemma keeps_kmalloc_obj (gfp : Z) : keeps_machine (kmalloc_obj gfp).
Proof.
  intros k r k'. unfold kmalloc_obj.
  destruct (kmalloc_ans k) as [|a rest]; intros [= <- <-]; repeat split.
Qed.

Lemma keeps_mempool_alloc (gfp : Z) : keeps_machine (mempool_alloc gfp).
Proof.
  intros k r k'. unfold mempool_alloc.
  destruct (mempool_ans k) as [|a rest]; intros [= <- <-]; repeat split.
Qed.

Lemma keeps_bvec_alloc (n gfp : Z) : keeps_machine (bvec_alloc n gfp).
Proof.
  intros k r k'. unfold bvec_alloc.
  destruct (bvec_ans k) as [|[[a g]|] rest]; intros [= <- <-]; repeat split.
Qed.

(** Actions put together from actions that keep the machine keep it. *)
Ltac keeps :=
  repeat first
    [ apply keeps_ret | apply keeps_oops | apply keeps_gets
    | apply keeps_deref | apply keeps_emit | apply keeps_load_bio
    | apply keeps_load_bip | apply keeps_vec_load | apply keeps_kmalloc
    | apply keeps_kmalloc_obj | apply keeps_mempool_alloc
    | apply keeps_bvec_alloc
    | apply keeps_modify; intros ?; repeat split
    | apply keeps_bind; [|intros ?]
    | match goal with
      | |- keeps_machine (match ?x with _ => _ end) => destruct x
      | |- keeps_machine (let _ := _ in _) => cbv zeta
      end
    | assumption ].

Lemma keeps_bip_update (p : Z) f : keeps_machine (bip_update p f).
Proof. unfold bip_update, store_bip. keeps. Qed.

Lemma keeps_bio_update (p : Z) f : keeps_machine (bio_update p f).
Proof. unfold bio_update, store_bio. keeps. Qed.

Lemma keeps_vec_store (p : vec_ptr) (v : list bio_vec) :
  keeps_machine (vec_store p v).
Proof. unfold vec_store, store_bip. keeps. Qed.

Lemma keeps_vec_get (p : vec_ptr) (i : Z) : keeps_machine (vec_get p i).
Proof. unfold vec_get. keeps. Qed.

Lemma keeps_vec_set (p : vec_ptr) (i : Z) (x : bio_vec) :
  keeps_machine (vec_set p i x).
Proof. unfold vec_set. keeps. apply keeps_vec_store. Qed.

Lemma keeps_vec_memcpy (p : vec_ptr) (i : Z) (src : list bio_vec) :
  keeps_machine (vec_memcpy p i src).
Proof. unfold vec_memcpy. keeps. apply keeps_vec_store. Qed.

Lemma keeps_bio_integrity_add_page (bio page len offset : Z) :
  keeps_machine (bio_integrity_add_page bio page len offset).
Proof.
  unfold bio_integrity_add_page. cbv zeta.
  keeps; apply keeps_vec_store.
Qed.

Lemma bvec_virt_of_buf (buf len : Z) :
  bvec_virt (BioVec (virt_to_page buf) len (offset_in_page buf)) = buf.
Proof.
  unfold bvec_virt, bvec_phys, page_to_phys, virt_to_page, offset_in_page.
  cbn [bv_page bv_offset]. pose proof (Z.div_mod buf PAGE_SIZE).
  unfold PAGE_SIZE in *. lia.
Qed.

(** ** Allocation and inline encryption *)

(** C10: a request that carries an inline-encryption context gets no
    payload: the allocation returns the operation-not-supported error
    and the kernel state, the request's payload slot included, is as it
    was. *)
Theorem bio_integrity_alloc_crypt_ctx
    (k : kernel) (b : bio) (bio gfp_mask nr_vecs : Z) :
  bios k !! bio = Some b ->
  bio_has_crypt_ctx b = true ->
  bio_integrity_alloc bio gfp_mask nr_vecs k
  = Ret (ERR_PTR (- EOPNOTSUPP)) k.
Proof.
  intros Hb Hc. unfold bio_integrity_alloc. mrun.
  rewrite Hc. reflexivity.
Qed.

(** The write under inline encryption gets no payload. *)
Lemma bio_integrity_alloc_crypt_ctx_witness :
  bio_integrity_alloc 1 GFP_KERNEL 1 crypt_kernel
  = Ret (ERR_PTR (- EOPNOTSUPP)) crypt_kernel.
Proof.
  apply (bio_integrity_alloc_crypt_ctx crypt_kernel crypt_write 1 GFP_KERNEL 1);
    vm_compute; reflexivity.
Defined.

(** ** Release of a payload *)

(** The state [bio_integrity_free] leaves. *)
Lemma bio_integrity_free_run (k : kernel) (b : bio)
    (bp : bio_integrity_payload) (bio bip : Z) :
  bios k !! bio = Some b ->
  bio_integrity b = Some bip ->
  bips k !! bip = Some bp ->
  bio_integrity_free bio k
  = Ret tt
      (set_bios (insert bio (bio_detached b))
         (set_bios (insert bio (bio_with_integrity None b))
            (set_bips (delete bip)
               (set_trace (λ t, t ++ payload_free_events b bip bp) k)))).
Proof.
  intros Hb Hi Hp. unfold bio_integrity_free, payload_free_events.
  mrun. rewrite Hi. mrun.
  destruct (pool_in_use (bi_pool b)).
  - mrun. destruct (bip_vec bp); unfold bvec_free, mempool_free; mrun.
    + unfold bio_detached. kproj. do 3 f_equal.
      unfold set_bips, set_trace; kproj. f_equal.
      rewrite <- app_assoc. reflexivity.
    + reflexivity.
  - unfold kfree. mrun. reflexivity.
Qed.

Lemma kfree_bip_buf_run (k : kernel) (bp : bio_integrity_payload)
    (vp : vec_ptr) (vec : list bio_vec) (v0 : bio_vec) (bip : Z) :
  bips k !! bip = Some bp ->
  bip_vec bp = Some vp ->
  vec_at k vp = Some vec ->
  vec !! 0%nat = Some v0 ->
  kfree_bip_buf bip k
  = Ret tt (set_trace (λ t, t ++ [EvKfree (bvec_virt v0)]) k).
Proof.
  intros Hp Hv Hvec H0. unfold kfree_bip_buf, vec_get, kfree.
  mrun. rewrite Hv. mrun.
  change (0 <? 0) with false. change (Z.to_nat 0) with 0%nat.
  cbn beta iota. rewrite H0. mrun. reflexivity.
Qed.

Lemma vec_at_set_trace (k : kernel) f (p : vec_ptr) :
  vec_at (set_trace f k) p = vec_at k p.
Proof. destruct p; reflexivity. Qed.

Lemma vec_at_set_bios (k : kernel) f (p : vec_ptr) :
  vec_at (set_bios f k) p = vec_at k p.
Proof. destruct p; reflexivity. Qed.

Lemma vec_at_set_mem (k : kernel) f (p : vec_ptr) :
  vec_at (set_mem f k) p = vec_at k p.
Proof. destruct p; reflexivity. Qed.

Lemma vec_at_set_kmalloc_ans (k : kernel) f (p : vec_ptr) :
  vec_at (set_kmalloc_ans f k) p = vec_at k p.
Proof. destruct p; reflexivity. Qed.

(** ** Completion *)

(** The verifier leaves its verdict in the status of the request. *)
Lemma blk_integrity_verify_run (k : kernel) (b : bio)
    (bp : bio_integrity_payload) (bio bip : Z) :
  bios k !! bio = Some b ->
  bio_integrity b = Some bip ->
  bips k !! bip = Some bp ->
  blk_integrity_verify bio k
  = Ret tt
      (set_bios (insert bio (bio_verified (csum_verify k (mem k) b bp) b))
         (set_trace (λ t, t ++ [EvVerify bio]) k)).
Proof.
  intros Hb Hi Hp. unfold blk_integrity_verify. mrun. rewrite Hi. mrun.
  kproj. unfold bio_verified.
  destruct (csum_verify k (mem k) b bp); mrun; [|reflexivity].
  destruct k. unfold set_bios, set_trace. kproj.
  rewrite (insert_id _ _ _ Hb). reflexivity.
Qed.

Lemma bio_integrity_verified (ok : bool) (b : bio) :
  bio_integrity (bio_verified ok b) = bio_integrity b.
Proof. destruct ok; reflexivity. Qed.

Lemma payload_free_events_verified (ok : bool) (b : bio) (bip : Z)
    (bp : bio_integrity_payload) :
  payload_free_events (bio_verified ok b) bip bp
  = payload_free_events b bip bp.
Proof. destruct ok; reflexivity. Qed.

(** The worker on a request with its payload attached: the calls it
    makes, and the state it leaves. *)
Lemma verify_fn_run (k : kernel) (b : bio) (bp : bio_integrity_payload)
    (vp : vec_ptr) (vec : list bio_vec) (v0 : bio_vec) (bio bip : Z) :
  bios k !! bio = Some b ->
  bio_integrity b = Some bip ->
  bips k !! bip = Some bp ->
  bip_bio bp = bio ->
  bip_vec bp = Some vp ->
  vec_at k vp = Some vec ->
  vec !! 0%nat = Some v0 ->
  ∃ k', bio_integrity_verify_fn bip k = Ret tt k'
    ∧ trace k' = trace k ++ [EvVerify bio; EvKfree (bvec_virt v0)]
                   ++ payload_free_events b bip bp ++ [EvEndio bio]
    ∧ bips k' = delete bip (bips k)
    ∧ bios k'
      = <[bio := bio_detached
                   (bio_verified (csum_verify k (mem k) b bp) b)]> (bios k)
    ∧ mem k' = mem k.
Proof.
  intros Hb Hi Hp Hbio Hv Hvec H0.
  unfold bio_integrity_verify_fn, bio_endio.
  mrun. rewrite Hbio.
  rewrite (blk_integrity_verify_run k b bp bio bip Hb Hi Hp).
  cbn beta iota.
  set (bv := bio_verified (csum_verify k (mem k) b bp) b).
  rewrite bind_run.
  erewrite (kfree_bip_buf_run _ bp vp vec v0)
    by (try solve_lookup;
        rewrite vec_at_set_bios, vec_at_set_trace; exact Hvec).
  cbn beta iota. mrun.
  erewrite (bio_integrity_free_run _ bv bp bio bip);
    [|kproj; apply lookup_insert_eq
     |unfold bv; rewrite bio_integrity_verified; exact Hi
     |solve_lookup].
  cbn beta iota. mrun. eexists. split; [reflexivity|]. kproj.
  unfold bv at 1. rewrite payload_free_events_verified.
  rewrite !insert_insert_eq. rewrite <- !app_assoc.
  repeat split; reflexivity.
Qed.

(** C4: completing a request that carries a payload.  The handler
    returns false, having only queued the verification work and left the
    payload attached, exactly when the request is a read that completed
    without error on a profile with a checksum kind; in every other case
    it frees the working buffer, then the payload, and returns true.
    The worker, run on a request in that condition, calls the verifier,
    frees the working buffer, releases the payload and then signals the
    request's completion; the request it completes is detached and
    carries the verifier's verdict, the data-integrity error status on
    a mismatch, and memory is as it was. *)
Theorem bio_integrity_endio_defers_iff
    (k : kernel) (b : bio) (bi : blk_integrity) (bp : bio_integrity_payload)
    (vp : vec_ptr) (vec : list bio_vec) (v0 : bio_vec) (bio bip : Z) :
  bios k !! bio = Some b ->
  bio_integrity b = Some bip ->
  bips k !! bip = Some bp ->
  bip_bio bp = bio ->
  blk_get_integrity (bi_bdev b) = Some bi ->
  bip_vec bp = Some vp ->
  vec_at k vp = Some vec ->
  vec !! 0%nat = Some v0 ->
  (if verify_deferred b bi
   then __bio_integrity_endio bio k
        = Ret false
            (set_trace (λ t, t ++ [EvQueueWork bip])
               (set_bips
                  (insert bip
                     (bip_with_work (Some bio_integrity_verify_fn_work) bp))
                  k))
   else ∃ k', __bio_integrity_endio bio k = Ret true k'
        ∧ trace k' = trace k ++ [EvKfree (bvec_virt v0)]
                       ++ payload_free_events b bip bp
        ∧ bips k' !! bip = None
        ∧ bios k' !! bio = Some (bio_detached b))
  ∧ ∃ k', bio_integrity_verify_fn bip k = Ret tt k'
        ∧ trace k' = trace k ++ [EvVerify bio; EvKfree (bvec_virt v0)]
                       ++ payload_free_events b bip bp ++ [EvEndio bio]
        ∧ bips k' !! bip = None
        ∧ bios k' !! bio
          = Some (bio_detached
                    (bio_verified (csum_verify k (mem k) b bp) b))
        ∧ mem k' = mem k.
Proof.
  intros Hb Hi Hp Hbio Hbi Hv Hvec H0. split.
  - unfold __bio_integrity_endio, verify_deferred, queue_work.
    mrun. rewrite Hbi, Hi.
    assert (Hst : negb (nonzero (bi_status b)) = (bi_status b =? BLK_STS_OK)).
    { unfold nonzero, BLK_STS_OK. rewrite negb_involutive. reflexivity. }
    rewrite Hst.
    assert (Hfree : ∃ k',
      (p ← deref (Some bip); kfree_bip_buf p;; bio_integrity_free bio;;
       mret true) k = Ret true k'
      ∧ trace k' = trace k ++ [EvKfree (bvec_virt v0)]
                     ++ payload_free_events b bip bp
      ∧ bips k' !! bip = None
      ∧ bios k' !! bio = Some (bio_detached b)).
    { mrun. rewrite (kfree_bip_buf_run _ _ _ _ _ _ Hp Hv Hvec H0).
      cbn beta iota. mrun.
      erewrite (bio_integrity_free_run _ b bp) by solve_lookup.
      cbn beta iota. mrun.
      eexists. split; [reflexivity|]. kproj.
      rewrite <- app_assoc. repeat split; simplify_map_eq; reflexivity. }
    destruct ((bio_op b =? REQ_OP_READ) && (bi_status b =? BLK_STS_OK)) eqn:Hc;
      mrun.
    + unfold nonzero, BLK_INTEGRITY_CSUM_NONE.
      destruct (csum_type bi =? 0); cbn [negb andb]; mrun.
      * exact Hfree.
      * reflexivity.
    + cbn [andb]. exact Hfree.
  - destruct (verify_fn_run k b bp vp vec v0 bio bip Hb Hi Hp Hbio Hv Hvec H0)
      as (k' & Hrun & Ht & Hps & Hbs & Hm).
    exists k'. split; [exact Hrun|]. split; [exact Ht|].
    rewrite Hps, Hbs, lookup_delete_eq, lookup_insert_eq.
    repeat split. exact Hm.
Qed.

(** The prepared read of the sample state is deferred on completion.
    The worker then finds the protection buffer, still as allocated,
    not to match the sample checksum, and completes the request with
    the data-integrity error status; once the device has delivered the
    checksum bytes the worker completes it without error. *)
Lemma bio_integrity_endio_defers_iff_witness :
  __bio_integrity_endio 2 sample_prepared_read
  = Ret false
      (set_trace (λ t, t ++ [EvQueueWork 500])
         (set_bips
            (insert 500
               (bip_with_work (Some bio_integrity_verify_fn_work)
                  sample_read_bip))
            sample_prepared_read))
  ∧ (∃ k', bio_integrity_verify_fn 500 sample_prepared_read = Ret tt k'
       ∧ trace k' = [EvVerify 2; EvKfree 8192; EvKfree 500; EvEndio 2]
       ∧ bips k' !! 500 = None
       ∧ bios k' !! 2
         = Some (bio_with_status BLK_STS_PROTECTION sample_read)
       ∧ mem k' = mem sample_prepared_read)
  ∧ (∃ k', bio_integrity_verify_fn 500 sample_delivered_prepared_read
           = Ret tt k'
       ∧ trace k' = [EvVerify 2; EvKfree 8192; EvKfree 500; EvEndio 2]
       ∧ bips k' !! 500 = None
       ∧ bios k' !! 2 = Some sample_read
       ∧ mem k' = mem sample_delivered_prepared_read).
Proof.
  assert (Hi : bio_integrity (bio_attached 500 sample_read) = Some 500)
    by (vm_compute; reflexivity).
  assert (Hbio : bip_bio sample_read_bip = 2) by reflexivity.
  assert (Hbi : blk_get_integrity (bi_bdev (bio_attached 500 sample_read))
                = Some sample_profile) by reflexivity.
  assert (Hv : bip_vec sample_read_bip = Some (InlineVecs 500))
    by reflexivity.
  assert (H0 : [BioVec 2 64 0] !! 0%nat = Some (BioVec 2 64 0))
    by reflexivity.
  assert (Hb : bios sample_prepared_read !! 2
               = Some (bio_attached 500 sample_read))
    by (vm_compute; reflexivity).
  assert (Hp : bips sample_prepared_read !! 500 = Some sample_read_bip)
    by (vm_compute; reflexivity).
  assert (Hvec : vec_at sample_prepared_read (InlineVecs 500)
                 = Some [BioVec 2 64 0]) by (vm_compute; reflexivity).
  assert (Hb' : bios sample_delivered_prepared_read !! 2
                = Some (bio_attached 500 sample_read))
    by (vm_compute; reflexivity).
  assert (Hp' : bips sample_delivered_prepared_read !! 500
                = Some sample_read_bip)
    by (vm_compute; reflexivity).
  assert (Hvec' : vec_at sample_delivered_prepared_read (InlineVecs 500)
                  = Some [BioVec 2 64 0]) by (vm_compute; reflexivity).
  split; [|split].
  - exact (proj1 (bio_integrity_endio_defers_iff sample_prepared_read
                    (bio_attached 500 sample_read) sample_profile
                    sample_read_bip (InlineVecs 500) [BioVec 2 64 0]
                    (BioVec 2 64 0) 2 500 Hb Hi Hp Hbio Hbi Hv Hvec H0)).
  - exact (proj2 (bio_integrity_endio_defers_iff sample_prepared_read
                    (bio_attached 500 sample_read) sample_profile
                    sample_read_bip (InlineVecs 500) [BioVec 2 64 0]
                    (BioVec 2 64 0) 2 500 Hb Hi Hp Hbio Hbi Hv Hvec H0)).
  - exact (proj2 (bio_integrity_endio_defers_iff
                    sample_delivered_prepared_read
                    (bio_attached 500 sample_read) sample_profile
                    sample_read_bip (InlineVecs 500) [BioVec 2 64 0]
                    (BioVec 2 64 0) 2 500 Hb' Hi Hp' Hbio Hbi Hv Hvec' H0)).
Defined.

(** ** Mapping a user buffer: the early rejections *)

(** C8, as the code has it: a request that already has a payload is
    turned down with the ordinary error return [-EINVAL], and a buffer of
    more data sectors than the device's maximum with [-E2BIG]; in both
    cases the call returns to its caller with the kernel state as it
    was: nothing allocated, nothing pinned, request and payload
    untouched. *)
Theorem bio_integrity_map_user_rejects
    (k : kernel) (b : bio) (bio ubuf bytes seed : Z) :
  bios k !! bio = Some b ->
  (is_Some (bio_integrity b) ->
   bio_integrity_map_user bio ubuf bytes seed k = Ret (- EINVAL) k)
  ∧ (bio_integrity b = None ->
     queue_max_hw_sectors (limits (bi_bdev b)) < Z.shiftr bytes SECTOR_SHIFT ->
     bio_integrity_map_user bio ubuf bytes seed k = Ret (- E2BIG) k).
Proof.
  intros Hb. unfold bio_integrity_map_user. mrun. split.
  - intros Hs. rewrite bool_decide_eq_true_2 by exact Hs. reflexivity.
  - intros Hn Hlt. rewrite bool_decide_eq_false_2.
    + apply Z.ltb_lt in Hlt. rewrite Hlt. reflexivity.
    + rewrite Hn. intros [? ?]. discriminate.
Qed.

(** A second mapping onto the prepared read, and a 2 MiB buffer on a
    device of 2048 sectors. *)
Lemma bio_integrity_map_user_rejects_witness :
  bio_integrity_map_user 2 0 512 0 sample_prepared_read
  = Ret (- EINVAL) sample_prepared_read
  ∧ bio_integrity_map_user 1 0 (2 ^ 21) 0 sample_kernel
    = Ret (- E2BIG) sample_kernel.
Proof.
  split.
  - apply (bio_integrity_map_user_rejects sample_prepared_read
             (bio_attached 500 sample_read) 2 0 512 0).
    + vm_compute. reflexivity.
    + vm_compute. eexists. reflexivity.
  - apply (bio_integrity_map_user_rejects sample_kernel sample_write
             1 0 (2 ^ 21) 0).
    + vm_compute. reflexivity.
    + vm_compute. reflexivity.
    + vm_compute. reflexivity.
Defined.

(** C8, the clause on fatality refuted: the second mapping onto the
    prepared read returns, it does not stop the kernel. *)
Lemma double_attach_is_not_fatal : ¬ double_attach_is_fatal.
Proof.
  intros H.
  specialize (H sample_prepared_read (bio_attached 500 sample_read)
                2 0 512 0).
  assert (Hb : bios sample_prepared_read !! 2
               = Some (bio_attached 500 sample_read))
    by (vm_compute; reflexivity).
  assert (Hs : is_Some (bio_integrity (bio_attached 500 sample_read)))
    by (vm_compute; eexists; reflexivity).
  specialize (H Hb Hs). vm_compute in H. discriminate H.
Qed.

(** ** Allocation of a payload *)

(** A successful allocation, taken apart: the payload is new and empty,
    attached to the request, and its vector is absent (no vectors asked
    for), inline, or drawn from the pool with the count the pool
    granted. *)
Lemma bio_integrity_alloc_ok
    (k k' : kernel) (b : bio) (bio gfp n p : Z) :
  bios k !! bio = Some b ->
  bio_integrity_alloc bio gfp n k = Ret (Ptr p) k' ->
  ∃ maxv vec inline,
    bips k' = <[p := bip_fresh bio maxv vec inline]> (bips k)
    ∧ bios k' = <[bio := bio_attached p b]> (bios k)
    ∧ trace k' = trace k ∧ mem k' = mem k ∧ same_machine k k'
    ∧ ((vec = None ∧ n = 0 ∧ maxv = 0 ∧ bvec_pool k' = bvec_pool k)
       ∨ (vec = Some (InlineVecs p) ∧ n ≠ 0 ∧ n <= inline ∧ maxv = u16 n
          ∧ bvec_pool k' = bvec_pool k)
       ∨ (∃ a g, vec = Some (PoolVecs a) ∧ maxv = g ∧ 0 <= g < 2 ^ 16
          ∧ inline = BIO_INLINE_VECS ∧ BIO_INLINE_VECS < n
          ∧ bvec_pool k'
            = <[a := replicate (Z.to_nat g) (BioVec 0 0 0)]> (bvec_pool k))).
Proof.
  intros Hb. unfold bio_integrity_alloc. mrun.
  destruct (bio_has_crypt_ctx b); [discriminate|].
  destruct (pool_in_use (bi_pool b)) eqn:Hpool; cbn [negb]; mrun.
  - unfold mempool_alloc.
    destruct (mempool_ans k) as [|[a|] rest] eqn:Hans; mrun;
      try discriminate.
    unfold store_bip. mrun.
    destruct (BIO_INLINE_VECS <? n) eqn:Hn; mrun.
    + unfold bvec_alloc. kproj.
      destruct (bvec_ans k) as [|[[va g]|] vrest] eqn:Hv; mrun;
        try (unfold mempool_free; mrun; discriminate).
      intros [= <- <-]. exists (u16 g), (Some (PoolVecs va)), BIO_INLINE_VECS.
      kproj. rewrite !insert_insert_eq.
      repeat split; try reflexivity.
      right; right. exists va, (u16 g). apply Z.ltb_lt in Hn.
      pose proof (Z.mod_pos_bound g (2 ^ 16) ltac:(lia)) as Hg.
      repeat split; try reflexivity; try exact Hn; apply Hg.
    + apply Z.ltb_ge in Hn. unfold nonzero.
      destruct (n =? 0) eqn:Hz; cbn [negb]; mrun.
      * intros [= <- <-]. apply Z.eqb_eq in Hz. subst n.
        exists 0, None, BIO_INLINE_VECS.
        kproj. rewrite !insert_insert_eq.
        repeat split; try reflexivity. left. repeat split; reflexivity.
      * intros [= <- <-]. apply Z.eqb_neq in Hz.
        exists (u16 n), (Some (InlineVecs a)), BIO_INLINE_VECS.
        kproj. rewrite !insert_insert_eq.
        repeat split; try reflexivity. right; left.
        repeat split; try reflexivity; assumption.
  - unfold kmalloc_obj.
    destruct (kmalloc_ans k) as [|[a|] rest] eqn:Hans; mrun;
      try discriminate.
    unfold store_bip. mrun.
    rewrite Z.ltb_irrefl. unfold nonzero.
    destruct (n =? 0) eqn:Hz; cbn [negb]; mrun.
    + intros [= <- <-]. apply Z.eqb_eq in Hz. subst n.
      exists 0, None, 0.
      kproj. rewrite !insert_insert_eq.
      repeat split; try reflexivity. left. repeat split; reflexivity.
    + intros [= <- <-]. apply Z.eqb_neq in Hz.
      exists (u16 n), (Some (InlineVecs a)), n.
      kproj. rewrite !insert_insert_eq.
      repeat split; try reflexivity. right; left.
      repeat split; try reflexivity; try assumption; lia.
Qed.

(** A failed allocation leaves the requests as they were. *)
Lemma bio_integrity_alloc_err
    (k k' : kernel) (b : bio) (bio gfp n e : Z) :
  bios k !! bio = Some b ->
  bio_integrity_alloc bio gfp n k = Ret (ERR_PTR e) k' ->
  bios k' = bios k ∧ mem k' = mem k
  ∧ ∃ evs, trace k' = trace k ++ evs ∧ EvEndio bio ∉ evs.
Proof.
  intros Hb. unfold bio_integrity_alloc. mrun.
  destruct (bio_has_crypt_ctx b).
  { intros [= <- <-]. repeat split. exists []. rewrite app_nil_r.
    split; [reflexivity | apply not_elem_of_nil]. }
  destruct (pool_in_use (bi_pool b)) eqn:Hpool; cbn [negb]; mrun.
  - unfold mempool_alloc.
    destruct (mempool_ans k) as [|[a|] rest] eqn:Hans; mrun;
      try (intros [= <- <-]; repeat split; exists []; rewrite app_nil_r;
           split; [reflexivity | apply not_elem_of_nil]).
    unfold store_bip. mrun.
    destruct (BIO_INLINE_VECS <? n) eqn:Hn; mrun.
    + unfold bvec_alloc. kproj.
      destruct (bvec_ans k) as [|[[va g]|] vrest] eqn:Hv; mrun;
        try discriminate;
        unfold mempool_free; mrun; intros [= <- <-]; kproj;
        repeat split; exists [EvMempoolFree a];
        (split; [reflexivity | intros H; apply list_elem_of_singleton in H;
                               discriminate H]).
    + unfold nonzero. destruct (n =? 0); cbn [negb]; mrun; discriminate.
  - unfold kmalloc_obj.
    destruct (kmalloc_ans k) as [|[a|] rest] eqn:Hans; mrun;
      try (intros [= <- <-]; repeat split; exists []; rewrite app_nil_r;
           split; [reflexivity | apply not_elem_of_nil]).
    unfold store_bip. mrun.
    rewrite Z.ltb_irrefl. unfold nonzero.
    destruct (n =? 0); cbn [negb]; mrun; discriminate.
Qed.

(** ** Vectors behind a pointer *)

Lemma vec_put_bios p v k : bios (vec_put p v k) = bios k.
Proof. destruct p; cbn; [destruct (bips k !! bip)|]; reflexivity. Qed.

Lemma vec_put_trace p v k : trace (vec_put p v k) = trace k.
Proof. destruct p; cbn; [destruct (bips k !! bip)|]; reflexivity. Qed.

Lemma vec_put_mem p v k : mem (vec_put p v k) = mem k.
Proof. destruct p; cbn; [destruct (bips k !! bip)|]; reflexivity. Qed.

Lemma vec_put_bips p v k bip bp :
  bips k !! bip = Some bp ->
  bips (vec_put p v k) !! bip = Some (own_inline bip p v bp).
Proof.
  intros H. destruct p as [b|a]; cbn; [|exact H].
  destruct (decide (b = bip)) as [->|Hne].
  - rewrite H. kproj. apply lookup_insert_eq.
  - destruct (bips k !! b); kproj; [|exact H].
    rewrite lookup_insert_ne by exact Hne. exact H.
Qed.

Lemma vec_put_at p v k old :
  vec_at k p = Some old -> vec_at (vec_put p v k) p = Some v.
Proof.
  destruct p as [b|a]; cbn.
  - destruct (bips k !! b) eqn:E; [|discriminate]. intros _. kproj.
    rewrite lookup_insert_eq. reflexivity.
  - intros _. apply lookup_insert_eq.
Qed.

Lemma vec_store_run p v k old :
  vec_at k p = Some old -> vec_store p v k = Ret tt (vec_put p v k).
Proof.
  destruct p as [b|a]; cbn.
  - destruct (bips k !! b) eqn:E; [|discriminate]. intros _.
    unfold store_bip. mrun. reflexivity.
  - intros _. reflexivity.
Qed.

Lemma vec_set_run p i x k vec :
  vec_at k p = Some vec ->
  0 <= i < Z.of_nat (length vec) ->
  vec_set p i x k = Ret tt (vec_put p (<[Z.to_nat i := x]> vec) k).
Proof.
  intros Hv Hi. unfold vec_set. mrun.
  destruct (i <? 0) eqn:E1; [apply Z.ltb_lt in E1; lia|].
  destruct (Z.of_nat (length vec) <=? i) eqn:E2; [apply Z.leb_le in E2; lia|].
  cbn [orb]. apply (vec_store_run _ _ _ vec Hv).
Qed.

Lemma vec_get_run p i k vec x :
  vec_at k p = Some vec ->
  0 <= i -> vec !! Z.to_nat i = Some x ->
  vec_get p i k = Ret x k.
Proof.
  intros Hv Hi Hx. unfold vec_get. mrun.
  destruct (i <? 0) eqn:E1; [apply Z.ltb_lt in E1; lia|].
  rewrite Hx. reflexivity.
Qed.

(** An update of the fields of [bip] that keeps its inline array keeps
    every vector. *)
Lemma vec_at_update (k : kernel) (bip : Z)
    (bp bp' : bio_integrity_payload) (p : vec_ptr) :
  bips k !! bip = Some bp ->
  bip_inline_vecs bp' = bip_inline_vecs bp ->
  vec_at (set_bips (insert bip bp') k) p = vec_at k p.
Proof.
  intros Hp Hf. destruct p as [b|a]; cbn; [|reflexivity].
  destruct (decide (bip = b)) as [->|Hne].
  - rewrite lookup_insert_eq, Hp. cbn. rewrite Hf. reflexivity.
  - rewrite lookup_insert_ne by exact Hne. reflexivity.
Qed.

(** ** Adding a segment *)

Lemma own_inline_vecs_update (bip : Z) (vp : vec_ptr) (v : list bio_vec)
    (bp : bio_integrity_payload) f :
  (∀ p, bip_inline_vecs (f p) = bip_inline_vecs p) ->
  bip_inline_vecs (f (own_inline bip vp v bp))
  = bip_inline_vecs (own_inline bip vp v bp).
Proof. intros H. apply H. Qed.

(** Appending: entry [bip_vcnt] of the vector is written, the count and
    the byte total grow. *)
Lemma add_page_append (k : kernel) (b : bio) (bp : bio_integrity_payload)
    (vp : vec_ptr) (vec : list bio_vec) (bio bip page len offset : Z) :
  bios k !! bio = Some b ->
  bio_integrity b = Some bip ->
  bips k !! bip = Some bp ->
  bip_vec bp = Some vp ->
  vec_at k vp = Some vec ->
  0 <= bip_vcnt bp < Z.of_nat (length vec) ->
  (0 < bip_vcnt bp ->
   ∃ bv, vec !! Z.to_nat (bip_vcnt bp - 1) = Some bv
     ∧ bvec_try_merge_hw_page (limits (bi_bdev b)) bv page len offset = None
     ∧ bip_vcnt bp < Z.min (bip_max_vcnt bp)
                       (queue_max_integrity_segments (limits (bi_bdev b)))
     ∧ bvec_gap_to_prev (limits (bi_bdev b)) bv offset = false) ->
  add_page_appended k bio bip bp vp vec page len offset.
Proof.
  intros Hb Hi Hp Hv Hvec Hn Hpos.
  assert (Happ : ∀ vec' : list bio_vec,
    vec' = <[Z.to_nat (bip_vcnt bp) := BioVec page len offset]> vec ->
    ∃ k',
      (vp0 ← deref (bip_vec bp);
       vec_set vp0 (bip_vcnt bp) (BioVec page len offset);;
       bip_update bip (λ p, bip_with_vcnt (u16 (bip_vcnt p + 1)) p);;
       bip_update bip (λ p,
         bip_with_iter (iter_with_size (u32 (bi_size (bip_iter p) + len))
                          (bip_iter p)) p);;
       mret len) k = Ret len k'
      ∧ vec_at k' vp = Some vec'
      ∧ bips k' !! bip
        = Some (bip_add_size len
                  (bip_with_vcnt (u16 (bip_vcnt bp + 1))
                     (own_inline bip vp vec' bp)))
      ∧ bios k' = bios k ∧ trace k' = trace k ∧ mem k' = mem k).
  { intros vec' ->. rewrite Hv. mrun.
    rewrite (vec_set_run _ _ _ _ _ Hvec Hn). cbn beta iota. mrun.
    pose proof (vec_put_bips vp
      (<[Z.to_nat (bip_vcnt bp) := BioVec page len offset]> vec) k bip bp Hp)
      as Hp1.
    erewrite bip_update_run by exact Hp1. cbn beta iota. mrun.
    eexists. split; [reflexivity|]. kproj.
    assert (Hvc : bip_vcnt (own_inline bip vp
              (<[Z.to_nat (bip_vcnt bp) := BioVec page len offset]> vec) bp)
            = bip_vcnt bp).
    { destruct vp; cbn; [case_decide|]; reflexivity. }
    repeat split.
    - erewrite vec_at_update; [| solve_lookup | reflexivity].
      rewrite (vec_at_update _ _ _ _ _ Hp1) by reflexivity.
      apply (vec_put_at _ _ _ _ Hvec).
    - rewrite lookup_insert_eq. rewrite Hvc. reflexivity.
    - apply vec_put_bios.
    - apply vec_put_trace.
    - apply vec_put_mem. }
  unfold add_page_appended, bio_integrity_add_page. mrun. rewrite Hi. mrun.
  cbn zeta.
  destruct (0 <? bip_vcnt bp) eqn:Hz.
  - apply Z.ltb_lt in Hz. destruct (Hpos Hz) as (bv & Hbv & Hm & Hlim & Hgap).
    rewrite Hv. mrun.
    assert (Hge : 0 <= bip_vcnt bp - 1) by lia.
    rewrite (vec_get_run _ _ _ _ _ Hvec Hge Hbv). cbn beta iota.
    rewrite Hm.
    destruct (Z.min _ _ <=? bip_vcnt bp) eqn:E; [apply Z.leb_le in E; lia|].
    rewrite Hgap. rewrite <- Hv. apply Happ. reflexivity.
  - apply Happ. reflexivity.
Qed.

(** A successful merge check grows the segment by [len]. *)
Lemma bvec_try_merge_hw_page_some (q : queue_limits) (bv bv' : bio_vec)
    (page len offset : Z) :
  bvec_try_merge_hw_page q bv page len offset = Some bv' ->
  bv' = BioVec (bv_page bv) (bv_len bv + len) (bv_offset bv).
Proof.
  unfold bvec_try_merge_hw_page. intros Hm.
  repeat match type of Hm with
         | (if ?c then _ else _) = _ => destruct c; try discriminate
         end.
  injection Hm as <-. reflexivity.
Qed.

(** Merging: the last segment is replaced by the grown one and the byte
    total grows. *)
Lemma add_page_merge (k : kernel) (b : bio) (bp : bio_integrity_payload)
    (vp : vec_ptr) (vec : list bio_vec) (bv bv' : bio_vec)
    (bio bip page len offset : Z) :
  bios k !! bio = Some b ->
  bio_integrity b = Some bip ->
  bips k !! bip = Some bp ->
  bip_vec bp = Some vp ->
  vec_at k vp = Some vec ->
  0 < bip_vcnt bp ->
  vec !! Z.to_nat (bip_vcnt bp - 1) = Some bv ->
  bvec_try_merge_hw_page (limits (bi_bdev b)) bv page len offset = Some bv' ->
  add_page_merged k bio bip bp vp vec bv' page len offset.
Proof.
  intros Hb Hi Hp Hv Hvec Hpos Hbv Hm.
  assert (Hlast : (Z.to_nat (bip_vcnt bp - 1) < length vec)%nat)
    by (apply lookup_lt_is_Some; eexists; exact Hbv).
  unfold add_page_merged, bio_integrity_add_page. mrun. rewrite Hi. mrun.
  cbn zeta. apply Z.ltb_lt in Hpos as Hz. rewrite Hz. rewrite Hv. mrun.
  assert (Hge : 0 <= bip_vcnt bp - 1) by lia.
  rewrite (vec_get_run _ _ _ _ _ Hvec Hge Hbv). cbn beta iota.
  rewrite Hm. mrun.
  assert (Hr : 0 <= bip_vcnt bp - 1 < Z.of_nat (length vec)) by lia.
  rewrite (vec_set_run _ _ _ _ _ Hvec Hr). cbn beta iota. mrun.
  pose proof (vec_put_bips vp
    (<[Z.to_nat (bip_vcnt bp - 1) := bv']> vec) k bip bp Hp) as Hp1.
  erewrite bip_update_run by exact Hp1. cbn beta iota. mrun.
  eexists. split; [reflexivity|]. kproj. repeat split.
  - rewrite (vec_at_update _ _ _ _ _ Hp1) by reflexivity.
    apply (vec_put_at _ _ _ _ Hvec).
  - rewrite lookup_insert_eq. reflexivity.
  - apply vec_put_bios.
  - apply vec_put_trace.
  - apply vec_put_mem.
Qed.

(** Rejecting: no merge, and the count at the limit or a gap the device
    forbids. *)
Lemma add_page_reject (k : kernel) (b : bio) (bp : bio_integrity_payload)
    (vp : vec_ptr) (vec : list bio_vec) (bv : bio_vec)
    (bio bip page len offset : Z) :
  bios k !! bio = Some b ->
  bio_integrity b = Some bip ->
  bips k !! bip = Some bp ->
  bip_vec bp = Some vp ->
  vec_at k vp = Some vec ->
  0 < bip_vcnt bp ->
  vec !! Z.to_nat (bip_vcnt bp - 1) = Some bv ->
  bvec_try_merge_hw_page (limits (bi_bdev b)) bv page len offset = None ->
  (Z.min (bip_max_vcnt bp)
     (queue_max_integrity_segments (limits (bi_bdev b))) <=? bip_vcnt bp)
  || bvec_gap_to_prev (limits (bi_bdev b)) bv offset = true ->
  bio_integrity_add_page bio page len offset k = Ret 0 k.
Proof.
  intros Hb Hi Hp Hv Hvec Hpos Hbv Hm Hrej.
  unfold bio_integrity_add_page. mrun. rewrite Hi. mrun.
  cbn zeta. apply Z.ltb_lt in Hpos as Hz. rewrite Hz. rewrite Hv. mrun.
  assert (Hge : 0 <= bip_vcnt bp - 1) by lia.
  rewrite (vec_get_run _ _ _ _ _ Hvec Hge Hbv). cbn beta iota.
  rewrite Hm.
  destruct (Z.min _ _ <=? bip_vcnt bp); [reflexivity|].
  cbn [orb] in Hrej. rewrite Hrej. reflexivity.
Qed.

(** C2, as the code has it.  On a payload that holds at least one
    segment: when the new region follows the last segment in memory and
    the grown segment passes the device's merge check, the last segment
    grows by [len], the byte total grows by [len], the segment count
    stays and [len] is returned; otherwise, when the count has reached
    the smaller of [bip_max_vcnt] and the device's integrity segment
    limit, or the new segment would leave a gap the device forbids, 0 is
    returned and the state is unchanged; otherwise the segment is
    appended, count and byte total grow, and [len] is returned.  On an
    empty payload the segment is appended without a look at the limits.
    The count and the byte total wrap at their field widths. *)
Theorem bio_integrity_add_page_spec
    (k : kernel) (b : bio) (bp : bio_integrity_payload)
    (vp : vec_ptr) (vec : list bio_vec) (bio bip page len offset : Z) :
  bios k !! bio = Some b ->
  bio_integrity b = Some bip ->
  bips k !! bip = Some bp ->
  bip_vec bp = Some vp ->
  vec_at k vp = Some vec ->
  bip_max_vcnt bp <= Z.of_nat (length vec) ->
  let q := limits (bi_bdev b) in
  (∀ bv, 0 < bip_vcnt bp ->
     vec !! Z.to_nat (bip_vcnt bp - 1) = Some bv ->
     match bvec_try_merge_hw_page q bv page len offset with
     | Some bv' =>
         bv' = BioVec (bv_page bv) (bv_len bv + len) (bv_offset bv)
         ∧ add_page_merged k bio bip bp vp vec bv' page len offset
     | None =>
         if (Z.min (bip_max_vcnt bp) (queue_max_integrity_segments q)
               <=? bip_vcnt bp)
            || bvec_gap_to_prev q bv offset
         then bio_integrity_add_page bio page len offset k = Ret 0 k
         else add_page_appended k bio bip bp vp vec page len offset
     end)
  ∧ (bip_vcnt bp = 0 -> vec ≠ [] ->
     add_page_appended k bio bip bp vp vec page len offset).
Proof.
  intros Hb Hi Hp Hv Hvec Hcap q. split.
  - intros bv Hpos Hbv.
    assert (Hlast : (Z.to_nat (bip_vcnt bp - 1) < length vec)%nat)
      by (apply lookup_lt_is_Some; eexists; exact Hbv).
    destruct (bvec_try_merge_hw_page q bv page len offset) as [bv'|] eqn:Hm.
    + split; [exact (bvec_try_merge_hw_page_some _ _ _ _ _ _ Hm)|].
      apply (add_page_merge k b bp vp vec bv); assumption.
    + destruct ((Z.min (bip_max_vcnt bp) (queue_max_integrity_segments q)
                   <=? bip_vcnt bp) || bvec_gap_to_prev q bv offset) eqn:Hrej.
      * apply (add_page_reject k b bp vp vec bv bio bip); assumption.
      * apply orb_false_iff in Hrej as [Hlim Hgap].
        apply Z.leb_gt in Hlim.
        apply (add_page_append k b bp vp vec); try assumption.
        -- fold q in Hlim. lia.
        -- intros _. exists bv. repeat split; assumption.
  - intros Hz Hne. apply (add_page_append k b bp vp vec); try assumption.
    + rewrite Hz. destruct vec; [contradiction|]. cbn [length]. lia.
    + intros Hpos. lia.
Qed.

(** On the prepared write, 64 bytes that follow the segment in memory
    are merged into it. *)
Lemma bio_integrity_add_page_spec_witness :
  add_page_merged sample_prepared_write 1 500 sample_write_bip
    (InlineVecs 500) [BioVec 2 64 0] (BioVec 2 128 0) 2 64 64.
Proof.
  assert (Hm : bvec_try_merge_hw_page sample_limits (BioVec 2 64 0) 2 64 64
               = Some (BioVec 2 128 0)) by (vm_compute; reflexivity).
  destruct (bio_integrity_add_page_spec sample_prepared_write
              (bio_attached 500 sample_write) sample_write_bip
              (InlineVecs 500) [BioVec 2 64 0] 1 500 2 64 64) as [H _];
    try (vm_compute; reflexivity).
  - vm_compute. discriminate.
  - specialize (H (BioVec 2 64 0)).
    change (limits (bi_bdev (bio_attached 500 sample_write)))
      with sample_limits in H.
    rewrite Hm in H. apply H; vm_compute; reflexivity.
Defined.

(** C2, the limit clause refuted on an empty payload: on a device whose
    integrity segment limit is 0 the payload is at the limit, and the
    first segment is taken all the same. *)
Lemma add_page_takes_first_segment_at_limit : ¬ add_page_rejects_at_limit.
Proof.
  intros H.
  specialize (H nosegs_kernel (bio_attached 500 nosegs_write)
                (bip_fresh 1 1 (Some (InlineVecs 500)) 1) 1 500 2 64 0).
  assert (H' : bio_integrity_add_page 1 2 64 0 nosegs_kernel
               = Ret 0 nosegs_kernel).
  { apply H; vm_compute; try reflexivity. intros E; discriminate E. }
  vm_compute in H'. discriminate H'.
Qed.

(** ** Preparation *)

Lemma land_lor_same (x m : Z) : Z.land (Z.lor x m) m = m.
Proof.
  apply Z.bits_inj'. intros n Hn. rewrite Z.land_spec, Z.lor_spec.
  destruct (Z.testbit x n), (Z.testbit m n); reflexivity.
Qed.

Lemma bio_integrity_attached (bip : Z) (b : bio) :
  bio_integrity (bio_attached bip b) = Some bip.
Proof.
  unfold bio_integrity, bio_attached. cbn [bi_opf bio_with_opf bi_integrity].
  rewrite land_lor_same. reflexivity.
Qed.

Lemma kmalloc_inv (k k1 : kernel) (size gfp : Z) (r : option Z) :
  kmalloc size gfp k = Ret r k1 ->
  bios k1 = bios k ∧ bips k1 = bips k ∧ bvec_pool k1 = bvec_pool k
  ∧ trace k1 = trace k ∧ same_machine k k1
  ∧ (r = None -> mem k1 = mem k).
Proof.
  unfold kmalloc, same_machine.
  destruct (kmalloc_ans k) as [|[a|] rest].
  - intros [= <- <-]. repeat split.
  - destruct (nonzero (Z.land gfp __GFP_ZERO));
      intros [= <- <-]; repeat split; discriminate.
  - intros [= <- <-]. repeat split.
Qed.

Lemma u32_range (x : Z) : 0 <= u32 x < 2 ^ 32.
Proof. unfold u32. apply Z.mod_pos_bound. lia. Qed.

Lemma u32_small (x : Z) : 0 <= x < 2 ^ 32 -> u32 x = x.
Proof. intros H. unfold u32. apply Z.mod_small. exact H. Qed.

Lemma u16_small (x : Z) : 0 <= x < 2 ^ 16 -> u16 x = x.
Proof. intros H. unfold u16. apply Z.mod_small. exact H. Qed.

(** The error exit of [bio_integrity_prep]. *)
Lemma prep_err_end_io (k : kernel) (b : bio) (bio : Z) :
  bios k !! bio = Some b ->
  (bio_update bio (bio_with_status BLK_STS_RESOURCE);;
   bio_endio bio;; mret false) k
  = Ret false
      (set_trace (λ t, t ++ [EvEndio bio])
         (set_bios (insert bio (bio_with_status BLK_STS_RESOURCE b)) k)).
Proof. intros Hb. unfold bio_endio. mrun. reflexivity. Qed.

(** C6: when the buffer or the payload cannot be allocated,
    [bio_integrity_prep] sets the request's status to
    [BLK_STS_RESOURCE], signals its completion as the last thing it does
    and once only, and returns false; the request is left without a
    payload. *)
Theorem bio_integrity_prep_alloc_failure
    (k : kernel) (b : bio) (bi : blk_integrity) (bio gfp : Z) :
  bios k !! bio = Some b ->
  blk_get_integrity (bi_bdev b) = Some bi ->
  bio_sectors b ≠ 0 ->
  bio_integrity b = None ->
  bio_integrity_prep_switch bi b = Some gfp ->
  let len := bio_integrity_bytes bi (bio_sectors b) in
  ((∃ k1, kmalloc len gfp k = Ret None k1)
   ∨ (∃ buf k1 e k2,
        kmalloc len gfp k = Ret (Some buf) k1
        ∧ bio_integrity_alloc bio GFP_NOIO 1 k1 = Ret (ERR_PTR e) k2)) ->
  ∃ k' evs,
    bio_integrity_prep bio k = Ret false k'
    ∧ bios k' !! bio = Some (bio_with_status BLK_STS_RESOURCE b)
    ∧ bio_integrity (bio_with_status BLK_STS_RESOURCE b) = None
    ∧ trace k' = trace k ++ evs ++ [EvEndio bio]
    ∧ EvEndio bio ∉ evs.
Proof.
  intros Hb Hbi Hs Hi Hsw len Hfail.
  unfold bio_integrity_prep. mrun. rewrite Hbi.
  apply Z.eqb_neq in Hs. rewrite Hs.
  rewrite bool_decide_eq_false_2
    by (rewrite Hi; intros [? ?]; discriminate).
  rewrite Hsw. mrun. fold len.
  destruct Hfail as [[k1 Hk] | (buf & k1 & e & k2 & Hk & Ha)].
  - rewrite Hk. cbn beta iota.
    destruct (kmalloc_inv _ _ _ _ _ Hk) as (Hb1 & _ & _ & Ht1 & _).
    assert (Hbk1 : bios k1 !! bio = Some b) by (rewrite Hb1; exact Hb).
    eexists _, []. split; [exact (prep_err_end_io k1 b bio Hbk1)|].
    kproj. rewrite Ht1. repeat split.
    + apply lookup_insert_eq.
    + exact Hi.
    + apply not_elem_of_nil.
  - rewrite Hk. cbn beta iota. mrun.
    destruct (kmalloc_inv _ _ _ _ _ Hk) as (Hb1 & _ & _ & Ht1 & _).
    assert (Hbk1 : bios k1 !! bio = Some b) by (rewrite Hb1; exact Hb).
    rewrite Ha. cbn beta iota. mrun.
    destruct (bio_integrity_alloc_err _ _ _ _ _ _ _ Hbk1 Ha)
      as (Hb2 & _ & evs & Ht2 & Hne).
    unfold kfree. mrun.
    eexists _, (evs ++ [EvKfree buf]).
    split; [apply (prep_err_end_io _ b); kproj; rewrite Hb2; exact Hbk1|].
    kproj. repeat split.
    + apply lookup_insert_eq.
    + exact Hi.
    + rewrite Ht2, Ht1, <- !app_assoc. reflexivity.
    + intros Hin. apply elem_of_app in Hin as [Hin|Hin]; [exact (Hne Hin)|].
      apply list_elem_of_singleton in Hin. discriminate Hin.
Qed.

(** With nothing to allocate from, preparing the sample write fails
    the request. *)
Lemma bio_integrity_prep_alloc_failure_witness :
  ∃ k' evs,
    bio_integrity_prep 1 starved_kernel = Ret false k'
    ∧ bios k' !! 1 = Some (bio_with_status BLK_STS_RESOURCE sample_write)
    ∧ bio_integrity (bio_with_status BLK_STS_RESOURCE sample_write) = None
    ∧ trace k' = trace starved_kernel ++ evs ++ [EvEndio 1]
    ∧ EvEndio 1 ∉ evs.
Proof.
  assert (Hb : bios starved_kernel !! 1 = Some sample_write)
    by (vm_compute; reflexivity).
  assert (Hbi : blk_get_integrity (bi_bdev sample_write) = Some sample_profile)
    by reflexivity.
  assert (Hs : bio_sectors sample_write ≠ 0) by (vm_compute; discriminate).
  assert (Hi : bio_integrity sample_write = None) by reflexivity.
  assert (Hsw : bio_integrity_prep_switch sample_profile sample_write
                = Some GFP_NOIO) by reflexivity.
  exact (bio_integrity_prep_alloc_failure starved_kernel sample_write
           sample_profile 1 GFP_NOIO Hb Hbi Hs Hi Hsw
           (or_introl (ex_intro _ starved_kernel eq_refl))).
Defined.

Lemma prep_switch_some (bi : blk_integrity) (b : bio) (gfp : Z) :
  bio_integrity_prep_switch bi b = Some gfp ->
  (bio_op b = REQ_OP_READ
   ∧ Z.land (flags bi) BLK_INTEGRITY_NOVERIFY = 0)
  ∨ (bio_op b = REQ_OP_WRITE
     ∧ Z.land (flags bi) BLK_INTEGRITY_NOGENERATE = 0).
Proof.
  unfold bio_integrity_prep_switch, nonzero.
  destruct (bio_op b =? REQ_OP_READ) eqn:Hr.
  - apply Z.eqb_eq in Hr.
    destruct (Z.land (flags bi) BLK_INTEGRITY_NOVERIFY =? 0) eqn:E;
      cbn [negb]; [|discriminate].
    apply Z.eqb_eq in E. intros _. left. split; assumption.
  - destruct (bio_op b =? REQ_OP_WRITE) eqn:Hw; [|discriminate].
    apply Z.eqb_eq in Hw.
    destruct (Z.land (flags bi) BLK_INTEGRITY_NOGENERATE =? 0) eqn:E;
      cbn [negb]; [|discriminate].
    apply Z.eqb_eq in E. intros _. right. split; assumption.
Qed.

Lemma prep_switch_none (bi : blk_integrity) (b : bio) :
  bio_integrity_prep_switch bi b = None ->
  (bio_op b = REQ_OP_READ
   ∧ Z.land (flags bi) BLK_INTEGRITY_NOVERIFY ≠ 0)
  ∨ (bio_op b = REQ_OP_WRITE
     ∧ Z.land (flags bi) BLK_INTEGRITY_NOGENERATE ≠ 0)
  ∨ (bio_op b ≠ REQ_OP_READ ∧ bio_op b ≠ REQ_OP_WRITE).
Proof.
  unfold bio_integrity_prep_switch, nonzero.
  destruct (bio_op b =? REQ_OP_READ) eqn:Hr.
  - apply Z.eqb_eq in Hr.
    destruct (Z.land (flags bi) BLK_INTEGRITY_NOVERIFY =? 0) eqn:E;
      cbn [negb]; [discriminate|].
    apply Z.eqb_neq in E. intros _. left. split; assumption.
  - apply Z.eqb_neq in Hr.
    destruct (bio_op b =? REQ_OP_WRITE) eqn:Hw.
    + apply Z.eqb_eq in Hw.
      destruct (Z.land (flags bi) BLK_INTEGRITY_NOGENERATE =? 0) eqn:E;
        cbn [negb].
      * destruct (csum_type bi =? BLK_INTEGRITY_CSUM_NONE); discriminate.
      * apply Z.eqb_neq in E. intros _. right; left. split; assumption.
    + apply Z.eqb_neq in Hw. intros _. right; right. split; assumption.
Qed.

(** The no-op exits of [bio_integrity_prep]. *)
Lemma bio_integrity_prep_noop (k : kernel) (b : bio) (bio : Z) :
  bios k !! bio = Some b ->
  prep_noop b ->
  bio_integrity_prep bio k = Ret true k.
Proof.
  intros Hb Hn. unfold bio_integrity_prep. mrun.
  unfold prep_noop, prep_listed_noop in Hn.
  destruct (blk_get_integrity (bi_bdev b)) as [bi|]; [|reflexivity].
  destruct (bio_sectors b =? 0) eqn:Hs; [reflexivity|].
  apply Z.eqb_neq in Hs.
  destruct (bool_decide (is_Some (bio_integrity b))) eqn:Hi; [reflexivity|].
  apply bool_decide_eq_false_1 in Hi.
  destruct (bio_integrity_prep_switch bi b) as [gfp|] eqn:Hsw; [|reflexivity].
  exfalso. apply prep_switch_some in Hsw.
  unfold REQ_OP_READ, REQ_OP_WRITE in *.
  destruct Hn as [[?|[?|[[? ?]|[? ?]]]]|[? ?]], Hsw as [[? ?]|[? ?]];
    try contradiction; try congruence; lia.
Qed.

(** The generator stores the protection information in segment 0 of
    the payload. *)
Lemma blk_integrity_generate_run (k : kernel) (b : bio)
    (bp : bio_integrity_payload) (vp : vec_ptr) (vec : list bio_vec)
    (v0 : bio_vec) (bio bip : Z) :
  bios k !! bio = Some b ->
  bio_integrity b = Some bip ->
  bips k !! bip = Some bp ->
  bip_vec bp = Some vp ->
  vec_at k vp = Some vec ->
  vec !! 0%nat = Some v0 ->
  blk_integrity_generate bio k
  = Ret tt
      (set_mem
         (λ m, mem_write (bvec_virt v0)
                 (take (Z.to_nat (bv_len v0)) (csum_generate k m b bp)) m)
         (set_trace (λ t, t ++ [EvGenerate bio]) k)).
Proof.
  intros Hb Hi Hp Hv Hvec H0. unfold blk_integrity_generate, vec_get.
  mrun. rewrite Hi. mrun. rewrite Hv. mrun.
  change (0 <? 0) with false. change (Z.to_nat 0) with 0%nat.
  cbn beta iota. rewrite H0. mrun. reflexivity.
Qed.

(** Memory as the allocation of the buffer in [bio_integrity_prep]
    leaves it. *)
Lemma prep_kmalloc_mem (k k1 : kernel) (b : bio) (bi : blk_integrity)
    (gfp buf : Z) :
  bio_integrity_prep_switch bi b = Some gfp ->
  kmalloc (bio_integrity_bytes bi (bio_sectors b)) gfp k
  = Ret (Some buf) k1 ->
  mem k1 = prep_allocated (mem k) b bi buf.
Proof.
  intros Hsw Hk. unfold prep_allocated. revert Hk. unfold kmalloc.
  assert (Hz : nonzero (Z.land gfp __GFP_ZERO)
               = (bio_op b =? REQ_OP_WRITE)
                 && (csum_type bi =? BLK_INTEGRITY_CSUM_NONE)).
  { revert Hsw. unfold bio_integrity_prep_switch.
    destruct (bio_op b =? REQ_OP_READ) eqn:Hr.
    - apply Z.eqb_eq in Hr.
      assert (Hw : (bio_op b =? REQ_OP_WRITE) = false)
        by (rewrite Hr; reflexivity).
      rewrite Hw.
      destruct (nonzero _); [discriminate|]. intros [= <-]. reflexivity.
    - destruct (bio_op b =? REQ_OP_WRITE); [|discriminate].
      destruct (nonzero _); [discriminate|].
      destruct (csum_type bi =? BLK_INTEGRITY_CSUM_NONE);
        intros [= <-]; reflexivity. }
  rewrite Hz.
  destruct (kmalloc_ans k) as [|[a|] rest]; try discriminate.
  destruct ((bio_op b =? REQ_OP_WRITE)
            && (csum_type bi =? BLK_INTEGRITY_CSUM_NONE));
    intros [= <- <-]; reflexivity.
Qed.

(** A preparation whose two allocations succeed, taken apart: the
    payload it attaches, and memory, which a read leaves as it was and
    in which a write has the protection information of the generator
    over the buffer as it was allocated. *)
Lemma bio_integrity_prep_run (k k1 k2 : kernel) (b : bio)
    (bi : blk_integrity) (bio gfp buf bip : Z) :
  bios k !! bio = Some b ->
  blk_get_integrity (bi_bdev b) = Some bi ->
  bio_sectors b ≠ 0 ->
  bio_integrity b = None ->
  bio_integrity_prep_switch bi b = Some gfp ->
  kmalloc (bio_integrity_bytes bi (bio_sectors b)) gfp k
  = Ret (Some buf) k1 ->
  bio_integrity_alloc bio GFP_NOIO 1 k1 = Ret (Ptr bip) k2 ->
  ∃ k' bp, bio_integrity_prep bio k = Ret true k'
    ∧ prep_attached k k' b bi bio buf bip
    ∧ bips k' !! bip = Some bp
    ∧ mem k'
      = (if bio_op b =? REQ_OP_WRITE
         then mem_write buf
                (take (Z.to_nat (bio_integrity_bytes bi (bio_sectors b)))
                   (csum_generate k (prep_allocated (mem k) b bi buf)
                      (bio_attached bip b) bp))
                (prep_allocated (mem k) b bi buf)
         else mem k)
    ∧ same_machine k k'.
Proof.
  intros Hb Hbi Hs Hi Hsw Hk Ha.
  pose proof (prep_kmalloc_mem _ _ _ _ _ _ Hsw Hk) as Hm1.
  set (len := bio_integrity_bytes bi (bio_sectors b)) in *.
  unfold bio_integrity_prep. mrun. rewrite Hbi.
  apply Z.eqb_neq in Hs. rewrite Hs.
  rewrite bool_decide_eq_false_2
    by (rewrite Hi; intros [? ?]; discriminate).
  rewrite Hsw. mrun. fold len. rewrite Hk. cbn beta iota. mrun.
  destruct (kmalloc_inv _ _ _ _ _ Hk) as (Hb1 & _ & _ & Ht1 & Hs1 & _).
  assert (Hbk1 : bios k1 !! bio = Some b) by (rewrite Hb1; exact Hb).
  rewrite Ha. cbn beta iota. mrun.
  destruct (bio_integrity_alloc_ok _ _ _ _ _ _ _ Hbk1 Ha)
    as (maxv & vec & inline & Hbips2 & Hbios2 & Ht2 & Hm2 & Hs2 & Hshape).
  destruct Hshape as [(_ & H0 & _) | [(-> & _ & Hin & -> & _)
                        | (a & g & _ & _ & _ & _ & Hlt & _)]];
    [discriminate H0 | | unfold BIO_INLINE_VECS in Hlt; lia].
  assert (Hp2 : bips k2 !! bip
                = Some (bip_fresh bio (u16 1) (Some (InlineVecs bip)) inline))
    by (rewrite Hbips2; apply lookup_insert_eq).
  mrun.
  set (flg := if csum_type bi =? BLK_INTEGRITY_CSUM_IP
              then bip_or_flags BIP_IP_CHECKSUM else λ p, p).
  set (bp3 := flg (bip_set_seed (bi_sector (bi_iter b))
                     (bip_or_flags BIP_BLOCK_INTEGRITY
                        (bip_fresh bio (u16 1) (Some (InlineVecs bip))
                           inline)))).
  (* the state before the segment is added *)
  assert (Hpre : ∃ k3,
    (if csum_type bi =? BLK_INTEGRITY_CSUM_IP
     then bip_update bip (bip_or_flags BIP_IP_CHECKSUM) else mret tt)
      (set_bips
         (insert bip
            (bip_set_seed (bi_sector (bi_iter b))
               (bip_or_flags BIP_BLOCK_INTEGRITY
                  (bip_fresh bio (u16 1) (Some (InlineVecs bip)) inline))))
         (set_bips
            (insert bip
               (bip_or_flags BIP_BLOCK_INTEGRITY
                  (bip_fresh bio (u16 1) (Some (InlineVecs bip)) inline)))
            k2)) = Ret tt k3
    ∧ bips k3 !! bip = Some bp3 ∧ bios k3 = bios k2
    ∧ trace k3 = trace k2 ∧ mem k3 = mem k2 ∧ same_machine k2 k3).
  { unfold bp3, flg. destruct (csum_type bi =? BLK_INTEGRITY_CSUM_IP); mrun;
      eexists; (split; [reflexivity|]); kproj;
      repeat split; apply lookup_insert_eq. }
  destruct Hpre as (k3 & Hrun3 & Hp3 & Hb3 & Ht3 & Hm3 & Hs3).
  rewrite Hrun3. cbn beta iota. mrun.
  assert (Hbk3 : bios k3 !! bio = Some (bio_attached bip b)).
  { rewrite Hb3, Hbios2. apply lookup_insert_eq. }
  assert (Hvec3 : vec_at k3 (InlineVecs bip)
                  = Some (replicate (Z.to_nat inline) (BioVec 0 0 0))).
  { cbn. rewrite Hp3. unfold bp3, flg.
    destruct (csum_type bi =? BLK_INTEGRITY_CSUM_IP); reflexivity. }
  assert (Hvc3 : bip_vcnt bp3 = 0).
  { unfold bp3, flg.
    destruct (csum_type bi =? BLK_INTEGRITY_CSUM_IP); reflexivity. }
  assert (Hvp3 : bip_vec bp3 = Some (InlineVecs bip)).
  { unfold bp3, flg.
    destruct (csum_type bi =? BLK_INTEGRITY_CSUM_IP); reflexivity. }
  destruct (add_page_append k3 (bio_attached bip b) bp3 (InlineVecs bip)
              (replicate (Z.to_nat inline) (BioVec 0 0 0)) bio bip
              (virt_to_page buf) len (offset_in_page buf)
              Hbk3 (bio_integrity_attached bip b) Hp3 Hvp3 Hvec3)
    as (k4 & Hrun4 & Hvec4 & Hp4 & Hb4 & Ht4 & Hm4).
  { rewrite Hvc3, length_replicate. lia. }
  { rewrite Hvc3. lia. }
  pose proof (keeps_bio_integrity_add_page _ _ _ _ _ _ _ Hrun4) as Hs4.
  assert (Hsk4 : same_machine k k4).
  { eapply same_machine_trans; [exact Hs1|].
    eapply same_machine_trans; [exact Hs2|].
    eapply same_machine_trans; [exact Hs3|exact Hs4]. }
  assert (Hmk4 : mem k4 = prep_allocated (mem k) b bi buf)
    by (rewrite Hm4, Hm3, Hm2; exact Hm1).
  rewrite Hrun4. cbn beta iota. rewrite Z.ltb_irrefl.
  rewrite Hvc3 in Hp4, Hvec4. cbn [own_inline] in Hp4.
  rewrite decide_True in Hp4 by reflexivity.
  assert (Hlen : u32 (0 + len) = len).
  { rewrite Z.add_0_l. apply u32_small, u32_range. }
  assert (Hflags : bip_flags bp3 = prep_flags bi).
  { unfold bp3, flg, prep_flags.
    destruct (csum_type bi =? BLK_INTEGRITY_CSUM_IP); reflexivity. }
  assert (Hsz : bip_iter bp3 = BvecIter (bi_sector (bi_iter b)) 0 0 0).
  { unfold bp3, flg.
    destruct (csum_type bi =? BLK_INTEGRITY_CSUM_IP); reflexivity. }
  assert (Hmax : bip_max_vcnt bp3 = 1).
  { unfold bp3, flg.
    destruct (csum_type bi =? BLK_INTEGRITY_CSUM_IP); reflexivity. }
  assert (Hbb : bip_bio bp3 = bio).
  { unfold bp3, flg.
    destruct (csum_type bi =? BLK_INTEGRITY_CSUM_IP); reflexivity. }
  assert (Hbi3 : bio_iter bp3 = BvecIter 0 0 0 0).
  { unfold bp3, flg.
    destruct (csum_type bi =? BLK_INTEGRITY_CSUM_IP); reflexivity. }
  assert (Hseg : <[Z.to_nat 0 := BioVec (virt_to_page buf) len
                                    (offset_in_page buf)]>
                   (replicate (Z.to_nat inline) (BioVec 0 0 0)) !! 0%nat
                 = Some (BioVec (virt_to_page buf) len (offset_in_page buf))).
  { apply list_lookup_insert_eq. rewrite length_replicate. lia. }
  destruct (prep_switch_some _ _ _ Hsw) as [[Hop _]|[Hop _]].
  - (* read *)
    assert (Hdir : (bio_data_dir b =? WRITE) = false).
    { unfold bio_data_dir. rewrite Hop. reflexivity. }
    assert (Hw : (bio_op b =? REQ_OP_WRITE) = false)
      by (rewrite Hop; reflexivity).
    rewrite Hdir. mrun.
    eexists. eexists. split; [reflexivity|]. rewrite Hw.
    split; [|split; [kproj; apply lookup_insert_eq|split]].
    + unfold prep_attached. fold len.
      eexists. kproj. rewrite lookup_insert_eq.
      split; [rewrite Hb4; exact Hbk3|].
      split; [reflexivity|].
      cbn. rewrite Hsz. cbn. rewrite Hlen.
      repeat split; try assumption.
      * intros Hw'. rewrite Hop in Hw'. discriminate Hw'.
      * rewrite Ht4, Ht3, Ht2, Ht1. reflexivity.
    + kproj. rewrite Hmk4. unfold prep_allocated. rewrite Hw. reflexivity.
    + exact Hsk4.
  - (* write *)
    assert (Hdir : (bio_data_dir b =? WRITE) = true).
    { unfold bio_data_dir. rewrite Hop. reflexivity. }
    assert (Hw : (bio_op b =? REQ_OP_WRITE) = true)
      by (rewrite Hop; reflexivity).
    rewrite Hdir.
    assert (Hbk4 : bios k4 !! bio = Some (bio_attached bip b))
      by (rewrite Hb4; exact Hbk3).
    rewrite bind_run.
    erewrite (blk_integrity_generate_run k4 (bio_attached bip b) _
                (InlineVecs bip) _ _ bio bip Hbk4
                (bio_integrity_attached bip b) Hp4 Hvp3 Hvec4 Hseg).
    cbn beta iota. mrun.
    eexists. eexists. split; [reflexivity|]. rewrite Hw.
    split; [|split; [kproj; exact Hp4|split]].
    + unfold prep_attached. fold len.
      eexists. kproj.
      split; [exact Hbk4|].
      split; [exact Hp4|].
      cbn. rewrite Hsz. cbn. rewrite Hlen.
      repeat split; try assumption.
      * rewrite Ht4, Ht3, Ht2, Ht1. reflexivity.
      * rewrite Hop in *. discriminate.
      * rewrite Hop in *. discriminate.
    + kproj. rewrite bvec_virt_of_buf. cbn [bv_len].
      destruct Hsk4 as (_ & _ & _ & -> & _). rewrite Hmk4. reflexivity.
    + destruct Hsk4 as (? & ? & ? & ? & ?). repeat split; assumption.
Qed.

(** The payload a successful preparation attaches. *)
Lemma bio_integrity_prep_attaches (k k1 k2 : kernel) (b : bio)
    (bi : blk_integrity) (bio gfp buf bip : Z) :
  bios k !! bio = Some b ->
  blk_get_integrity (bi_bdev b) = Some bi ->
  bio_sectors b ≠ 0 ->
  bio_integrity b = None ->
  bio_integrity_prep_switch bi b = Some gfp ->
  kmalloc (bio_integrity_bytes bi (bio_sectors b)) gfp k
  = Ret (Some buf) k1 ->
  bio_integrity_alloc bio GFP_NOIO 1 k1 = Ret (Ptr bip) k2 ->
  ∃ k', bio_integrity_prep bio k = Ret true k'
    ∧ prep_attached k k' b bi bio buf bip.
Proof.
  intros Hb Hbi Hs Hi Hsw Hk Ha.
  destruct (bio_integrity_prep_run _ _ _ _ _ _ _ _ _ Hb Hbi Hs Hi Hsw Hk Ha)
    as (k' & bp & Hrun & Hatt & _).
  exists k'. split; assumption.
Qed.

(** C5, as the code has it.  [bio_integrity_prep] returns true and
    leaves the state as it was when no profile is bound to the device,
    the request has no sectors, a payload is attached already, the
    profile disables verification for a read or generation for a write,
    or the operation is neither a read nor a write.  In every other case
    the request is a read or a write the profile covers, and once the
    buffer and the payload are allocated the request carries a payload
    of one segment, the buffer, of [tuple_size] bytes per integrity
    interval of the request, seeded with the request's sector; checksums
    are generated at once for a write, and the request's iterator is
    recorded for a read. *)
Theorem bio_integrity_prep_spec (k : kernel) (b : bio) (bio : Z) :
  bios k !! bio = Some b ->
  (prep_noop b -> bio_integrity_prep bio k = Ret true k)
  ∧ (¬ prep_noop b ->
     ∃ bi gfp,
       blk_get_integrity (bi_bdev b) = Some bi
       ∧ bio_integrity_prep_switch bi b = Some gfp
       ∧ (bio_op b = REQ_OP_READ ∨ bio_op b = REQ_OP_WRITE)
       ∧ ∀ buf k1 bip k2,
           kmalloc (bio_integrity_bytes bi (bio_sectors b)) gfp k
           = Ret (Some buf) k1 ->
           bio_integrity_alloc bio GFP_NOIO 1 k1 = Ret (Ptr bip) k2 ->
           ∃ k', bio_integrity_prep bio k = Ret true k'
             ∧ prep_attached k k' b bi bio buf bip).
Proof.
  intros Hb. split.
  - apply bio_integrity_prep_noop. exact Hb.
  - intros Hn. unfold prep_noop, prep_listed_noop in Hn.
    destruct (blk_get_integrity (bi_bdev b)) as [bi|] eqn:Hbi;
      [|exfalso; apply Hn; left; exact I].
    destruct (bio_integrity_prep_switch bi b) as [gfp|] eqn:Hsw.
    + exists bi, gfp. split; [reflexivity|]. split; [exact Hsw|]. split.
      * destruct (prep_switch_some _ _ _ Hsw) as [[? _]|[? _]]; auto.
      * intros buf k1 bip k2 Hk Ha.
        apply (bio_integrity_prep_attaches k k1 k2 b bi bio gfp buf bip);
          try assumption.
        -- intros Hs. apply Hn. left; left. exact Hs.
        -- destruct (bio_integrity b) eqn:Hi; [|reflexivity].
           exfalso. apply Hn. left; right; left. eexists. reflexivity.
    + exfalso. apply Hn.
      destruct (prep_switch_none _ _ Hsw) as [H|[H|H]].
      * left. right; right; left. exact H.
      * left. right; right; right. exact H.
      * right. exact H.
Qed.

(** The sample write is prepared: a payload of 64 bytes at sector 100. *)
Lemma bio_integrity_prep_spec_witness :
  ∃ k', bio_integrity_prep 1 sample_kernel = Ret true k'
    ∧ prep_attached sample_kernel k' sample_write sample_profile 1 8192 500.
Proof.
  assert (Hb : bios sample_kernel !! 1 = Some sample_write)
    by (vm_compute; reflexivity).
  destruct (bio_integrity_prep_spec sample_kernel sample_write 1 Hb)
    as [_ H].
  destruct H as (bi & gfp & Hbi & Hsw & _ & Hrun).
  - unfold prep_noop, prep_listed_noop. vm_compute.
    intros [[H|[[x H]|[[H _]|[_ H]]]]|[_ H]];
      (discriminate H || (apply H; reflexivity)).
  - vm_compute in Hbi. injection Hbi as <-.
    vm_compute in Hsw. injection Hsw as <-.
    apply (Hrun 8192
             (exec (kmalloc 64 GFP_NOIO) sample_kernel) 500
             (exec (bio_integrity_alloc 1 GFP_NOIO 1)
                (exec (kmalloc 64 GFP_NOIO) sample_kernel)));
      vm_compute; reflexivity.
Defined.

(** C5, the equivalence refuted: a discard on a device with a profile
    meets none of the listed conditions, and preparing it is a no-op. *)
Lemma prep_skips_discard : ¬ prep_noop_exactly_when_listed.
Proof.
  intros H.
  destruct (H discard_kernel sample_discard 3) as [Hlisted _].
  { vm_compute. reflexivity. }
  assert (Hrun : bio_integrity_prep 3 discard_kernel = Ret true discard_kernel)
    by reflexivity.
  specialize (Hlisted Hrun). unfold prep_listed_noop in Hlisted.
  vm_compute in Hlisted.
  destruct Hlisted as [H1|[[x H1]|[[H1 _]|[H1 _]]]]; discriminate H1.
Qed.

(** ** Cloning *)

Lemma bio_integrity_alloc_from_answers
    (k k' : kernel) (b : bio) (bio gfp n p : Z) :
  bios k !! bio = Some b ->
  bio_integrity_alloc bio gfp n k = Ret (Ptr p) k' ->
  Some p ∈ kmalloc_ans k ++ mempool_ans k.
Proof.
  intros Hb. unfold bio_integrity_alloc. mrun.
  destruct (bio_has_crypt_ctx b); [discriminate|].
  destruct (pool_in_use (bi_pool b)) eqn:Hpool; cbn [negb]; mrun.
  - unfold mempool_alloc.
    destruct (mempool_ans k) as [|[a|] rest] eqn:Hans; mrun;
      try discriminate.
    unfold store_bip. mrun.
    assert (Hin : Some a ∈ kmalloc_ans k ++ Some a :: rest)
      by (apply elem_of_app; right; apply list_elem_of_here).
    destruct (BIO_INLINE_VECS <? n) eqn:Hn; mrun.
    + unfold bvec_alloc. kproj.
      destruct (bvec_ans k) as [|[[va g]|] vrest] eqn:Hv; mrun;
        try (unfold mempool_free; mrun; discriminate).
      intros [= <- <-]. exact Hin.
    + unfold nonzero. destruct (n =? 0); cbn [negb]; mrun;
        intros [= <- <-]; exact Hin.
  - unfold kmalloc_obj.
    destruct (kmalloc_ans k) as [|[a|] rest] eqn:Hans; mrun;
      try discriminate.
    unfold store_bip. mrun.
    assert (Hin : Some a ∈ (Some a :: rest) ++ mempool_ans k)
      by (apply elem_of_app; left; apply list_elem_of_here).
    rewrite Z.ltb_irrefl. unfold nonzero.
    destruct (n =? 0); cbn [negb]; mrun; intros [= <- <-]; exact Hin.
Qed.

Lemma u16_land (f m : Z) : 0 <= f < 2 ^ 16 -> u16 (Z.land f m) = Z.land f m.
Proof.
  intros Hf. unfold u16.
  rewrite <- (Z.land_ones _ 16) by lia.
  rewrite <- Z.land_assoc, (Z.land_comm m), Z.land_assoc.
  rewrite (Z.land_ones f 16) by lia.
  rewrite Z.mod_small by exact Hf. reflexivity.
Qed.

(** A successful [bio_integrity_clone], taken apart. *)
Lemma bio_integrity_clone_ok
    (k k' : kernel) (b bs : bio) (src : bio_integrity_payload)
    (bio bio_src bip_src gfp_mask : Z) :
  bios k !! bio = Some b ->
  bios k !! bio_src = Some bs ->
  bio_integrity bs = Some bip_src ->
  bips k !! bip_src = Some src ->
  0 <= bip_flags src < 2 ^ 16 ->
  allocator_fresh k ->
  bio_integrity_clone bio bio_src gfp_mask k = Ret 0 k' ->
  cloned k k' b bio bip_src src.
Proof.
  intros Hb Hbs Hi Hsrc Hfl Hfresh.
  unfold bio_integrity_clone. mrun. rewrite Hi. mrun.
  destruct (bio_integrity_alloc bio gfp_mask 0 k) as [[bip|e] k1|] eqn:Ha;
    [| | discriminate].
  2:{ intros [= -> <-].
      unfold bio_integrity_alloc in Ha. revert Ha. mrun.
      destruct (bio_has_crypt_ctx b); [discriminate|].
      destruct (pool_in_use (bi_pool b)); cbn [negb]; mrun.
      - unfold mempool_alloc.
        destruct (mempool_ans k) as [|[a|] rest]; mrun; try discriminate.
        unfold store_bip. mrun.
        change (BIO_INLINE_VECS <? 0) with false.
        change (nonzero 0) with false. cbn beta iota. mrun. discriminate.
      - unfold kmalloc_obj.
        destruct (kmalloc_ans k) as [|[a|] rest]; mrun; try discriminate.
        unfold store_bip. mrun.
        change (0 <? 0) with false.
        change (nonzero 0) with false. cbn beta iota. mrun. discriminate. }
  pose proof (bio_integrity_alloc_from_answers _ _ _ _ _ _ _ Hb Ha) as Hin.
  apply Hfresh in Hin.
  assert (Hne : bip ≠ bip_src) by (intros ->; congruence).
  destruct (bio_integrity_alloc_ok _ _ _ _ _ _ _ Hb Ha)
    as (maxv & vec & inline & Hbips1 & Hbios1 & Ht1 & Hm1 & _ & Hshape).
  destruct Hshape as [(-> & _ & -> & Hpool1) | [(_ & H0 & _)
                        | (a & g & _ & _ & _ & _ & Hlt & _)]];
    [ | contradiction H0; reflexivity | unfold BIO_INLINE_VECS in Hlt; lia].
  assert (Hsrc1 : bips k1 !! bip_src = Some src).
  { rewrite Hbips1, lookup_insert_ne by exact Hne. exact Hsrc. }
  assert (Hp1 : bips k1 !! bip = Some (bip_fresh bio 0 None inline)).
  { rewrite Hbips1. apply lookup_insert_eq. }
  mrun. intros [= <-]. unfold cloned.
  eexists bip, _. kproj.
  split; [exact Hne|].
  split; [rewrite Hbios1; apply lookup_insert_eq|].
  split; [apply lookup_insert_eq|].
  cbn [bip_max_vcnt bip_vcnt bip_vec bip_iter bip_flags bip_with_flags
       bip_with_iter bip_with_vec bip_fresh].
  rewrite u16_land by exact Hfl.
  repeat split; try assumption.
  - rewrite !lookup_insert_ne by exact Hne. exact Hsrc1.
  - intros p Hp. destruct p as [q|a]; cbn.
    + assert (q ≠ bip) by congruence.
      rewrite !lookup_insert_ne by congruence.
      rewrite Hbips1, lookup_insert_ne by congruence. reflexivity.
    + rewrite Hpool1. reflexivity.
Qed.

(** C9, as the code has it.  A successful clone attaches to the
    destination a payload allocated without vectors ([bip_max_vcnt] and
    [bip_vcnt] are 0), whose vector pointer is the source's, so that the
    two payloads read one array and none is allocated or copied; its
    cursor is the value of the source's cursor at that moment, held in
    the new payload, and its flags are the source's with
    [BIP_BLOCK_INTEGRITY] cleared.  The source payload is unchanged. *)
Theorem bio_integrity_clone_spec
    (k k' : kernel) (b bs : bio) (src : bio_integrity_payload)
    (bio bio_src bip_src gfp_mask : Z) :
  bios k !! bio = Some b ->
  bios k !! bio_src = Some bs ->
  bio_integrity bs = Some bip_src ->
  bips k !! bip_src = Some src ->
  0 <= bip_flags src < 2 ^ 16 ->
  allocator_fresh k ->
  bio_integrity_clone bio bio_src gfp_mask k = Ret 0 k' ->
  cloned k k' b bio bip_src src.
Proof.
  intros Hb Hbs Hi Hsrc Hfl Hfresh Hrun.
  exact (bio_integrity_clone_ok k k' b bs src bio bio_src bip_src gfp_mask
           Hb Hbs Hi Hsrc Hfl Hfresh Hrun).
Qed.

(** The sample write becomes a clone of the prepared read. *)
Lemma bio_integrity_clone_spec_witness :
  cloned sample_prepared_read sample_cloned sample_write 1 500
    sample_read_bip.
Proof.
  assert (Hb : bios sample_prepared_read !! 1 = Some sample_write)
    by (vm_compute; reflexivity).
  assert (Hbs : bios sample_prepared_read !! 2
                = Some (bio_attached 500 sample_read))
    by (vm_compute; reflexivity).
  assert (Hi : bio_integrity (bio_attached 500 sample_read) = Some 500)
    by (vm_compute; reflexivity).
  assert (Hsrc : bips sample_prepared_read !! 500 = Some sample_read_bip)
    by (vm_compute; reflexivity).
  assert (Hfl : 0 <= bip_flags sample_read_bip < 2 ^ 16)
    by (cbn; lia).
  assert (Hfresh : allocator_fresh sample_prepared_read).
  { intros a Hin.
    change (kmalloc_ans sample_prepared_read
            ++ mempool_ans sample_prepared_read) with [Some 600] in Hin.
    apply list_elem_of_singleton in Hin. injection Hin as ->.
    vm_compute. reflexivity. }
  assert (Hrun : bio_integrity_clone 1 2 GFP_NOIO sample_prepared_read
                 = Ret 0 sample_cloned)
    by (vm_compute; reflexivity).
  exact (bio_integrity_clone_spec sample_prepared_read sample_cloned
           sample_write (bio_attached 500 sample_read) sample_read_bip
           1 2 500 GFP_NOIO Hb Hbs Hi Hsrc Hfl Hfresh Hrun).
Defined.

(** C9, the shared cursor refuted: after the clone, advancing the
    prepared read by one sector moves its own cursor to sector 101 with
    56 bytes left, and the clone's stays at sector 100 with 64. *)
Lemma clone_copies_cursor : ¬ clone_shares_cursor.
Proof.
  intros H.
  specialize (H sample_prepared_read sample_cloned
                (exec (bio_integrity_advance 2 512) sample_cloned)
                (bio_attached 500 sample_read) 1 2 500 600 GFP_NOIO 512).
  assert (H' : bip_iter <$> bips (exec (bio_integrity_advance 2 512)
                                    sample_cloned) !! 600
               = bip_iter <$> bips (exec (bio_integrity_advance 2 512)
                                      sample_cloned) !! 500)
    by (apply H; vm_compute; reflexivity).
  vm_compute in H'. discriminate H'.
Qed.

(** ** Memory *)













(** ** Unpinning and unmapping *)

Lemma set_trace_app (k : kernel) (e1 e2 : list event) :
  set_trace (λ t, t ++ e2) (set_trace (λ t, t ++ e1) k)
  = set_trace (λ t, t ++ e1 ++ e2) k.
Proof. unfold set_trace. kproj. rewrite <- app_assoc. reflexivity. Qed.

Lemma set_trace_nil (k : kernel) : set_trace (λ t, t ++ []) k = k.
Proof. unfold set_trace. rewrite app_nil_r. destruct k; reflexivity. Qed.

Lemma unpin_bvecs_run (bv : list bio_vec) (dirty : bool) :
  ∀ k, unpin_bvecs bv dirty k
       = Ret tt (set_trace
                   (λ t, t ++ unpin_events (PageCompound k) bv dirty) k).
Proof.
  induction bv as [|v rest IH]; intros k.
  - cbn. mrun. rewrite set_trace_nil. reflexivity.
  - cbn [unpin_bvecs unpin_events flat_map]. mrun.
    unfold set_page_dirty_lock, unpin_user_page.
    destruct (dirty && negb (PageCompound k (bv_page v))); mrun;
      rewrite IH; kproj; rewrite ?set_trace_app; reflexivity.
Qed.

Lemma bio_integrity_unpin_bvec_run (bv : list bio_vec) (nr_vecs : Z)
    (dirty : bool) (k : kernel) :
  nr_vecs <= Z.of_nat (length bv) ->
  bio_integrity_unpin_bvec bv nr_vecs dirty k
  = Ret tt
      (set_trace
         (λ t, t ++ unpin_events (PageCompound k)
                      (take (Z.to_nat nr_vecs) bv) dirty) k).
Proof.
  intros H. unfold bio_integrity_unpin_bvec.
  destruct (Z.of_nat (length bv) <? nr_vecs) eqn:E;
    [apply Z.ltb_lt in E; lia|].
  apply unpin_bvecs_run.
Qed.

Lemma nonzero_true (x : Z) : x ≠ 0 -> nonzero x = true.
Proof. intros H. unfold nonzero. apply Z.eqb_neq in H. rewrite H. reflexivity. Qed.


(** Unmapping a write that was mapped in copy mode: the bounce buffer
    is freed, and nothing else happens. *)
Lemma unmap_copy_write (k : kernel) (b : bio) (bp : bio_integrity_payload)
    (vp : vec_ptr) (bounce : bio_vec) (rest : list bio_vec)
    (bio bip : Z) :
  bios k !! bio = Some b ->
  bio_integrity b = Some bip ->
  bips k !! bip = Some bp ->
  Z.land (bip_flags bp) BIP_COPY_USER ≠ 0 ->
  bio_data_dir b = WRITE ->
  bip_vec bp = Some vp ->
  vec_at k vp = Some (bounce :: rest) ->
  bio_integrity_unmap_user bio k
  = Ret tt (set_trace (λ t, t ++ [EvKfree (bvec_virt bounce)]) k).
Proof.
  intros Hb Hi Hp Hfl Hdir Hv Hvec.
  unfold bio_integrity_unmap_user. mrun. rewrite Hi. mrun.
  rewrite (nonzero_true _ Hfl). rewrite Hdir. cbn [Z.eqb READ WRITE]. mrun.
  rewrite Hv. mrun.
  erewrite (vec_get_run vp 0 _ (bounce :: rest) bounce);
    [| exact Hvec | lia | reflexivity].
  cbn beta iota. unfold kfree. mrun. reflexivity.
Qed.

(** ** Mapping a user buffer *)

Lemma bio_integrity_alloc_err_code
    (k k' : kernel) (b : bio) (bio gfp n e : Z) :
  bios k !! bio = Some b ->
  bio_integrity_alloc bio gfp n k = Ret (ERR_PTR e) k' ->
  e < 0.
Proof.
  intros Hb. unfold bio_integrity_alloc. mrun.
  destruct (bio_has_crypt_ctx b).
  { intros [= <- _]. reflexivity. }
  destruct (pool_in_use (bi_pool b)) eqn:Hpool; cbn [negb]; mrun.
  - unfold mempool_alloc.
    destruct (mempool_ans k) as [|[a|] rest] eqn:Hans; mrun;
      try (intros [= <- _]; reflexivity).
    unfold store_bip. mrun.
    destruct (BIO_INLINE_VECS <? n) eqn:Hn; mrun.
    + unfold bvec_alloc. kproj.
      destruct (bvec_ans k) as [|[[va g]|] vrest] eqn:Hv; mrun;
        try discriminate;
        unfold mempool_free; mrun; intros [= <- _]; reflexivity.
    + unfold nonzero. destruct (n =? 0); cbn [negb]; mrun; discriminate.
  - unfold kmalloc_obj.
    destruct (kmalloc_ans k) as [|[a|] rest] eqn:Hans; mrun;
      try (intros [= <- _]; reflexivity).
    unfold store_bip. mrun.
    rewrite Z.ltb_irrefl. unfold nonzero.
    destruct (n =? 0); cbn [negb]; mrun; discriminate.
Qed.

Lemma vec_memcpy_run (p : vec_ptr) (i : Z) (src vec : list bio_vec)
    (k : kernel) :
  vec_at k p = Some vec ->
  0 <= i -> i + Z.of_nat (length src) <= Z.of_nat (length vec) ->
  vec_memcpy p i src k
  = Ret tt (vec_put p (take (Z.to_nat i) vec ++ src
                         ++ drop (Z.to_nat i + length src) vec) k).
Proof.
  intros Hv Hi Hlen. unfold vec_memcpy. mrun.
  destruct (i <? 0) eqn:E1; [apply Z.ltb_lt in E1; lia|].
  destruct (Z.of_nat (length vec) <? i + Z.of_nat (length src)) eqn:E2;
    [apply Z.ltb_lt in E2; lia|].
  cbn [orb]. apply (vec_store_run _ _ _ vec Hv).
Qed.

Lemma kmalloc_kernel_inv (k k1 : kernel) (size : Z) (r : option Z) :
  kmalloc size GFP_KERNEL k = Ret r k1 ->
  match r with
  | Some buf =>
      ∃ rest, kmalloc_ans k = Some buf :: rest
        ∧ k1 = set_kmalloc_ans (λ _, rest) k
  | None => True
  end.
Proof.
  unfold kmalloc. change (nonzero (Z.land GFP_KERNEL __GFP_ZERO)) with false.
  destruct (kmalloc_ans k) as [|[a|] rest]; intros [= <- <-]; try exact I.
  exists rest. split; reflexivity.
Qed.

(** The successful run of [bio_integrity_copy_user] for a write. *)
Lemma copy_user_write_ok (k k' : kernel) (b : bio) (bvec : list bio_vec)
    (bio nr len seed : Z) :
  bios k !! bio = Some b ->
  0 <= len < 2 ^ 32 ->
  bio_integrity_copy_user bio bvec nr len ITER_SOURCE seed k = Ret 0 k' ->
  ∃ buf, copy_user_written k k' b bio bvec nr len seed buf.
Proof.
  intros Hb Hlen. unfold bio_integrity_copy_user.
  change (ITER_SOURCE =? ITER_SOURCE) with true. cbn beta iota zeta. mrun.
  destruct (kmalloc len GFP_KERNEL k) as [[buf|] k1|] eqn:Hk; cbn beta iota;
    [| discriminate | discriminate].
  apply kmalloc_kernel_inv in Hk as (rest & Hans & ->).
  mrun. unfold copy_from_iter_full. rewrite Z.min_id. kproj.
  destruct (gather (take (Z.to_nat nr) bvec) buf len (mem k))
    as [m2 c] eqn:Hg.
  cbn beta iota.
  destruct (c =? len) eqn:Hc; mrun; [|discriminate].
  apply Z.eqb_eq in Hc. subst c.
  set (k2 := set_trace (λ t, t ++ [EvCopyFromIter buf len])
               (set_mem (λ _, m2) (set_kmalloc_ans (λ _, rest) k))).
  assert (Hb2 : bios k2 !! bio = Some b) by exact Hb.
  destruct (bio_integrity_alloc bio GFP_KERNEL 1 k2) as [[bip|e] k3|] eqn:Ha;
    cbn beta iota; mrun; [| | discriminate].
  2:{ pose proof (bio_integrity_alloc_err_code _ _ _ _ _ _ _ Hb2 Ha).
      unfold kfree. mrun. intros [= -> _]. lia. }
  destruct (bio_integrity_alloc_ok _ _ _ _ _ _ _ Hb2 Ha)
    as (maxv & vec & inline & Hbips3 & Hbios3 & Ht3 & Hm3 & Hmach3 & Hshape).
  destruct Hshape as [(_ & H0 & _) | [(-> & _ & Hin & -> & _)
                        | (a & g & _ & _ & _ & _ & Hlt & _)]];
    [discriminate H0 | | unfold BIO_INLINE_VECS in Hlt; lia].
  unfold bio_integrity_unpin_bvec.
  destruct (Z.of_nat (length bvec) <? nr) eqn:Hnr; mrun; [discriminate|].
  rewrite unpin_bvecs_run. cbn beta iota.
  set (bp3 := bip_fresh bio (u16 1) (Some (InlineVecs bip)) inline).
  set (k4 := set_trace _ k3).
  assert (Hp4 : bips k4 !! bip = Some bp3)
    by (unfold k4; kproj; rewrite Hbips3; apply lookup_insert_eq).
  assert (Hb4 : bios k4 !! bio = Some (bio_attached bip b))
    by (unfold k4; kproj; rewrite Hbios3; apply lookup_insert_eq).
  assert (Hvec4 : vec_at k4 (InlineVecs bip)
                  = Some (replicate (Z.to_nat inline) (BioVec 0 0 0)))
    by (unfold vec_at; rewrite Hp4; reflexivity).
  destruct (add_page_append k4 (bio_attached bip b) bp3 (InlineVecs bip)
              (replicate (Z.to_nat inline) (BioVec 0 0 0)) bio bip
              (virt_to_page buf) len (offset_in_page buf)
              Hb4 (bio_integrity_attached bip b) Hp4 eq_refl Hvec4)
    as (k5 & Hrun5 & Hvec5 & Hp5 & Hb5 & Ht5 & Hm5).
  { cbn [bip_vcnt bp3 bip_fresh]. rewrite length_replicate. lia. }
  { cbn [bip_vcnt bp3 bip_fresh]. lia. }
  rewrite bind_run, Hrun5. cbn beta iota. rewrite Z.eqb_refl. cbn [negb].
  mrun.
  intros [= <-]. exists buf. unfold copy_user_written.
  eexists rest, m2, bip, _. kproj. rewrite lookup_insert_eq.
  split; [exact Hans|]. split; [exact Hg|].
  split; [rewrite Hm5; unfold k4; kproj; rewrite Hm3; reflexivity|].
  split; [rewrite Hb5; exact Hb4|].
  split; [reflexivity|].
  unfold bip_add_size, bp3, bip_fresh. bipproj.
  rewrite Z.add_0_l, (u32_small len Hlen).
  repeat split.
  - vm_compute. discriminate.
  - apply list_lookup_insert_eq. rewrite length_replicate. lia.
  - rewrite Ht5. unfold k4. kproj. rewrite Ht3. unfold k2. kproj.
    destruct Hmach3 as (_ & _ & -> & _). rewrite <- app_assoc. reflexivity.
Qed.

Lemma own_inline_vcnt bip p v bp :
  bip_vcnt (own_inline bip p v bp) = bip_vcnt bp.
Proof. destruct p; cbn; [case_decide|]; reflexivity. Qed.

Lemma own_inline_vec bip p v bp :
  bip_vec (own_inline bip p v bp) = bip_vec bp.
Proof. destruct p; cbn; [case_decide|]; reflexivity. Qed.

Lemma own_inline_max_vcnt bip p v bp :
  bip_max_vcnt (own_inline bip p v bp) = bip_max_vcnt bp.
Proof. destruct p; cbn; [case_decide|]; reflexivity. Qed.

Lemma own_inline_flags bip p v bp :
  bip_flags (own_inline bip p v bp) = bip_flags bp.
Proof. destruct p; cbn; [case_decide|]; reflexivity. Qed.

Lemma own_inline_iter bip p v bp :
  bip_iter (own_inline bip p v bp) = bip_iter bp.
Proof. destruct p; cbn; [case_decide|]; reflexivity. Qed.

(** After a successful allocation of [n] vectors, [n] not 0, the
    payload points at an array of zero entries with room for its
    [bip_max_vcnt] vectors. *)
Lemma bio_integrity_alloc_vec (k k' : kernel) (b : bio) (bio gfp n p : Z) :
  bios k !! bio = Some b ->
  n ≠ 0 ->
  bio_integrity_alloc bio gfp n k = Ret (Ptr p) k' ->
  ∃ maxv vp inline cap,
    bips k' !! p = Some (bip_fresh bio maxv (Some vp) inline)
    ∧ bios k' !! bio = Some (bio_attached p b)
    ∧ vec_at k' vp = Some (replicate cap (BioVec 0 0 0))
    ∧ trace k' = trace k ∧ mem k' = mem k
    ∧ PageCompound k' = PageCompound k
    ∧ ((vp = InlineVecs p ∧ maxv = u16 n ∧ n <= Z.of_nat cap)
       ∨ (∃ a, vp = PoolVecs a ∧ maxv = Z.of_nat cap ∧ maxv < 2 ^ 16)).
Proof.
  intros Hb Hn Ha.
  destruct (bio_integrity_alloc_ok _ _ _ _ _ _ _ Hb Ha)
    as (maxv & vec & inline & Hbips & Hbios & Ht & Hm & (_ & _ & Hpc & _) & Hshape).
  assert (Hp : bips k' !! p = Some (bip_fresh bio maxv vec inline))
    by (rewrite Hbips; apply lookup_insert_eq).
  assert (Hb' : bios k' !! bio = Some (bio_attached p b))
    by (rewrite Hbios; apply lookup_insert_eq).
  destruct Hshape as [(_ & H0 & _) | [(-> & _ & Hin & -> & _)
                        | (a & g & -> & -> & Hg & _ & _ & Hpool)]];
    [contradiction | |].
  - exists (u16 n), (InlineVecs p), inline, (Z.to_nat inline).
    repeat split; try assumption.
    + unfold vec_at. rewrite Hp. reflexivity.
    + left. repeat split. lia.
  - exists g, (PoolVecs a), inline, (Z.to_nat g).
    repeat split; try assumption.
    + unfold vec_at. rewrite Hpool. apply lookup_insert_eq.
    + right. exists a. repeat split; lia.
Qed.

(** The successful run of [bio_integrity_copy_user] for a read. *)
Lemma copy_user_read_ok (k k' : kernel) (b : bio) (bvec : list bio_vec)
    (bio nr len seed : Z) :
  bios k !! bio = Some b ->
  0 <= len < 2 ^ 32 ->
  0 <= nr ->
  bio_integrity_copy_user bio bvec nr len ITER_DEST seed k = Ret 0 k' ->
  ∃ buf, copy_user_read_mapped k k' b bio bvec nr len seed buf.
Proof.
  intros Hb Hlen Hnr. unfold bio_integrity_copy_user.
  change (ITER_DEST =? ITER_SOURCE) with false. cbn beta iota zeta. mrun.
  destruct (kmalloc len GFP_KERNEL k) as [[buf|] k1|] eqn:Hk; cbn beta iota;
    [| discriminate | discriminate].
  apply kmalloc_kernel_inv in Hk as (rest & Hans & ->).
  mrun.
  set (k2 := set_mem (mem_fill buf len 0) (set_kmalloc_ans (λ _, rest) k)).
  assert (Hb2 : bios k2 !! bio = Some b) by exact Hb.
  destruct (bio_integrity_alloc bio GFP_KERNEL (nr + 1) k2)
    as [[bip|e] k3|] eqn:Ha; cbn beta iota; mrun; [| | discriminate].
  2:{ pose proof (bio_integrity_alloc_err_code _ _ _ _ _ _ _ Hb2 Ha).
      unfold kfree. mrun. intros [= -> _]. lia. }
  assert (Hn1 : nr + 1 ≠ 0) by lia.
  destruct (bio_integrity_alloc_vec _ _ _ _ _ _ _ Hb2 Hn1 Ha)
    as (maxv & vp & inline & cap & Hp3 & Hb3 & Hvec3 & Ht3 & Hm3 & _ & Hshape).
  mrun. bipproj. unfold bip_fresh at 1. bipproj. mrun.
  set (src := take (Z.to_nat nr) bvec).
  unfold vec_memcpy. mrun. change (1 <? 0) with false. cbn [orb].
  rewrite length_replicate.
  destruct (Z.of_nat cap <? 1 + Z.of_nat (length src)) eqn:Hcap; mrun;
    [discriminate|].
  apply Z.ltb_ge in Hcap.
  rewrite (vec_store_run _ _ _ _ Hvec3). cbn beta iota.
  change (Z.to_nat 1) with 1%nat.
  set (vec1 := take 1 (replicate cap (BioVec 0 0 0)) ++ src
               ++ drop (1 + length src) (replicate cap (BioVec 0 0 0))).
  set (bp3 := bip_fresh bio maxv (Some vp) inline) in *.
  set (k4 := vec_put vp vec1 k3).
  assert (Hp4 : bips k4 !! bip = Some (own_inline bip vp vec1 bp3))
    by (apply vec_put_bips; exact Hp3).
  assert (Hb4 : bios k4 !! bio = Some (bio_attached bip b))
    by (unfold k4; rewrite vec_put_bios; exact Hb3).
  assert (Hvec4 : vec_at k4 vp = Some vec1)
    by (apply (vec_put_at _ _ _ _ Hvec3)).
  assert (Hl1 : length vec1 = cap).
  { unfold vec1. rewrite !length_app, length_take, length_drop,
      !length_replicate. lia. }
  destruct (add_page_append k4 (bio_attached bip b)
              (own_inline bip vp vec1 bp3) vp vec1 bio bip
              (virt_to_page buf) len (offset_in_page buf)
              Hb4 (bio_integrity_attached bip b) Hp4
              (own_inline_vec _ _ _ _) Hvec4)
    as (k5 & Hrun5 & Hvec5 & Hp5 & Hb5 & Ht5 & Hm5).
  { rewrite own_inline_vcnt, Hl1. cbn. lia. }
  { rewrite own_inline_vcnt. cbn. lia. }
  rewrite own_inline_vcnt in Hvec5, Hp5.
  change (bip_vcnt bp3) with 0 in Hvec5, Hp5.
  change (Z.to_nat 0) with 0%nat in Hvec5, Hp5.
  rewrite bind_run, Hrun5. cbn beta iota. rewrite Z.eqb_refl. cbn [negb].
  mrun.
  intros [= <-]. exists buf. unfold copy_user_read_mapped.
  eexists rest, bip, _, vp,
    (drop (1 + length src) (replicate cap (BioVec 0 0 0))).
  kproj. rewrite lookup_insert_eq.
  split; [exact Hans|].
  split; [rewrite Hm5; unfold k4; rewrite vec_put_mem, Hm3; reflexivity|].
  split; [rewrite Hb5; exact Hb4|].
  split; [reflexivity|].
  split.
  { unfold bip_add_size. bipproj. rewrite !own_inline_flags.
    vm_compute. discriminate. }
  split; [reflexivity|].
  split.
  { unfold bip_add_size. bipproj. rewrite !own_inline_iter.
    unfold bp3, bip_fresh. bipproj. rewrite Z.add_0_l.
    apply (u32_small len Hlen). }
  split; [reflexivity|].
  split.
  { unfold bip_add_size. bipproj. rewrite !own_inline_vec. reflexivity. }
  split.
  { erewrite vec_at_update; [| solve_lookup | reflexivity].
    erewrite vec_at_update; [| solve_lookup | reflexivity].
    erewrite vec_at_update; [| exact Hp5 | reflexivity].
    rewrite Hvec5. f_equal. unfold vec1.
    destruct cap as [|cap']; [cbn in Hcap; lia|]. reflexivity. }
  split.
  { unfold bip_add_size. bipproj. rewrite !own_inline_max_vcnt.
    unfold bp3, bip_fresh. bipproj.
    destruct Hshape as [(_ & -> & _)|(a & -> & Hmx & _)];
      [left; reflexivity | right; exists a; split; [reflexivity|]].
    rewrite Hmx. fold src.
    rewrite length_app, length_drop, length_replicate. lia. }
  rewrite Ht5. unfold k4. rewrite vec_put_trace, Ht3. reflexivity.
Qed.

(** The successful run of [bio_integrity_init_user]. *)
Lemma init_user_ok (k k' : kernel) (b : bio) (bvec : list bio_vec)
    (bio nr len seed : Z) :
  bios k !! bio = Some b ->
  0 <= nr ->
  bio_integrity_init_user bio bvec nr len seed k = Ret 0 k' ->
  init_user_mapped k k' b bio bvec nr len seed.
Proof.
  intros Hb Hnr. unfold bio_integrity_init_user. mrun.
  destruct (bio_integrity_alloc bio GFP_KERNEL nr k)
    as [[bip|e] k3|] eqn:Ha; cbn beta iota; mrun; [| | discriminate].
  2:{ pose proof (bio_integrity_alloc_err_code _ _ _ _ _ _ _ Hb Ha).
      intros [= -> _]. lia. }
  destruct (decide (nr = 0)) as [->|Hn0].
  - destruct (bio_integrity_alloc_ok _ _ _ _ _ _ _ Hb Ha)
      as (maxv & vec & inline & Hbips3 & Hbios3 & Ht3 & Hm3 & _ & Hshape).
    destruct Hshape as [(-> & _ & -> & _) | [(_ & H0 & _)
                          | (a & g & _ & _ & _ & _ & Hlt & _)]];
      [ | contradiction H0; reflexivity | unfold BIO_INLINE_VECS in Hlt; lia].
    assert (Hp3 : bips k3 !! bip = Some (bip_fresh bio 0 None inline))
      by (rewrite Hbips3; apply lookup_insert_eq).
    mrun. unfold bip_fresh at 1. bipproj. change (0 =? 0) with true.
    cbn beta iota. mrun.
    intros [= <-]. unfold init_user_mapped. eexists bip, _. kproj.
    rewrite lookup_insert_eq.
    split; [rewrite Hbios3; apply lookup_insert_eq|].
    split; [reflexivity|].
    unfold bip_fresh. bipproj.
    repeat split; try assumption.
    + intros _ _. reflexivity.
    + left. split; reflexivity.
  - destruct (bio_integrity_alloc_vec _ _ _ _ _ _ _ Hb Hn0 Ha)
      as (maxv & vp & inline & cap & Hp3 & Hb3 & Hvec3 & Ht3 & Hm3 & _
          & Hshape).
    mrun. unfold bip_fresh at 1. bipproj. mrun.
    set (src := take (Z.to_nat nr) bvec).
    unfold vec_memcpy. mrun. change (0 <? 0) with false. cbn [orb].
    rewrite length_replicate.
    destruct (Z.of_nat cap <? 0 + Z.of_nat (length src)) eqn:Hcap; mrun;
      [discriminate|].
    apply Z.ltb_ge in Hcap.
    rewrite (vec_store_run _ _ _ _ Hvec3). cbn beta iota.
    change (Z.to_nat 0) with 0%nat. cbn [take Nat.add app].
    set (vec1 := src ++ drop (length src) (replicate cap (BioVec 0 0 0))).
    set (bp3 := bip_fresh bio maxv (Some vp) inline) in *.
    assert (Hp4 : bips (vec_put vp vec1 k3) !! bip
                  = Some (own_inline bip vp vec1 bp3))
      by (apply vec_put_bips; exact Hp3).
    mrun. intros [= <-]. unfold init_user_mapped. eexists bip, _. kproj.
    rewrite lookup_insert_eq.
    split; [rewrite vec_put_bios; exact Hb3|].
    split; [reflexivity|].
    split.
    { bipproj. rewrite own_inline_flags. reflexivity. }
    split; [reflexivity|].
    split.
    { bipproj. rewrite own_inline_iter. reflexivity. }
    split.
    { intros Hle Hlt. bipproj. rewrite own_inline_max_vcnt.
      unfold bp3, bip_fresh. bipproj.
      rewrite (u16_small nr) by lia.
      assert (Hls : length src = Z.to_nat nr)
        by (unfold src; rewrite length_take; lia).
      destruct Hshape as [(_ & -> & Hc)|(a & _ & -> & _)].
      - rewrite u16_small by lia. lia.
      - lia. }
    split.
    { right. exists vp, (drop (length src) (replicate cap (BioVec 0 0 0))).
      split.
      - bipproj. rewrite own_inline_vec. reflexivity.
      - erewrite vec_at_update; [| solve_lookup | reflexivity].
        erewrite vec_at_update; [| solve_lookup | reflexivity].
        erewrite vec_at_update; [| exact Hp4 | reflexivity].
        apply (vec_put_at _ _ _ _ Hvec3). }
    split.
    { rewrite vec_put_trace. exact Ht3. }
    rewrite vec_put_mem. exact Hm3.
Qed.

(** ** Coalescing pages into segments *)

Lemma only_trace_refl (k : kernel) : only_trace k k.
Proof. exists []. symmetry. apply set_trace_nil. Qed.

Lemma only_trace_trans (k1 k2 k3 : kernel) :
  only_trace k1 k2 -> only_trace k2 k3 -> only_trace k1 k3.
Proof.
  intros [e1 ->] [e2 ->]. exists (e1 ++ e2). apply set_trace_app.
Qed.

Lemma only_trace_step (k : kernel) (e : event) :
  only_trace k (set_trace (λ t, t ++ [e]) k).
Proof. exists [e]. reflexivity. Qed.

(** The inner loop: what it adds to the segment it takes from the
    bytes left, a page's worth for each page it joins. *)
Lemma bvec_from_pages_run_spec (fuel : nat) :
  ∀ (pages : list Z) (nr_vecs folio j size bytes : Z) (k k' : kernel)
    (j' size' bytes' : Z),
    bvec_from_pages_run fuel pages nr_vecs folio j size bytes k
    = Ret (j', size', bytes') k' ->
    0 <= bytes -> j <= nr_vecs ->
    j <= j' <= nr_vecs
    ∧ size' = size + (bytes - bytes')
    ∧ bytes' = Z.max 0 (bytes - (j' - j) * PAGE_SIZE)
    ∧ only_trace k k'.
Proof.
  induction fuel as [|fuel IH];
    intros pages nr_vecs folio j size bytes k k' j' size' bytes' Hrun Hb Hj.
  - cbn in Hrun. injection Hrun as <- <- <- <-.
    repeat split; try lia. apply only_trace_refl.
  - cbn [bvec_from_pages_run] in Hrun.
    destruct (j <? nr_vecs) eqn:Hlt.
    2:{ injection Hrun as <- <- <- <-.
        repeat split; try lia. apply only_trace_refl. }
    apply Z.ltb_lt in Hlt. revert Hrun. mrun.
    destruct (pages !! Z.to_nat j) as [pj|]; mrun; [|discriminate].
    destruct (pages !! Z.to_nat (j - 1)) as [pj1|]; mrun; [|discriminate].
    destruct (negb (page_folio k pj =? folio) || negb (pj =? pj1 + 1)).
    + intros [= <- <- <- <-]. repeat split; try lia. apply only_trace_refl.
    + unfold unpin_user_page. mrun. intros Hrun.
      apply IH in Hrun as (Hj' & Hs & Hby & Htr);
        [| unfold PAGE_SIZE; lia | lia].
      repeat split; try lia.
      * unfold PAGE_SIZE in *. lia.
      * eapply only_trace_trans; [apply only_trace_step | exact Htr].
Qed.

(** The outer loop: the segments it writes are of non-negative length,
    at most one for each page left, and together take the bytes left, up
    to what the pages left can hold. *)
Lemma bvec_from_pages_loop_spec (fuel : nat) :
  ∀ (pages : list Z) (nr_vecs i bytes offset : Z) (acc : list bio_vec)
    (k k' : kernel) (r : list bio_vec),
    bvec_from_pages_loop fuel pages nr_vecs i bytes offset acc k
    = Ret r k' ->
    0 <= bytes -> 0 <= offset <= PAGE_SIZE ->
    nr_vecs - i <= Z.of_nat fuel ->
    ∃ new, r = acc ++ new
      ∧ segs_len new
        = (if i <? nr_vecs
           then Z.min bytes ((nr_vecs - i) * PAGE_SIZE - offset) else 0)
      ∧ Forall (λ v, 0 <= bv_len v) new
      ∧ Z.of_nat (length new) <= Z.max 0 (nr_vecs - i)
      ∧ only_trace k k'.
Proof.
  induction fuel as [|fuel IH];
    intros pages nr_vecs i bytes offset acc k k' r Hrun Hb Ho Hf.
  - cbn in Hrun. injection Hrun as <- <-.
    exists []. rewrite app_nil_r.
    destruct (i <? nr_vecs) eqn:E; [apply Z.ltb_lt in E; lia|].
    cbn. repeat split; try lia; [constructor | apply only_trace_refl].
  - cbn [bvec_from_pages_loop] in Hrun.
    destruct (i <? nr_vecs) eqn:Hlt.
    2:{ injection Hrun as <- <-. exists []. rewrite app_nil_r. cbn.
        apply Z.ltb_ge in Hlt.
        repeat split; try lia; [constructor | apply only_trace_refl]. }
    apply Z.ltb_lt in Hlt. revert Hrun. mrun.
    destruct (pages !! Z.to_nat i) as [pi|]; mrun; [|discriminate].
    destruct (bvec_from_pages_run (Z.to_nat nr_vecs) pages nr_vecs
                (page_folio k pi) (i + 1)
                (Z.min bytes (PAGE_SIZE - offset))
                (bytes - Z.min bytes (PAGE_SIZE - offset)) k)
      as [[[j' size'] bytes'] k1|] eqn:Hin; [|discriminate].
    cbn beta iota. intros Hrun.
    apply bvec_from_pages_run_spec in Hin as (Hj' & Hs & Hby & Htr1);
      [| lia | lia].
    apply IH in Hrun as (new & -> & Hsum & Hwf & Hlen & Htr2);
      [| lia | unfold PAGE_SIZE; lia | lia].
    exists (BioVec pi size' offset :: new).
    rewrite <- app_assoc. split; [reflexivity|].
    split.
    { change (segs_len (BioVec pi size' offset :: new))
        with (size' + segs_len new).
      rewrite Hsum. unfold PAGE_SIZE in *.
      destruct (j' <? nr_vecs) eqn:E;
        [apply Z.ltb_lt in E | apply Z.ltb_ge in E]; lia. }
    split.
    { constructor; [cbn; unfold PAGE_SIZE in *; lia | exact Hwf]. }
    split.
    { cbn [length]. lia. }
    eapply only_trace_trans; [exact Htr1 | exact Htr2].
Qed.

Lemma only_trace_same_store (k k' : kernel) :
  only_trace k k' -> same_store k k'.
Proof. intros [evs ->]. repeat split. Qed.

Lemma same_store_trans (k1 k2 k3 : kernel) :
  same_store k1 k2 -> same_store k2 k3 -> same_store k1 k3.
Proof.
  unfold same_store, same_machine.
  intros (? & ? & ? & ? & ? & ? & ? & ? & ?)
         (? & ? & ? & ? & ? & ? & ? & ? & ?).
  repeat split; congruence.
Qed.

Lemma pin_user_pages_trace (pages : list Z) :
  ∀ k, ∃ k', pin_user_pages pages k = Ret tt k' ∧ only_trace k k'.
Proof.
  induction pages as [|p rest IH]; intros k.
  - exists k. split; [reflexivity | apply only_trace_refl].
  - cbn [pin_user_pages]. mrun.
    destruct (IH (set_trace (λ t, t ++ [EvPin p]) k)) as (k' & Hrun & Htr).
    exists k'. split; [exact Hrun|].
    eapply only_trace_trans; [apply only_trace_step | exact Htr].
Qed.

Lemma iov_iter_npages_covers (ubuf bytes : Z) :
  0 <= bytes ->
  iov_iter_npages ubuf bytes (BIO_MAX_VECS + 1) <= BIO_MAX_VECS ->
  let nr := iov_iter_npages ubuf bytes (BIO_MAX_VECS + 1) in
  0 <= nr
  ∧ (if 0 <? nr
     then Z.min bytes (nr * PAGE_SIZE - offset_in_page ubuf) else 0)
    = bytes
  ∧ bytes <= nr * PAGE_SIZE.
Proof.
  intros Hb Hle nr. unfold nr, iov_iter_npages in *.
  unfold offset_in_page, PAGE_SIZE, BIO_MAX_VECS in *.
  pose proof (Z.mod_pos_bound ubuf 4096 ltac:(lia)) as Ho.
  destruct (bytes =? 0) eqn:E.
  - apply Z.eqb_eq in E. subst. cbn. lia.
  - apply Z.eqb_neq in E.
    set (d := (ubuf mod 4096 + bytes + 4096 - 1) / 4096) in *.
    assert (Hd : 4096 * d <= ubuf mod 4096 + bytes + 4096 - 1
                 < 4096 * d + 4096).
    { pose proof (Z.div_mod (ubuf mod 4096 + bytes + 4096 - 1) 4096
                    ltac:(lia)) as Hdm.
      pose proof (Z.mod_pos_bound (ubuf mod 4096 + bytes + 4096 - 1) 4096
                    ltac:(lia)).
      fold d in Hdm. lia. }
    destruct (0 <? Z.min d (256 + 1)) eqn:E2;
      [apply Z.ltb_lt in E2 | apply Z.ltb_ge in E2]; lia.
Qed.

(** A successful [bio_integrity_map_user], taken apart: the request had
    no payload; the pages of the buffer were pinned and coalesced into
    segments [bvec] that take exactly [bytes] bytes; and the payload was
    then built by [bio_integrity_copy_user] or by
    [bio_integrity_init_user], as [map_user_copies] says. *)
Lemma bio_integrity_map_user_ok
    (k k' : kernel) (b : bio) (bio ubuf bytes seed : Z) :
  bios k !! bio = Some b ->
  bio_integrity_map_user bio ubuf bytes seed k = Ret 0 k' ->
  ∃ bvec k4 k5,
    bio_integrity b = None
    ∧ 0 <= bytes <= BIO_MAX_VECS * PAGE_SIZE
    ∧ segs_len bvec = bytes
    ∧ Forall (λ v, 0 <= bv_len v) bvec
    ∧ Z.of_nat (length bvec) <= BIO_MAX_VECS
    ∧ same_store k k4
    ∧ (if map_user_copies b ubuf bytes (Z.of_nat (length bvec))
       then bio_integrity_copy_user bio bvec (Z.of_nat (length bvec)) bytes
              (map_user_direction b) seed k4 = Ret 0 k5
       else bio_integrity_init_user bio bvec (Z.of_nat (length bvec)) bytes
              seed k4 = Ret 0 k5)
    ∧ only_trace k5 k'.
Proof.
  intros Hb. unfold bio_integrity_map_user. mrun.
  destruct (bool_decide (is_Some (bio_integrity b))) eqn:Hi; [discriminate|].
  apply bool_decide_eq_false_1 in Hi.
  assert (Hnone : bio_integrity b = None).
  { destruct (bio_integrity b); [|reflexivity].
    exfalso. apply Hi. eexists. reflexivity. }
  destruct (queue_max_hw_sectors (limits (bi_bdev b))
            <? Z.shiftr bytes SECTOR_SHIFT) eqn:Hhw; [discriminate|].
  cbn zeta.
  set (nr := iov_iter_npages ubuf bytes (BIO_MAX_VECS + 1)).
  destruct (BIO_MAX_VECS <? nr) eqn:Hnr; [discriminate|].
  apply Z.ltb_ge in Hnr. mrun.
  (* the temporary vector *)
  assert (Hstage : ∃ r k1,
    (if UIO_FASTIOV <? nr
     then a ← kmalloc_obj GFP_KERNEL;
          mret (match a with
                | Some a0 => Some (Some a0)
                | None => None
                end)
     else mret (Some None)) k = Ret r k1 ∧ same_store k k1).
  { destruct (UIO_FASTIOV <? nr); mrun.
    - unfold kmalloc_obj.
      destruct (kmalloc_ans k) as [|[a|] rest]; eexists _, _;
        (split; [reflexivity | repeat split]).
    - eexists _, _. split; [reflexivity | repeat split]. }
  destruct Hstage as (r & k1 & -> & Hs1). cbn beta iota.
  destruct r as [heap|]; [|intros Hx; cbv in Hx; discriminate Hx]. mrun.
  (* the pages *)
  unfold iov_iter_extract_pages. mrun.
  destruct (user_pages (user_pt k1) (ubuf / PAGE_SIZE) (Z.to_nat nr))
    as [pages|]; mrun.
  2:{ change (- EFAULT <? 0) with true. cbn beta iota.
      destruct heap; unfold kfree; mrun; discriminate. }
  destruct (pin_user_pages_trace pages k1) as (k2 & -> & Htr2).
  cbn beta iota. mrun.
  destruct (bytes <? 0) eqn:Hneg.
  { apply Z.ltb_lt in Hneg.
    destruct heap; unfold kfree; mrun; intros [= -> _]; lia. }
  apply Z.ltb_ge in Hneg.
  (* the segments *)
  rewrite bind_run.
  destruct (bvec_from_pages pages nr bytes (offset_in_page ubuf) k2)
    as [bvec k3|] eqn:Hfp; [|discriminate].
  cbn beta iota. mrun.
  unfold bvec_from_pages in Hfp.
  apply bvec_from_pages_loop_spec in Hfp
    as (new & -> & Hsum & Hwf & Hlen & Htr3);
    [| exact Hneg
     | unfold offset_in_page, PAGE_SIZE;
       pose proof (Z.mod_pos_bound ubuf 4096 ltac:(lia)); lia
     | lia].
  cbn [app] in *.
  destruct (iov_iter_npages_covers ubuf bytes Hneg Hnr)
    as (Hnr0 & Hcov & Hmaxb).
  fold nr in Hnr0, Hcov. rewrite Z.sub_0_r in Hsum, Hlen.
  rewrite Hcov in Hsum.
  assert (Hstage4 : ∃ k4,
    (if UIO_FASTIOV <? nr then emit EvKvfreePages else mret tt) k3
    = Ret tt k4 ∧ only_trace k3 k4).
  { destruct (UIO_FASTIOV <? nr); mrun; eexists;
      (split; [reflexivity|]);
      [apply only_trace_step | apply only_trace_refl]. }
  destruct Hstage4 as (k4 & -> & Htr4). cbn beta iota.
  assert (Hs4 : same_store k k4).
  { eapply same_store_trans; [exact Hs1|].
    apply only_trace_same_store.
    eapply only_trace_trans; [exact Htr2|].
    eapply only_trace_trans; [exact Htr3 | exact Htr4]. }
  change (if queue_max_integrity_segments (limits (bi_bdev b))
             <? Z.of_nat (length new)
          then true
          else negb (iov_iter_is_aligned ubuf bytes
                       (blk_lim_dma_alignment_and_pad (limits (bi_bdev b)))
                       (blk_lim_dma_alignment_and_pad (limits (bi_bdev b)))))
    with (map_user_copies b ubuf bytes (Z.of_nat (length new))).
  change (if bio_data_dir b =? READ then ITER_DEST else ITER_SOURCE)
    with (map_user_direction b).
  set (copy := map_user_copies b ubuf bytes (Z.of_nat (length new))).
  rewrite bind_run.
  destruct ((if copy
             then bio_integrity_copy_user bio new (Z.of_nat (length new))
                    bytes (map_user_direction b) seed
             else bio_integrity_init_user bio new (Z.of_nat (length new))
                    bytes seed) k4) as [ret k5|] eqn:Hbuild;
    [|discriminate].
  cbn beta iota.
  destruct (nonzero ret) eqn:Hret.
  { rewrite bind_run, bio_integrity_unpin_bvec_run by lia. cbn beta iota.
    unfold nonzero in Hret. apply negb_true_iff, Z.eqb_neq in Hret.
    destruct heap; unfold kfree; mrun; intros [= -> _]; contradiction. }
  unfold nonzero in Hret. apply negb_false_iff, Z.eqb_eq in Hret. subst ret.
  intros Hfin.
  assert (Htr5 : only_trace k5 k').
  { destruct heap; revert Hfin; unfold kfree; mrun; intros [= <-];
      [apply only_trace_step | apply only_trace_refl]. }
  exists new, k4, k5.
  repeat split; try assumption; try apply Hs4.
  - fold nr in Hmaxb. unfold BIO_MAX_VECS, PAGE_SIZE in *. lia.
  - unfold BIO_MAX_VECS in *. lia.
  - unfold copy in Hbuild.
    destruct (map_user_copies b ubuf bytes (Z.of_nat (length new)));
      exact Hbuild.
Qed.

Lemma take_length_all {A} (l : list A) :
  take (Z.to_nat (Z.of_nat (length l))) l = l.
Proof. rewrite Nat2Z.id. apply firstn_all. Qed.

(** ** Pins in the trace of a mapping *)

Lemma pinned_pages_app (e1 e2 : list event) :
  pinned_pages (e1 ++ e2) = pinned_pages e1 ++ pinned_pages e2.
Proof. apply flat_map_app. Qed.

Lemma unpinned_pages_app (e1 e2 : list event) :
  unpinned_pages (e1 ++ e2) = unpinned_pages e1 ++ unpinned_pages e2.
Proof. apply flat_map_app. Qed.

Lemma unpin_events_unpinned (c : Z -> bool) (bv : list bio_vec) (d : bool) :
  unpinned_pages (unpin_events c bv d) = map bv_page bv.
Proof.
  induction bv as [|v bv IH]; [reflexivity|].
  change (unpin_events c (v :: bv) d)
    with (((if d && negb (c (bv_page v))
            then [EvSetPageDirty (bv_page v)] else [])
           ++ [EvUnpin (bv_page v)]) ++ unpin_events c bv d).
  rewrite !unpinned_pages_app, IH.
  destruct (d && negb (c (bv_page v))); reflexivity.
Qed.

Lemma unpin_events_pinned (c : Z -> bool) (bv : list bio_vec) (d : bool) :
  pinned_pages (unpin_events c bv d) = [].
Proof.
  induction bv as [|v bv IH]; [reflexivity|].
  change (unpin_events c (v :: bv) d)
    with (((if d && negb (c (bv_page v))
            then [EvSetPageDirty (bv_page v)] else [])
           ++ [EvUnpin (bv_page v)]) ++ unpin_events c bv d).
  rewrite !pinned_pages_app, IH.
  destruct (d && negb (c (bv_page v))); reflexivity.
Qed.

(** The inner loop runs to its end: it unpins the pages it joins, which
    are those from [j] on that follow their predecessor within the
    folio, and stops at the first that does not. *)
Lemma bvec_from_pages_run_total (fuel : nat) :
  ∀ (pages : list Z) (nr_vecs folio j size bytes : Z) (k : kernel),
    nr_vecs = Z.of_nat (length pages) ->
    1 <= j <= nr_vecs ->
    nr_vecs - j <= Z.of_nat fuel ->
    ∃ j' size' bytes',
      bvec_from_pages_run fuel pages nr_vecs folio j size bytes k
      = Ret (j', size', bytes')
          (set_trace
             (λ t, t ++ map EvUnpin
                          (take (Z.to_nat (j' - j))
                             (drop (Z.to_nat j) pages))) k)
      ∧ j <= j' <= nr_vecs
      ∧ (∀ m, j <= m < j' -> joins (page_folio k) folio pages m = true)
      ∧ (j' < nr_vecs -> joins (page_folio k) folio pages j' = false).
Proof.
  induction fuel as [|fuel IH];
    intros pages nr_vecs folio j size bytes k Hnr Hj Hfuel.
  - exists j, size, bytes. cbn [bvec_from_pages_run].
    rewrite Z.sub_diag. cbn [Z.to_nat take map]. rewrite set_trace_nil.
    repeat split; try lia.
  - cbn [bvec_from_pages_run].
    destruct (j <? nr_vecs) eqn:Hlt.
    2:{ apply Z.ltb_ge in Hlt. exists j, size, bytes.
        rewrite Z.sub_diag. cbn [Z.to_nat take map]. rewrite set_trace_nil.
        repeat split; try lia. }
    apply Z.ltb_lt in Hlt.
    destruct (lookup_lt_is_Some_2 pages (Z.to_nat j) ltac:(lia)) as [pj Hpj].
    destruct (lookup_lt_is_Some_2 pages (Z.to_nat (j - 1)) ltac:(lia))
      as [pj1 Hpj1].
    mrun. rewrite Hpj. mrun. rewrite Hpj1. mrun.
    assert (Hjoin : joins (page_folio k) folio pages j
                    = (page_folio k pj =? folio) && (pj =? pj1 + 1)).
    { unfold joins. rewrite Hpj, Hpj1. reflexivity. }
    rewrite <- negb_andb, <- Hjoin.
    destruct (joins (page_folio k) folio pages j) eqn:Hjj; cbn [negb].
    + unfold unpin_user_page. mrun.
      destruct (IH pages nr_vecs folio (j + 1) (size + Z.min PAGE_SIZE bytes)
                  (bytes - Z.min PAGE_SIZE bytes)
                  (set_trace (λ t, t ++ [EvUnpin pj]) k) Hnr
                  ltac:(lia) ltac:(lia))
        as (j' & size' & bytes' & Hrun & Hj' & Hall & Hstop).
      exists j', size', bytes'. rewrite Hrun. kproj.
      split.
      { rewrite set_trace_app. do 3 f_equal.
        replace (Z.to_nat (j' - j)) with (S (Z.to_nat (j' - (j + 1))))
          by lia.
        erewrite (drop_S pages pj (Z.to_nat j)) by exact Hpj.
        replace (Z.to_nat (j + 1)) with (S (Z.to_nat j)) by lia.
        reflexivity. }
      split; [lia|]. split; [|exact Hstop].
      intros m Hm. destruct (decide (m = j)) as [->|Hne]; [exact Hjj|].
      apply Hall. lia.
    + exists j, size, bytes.
      rewrite Z.sub_diag. cbn [Z.to_nat take map]. rewrite set_trace_nil.
      repeat split; try lia. intros _. exact Hjj.
Qed.

(** The outer loop runs to its end: each page from [i] on either heads
    a segment or is unpinned; the first segment starts at [offset] in
    page [i], the others at 0. *)
Lemma bvec_from_pages_loop_total (fuel : nat) :
  ∀ (pages : list Z) (nr_vecs i bytes offset : Z) (acc : list bio_vec)
    (k : kernel),
    nr_vecs = Z.of_nat (length pages) ->
    0 <= i <= nr_vecs ->
    nr_vecs - i <= Z.of_nat fuel ->
    ∃ new ups,
      bvec_from_pages_loop fuel pages nr_vecs i bytes offset acc k
      = Ret (acc ++ new) (set_trace (λ t, t ++ map EvUnpin ups) k)
      ∧ map bv_page new ++ ups ≡ₚ drop (Z.to_nat i) pages
      ∧ (∀ v, new !! 0%nat = Some v ->
           bv_offset v = offset ∧ pages !! Z.to_nat i = Some (bv_page v))
      ∧ (∀ n v, new !! S n = Some v -> bv_offset v = 0).
Proof.
  induction fuel as [|fuel IH];
    intros pages nr_vecs i bytes offset acc k Hnr Hi Hfuel.
  - exists [], []. cbn [bvec_from_pages_loop map]. mrun.
    rewrite app_nil_r, set_trace_nil. split; [reflexivity|].
    rewrite drop_ge by lia. repeat split; try discriminate. reflexivity.
  - cbn [bvec_from_pages_loop].
    destruct (i <? nr_vecs) eqn:Hlt.
    2:{ apply Z.ltb_ge in Hlt. exists [], []. cbn [map]. mrun.
        rewrite app_nil_r, set_trace_nil. split; [reflexivity|].
        rewrite drop_ge by lia. repeat split; try discriminate.
        reflexivity. }
    apply Z.ltb_lt in Hlt.
    destruct (lookup_lt_is_Some_2 pages (Z.to_nat i) ltac:(lia)) as [pi Hpi].
    mrun. rewrite Hpi. mrun.
    destruct (bvec_from_pages_run_total (Z.to_nat nr_vecs) pages nr_vecs
                (page_folio k pi) (i + 1)
                (Z.min bytes (PAGE_SIZE - offset))
                (bytes - Z.min bytes (PAGE_SIZE - offset)) k Hnr
                ltac:(lia) ltac:(lia))
      as (j & size' & bytes' & Hrun & Hj & _ & _).
    rewrite Hrun. cbn beta iota.
    destruct (IH pages nr_vecs j bytes' 0
                (acc ++ [BioVec pi size' offset])
                (set_trace
                   (λ t, t ++ map EvUnpin
                                (take (Z.to_nat (j - (i + 1)))
                                   (drop (Z.to_nat (i + 1)) pages))) k)
                Hnr ltac:(lia) ltac:(lia))
      as (new & ups & Hloop & Hperm & Hfirst & Hoff).
    exists (BioVec pi size' offset :: new),
      (take (Z.to_nat (j - (i + 1))) (drop (Z.to_nat (i + 1)) pages) ++ ups).
    rewrite Hloop. split.
    { rewrite set_trace_app, <- app_assoc, map_app. reflexivity. }
    split.
    { cbn [map bv_page app].
      erewrite (drop_S pages pi (Z.to_nat i)) by exact Hpi.
      apply Permutation_skip.
      rewrite (app_assoc (map bv_page new)).
      rewrite (Permutation_app_comm (map bv_page new)).
      rewrite <- app_assoc, Hperm.
      replace (Z.to_nat (i + 1)) with (S (Z.to_nat i)) by lia.
      replace (Z.to_nat j)
        with (S (Z.to_nat i) + Z.to_nat (j - (i + 1)))%nat by lia.
      rewrite <- drop_drop, take_drop. reflexivity. }
    split.
    { intros v [= <-]. split; reflexivity. }
    intros [|n] v Hv; cbn in Hv.
    + exact (proj1 (Hfirst v Hv)).
    + exact (Hoff n v Hv).
Qed.

Lemma pin_user_pages_run (pages : list Z) :
  ∀ k, pin_user_pages pages k
       = Ret tt (set_trace (λ t, t ++ map EvPin pages) k).
Proof.
  induction pages as [|p rest IH]; intros k.
  - cbn. mrun. rewrite set_trace_nil. reflexivity.
  - cbn [pin_user_pages]. mrun. rewrite IH, set_trace_app. reflexivity.
Qed.

Lemma user_pages_length (pt : Z -> option Z) (n : nat) :
  ∀ vpn pages, user_pages pt vpn n = Some pages -> length pages = n.
Proof.
  induction n as [|n IH]; intros vpn pages; cbn [user_pages].
  - intros [= <-]. reflexivity.
  - destruct (pt vpn); [|discriminate].
    destruct (user_pages pt (vpn + 1) n) eqn:E; [|discriminate].
    intros [= <-]. cbn [length]. f_equal. exact (IH _ _ E).
Qed.

Lemma pinned_pages_pins (pages : list Z) :
  pinned_pages (map EvPin pages) = pages.
Proof.
  induction pages as [|p l IH]; [reflexivity|].
  change (pinned_pages (map EvPin (p :: l)))
    with (p :: pinned_pages (map EvPin l)).
  rewrite IH. reflexivity.
Qed.

Lemma unpinned_pages_pins (pages : list Z) :
  unpinned_pages (map EvPin pages) = [].
Proof.
  induction pages as [|p l IH]; [reflexivity|].
  change (unpinned_pages (map EvPin (p :: l)))
    with (unpinned_pages (map EvPin l)).
  exact IH.
Qed.

Lemma pinned_pages_unpins (pages : list Z) :
  pinned_pages (map EvUnpin pages) = [].
Proof.
  induction pages as [|p l IH]; [reflexivity|].
  change (pinned_pages (map EvUnpin (p :: l)))
    with (pinned_pages (map EvUnpin l)).
  exact IH.
Qed.

Lemma unpinned_pages_unpins (pages : list Z) :
  unpinned_pages (map EvUnpin pages) = pages.
Proof.
  induction pages as [|p l IH]; [reflexivity|].
  change (unpinned_pages (map EvUnpin (p :: l)))
    with (p :: unpinned_pages (map EvUnpin l)).
  rewrite IH. reflexivity.
Qed.

Lemma free_bvec_events_pins (heap : option Z) :
  pinned_pages (free_bvec_events heap) = []
  ∧ unpinned_pages (free_bvec_events heap) = [].
Proof. destruct heap; split; reflexivity. Qed.

(** The segments [bvec_from_pages] makes of an array of pages depend
    on the state through the folio of each page alone. *)
Lemma bvec_from_pages_run_folio (fuel : nat) :
  ∀ (pages : list Z) (nr_vecs folio j size bytes : Z) (k k0 : kernel),
    page_folio k0 = page_folio k ->
    match bvec_from_pages_run fuel pages nr_vecs folio j size bytes k,
          bvec_from_pages_run fuel pages nr_vecs folio j size bytes k0 with
    | Ret r k', Ret r0 k0' =>
        r0 = r ∧ page_folio k' = page_folio k
        ∧ page_folio k0' = page_folio k
    | Oops, Oops => True
    | _, _ => False
    end.
Proof.
  induction fuel as [|fuel IH];
    intros pages nr_vecs folio j size bytes k k0 Hpf.
  - cbn [bvec_from_pages_run]. mrun. repeat split. exact Hpf.
  - cbn [bvec_from_pages_run].
    destruct (j <? nr_vecs); [|mrun; repeat split; exact Hpf].
    destruct (pages !! Z.to_nat j) as [pj|]; mrun; [|exact I].
    destruct (pages !! Z.to_nat (j - 1)) as [pj1|]; mrun; [|exact I].
    rewrite Hpf.
    destruct (negb (page_folio k pj =? folio) || negb (pj =? pj1 + 1));
      mrun; [repeat split; exact Hpf|].
    unfold unpin_user_page. mrun.
    specialize (IH pages nr_vecs folio (j + 1) (size + Z.min PAGE_SIZE bytes)
                  (bytes - Z.min PAGE_SIZE bytes)
                  (set_trace (λ t, t ++ [EvUnpin pj]) k)
                  (set_trace (λ t, t ++ [EvUnpin pj]) k0) Hpf).
    exact IH.
Qed.

Lemma bvec_from_pages_loop_folio (fuel : nat) :
  ∀ (pages : list Z) (nr_vecs i bytes offset : Z) (acc : list bio_vec)
    (k k0 : kernel),
    page_folio k0 = page_folio k ->
    match bvec_from_pages_loop fuel pages nr_vecs i bytes offset acc k,
          bvec_from_pages_loop fuel pages nr_vecs i bytes offset acc k0 with
    | Ret r k', Ret r0 k0' => r0 = r
    | Oops, Oops => True
    | _, _ => False
    end.
Proof.
  induction fuel as [|fuel IH];
    intros pages nr_vecs i bytes offset acc k k0 Hpf.
  - cbn [bvec_from_pages_loop]. mrun. reflexivity.
  - cbn [bvec_from_pages_loop].
    destruct (i <? nr_vecs); [|mrun; reflexivity].
    destruct (pages !! Z.to_nat i) as [pi|]; mrun; [|exact I].
    rewrite Hpf.
    pose proof (bvec_from_pages_run_folio (Z.to_nat nr_vecs) pages nr_vecs
                  (page_folio k pi) (i + 1)
                  (Z.min bytes (PAGE_SIZE - offset))
                  (bytes - Z.min bytes (PAGE_SIZE - offset)) k k0 Hpf) as Hr.
    destruct (bvec_from_pages_run (Z.to_nat nr_vecs) pages nr_vecs
                (page_folio k pi) (i + 1) (Z.min bytes (PAGE_SIZE - offset))
                (bytes - Z.min bytes (PAGE_SIZE - offset)) k)
      as [[[j s] bs] k1|];
    destruct (bvec_from_pages_run (Z.to_nat nr_vecs) pages nr_vecs
                (page_folio k pi) (i + 1) (Z.min bytes (PAGE_SIZE - offset))
                (bytes - Z.min bytes (PAGE_SIZE - offset)) k0)
      as [[[j0 s0] bs0] k01|]; try contradiction; [|exact I].
    destruct Hr as ([= -> -> ->] & H1 & H2). cbn beta iota.
    apply IH. rewrite H1, H2. reflexivity.
Qed.

Lemma bvec_from_pages_folio (pages : list Z) (nr_vecs bytes offset : Z)
    (bvec : list bio_vec) (k k' k0 : kernel) :
  page_folio k0 = page_folio k ->
  bvec_from_pages pages nr_vecs bytes offset k = Ret bvec k' ->
  ∃ k0', bvec_from_pages pages nr_vecs bytes offset k0 = Ret bvec k0'.
Proof.
  intros Hpf Hrun. unfold bvec_from_pages in *.
  pose proof (bvec_from_pages_loop_folio (Z.to_nat nr_vecs) pages nr_vecs 0
                bytes offset [] k k0 Hpf) as H.
  rewrite Hrun in H.
  destruct (bvec_from_pages_loop (Z.to_nat nr_vecs) pages nr_vecs 0 bytes
              offset [] k0) as [r0 k0'|]; [|contradiction].
  subst r0. exists k0'. reflexivity.
Qed.

(** [bio_integrity_map_user] for a length that is not negative, taken
    apart by stages: it returns before a page is pinned; or the pages
    that back the buffer are pinned, coalesced into the segments that
    [bvec_from_pages] makes of them on this machine, the payload is
    built by [bio_integrity_copy_user] or [bio_integrity_init_user], and
    on an error of these the page of every segment is unpinned. *)
Lemma bio_integrity_map_user_stages
    (k k' : kernel) (b : bio) (bio ubuf bytes seed r : Z) :
  bios k !! bio = Some b ->
  0 <= bytes ->
  bio_integrity_map_user bio ubuf bytes seed k = Ret r k' ->
  (∃ heap, (r = - EINVAL ∨ r = - E2BIG ∨ r = - ENOMEM ∨ r = - EFAULT)
           ∧ same_store k (set_trace (λ _, trace k) k')
           ∧ trace k' = trace k ++ free_bvec_events heap)
  ∨ ∃ heap pages bvec ups pre k4 k5,
      same_store k k4
      ∧ trace k4 = trace k ++ map EvPin pages ++ map EvUnpin ups ++ pre
      ∧ pinned_pages pre = [] ∧ unpinned_pages pre = []
      ∧ map bv_page bvec ++ ups ≡ₚ pages
      ∧ segs_len bvec = bytes
      ∧ Forall (λ v, 0 <= bv_len v) bvec
      ∧ Z.of_nat (length bvec) <= BIO_MAX_VECS
      ∧ bytes <= BIO_MAX_VECS * PAGE_SIZE
      ∧ user_pages (user_pt k) (ubuf / PAGE_SIZE)
          (Z.to_nat (iov_iter_npages ubuf bytes (BIO_MAX_VECS + 1)))
        = Some pages
      ∧ (∀ k0, page_folio k0 = page_folio k ->
           ∃ k0', bvec_from_pages pages
                    (iov_iter_npages ubuf bytes (BIO_MAX_VECS + 1)) bytes
                    (offset_in_page ubuf) k0 = Ret bvec k0')
      ∧ (if map_user_copies b ubuf bytes (Z.of_nat (length bvec))
         then bio_integrity_copy_user bio bvec (Z.of_nat (length bvec))
                bytes (map_user_direction b) seed k4 = Ret r k5
         else bio_integrity_init_user bio bvec (Z.of_nat (length bvec))
                bytes seed k4 = Ret r k5)
      ∧ k' = set_trace
               (λ t, t ++ (if r =? 0 then []
                           else unpin_events (PageCompound k5) bvec false)
                       ++ free_bvec_events heap) k5.
Proof.
  intros Hb Hneg. unfold bio_integrity_map_user. mrun.
  destruct (bool_decide (is_Some (bio_integrity b))) eqn:Hi.
  { intros [= <- <-]. left. exists None. cbn. rewrite app_nil_r.
    split; [left; reflexivity|]. split; [|reflexivity].
    destruct k; repeat split. }
  destruct (queue_max_hw_sectors (limits (bi_bdev b))
            <? Z.shiftr bytes SECTOR_SHIFT) eqn:Hhw.
  { intros [= <- <-]. left. exists None. cbn. rewrite app_nil_r.
    split; [right; left; reflexivity|]. split; [|reflexivity].
    destruct k; repeat split. }
  cbn zeta.
  set (nr := iov_iter_npages ubuf bytes (BIO_MAX_VECS + 1)).
  destruct (BIO_MAX_VECS <? nr) eqn:Hnr.
  { intros [= <- <-]. left. exists None. cbn. rewrite app_nil_r.
    split; [right; left; reflexivity|]. split; [|reflexivity].
    destruct k; repeat split. }
  apply Z.ltb_ge in Hnr. mrun.
  assert (Hstage : ∃ r1 k1,
    (if UIO_FASTIOV <? nr
     then a ← kmalloc_obj GFP_KERNEL;
          mret (match a with
                | Some a0 => Some (Some a0)
                | None => None
                end)
     else mret (Some None)) k = Ret r1 k1 ∧ same_store k k1
    ∧ trace k1 = trace k).
  { destruct (UIO_FASTIOV <? nr); mrun.
    - unfold kmalloc_obj.
      destruct (kmalloc_ans k) as [|[a|] rest]; eexists _, _;
        (split; [reflexivity | repeat split]).
    - eexists _, _. split; [reflexivity | repeat split]. }
  destruct Hstage as (r1 & k1 & -> & Hs1 & Ht1). cbn beta iota.
  destruct r1 as [heap|].
  2:{ intros Hx. cbv [mret M_ret] in Hx. injection Hx as <- <-.
      left. exists None. cbn. rewrite app_nil_r.
      split; [right; right; left; reflexivity|]. split; [|exact Ht1].
      rewrite <- Ht1.
      replace (set_trace (λ _, trace k1) k1) with k1
        by (destruct k1; reflexivity).
      exact Hs1. }
  mrun.
  unfold iov_iter_extract_pages. mrun.
  destruct (user_pages (user_pt k1) (ubuf / PAGE_SIZE) (Z.to_nat nr))
    as [pages|] eqn:Hup; mrun.
  2:{ change (- EFAULT <? 0) with true. cbn beta iota.
      intros Hfin. left. exists heap.
      destruct heap; revert Hfin; unfold kfree; mrun; intros [= <- <-];
        (split; [right; right; right; reflexivity|]); kproj; rewrite Ht1;
        (split; [|cbn; rewrite ?app_nil_r; reflexivity]);
        destruct Hs1 as (? & ? & ? & ? & ? & ? & ? & ? & ?); repeat split;
        assumption. }
  rewrite pin_user_pages_run. cbn beta iota. mrun.
  destruct (bytes <? 0) eqn:Hlt; [apply Z.ltb_lt in Hlt; lia|].
  destruct (iov_iter_npages_covers ubuf bytes Hneg Hnr)
    as (Hnr0 & Hcov & Hmaxb).
  fold nr in Hnr0, Hcov, Hmaxb.
  assert (Hlenp : nr = Z.of_nat (length pages)).
  { rewrite (user_pages_length _ _ _ _ Hup). lia. }
  assert (Hoff : 0 <= offset_in_page ubuf <= PAGE_SIZE).
  { unfold offset_in_page, PAGE_SIZE.
    pose proof (Z.mod_pos_bound ubuf 4096 ltac:(lia)). lia. }
  set (k2 := set_trace (λ t, t ++ map EvPin pages) k1).
  destruct (bvec_from_pages_loop_total (Z.to_nat nr) pages nr 0 bytes
              (offset_in_page ubuf) [] k2 Hlenp ltac:(lia) ltac:(lia))
    as (bvec & ups & Hfp & Hperm & _).
  cbn [app] in Hfp. change (Z.to_nat 0) with 0%nat in Hperm.
  rewrite drop_0 in Hperm.
  destruct (bvec_from_pages_loop_spec _ _ _ _ _ _ _ _ _ _ Hfp Hneg Hoff
              ltac:(lia))
    as (new' & Hnew & Hsum & Hwf & Hlen & _).
  cbn [app] in Hnew. subst new'.
  rewrite Z.sub_0_r in Hsum, Hlen. rewrite Hcov in Hsum.
  rewrite bind_run. unfold bvec_from_pages. rewrite Hfp. cbn beta iota.
  mrun.
  set (k3 := set_trace (λ t, t ++ map EvUnpin ups) k2).
  assert (Hstage4 : ∃ pre,
    (if UIO_FASTIOV <? nr then emit EvKvfreePages else mret tt) k3
    = Ret tt (set_trace (λ t, t ++ pre) k3)
    ∧ pinned_pages pre = [] ∧ unpinned_pages pre = []).
  { destruct (UIO_FASTIOV <? nr); mrun.
    - exists [EvKvfreePages]. repeat split.
    - exists []. rewrite set_trace_nil. repeat split. }
  destruct Hstage4 as (pre & -> & Hpre1 & Hpre2). cbn beta iota.
  set (k4 := set_trace (λ t, t ++ pre) k3).
  change (if queue_max_integrity_segments (limits (bi_bdev b))
             <? Z.of_nat (length bvec)
          then true
          else negb (iov_iter_is_aligned ubuf bytes
                       (blk_lim_dma_alignment_and_pad (limits (bi_bdev b)))
                       (blk_lim_dma_alignment_and_pad (limits (bi_bdev b)))))
    with (map_user_copies b ubuf bytes (Z.of_nat (length bvec))).
  change (if bio_data_dir b =? READ then ITER_DEST else ITER_SOURCE)
    with (map_user_direction b).
  set (copy := map_user_copies b ubuf bytes (Z.of_nat (length bvec))).
  rewrite bind_run.
  destruct ((if copy
             then bio_integrity_copy_user bio bvec (Z.of_nat (length bvec))
                    bytes (map_user_direction b) seed
             else bio_integrity_init_user bio bvec (Z.of_nat (length bvec))
                    bytes seed) k4) as [ret k5|] eqn:Hbuild;
    [|discriminate].
  cbn beta iota. intros Hfin. right.
  exists heap, pages, bvec, ups, pre, k4, k5.
  split.
  { eapply same_store_trans; [exact Hs1|].
    apply only_trace_same_store. unfold k4, k3, k2.
    rewrite !set_trace_app. eexists. reflexivity. }
  split.
  { unfold k4, k3, k2. kproj. rewrite Ht1, <- !app_assoc. reflexivity. }
  split; [exact Hpre1|]. split; [exact Hpre2|].
  split; [exact Hperm|]. split; [exact Hsum|]. split; [exact Hwf|].
  split; [lia|].
  split; [unfold BIO_MAX_VECS, PAGE_SIZE in *; lia|].
  pose proof Hs1 as (_ & _ & _ & _ & Hupt & Hpf1 & _).
  split; [fold nr; rewrite <- Hupt; exact Hup|].
  split.
  { intros k0 Hk0. fold nr.
    apply (bvec_from_pages_folio pages nr bytes (offset_in_page ubuf) bvec
             k2 k3 k0); [|exact Hfp].
    rewrite Hk0. symmetry. exact Hpf1. }
  assert (Hfinal : r = ret
    ∧ k' = set_trace
             (λ t, t ++ (if ret =? 0 then []
                         else unpin_events (PageCompound k5) bvec false)
                     ++ free_bvec_events heap) k5).
  { revert Hfin. unfold nonzero.
    destruct (ret =? 0) eqn:Hz; cbn [negb].
    - apply Z.eqb_eq in Hz. subst ret.
      destruct heap; unfold kfree; mrun; intros [= <- <-];
        (split; [reflexivity|]); cbn [app free_bvec_events];
        rewrite ?set_trace_nil; reflexivity.
    - rewrite bind_run, bio_integrity_unpin_bvec_run by lia.
      cbn beta iota. rewrite take_length_all.
      destruct heap; unfold kfree; mrun; intros [= <- <-];
        (split; [reflexivity|]); cbn [free_bvec_events];
        rewrite ?set_trace_app, ?app_nil_r; reflexivity. }
  destruct Hfinal as [-> ->].
  split; [|reflexivity].
  unfold copy in Hbuild.
  destruct (map_user_copies b ubuf bytes (Z.of_nat (length bvec)));
    exact Hbuild.
Qed.



(** ** The round trip of copy mode *)

Lemma exec_returns (m : M unit) (k : kernel) :
  returns m k = true -> m k = Ret tt (exec m k).
Proof.
  unfold returns, exec.
  destruct (m k) as [[] k'|]; [reflexivity|discriminate].
Qed.

(** C7, where the code falls short of it: a read of a request set with
    a payload pool, whose unaligned buffer lies on five pages that do
    not follow one another, is mapped in copy mode.  The payload is
    allocated for six vectors, more than the inline ones, so the biovec
    pool supplies the array and writes the count it grants, sixteen,
    to [bip_max_vcnt]; [bip_vcnt] holds the five user segments.
    Unmapping takes [bip_max_vcnt - 1] for the count of user segments:
    after the five pinned pages it marks dirty and unpins the pages of
    the ten entries that were never written. *)
Theorem bio_integrity_uncopy_user_pooled_overrun :
  bio_integrity_map_user 4 20993 16384 7 scattered_kernel
  = Ret 0 scattered_mapped
  ∧ (∃ bp, bips scattered_mapped !! 700 = Some bp
       ∧ Z.land (bip_flags bp) BIP_COPY_USER ≠ 0
       ∧ bip_vcnt bp = 5 ∧ bip_max_vcnt bp = 16)
  ∧ bio_integrity_unmap_user 4 scattered_mapped = Ret tt scattered_unmapped
  ∧ pinned_pages (trace scattered_unmapped)
    = [1010; 1012; 1014; 1016; 1018]
  ∧ unpinned_pages (trace scattered_unmapped)
    = [1010; 1012; 1014; 1016; 1018] ++ replicate 10 0
  ∧ dirtied_pages (trace scattered_unmapped)
    = [1010; 1012; 1014; 1016; 1018] ++ replicate 10 0.
Proof.
  split; [vm_compute; reflexivity|].
  split.
  { eexists. split; [vm_compute; reflexivity|].
    split; [vm_compute; discriminate|]. split; reflexivity. }
  split; [apply exec_returns; vm_compute; reflexivity|].
  repeat split; vm_compute; reflexivity.
Qed.

(** ** The consistency of a payload *)

Lemma segs_len_app (l1 l2 : list bio_vec) :
  segs_len (l1 ++ l2) = segs_len l1 + segs_len l2.
Proof.
  induction l1 as [|v l1 IH]; [reflexivity|].
  change (segs_len ((v :: l1) ++ l2)) with (bv_len v + segs_len (l1 ++ l2)).
  change (segs_len (v :: l1)) with (bv_len v + segs_len l1). lia.
Qed.

Lemma segs_len_insert (l : list bio_vec) (i : nat) (x y : bio_vec) :
  l !! i = Some x ->
  segs_len (<[i := y]> l) = segs_len l - bv_len x + bv_len y.
Proof.
  revert i. induction l as [|v l IH]; intros [|i] H; try discriminate.
  - injection H as ->.
    change (segs_len (<[0%nat := y]> (x :: l))) with (bv_len y + segs_len l).
    change (segs_len (x :: l)) with (bv_len x + segs_len l). lia.
  - cbn in H. specialize (IH i H).
    change (segs_len (<[S i := y]> (v :: l)))
      with (bv_len v + segs_len (<[i := y]> l)).
    change (segs_len (v :: l)) with (bv_len v + segs_len l). lia.
Qed.

Lemma bip_remaining_at (k : kernel) (bp : bio_integrity_payload)
    (vp : vec_ptr) (vec : list bio_vec) :
  bip_vec bp = Some vp ->
  vec_at k vp = Some vec ->
  bip_remaining k bp
  = drop (Z.to_nat (bi_idx (bip_iter bp)))
      (take (Z.to_nat (bip_vcnt bp)) vec).
Proof.
  intros Hv Hvec. unfold bip_remaining. rewrite Hv. cbn. rewrite Hvec.
  reflexivity.
Qed.

(** The walk of [bvec_iter_advance] over segments of which the first
    [n] hold at least the bytes to skip: it stays within them, and what
    it leaves is what there was less the bytes skipped. *)
Lemma bvec_iter_skip_spec (l : list bio_vec) :
  ∀ (n : nat) (idx bytes : Z),
    Forall (λ v, 0 <= bv_len v) (take n l) ->
    0 <= bytes <= segs_len (take n l) ->
    ∃ (j : nat) (done : Z),
      bvec_iter_skip l idx bytes = Some (idx + Z.of_nat j, done)
      ∧ (j <= n)%nat ∧ 0 <= done
      ∧ segs_len (drop j (take n l)) - done = segs_len (take n l) - bytes.
Proof.
  induction l as [|v l IH]; intros n idx bytes Hwf Hb.
  - rewrite take_nil in *. change (segs_len []) with 0 in *.
    assert (bytes = 0) as -> by lia.
    exists 0%nat, 0. rewrite drop_nil, Z.add_0_r.
    change (segs_len []) with 0. repeat split; [lia..].
  - destruct n as [|n].
    + change (segs_len (take 0 (v :: l))) with 0 in *.
      assert (bytes = 0) as -> by lia.
      exists 0%nat, 0. rewrite Z.add_0_r.
      change (segs_len (drop 0 (take 0 (v :: l)))) with 0.
      repeat split; [lia..].
    + cbn [take] in *. cbn [bvec_iter_skip].
      destruct (bytes =? 0) eqn:Hz.
      * apply Z.eqb_eq in Hz as ->. exists 0%nat, 0.
        rewrite Z.add_0_r. cbn [drop]. repeat split; lia.
      * apply Z.eqb_neq in Hz.
        apply Forall_cons_1 in Hwf as [Hv Hwf].
        change (segs_len (v :: take n l))
          with (bv_len v + segs_len (take n l)) in *.
        destruct (bv_len v <=? bytes) eqn:Hle.
        -- apply Z.leb_le in Hle.
           destruct (IH n (idx + 1) (bytes - bv_len v) Hwf ltac:(lia))
             as (j & done & Hs & Hj & Hd & Hsum).
           exists (S j), done. rewrite Hs. cbn [drop].
           repeat split; [f_equal; f_equal; lia | lia | lia | lia].
        -- apply Z.leb_gt in Hle. exists 0%nat, bytes.
           rewrite Z.add_0_r. cbn [drop].
           change (segs_len (v :: take n l))
             with (bv_len v + segs_len (take n l)).
           repeat split; lia.
Qed.

(** A new payload is consistent: it has no segment and no byte. *)
Lemma alloc_consistent (k k' : kernel) (b : bio) (bio gfp n p : Z) :
  bios k !! bio = Some b ->
  bio_integrity_alloc bio gfp n k = Ret (Ptr p) k' ->
  ∃ bp, bips k' !! p = Some bp ∧ bip_consistent k' bp.
Proof.
  intros Hb Ha.
  destruct (bio_integrity_alloc_ok _ _ _ _ _ _ _ Hb Ha)
    as (maxv & vec & inline & Hbips & _ & _ & _ & _ & Hshape).
  exists (bip_fresh bio maxv vec inline).
  split; [rewrite Hbips; apply lookup_insert_eq|].
  assert (Hmax : 0 <= maxv).
  { destruct Hshape as [(_ & _ & -> & _) | [(_ & _ & _ & -> & _)
                          | (a & g & _ & -> & Hg & _)]];
      [lia | apply Z.mod_pos_bound; lia | lia]. }
  split; [exact Hmax|].
  unfold bip_remaining. cbn [bip_fresh bip_vec bip_iter bip_vcnt bi_idx
                             bi_size bi_bvec_done].
  destruct (vec ≫= vec_at k'); reflexivity.
Qed.

(** Adding a segment to a consistent payload whose cursor is in its
    first segment leaves it consistent, when the payload has room for a
    first segment and the byte total does not wrap. *)
Lemma add_page_consistent (k : kernel) (b : bio)
    (bp : bio_integrity_payload) (vp : vec_ptr) (vec : list bio_vec)
    (bio bip page len offset : Z) :
  bios k !! bio = Some b ->
  bio_integrity b = Some bip ->
  bips k !! bip = Some bp ->
  bip_vec bp = Some vp ->
  vec_at k vp = Some vec ->
  bip_max_vcnt bp <= Z.of_nat (length vec) ->
  bip_max_vcnt bp < 2 ^ 16 ->
  0 <= bip_vcnt bp ->
  (bip_vcnt bp = 0 -> 0 < bip_max_vcnt bp) ->
  bi_idx (bip_iter bp) = 0 ->
  0 <= bi_size (bip_iter bp) + len < 2 ^ 32 ->
  bip_consistent k bp ->
  ∃ r k' bp',
    bio_integrity_add_page bio page len offset k = Ret r k'
    ∧ bips k' !! bip = Some bp'
    ∧ bip_consistent k' bp'.
Proof.
  intros Hb Hi Hp Hv Hvec Hcap Hmax Hn0 Hroom Hidx Hsz [Hle Hsum].
  rewrite (bip_remaining_at k bp vp vec Hv Hvec), Hidx in Hsum.
  change (Z.to_nat 0) with 0%nat in Hsum. rewrite drop_0 in Hsum.
  set (q := limits (bi_bdev b)).
  (* what an append leaves *)
  assert (Happ : add_page_appended k bio bip bp vp vec page len offset ->
                 bip_vcnt bp < bip_max_vcnt bp ->
    ∃ r k' bp',
      bio_integrity_add_page bio page len offset k = Ret r k'
      ∧ bips k' !! bip = Some bp' ∧ bip_consistent k' bp').
  { intros (k' & Hrun & Hvec' & Hp' & _) Hlt.
    eexists len, k', _. split; [exact Hrun|]. split; [exact Hp'|].
    assert (Hu : u16 (bip_vcnt bp + 1) = bip_vcnt bp + 1)
      by (apply u16_small; lia).
    split.
    - cbn [bip_add_size bip_with_iter bip_with_vcnt bip_vcnt bip_max_vcnt].
      rewrite own_inline_max_vcnt, Hu. lia.
    - erewrite bip_remaining_at; [| | exact Hvec'];
        [|cbn [bip_add_size bip_with_iter bip_with_vcnt bip_vec];
          rewrite own_inline_vec; exact Hv].
      cbn [bip_add_size bip_with_iter bip_with_vcnt bip_vcnt bip_iter
           iter_with_size bi_idx bi_size bi_bvec_done].
      rewrite own_inline_iter, Hidx, Hu.
      change (Z.to_nat 0) with 0%nat. rewrite drop_0.
      rewrite u32_small by exact Hsz.
      replace (Z.to_nat (bip_vcnt bp + 1)) with (S (Z.to_nat (bip_vcnt bp)))
        by lia.
      assert (Hin : (Z.to_nat (bip_vcnt bp) < length vec)%nat) by lia.
      erewrite take_S_r by (apply list_lookup_insert_eq; exact Hin).
      rewrite take_insert_ge by lia.
      rewrite segs_len_app.
      change (segs_len [BioVec page len offset]) with (len + 0). lia. }
  destruct (decide (bip_vcnt bp = 0)) as [Hz|Hnz].
  - apply Happ; [|specialize (Hroom Hz); lia].
    apply (add_page_append k b bp vp vec); try assumption; lia.
  - assert (Hpos : 0 < bip_vcnt bp) by lia.
    assert (Hlast : (Z.to_nat (bip_vcnt bp - 1) < length vec)%nat) by lia.
    destruct (lookup_lt_is_Some_2 _ _ Hlast) as [bv Hbv].
    destruct (bvec_try_merge_hw_page q bv page len offset) as [bv'|] eqn:Hm.
    + pose proof (bvec_try_merge_hw_page_some _ _ _ _ _ _ Hm) as Hbv'.
      destruct (add_page_merge k b bp vp vec bv bv' bio bip page len offset
                  Hb Hi Hp Hv Hvec Hpos Hbv Hm)
        as (k' & Hrun & Hvec' & Hp' & _).
      eexists len, k', _. split; [exact Hrun|]. split; [exact Hp'|].
      split.
      * cbn [bip_add_size bip_with_iter bip_vcnt bip_max_vcnt].
        rewrite own_inline_vcnt, own_inline_max_vcnt. exact Hle.
      * erewrite bip_remaining_at; [| | exact Hvec'];
          [|cbn [bip_add_size bip_with_iter bip_vec];
            rewrite own_inline_vec; exact Hv].
        cbn [bip_add_size bip_with_iter bip_vcnt bip_iter
             iter_with_size bi_idx bi_size bi_bvec_done].
        rewrite own_inline_iter, own_inline_vcnt, Hidx.
        change (Z.to_nat 0) with 0%nat. rewrite drop_0.
        rewrite u32_small by exact Hsz.
        rewrite take_insert_lt by lia.
        erewrite segs_len_insert
          by (rewrite lookup_take_lt by lia; exact Hbv).
        rewrite Hbv'. cbn [bv_len]. lia.
    + destruct ((Z.min (bip_max_vcnt bp) (queue_max_integrity_segments q)
                   <=? bip_vcnt bp) || bvec_gap_to_prev q bv offset) eqn:Hrej.
      * exists 0, k, bp.
        split;
          [apply (add_page_reject k b bp vp vec bv bio bip); assumption|].
        split; [exact Hp|]. split; [exact Hle|].
        rewrite (bip_remaining_at k bp vp vec Hv Hvec), Hidx.
        change (Z.to_nat 0) with 0%nat. rewrite drop_0. exact Hsum.
      * apply orb_false_iff in Hrej as [Hlim Hgap].
        apply Z.leb_gt in Hlim. apply Happ; [|lia].
        apply (add_page_append k b bp vp vec); try assumption; [lia|].
        intros _. exists bv. repeat split; assumption.
Qed.

(** A mapping without a copy leaves a consistent payload whose segments
    are the user's; a mapping with a copy leaves the length of the
    bounce buffer, segment 0, as the byte total. *)
Lemma map_user_consistent (k k' : kernel) (b : bio)
    (bio ubuf bytes seed : Z) :
  bios k !! bio = Some b ->
  bio_integrity_map_user bio ubuf bytes seed k = Ret 0 k' ->
  ∃ bip bp,
    bios k' !! bio = Some (bio_attached bip b)
    ∧ bips k' !! bip = Some bp
    ∧ (Z.land (bip_flags bp) BIP_COPY_USER = 0 -> bip_consistent k' bp)
    ∧ (Z.land (bip_flags bp) BIP_COPY_USER ≠ 0 ->
       ∃ vp vec seg,
         bip_vec bp = Some vp ∧ vec_at k' vp = Some vec
         ∧ vec !! 0%nat = Some seg
         ∧ bi_size (bip_iter bp) = bv_len seg).
Proof.
  intros Hb Hrun.
  destruct (bio_integrity_map_user_ok _ _ _ _ _ _ _ Hb Hrun)
    as (bvec & k4 & k5 & Hnone & Hbytes & Hsum & Hwf & Hlen & Hs4 & Hbuild
        & [evs ->]).
  assert (Hb4 : bios k4 !! bio = Some b)
    by (destruct Hs4 as (-> & _); exact Hb).
  assert (Hlen32 : 0 <= bytes < 2 ^ 32)
    by (unfold BIO_MAX_VECS, PAGE_SIZE in Hbytes; lia).
  assert (Hn16 : u16 (Z.of_nat (length bvec)) = Z.of_nat (length bvec))
    by (apply u16_small; unfold BIO_MAX_VECS in Hlen; lia).
  assert (Hn0 : 0 <= Z.of_nat (length bvec)) by lia.
  kproj.
  destruct (map_user_copies b ubuf bytes (Z.of_nat (length bvec))).
  - (* copy mode *)
    unfold map_user_direction in Hbuild.
    destruct (bio_data_dir b =? READ).
    + destruct (copy_user_read_ok _ _ _ _ _ _ _ _ Hb4 Hlen32 Hn0 Hbuild)
        as (buf & rest & bip & bp & vp & pad & _ & _ & Hb5 & Hp5 & Hfl
            & _ & Hsz & _ & Hv & Hvec & _).
      exists bip, bp. split; [exact Hb5|]. split; [exact Hp5|].
      split; [intros Hz; contradiction|]. intros _.
      eexists vp, _, _. rewrite vec_at_set_trace.
      split; [exact Hv|]. split; [exact Hvec|].
      split; [reflexivity|]. exact Hsz.
    + destruct (copy_user_write_ok _ _ _ _ _ _ _ _ Hb4 Hlen32 Hbuild)
        as (buf & rest & m2 & bip & bp & _ & _ & _ & Hb5 & Hp5 & Hfl
            & _ & _ & Hsz & _ & Hv & Hin & _).
      exists bip, bp. split; [exact Hb5|]. split; [exact Hp5|].
      split; [intros Hz; contradiction|]. intros _.
      eexists (InlineVecs bip), (bip_inline_vecs bp), _.
      split; [exact Hv|].
      split; [unfold vec_at; kproj; rewrite Hp5; reflexivity|].
      split; [exact Hin|]. exact Hsz.
  - (* zero copy *)
    destruct (init_user_ok _ _ _ _ _ _ _ _ Hb4 Hn0 Hbuild)
      as (bip & bp & Hb5 & Hp5 & Hfl & Hvc & Hit & Hcap & Hvec & _ & _).
    exists bip, bp. split; [exact Hb5|]. split; [exact Hp5|].
    split; [|intros Hz; rewrite Hfl in Hz; contradiction Hz; reflexivity].
    intros _. split.
    + apply Hcap; [lia|]. unfold BIO_MAX_VECS in Hlen. lia.
    + rewrite Hit. cbn [bi_size bi_bvec_done].
      rewrite u32_small by exact Hlen32.
      unfold bip_remaining. rewrite Hit, Hvc, Hn16. cbn [bi_idx].
      change (Z.to_nat 0) with 0%nat.
      rewrite take_length_all in Hvec.
      destruct Hvec as [[Hz Hv]|(vp & pad & Hv & Hvec)].
      * rewrite Hv. cbn. destruct bvec; [|cbn in Hz; lia].
        change (segs_len []) with 0 in Hsum. lia.
      * rewrite Hv. cbn [mbind option_bind]. rewrite vec_at_set_trace, Hvec.
        rewrite drop_0, Nat2Z.id, take_app_length. lia.
Qed.

(** A prepared request carries a consistent payload: one segment, the
    buffer, and its length as the byte total. *)
Lemma prep_consistent (k k1 k2 : kernel) (b : bio) (bi : blk_integrity)
    (bio gfp buf bip : Z) :
  bios k !! bio = Some b ->
  blk_get_integrity (bi_bdev b) = Some bi ->
  bio_sectors b ≠ 0 ->
  bio_integrity b = None ->
  bio_integrity_prep_switch bi b = Some gfp ->
  kmalloc (bio_integrity_bytes bi (bio_sectors b)) gfp k
  = Ret (Some buf) k1 ->
  bio_integrity_alloc bio GFP_NOIO 1 k1 = Ret (Ptr bip) k2 ->
  ∃ k' bp, bio_integrity_prep bio k = Ret true k'
    ∧ bips k' !! bip = Some bp
    ∧ bip_consistent k' bp.
Proof.
  intros Hb Hbi Hs Hi Hsw Hk Ha.
  destruct (bio_integrity_prep_attaches _ _ _ _ _ _ _ _ _ Hb Hbi Hs Hi Hsw
              Hk Ha)
    as (k' & Hrun & bp & _ & Hp & _ & Hmax & Hvc & Hv & Hin & Hit & _).
  exists k', bp. split; [exact Hrun|]. split; [exact Hp|]. split; [lia|].
  unfold bip_remaining. rewrite Hv, Hit, Hvc. cbn [mbind option_bind].
  unfold vec_at. rewrite Hp.
  cbn [fmap option_fmap option_map bi_idx bi_size bi_bvec_done].
  change (Z.to_nat 0) with 0%nat. change (Z.to_nat 1) with 1%nat.
  rewrite drop_0.
  destruct (bip_inline_vecs bp) as [|v rest]; [discriminate|].
  injection Hin as ->. cbn [take]. rewrite take_0.
  change (segs_len [?x]) with (bv_len x + 0). cbn [bv_len]. lia.
Qed.

(** An advance by no more than the byte total keeps a payload
    consistent, and takes the bytes off the total. *)
Lemma advance_consistent (k : kernel) (b : bio) (bi : blk_integrity)
    (bp : bio_integrity_payload) (vp : vec_ptr) (vec : list bio_vec)
    (bio bip bytes_done : Z) :
  bios k !! bio = Some b ->
  bio_integrity b = Some bip ->
  blk_get_integrity (bi_bdev b) = Some bi ->
  bips k !! bip = Some bp ->
  bip_vec bp = Some vp ->
  vec_at k vp = Some vec ->
  Forall (λ v, 0 <= bv_len v) vec ->
  0 <= bi_idx (bip_iter bp) ->
  0 <= bi_bvec_done (bip_iter bp) ->
  bi_size (bip_iter bp) < 2 ^ 32 ->
  let bytes := bio_integrity_bytes bi (Z.shiftr bytes_done 9) in
  bytes <= bi_size (bip_iter bp) ->
  bip_consistent k bp ->
  ∃ k' bp',
    bio_integrity_advance bio bytes_done k = Ret tt k'
    ∧ bips k' !! bip = Some bp'
    ∧ bip_consistent k' bp'
    ∧ bi_size (bip_iter bp') = bi_size (bip_iter bp) - bytes.
Proof.
  intros Hb Hi Hbi Hp Hv Hvec Hwf Hidx Hdone Hsz32 bytes Hle [Hcap Hsum].
  rewrite (bip_remaining_at k bp vp vec Hv Hvec) in Hsum.
  rewrite skipn_firstn_comm in Hsum.
  set (i := Z.to_nat (bi_idx (bip_iter bp))) in *.
  set (n := (Z.to_nat (bip_vcnt bp) - i)%nat) in *.
  assert (Hb0 : 0 <= bytes) by (apply u32_range).
  assert (Hwf' : Forall (λ v, 0 <= bv_len v) (take n (drop i vec))).
  { apply Forall_take, Forall_drop. exact Hwf. }
  destruct (bvec_iter_skip_spec (drop i vec) n (bi_idx (bip_iter bp))
              (bytes + bi_bvec_done (bip_iter bp)) Hwf' ltac:(lia))
    as (j & done & Hskip & Hj & Hd & Hrem).
  unfold bio_integrity_advance. mrun. rewrite Hi, Hbi. mrun.
  fold bytes.
  set (bp1 := bip_set_seed _ bp).
  assert (Hv1 : bip_vec bp1 = Some vp) by exact Hv.
  assert (Hvec1 : vec_at (set_bips (insert bip bp1) k) vp = Some vec).
  { rewrite (vec_at_update _ _ _ _ _ Hp) by reflexivity. exact Hvec. }
  rewrite Hv1, (vec_load_run _ _ _ Hvec1). cbn beta iota.
  assert (Hadv : bvec_iter_advance vec (bip_iter bp1) bytes
                 = Some (BvecIter (bi_sector (bip_iter bp1))
                           (bi_size (bip_iter bp) - bytes)
                           (bi_idx (bip_iter bp) + Z.of_nat j) done)).
  { unfold bvec_iter_advance.
    change (bi_size (bip_iter bp1)) with (bi_size (bip_iter bp)).
    change (bi_idx (bip_iter bp1)) with (bi_idx (bip_iter bp)).
    change (bi_bvec_done (bip_iter bp1)) with (bi_bvec_done (bip_iter bp)).
    destruct (bi_size (bip_iter bp) <? bytes) eqn:E;
      [apply Z.ltb_lt in E; lia|].
    fold i. rewrite Hskip. rewrite u32_small by lia. reflexivity. }
  rewrite Hadv. mrun.
  eexists _, _. split; [reflexivity|]. kproj.
  split; [apply lookup_insert_eq|].
  split; [|reflexivity].
  split; [exact Hcap|].
  erewrite bip_remaining_at; [|exact Hv|].
  2:{ erewrite vec_at_update; [exact Hvec1 | solve_lookup | reflexivity]. }
  bipproj.
  replace (Z.to_nat (bi_idx (bip_iter bp) + Z.of_nat j)) with (i + j)%nat
    by (unfold i; lia).
  rewrite skipn_firstn_comm.
  rewrite <- drop_drop.
  change (bip_vcnt bp1) with (bip_vcnt bp).
  rewrite skipn_firstn_comm in Hrem.
  replace (Z.to_nat (bip_vcnt bp) - (i + j))%nat with (n - j)%nat
    by (unfold n; lia).
  lia.
Qed.

(** A trim leaves the count and the vectors as they were, and sets the
    byte total to what the sectors of the request take. *)
Lemma trim_spec (k : kernel) (b : bio) (bi : blk_integrity)
    (bp : bio_integrity_payload) (bio bip : Z) :
  bios k !! bio = Some b ->
  bio_integrity b = Some bip ->
  blk_get_integrity (bi_bdev b) = Some bi ->
  bips k !! bip = Some bp ->
  ∃ k' bp',
    bio_integrity_trim bio k = Ret tt k'
    ∧ bips k' !! bip = Some bp'
    ∧ bip_vcnt bp' = bip_vcnt bp
    ∧ bip_max_vcnt bp' = bip_max_vcnt bp
    ∧ bi_size (bip_iter bp') = bio_integrity_bytes bi (bio_sectors b)
    ∧ bip_remaining k' bp' = bip_remaining k bp.
Proof.
  intros Hb Hi Hbi Hp.
  unfold bio_integrity_trim. mrun. rewrite Hi, Hbi. mrun.
  eexists _, _. split; [reflexivity|]. kproj.
  split; [apply lookup_insert_eq|].
  repeat split.
  unfold bip_remaining. bipproj.
  destruct (bip_vec bp) as [vp|]; [|reflexivity]. cbn [mbind option_bind].
  rewrite (vec_at_update _ _ _ _ _ Hp) by reflexivity. reflexivity.
Qed.

(** C1, as the code has it.  A payload is consistent, its count within
    its capacity and its byte total what its remaining segments hold
    past the cursor: after an allocation; after
    [bio_integrity_add_page] on a consistent payload whose cursor is in
    its first segment, that has room for a first segment and whose byte
    total does not wrap; after a mapping of a user buffer without a
    copy; after a preparation that attaches a payload; and after an
    advance of a consistent payload by no more than its byte total.  A
    mapping with a copy leaves the length of the bounce buffer, segment
    0, as the byte total; a trim keeps count, capacity and segments, and
    sets the byte total to what the sectors of the request take; a clone
    has count and capacity 0 and the byte total of its source. *)
Theorem bip_consistent_after_operations :
  (∀ (k k' : kernel) (b : bio) (bio gfp n p : Z),
     bios k !! bio = Some b ->
     bio_integrity_alloc bio gfp n k = Ret (Ptr p) k' ->
     ∃ bp, bips k' !! p = Some bp ∧ bip_consistent k' bp)
  ∧ (∀ (k : kernel) (b : bio) (bp : bio_integrity_payload) (vp : vec_ptr)
       (vec : list bio_vec) (bio bip page len offset : Z),
     bios k !! bio = Some b ->
     bio_integrity b = Some bip ->
     bips k !! bip = Some bp ->
     bip_vec bp = Some vp ->
     vec_at k vp = Some vec ->
     bip_max_vcnt bp <= Z.of_nat (length vec) ->
     bip_max_vcnt bp < 2 ^ 16 ->
     0 <= bip_vcnt bp ->
     (bip_vcnt bp = 0 -> 0 < bip_max_vcnt bp) ->
     bi_idx (bip_iter bp) = 0 ->
     0 <= bi_size (bip_iter bp) + len < 2 ^ 32 ->
     bip_consistent k bp ->
     ∃ r k' bp',
       bio_integrity_add_page bio page len offset k = Ret r k'
       ∧ bips k' !! bip = Some bp'
       ∧ bip_consistent k' bp')
  ∧ (∀ (k k' : kernel) (b : bio) (bio ubuf bytes seed : Z),
     bios k !! bio = Some b ->
     bio_integrity_map_user bio ubuf bytes seed k = Ret 0 k' ->
     ∃ bip bp,
       bios k' !! bio = Some (bio_attached bip b)
       ∧ bips k' !! bip = Some bp
       ∧ (Z.land (bip_flags bp) BIP_COPY_USER = 0 -> bip_consistent k' bp)
       ∧ (Z.land (bip_flags bp) BIP_COPY_USER ≠ 0 ->
          ∃ vp vec seg,
            bip_vec bp = Some vp ∧ vec_at k' vp = Some vec
            ∧ vec !! 0%nat = Some seg
            ∧ bi_size (bip_iter bp) = bv_len seg))
  ∧ (∀ (k k1 k2 : kernel) (b : bio) (bi : blk_integrity)
       (bio gfp buf bip : Z),
     bios k !! bio = Some b ->
     blk_get_integrity (bi_bdev b) = Some bi ->
     bio_sectors b ≠ 0 ->
     bio_integrity b = None ->
     bio_integrity_prep_switch bi b = Some gfp ->
     kmalloc (bio_integrity_bytes bi (bio_sectors b)) gfp k
     = Ret (Some buf) k1 ->
     bio_integrity_alloc bio GFP_NOIO 1 k1 = Ret (Ptr bip) k2 ->
     ∃ k' bp, bio_integrity_prep bio k = Ret true k'
       ∧ bips k' !! bip = Some bp
       ∧ bip_consistent k' bp)
  ∧ (∀ (k : kernel) (b : bio) (bi : blk_integrity)
       (bp : bio_integrity_payload) (vp : vec_ptr) (vec : list bio_vec)
       (bio bip bytes_done : Z),
     bios k !! bio = Some b ->
     bio_integrity b = Some bip ->
     blk_get_integrity (bi_bdev b) = Some bi ->
     bips k !! bip = Some bp ->
     bip_vec bp = Some vp ->
     vec_at k vp = Some vec ->
     Forall (λ v, 0 <= bv_len v) vec ->
     0 <= bi_idx (bip_iter bp) ->
     0 <= bi_bvec_done (bip_iter bp) ->
     bi_size (bip_iter bp) < 2 ^ 32 ->
     bio_integrity_bytes bi (Z.shiftr bytes_done 9)
     <= bi_size (bip_iter bp) ->
     bip_consistent k bp ->
     ∃ k' bp',
       bio_integrity_advance bio bytes_done k = Ret tt k'
       ∧ bips k' !! bip = Some bp'
       ∧ bip_consistent k' bp'
       ∧ bi_size (bip_iter bp')
         = bi_size (bip_iter bp)
           - bio_integrity_bytes bi (Z.shiftr bytes_done 9))
  ∧ (∀ (k : kernel) (b : bio) (bi : blk_integrity)
       (bp : bio_integrity_payload) (bio bip : Z),
     bios k !! bio = Some b ->
     bio_integrity b = Some bip ->
     blk_get_integrity (bi_bdev b) = Some bi ->
     bips k !! bip = Some bp ->
     ∃ k' bp',
       bio_integrity_trim bio k = Ret tt k'
       ∧ bips k' !! bip = Some bp'
       ∧ bip_vcnt bp' = bip_vcnt bp
       ∧ bip_max_vcnt bp' = bip_max_vcnt bp
       ∧ bi_size (bip_iter bp') = bio_integrity_bytes bi (bio_sectors b)
       ∧ bip_remaining k' bp' = bip_remaining k bp)
  ∧ (∀ (k k' : kernel) (b bs : bio) (src : bio_integrity_payload)
       (bio bio_src bip_src gfp_mask : Z),
     bios k !! bio = Some b ->
     bios k !! bio_src = Some bs ->
     bio_integrity bs = Some bip_src ->
     bips k !! bip_src = Some src ->
     0 <= bip_flags src < 2 ^ 16 ->
     allocator_fresh k ->
     bio_integrity_clone bio bio_src gfp_mask k = Ret 0 k' ->
     ∃ bip bp,
       bios k' !! bio = Some (bio_attached bip b)
       ∧ bips k' !! bip = Some bp
       ∧ bip_vcnt bp = 0 ∧ bip_max_vcnt bp = 0
       ∧ bi_size (bip_iter bp) = bi_size (bip_iter src)).
Proof.
  split; [exact alloc_consistent|].
  split; [exact add_page_consistent|].
  split; [exact map_user_consistent|].
  split; [exact prep_consistent|].
  split; [exact advance_consistent|].
  split; [exact trim_spec|].
  intros k k' b bs src bio bio_src bip_src gfp Hb Hbs Hi Hsrc Hfl Hfresh Hrun.
  destruct (bio_integrity_clone_ok _ _ _ _ _ _ _ _ _ Hb Hbs Hi Hsrc Hfl
              Hfresh Hrun)
    as (bip & bp & _ & Hb' & Hp' & Hmax & Hvc & _ & Hit & _).
  exists bip, bp. rewrite Hit. repeat split; assumption.
Qed.

(** The sample read is prepared and then advanced by one sector: the
    payload is consistent after each, with 56 of its 64 bytes left; and
    the prepared write stays consistent when 64 bytes that follow its
    segment are added. *)
Lemma bip_consistent_after_operations_witness :
  (∃ k' bp, bio_integrity_prep 2 sample_kernel = Ret true k'
     ∧ bips k' !! 500 = Some bp ∧ bip_consistent k' bp)
  ∧ (∃ k' bp', bio_integrity_advance 2 512 sample_prepared_read = Ret tt k'
       ∧ bips k' !! 500 = Some bp' ∧ bip_consistent k' bp'
       ∧ bi_size (bip_iter bp') = 56)
  ∧ (∃ r k' bp',
       bio_integrity_add_page 1 2 64 64 sample_prepared_write = Ret r k'
       ∧ bips k' !! 500 = Some bp' ∧ bip_consistent k' bp').
Proof.
  destruct bip_consistent_after_operations
    as (_ & Hadd & _ & Hprep & Hadv & _).
  split; [|split].
  - assert (Hb : bios sample_kernel !! 2 = Some sample_read)
      by (vm_compute; reflexivity).
    assert (Hbi : blk_get_integrity (bi_bdev sample_read)
                  = Some sample_profile) by (vm_compute; reflexivity).
    assert (Hs : bio_sectors sample_read ≠ 0) by (vm_compute; discriminate).
    assert (Hi : bio_integrity sample_read = None)
      by (vm_compute; reflexivity).
    assert (Hsw : bio_integrity_prep_switch sample_profile sample_read
                  = Some GFP_NOIO) by (vm_compute; reflexivity).
    assert (Hk : kmalloc (bio_integrity_bytes sample_profile
                            (bio_sectors sample_read)) GFP_NOIO
                   sample_kernel
                 = Ret (Some 8192) (exec (kmalloc 64 GFP_NOIO) sample_kernel))
      by (vm_compute; reflexivity).
    assert (Ha : bio_integrity_alloc 2 GFP_NOIO 1
                   (exec (kmalloc 64 GFP_NOIO) sample_kernel)
                 = Ret (Ptr 500)
                     (exec (bio_integrity_alloc 2 GFP_NOIO 1)
                        (exec (kmalloc 64 GFP_NOIO) sample_kernel)))
      by (vm_compute; reflexivity).
    exact (Hprep sample_kernel _ _ sample_read sample_profile 2 GFP_NOIO
             8192 500 Hb Hbi Hs Hi Hsw Hk Ha).
  - assert (Hb : bios sample_prepared_read !! 2
                 = Some (bio_attached 500 sample_read))
      by (vm_compute; reflexivity).
    assert (Hi : bio_integrity (bio_attached 500 sample_read) = Some 500)
      by (vm_compute; reflexivity).
    assert (Hbi : blk_get_integrity (bi_bdev (bio_attached 500 sample_read))
                  = Some sample_profile) by (vm_compute; reflexivity).
    assert (Hp : bips sample_prepared_read !! 500 = Some sample_read_bip)
      by (vm_compute; reflexivity).
    assert (Hv : bip_vec sample_read_bip = Some (InlineVecs 500))
      by reflexivity.
    assert (Hvec : vec_at sample_prepared_read (InlineVecs 500)
                   = Some [BioVec 2 64 0]) by (vm_compute; reflexivity).
    assert (Hwf : Forall (λ v, 0 <= bv_len v) [BioVec 2 64 0])
      by (split_forall; cbn; lia).
    assert (Hidx : 0 <= bi_idx (bip_iter sample_read_bip)) by (cbn; lia).
    assert (Hdone : 0 <= bi_bvec_done (bip_iter sample_read_bip))
      by (cbn; lia).
    assert (Hsz : bi_size (bip_iter sample_read_bip) < 2 ^ 32)
      by (cbn; lia).
    assert (Hle : bio_integrity_bytes sample_profile (Z.shiftr 512 9)
                  <= bi_size (bip_iter sample_read_bip))
      by (vm_compute; discriminate).
    assert (Hc : bip_consistent sample_prepared_read sample_read_bip)
      by (split; [cbn; lia | vm_compute; reflexivity]).
    exact (Hadv sample_prepared_read (bio_attached 500 sample_read)
             sample_profile sample_read_bip (InlineVecs 500)
             [BioVec 2 64 0] 2 500 512
             Hb Hi Hbi Hp Hv Hvec Hwf Hidx Hdone Hsz Hle Hc).
  - assert (Hb : bios sample_prepared_write !! 1
                 = Some (bio_attached 500 sample_write))
      by (vm_compute; reflexivity).
    assert (Hi : bio_integrity (bio_attached 500 sample_write) = Some 500)
      by (vm_compute; reflexivity).
    assert (Hp : bips sample_prepared_write !! 500 = Some sample_write_bip)
      by (vm_compute; reflexivity).
    assert (Hv : bip_vec sample_write_bip = Some (InlineVecs 500))
      by reflexivity.
    assert (Hvec : vec_at sample_prepared_write (InlineVecs 500)
                   = Some [BioVec 2 64 0]) by (vm_compute; reflexivity).
    assert (Hcap : bip_max_vcnt sample_write_bip
                   <= Z.of_nat (length [BioVec 2 64 0])) by (cbn; lia).
    assert (Hmax : bip_max_vcnt sample_write_bip < 2 ^ 16) by (cbn; lia).
    assert (Hn0 : 0 <= bip_vcnt sample_write_bip) by (cbn; lia).
    assert (Hroom : bip_vcnt sample_write_bip = 0
                    -> 0 < bip_max_vcnt sample_write_bip) by (cbn; lia).
    assert (Hidx : bi_idx (bip_iter sample_write_bip) = 0) by reflexivity.
    assert (Hsz : 0 <= bi_size (bip_iter sample_write_bip) + 64 < 2 ^ 32)
      by (cbn; lia).
    assert (Hc : bip_consistent sample_prepared_write sample_write_bip)
      by (split; [cbn; lia | vm_compute; reflexivity]).
    exact (Hadd sample_prepared_write (bio_attached 500 sample_write)
             sample_write_bip (InlineVecs 500) [BioVec 2 64 0] 1 500 2 64 64
             Hb Hi Hp Hv Hvec Hcap Hmax Hn0 Hroom Hidx Hsz Hc).
Defined.

(** C1 refuted on three operations.  Mapping an unaligned user buffer of
    two pages onto the sample write leaves a payload with [bip_vcnt] 2
    and [bip_max_vcnt] 1; the clone of the prepared read has 64 bytes
    to go and no segment of its own; and trimming the prepared read,
    once the request is cut to four sectors, leaves 32 bytes to go over
    a segment of 64. *)
Lemma copy_clone_trim_break_consistency :
  ¬ map_user_keeps_consistent
  ∧ ¬ clone_keeps_consistent
  ∧ ¬ trim_keeps_consistent.
Proof.
  split; [|split].
  - intros H.
    assert (Hrun : bio_integrity_map_user 1 20993 4096 7 sample_kernel
                   = Ret 0 sample_bounced_write)
      by (vm_compute; reflexivity).
    destruct (H _ _ _ _ _ _ Hrun) as (b & bip & bp & Hb & Hi & Hp & Hle & _).
    vm_compute in Hb. injection Hb as <-.
    vm_compute in Hi. injection Hi as <-.
    vm_compute in Hp. injection Hp as <-.
    vm_compute in Hle. apply Hle. reflexivity.
  - intros H.
    assert (Hsrc : bio_consistent sample_prepared_read 2).
    { exists (bio_attached 500 sample_read), 500, sample_read_bip.
      split; [vm_compute; reflexivity|].
      split; [vm_compute; reflexivity|].
      split; [vm_compute; reflexivity|].
      split; [cbn; lia | vm_compute; reflexivity]. }
    assert (Hrun : bio_integrity_clone 1 2 GFP_NOIO sample_prepared_read
                   = Ret 0 sample_cloned)
      by (vm_compute; reflexivity).
    destruct (H _ _ _ _ _ Hsrc Hrun)
      as (b & bip & bp & Hb & Hi & Hp & _ & Hsum).
    vm_compute in Hb. injection Hb as <-.
    vm_compute in Hi. injection Hi as <-.
    vm_compute in Hp. injection Hp as <-.
    vm_compute in Hsum. discriminate Hsum.
  - intros H.
    assert (Hsrc : bio_consistent sample_split_read 2).
    { eexists _, 500, sample_read_bip.
      split; [vm_compute; reflexivity|].
      split; [vm_compute; reflexivity|].
      split; [vm_compute; reflexivity|].
      split; [cbn; lia | vm_compute; reflexivity]. }
    assert (Hrun : bio_integrity_trim 2 sample_split_read
                   = Ret tt (exec (bio_integrity_trim 2) sample_split_read))
      by (vm_compute; reflexivity).
    destruct (H _ _ _ Hsrc Hrun)
      as (b & bip & bp & Hb & Hi & Hp & _ & Hsum).
    vm_compute in Hb. injection Hb as <-.
    vm_compute in Hi. injection Hi as <-.
    vm_compute in Hp. injection Hp as <-.
    vm_compute in Hsum. discriminate Hsum.
Qed.

(** * Further properties of the file *)

(** ** Allocation and release *)

Lemma land_lor_lnot (x m : Z) :
  Z.land x m = 0 -> Z.land (Z.lor x m) (Z.lnot m) = x.
Proof.
  intros H. apply Z.bits_inj'. intros n Hn.
  rewrite Z.land_spec, Z.lor_spec, Z.lnot_spec by exact Hn.
  pose proof (f_equal (λ z, Z.testbit z n) H) as Hbit. cbn beta in Hbit.
  rewrite Z.land_spec, Z.bits_0 in Hbit.
  destruct (Z.testbit x n), (Z.testbit m n); try reflexivity;
    discriminate Hbit.
Qed.

Lemma bio_detached_attached (bip : Z) (b : bio) :
  bi_integrity b = None ->
  Z.land (bi_opf b) REQ_INTEGRITY = 0 ->
  bio_detached (bio_attached bip b) = b.
Proof.
  intros Hi Hf. destruct b as [d opf st it ig pool cc]. cbn in *.
  subst ig. unfold bio_detached, bio_attached, bio_with_opf,
    bio_with_integrity. cbn.
  rewrite land_lor_lnot by exact Hf. reflexivity.
Qed.

(** X1: a payload allocated for a request and released again leaves
    the request, the payloads and memory as they were; what remains is
    the release recorded in the trace: [kfree] of the payload without a
    pool, and with a pool [mempool_free] of it, after [bvec_free] of its
    vector when it had one. *)
Theorem bio_integrity_alloc_free_round_trip
    (k k1 : kernel) (b : bio) (bio gfp n p : Z) :
  bios k !! bio = Some b ->
  bi_integrity b = None ->
  Z.land (bi_opf b) REQ_INTEGRITY = 0 ->
  bips k !! p = None ->
  bio_integrity_alloc bio gfp n k = Ret (Ptr p) k1 ->
  ∃ k2 bp,
    bips k1 !! p = Some bp
    ∧ bio_integrity_free bio k1 = Ret tt k2
    ∧ bios k2 = bios k ∧ bips k2 = bips k ∧ mem k2 = mem k
    ∧ trace k2 = trace k ++ payload_free_events b p bp.
Proof.
  intros Hb Hi Hf Hfresh Ha.
  destruct (bio_integrity_alloc_ok _ _ _ _ _ _ _ Hb Ha)
    as (maxv & vec & inline & Hbips & Hbios & Ht & Hm & _ & _).
  assert (Hb1 : bios k1 !! bio = Some (bio_attached p b))
    by (rewrite Hbios; apply lookup_insert_eq).
  assert (Hp1 : bips k1 !! p = Some (bip_fresh bio maxv vec inline))
    by (rewrite Hbips; apply lookup_insert_eq).
  eexists _, _. split; [exact Hp1|].
  split.
  { apply (bio_integrity_free_run k1 _ _ bio p Hb1
             (bio_integrity_attached p b) Hp1). }
  kproj. rewrite Hbios, Hbips, Hm, Ht.
  rewrite bio_detached_attached by assumption.
  rewrite !insert_insert_eq, delete_insert_eq.
  rewrite insert_id by exact Hb. rewrite delete_id by exact Hfresh.
  repeat split.
Qed.

(** The first buffer of the sample allocator serves as the payload of
    the sample write and is released again. *)
Lemma bio_integrity_alloc_free_round_trip_witness :
  ∃ k2 bp,
    bips (exec (bio_integrity_alloc 1 GFP_NOIO 1) sample_kernel) !! 8192
    = Some bp
    ∧ bio_integrity_free 1
        (exec (bio_integrity_alloc 1 GFP_NOIO 1) sample_kernel)
      = Ret tt k2
    ∧ bios k2 = bios sample_kernel ∧ bips k2 = bips sample_kernel
    ∧ mem k2 = mem sample_kernel
    ∧ trace k2 = trace sample_kernel
                 ++ payload_free_events sample_write 8192 bp.
Proof.
  assert (Hb : bios sample_kernel !! 1 = Some sample_write)
    by (vm_compute; reflexivity).
  assert (Hi : bi_integrity sample_write = None) by reflexivity.
  assert (Hf : Z.land (bi_opf sample_write) REQ_INTEGRITY = 0)
    by (vm_compute; reflexivity).
  assert (Hfresh : bips sample_kernel !! 8192 = None)
    by (vm_compute; reflexivity).
  assert (Ha : bio_integrity_alloc 1 GFP_NOIO 1 sample_kernel
               = Ret (Ptr 8192)
                   (exec (bio_integrity_alloc 1 GFP_NOIO 1) sample_kernel))
    by (vm_compute; reflexivity).
  exact (bio_integrity_alloc_free_round_trip sample_kernel _ sample_write
           1 GFP_NOIO 1 8192 Hb Hi Hf Hfresh Ha).
Defined.

(** A failed [bio_integrity_alloc], taken apart. *)
Lemma bio_integrity_alloc_err_inv
    (k k' : kernel) (b : bio) (bio gfp n e : Z) :
  bios k !! bio = Some b ->
  bio_integrity_alloc bio gfp n k = Ret (ERR_PTR e) k' ->
  bios k' = bios k ∧ mem k' = mem k ∧ bvec_pool k' = bvec_pool k
  ∧ ((e = - EOPNOTSUPP ∧ bio_has_crypt_ctx b = true ∧ k' = k)
     ∨ (e = - ENOMEM ∧ bio_has_crypt_ctx b = false
        ∧ ((trace k' = trace k ∧ bips k' = bips k)
           ∨ ∃ p, pool_in_use (bi_pool b) = true
               ∧ BIO_INLINE_VECS < n
               ∧ mempool_ans k = Some p :: mempool_ans k'
               ∧ trace k' = trace k ++ [EvMempoolFree p]
               ∧ bips k' = delete p (bips k)))).
Proof.
  intros Hb. unfold bio_integrity_alloc. mrun.
  destruct (bio_has_crypt_ctx b).
  { intros [= <- <-]. repeat split. left. repeat split. }
  destruct (pool_in_use (bi_pool b)) eqn:Hpool; cbn [negb]; mrun.
  - unfold mempool_alloc.
    destruct (mempool_ans k) as [|[a|] rest] eqn:Hans; mrun;
      try (intros [= <- <-]; repeat split; right; repeat split; left;
           split; reflexivity).
    unfold store_bip. mrun.
    destruct (BIO_INLINE_VECS <? n) eqn:Hn; mrun.
    + apply Z.ltb_lt in Hn. unfold bvec_alloc. kproj.
      destruct (bvec_ans k) as [|[[va g]|] vrest] eqn:Hv; mrun;
        try discriminate;
        unfold mempool_free; mrun; intros [= <- <-]; kproj;
        (repeat split; right; repeat split; right; exists a;
         repeat split; [exact Hn | apply delete_insert_eq]).
    + unfold nonzero. destruct (n =? 0); cbn [negb]; mrun; discriminate.
  - unfold kmalloc_obj.
    destruct (kmalloc_ans k) as [|[a|] rest] eqn:Hans; mrun;
      try (intros [= <- <-]; repeat split; right; repeat split; left;
           split; reflexivity).
    unfold store_bip. mrun.
    rewrite Z.ltb_irrefl. unfold nonzero.
    destruct (n =? 0); cbn [negb]; mrun; discriminate.
Qed.

(** X2: a failed allocation returns [-EOPNOTSUPP] for a request under
    inline encryption and [-ENOMEM] otherwise, and leaves the request
    without a payload: the requests, memory and vectors are untouched.
    Nothing is released unless the payload was there and its vector was
    not to be had from the biovec pool; the payload then goes back to
    the mempool.  [kfree] is never called. *)
Theorem bio_integrity_alloc_failure
    (k k' : kernel) (b : bio) (bio gfp n e : Z) :
  bios k !! bio = Some b ->
  bio_integrity_alloc bio gfp n k = Ret (ERR_PTR e) k' ->
  bios k' = bios k ∧ mem k' = mem k ∧ bvec_pool k' = bvec_pool k
  ∧ ((e = - EOPNOTSUPP ∧ bio_has_crypt_ctx b = true ∧ k' = k)
     ∨ (e = - ENOMEM ∧ bio_has_crypt_ctx b = false
        ∧ ((trace k' = trace k ∧ bips k' = bips k)
           ∨ ∃ p, pool_in_use (bi_pool b) = true
               ∧ BIO_INLINE_VECS < n
               ∧ mempool_ans k = Some p :: mempool_ans k'
               ∧ trace k' = trace k ++ [EvMempoolFree p]
               ∧ bips k' = delete p (bips k)))).
Proof.
  intros Hb Ha. exact (bio_integrity_alloc_err_inv k k' b bio gfp n e Hb Ha).
Qed.

(** The biovec pool has nothing for the five vectors asked for: the
    payload at 700 goes back to the mempool. *)
Lemma bio_integrity_alloc_failure_witness :
  ∃ k', bio_integrity_alloc 3 GFP_NOIO 5 pooled_kernel
        = Ret (ERR_PTR (- ENOMEM)) k'
    ∧ bios k' = bios pooled_kernel
    ∧ trace k' = trace pooled_kernel ++ [EvMempoolFree 700].
Proof.
  assert (Hb : bios pooled_kernel !! 3 = Some pooled_write)
    by (vm_compute; reflexivity).
  assert (Ha : bio_integrity_alloc 3 GFP_NOIO 5 pooled_kernel
               = Ret (ERR_PTR (- ENOMEM))
                   (exec (bio_integrity_alloc 3 GFP_NOIO 5) pooled_kernel))
    by (vm_compute; reflexivity).
  eexists. split; [exact Ha|].
  destruct (bio_integrity_alloc_failure pooled_kernel _ pooled_write
              3 GFP_NOIO 5 (- ENOMEM) Hb Ha) as (Hbios & _ & _ & _).
  split; [exact Hbios|]. vm_compute. reflexivity.
Defined.

(** X3: a successful allocation attaches a new, empty payload to the
    request and flags the request; memory and trace are untouched.  The
    payload reports the vector count asked for, cut to 16 bits, and not
    the count of inline vectors it has room for; its vector is absent
    when none was asked for, the inline array when the count fits it,
    and otherwise an array of the biovec pool, whose granted count the
    payload then reports. *)
Theorem bio_integrity_alloc_attaches
    (k k' : kernel) (b : bio) (bio gfp n p : Z) :
  bios k !! bio = Some b ->
  bio_integrity_alloc bio gfp n k = Ret (Ptr p) k' ->
  ∃ maxv vec inline,
    bips k' = <[p := bip_fresh bio maxv vec inline]> (bips k)
    ∧ bios k' = <[bio := bio_attached p b]> (bios k)
    ∧ trace k' = trace k ∧ mem k' = mem k ∧ same_machine k k'
    ∧ ((vec = None ∧ n = 0 ∧ maxv = 0 ∧ bvec_pool k' = bvec_pool k)
       ∨ (vec = Some (InlineVecs p) ∧ n ≠ 0 ∧ n <= inline ∧ maxv = u16 n
          ∧ bvec_pool k' = bvec_pool k)
       ∨ (∃ a g, vec = Some (PoolVecs a) ∧ maxv = g ∧ 0 <= g < 2 ^ 16
          ∧ inline = BIO_INLINE_VECS ∧ BIO_INLINE_VECS < n
          ∧ bvec_pool k'
            = <[a := replicate (Z.to_nat g) (BioVec 0 0 0)]> (bvec_pool k))).
Proof.
  intros Hb Ha. exact (bio_integrity_alloc_ok k k' b bio gfp n p Hb Ha).
Qed.

(** With the pool's second answer the five vectors are granted as an
    array of eight at 900. *)
Lemma bio_integrity_alloc_attaches_witness :
  ∃ maxv vec inline,
    bips pooled_granted
    = <[700 := bip_fresh 3 maxv vec inline]> (bips pooled_kernel_granting)
    ∧ bios pooled_granted
      = <[3 := bio_attached 700 pooled_write]> (bios pooled_kernel_granting)
    ∧ trace pooled_granted = trace pooled_kernel_granting
    ∧ mem pooled_granted = mem pooled_kernel_granting
    ∧ same_machine pooled_kernel_granting pooled_granted
    ∧ ((vec = None ∧ 5 = 0 ∧ maxv = 0
        ∧ bvec_pool pooled_granted = bvec_pool pooled_kernel_granting)
       ∨ (vec = Some (InlineVecs 700) ∧ 5 ≠ 0 ∧ 5 <= inline
          ∧ maxv = u16 5
          ∧ bvec_pool pooled_granted = bvec_pool pooled_kernel_granting)
       ∨ (∃ a g, vec = Some (PoolVecs a) ∧ maxv = g ∧ 0 <= g < 2 ^ 16
          ∧ inline = BIO_INLINE_VECS ∧ BIO_INLINE_VECS < 5
          ∧ bvec_pool pooled_granted
            = <[a := replicate (Z.to_nat g) (BioVec 0 0 0)]>
                (bvec_pool pooled_kernel_granting))).
Proof.
  assert (Hb : bios pooled_kernel_granting !! 3 = Some pooled_write)
    by (vm_compute; reflexivity).
  assert (Ha : bio_integrity_alloc 3 GFP_NOIO 5 pooled_kernel_granting
               = Ret (Ptr 700) pooled_granted)
    by (vm_compute; reflexivity).
  exact (bio_integrity_alloc_attaches pooled_kernel_granting _
           pooled_write 3 GFP_NOIO 5 700 Hb Ha).
Defined.

(** ** Cloning without success *)

(** X4: cloning from a request that has no payload is fatal
    ([BUG_ON]); and a clone that cannot allocate its payload returns the
    allocator's error, [-ENOMEM] or [-EOPNOTSUPP], and leaves the
    requests, memory and vectors as they were. *)
Theorem bio_integrity_clone_failure
    (k : kernel) (b bs : bio) (bio bio_src gfp_mask : Z) :
  bios k !! bio = Some b ->
  bios k !! bio_src = Some bs ->
  (bio_integrity bs = None ->
   bio_integrity_clone bio bio_src gfp_mask k = Oops)
  ∧ (∀ r k',
       bio_integrity_clone bio bio_src gfp_mask k = Ret r k' ->
       r ≠ 0 ->
       (r = - ENOMEM ∨ r = - EOPNOTSUPP)
       ∧ bios k' = bios k ∧ mem k' = mem k ∧ bvec_pool k' = bvec_pool k).
Proof.
  intros Hb Hbs. split.
  - intros Hi. unfold bio_integrity_clone. mrun. rewrite Hi. reflexivity.
  - intros r k'. unfold bio_integrity_clone. mrun.
    destruct (bio_integrity bs) as [bip_src|]; [|discriminate].
    mrun.
    destruct (bio_integrity_alloc bio gfp_mask 0 k) as [[bip|e] k1|] eqn:Ha;
      cbn beta iota; [| |discriminate].
    + mrun. unfold load_bip.
      destruct (bips k1 !! bip_src) as [src|]; [|discriminate].
      mrun.
      destruct (bip_update bip _ k1) as [[] k2|]; [|discriminate].
      rewrite bind_run.
      destruct (bip_update bip _ k2) as [[] k3|]; [|discriminate].
      rewrite bind_run.
      destruct (bip_update bip _ k3) as [[] k4|]; [|discriminate].
      intros [= <- _] Hr. contradiction Hr. reflexivity.
    + intros [= <- <-] _.
      destruct (bio_integrity_alloc_err_inv _ _ _ _ _ _ _ Hb Ha)
        as (Hbios & Hm & Hpool & [(-> & _) | (-> & _)]).
      * repeat split; try assumption. right. reflexivity.
      * repeat split; try assumption. left. reflexivity.
Qed.

(** With nothing to allocate from, cloning the prepared read fails with
    [-ENOMEM]. *)
Lemma bio_integrity_clone_failure_witness :
  (bio_integrity sample_write = None ->
   bio_integrity_clone 2 1 GFP_NOIO starved_read_prepared = Oops)
  ∧ ((- ENOMEM = - ENOMEM ∨ - ENOMEM = - EOPNOTSUPP)
     ∧ bios starved_read_prepared = bios starved_read_prepared
     ∧ mem starved_read_prepared = mem starved_read_prepared
     ∧ bvec_pool starved_read_prepared = bvec_pool starved_read_prepared).
Proof.
  assert (Hb : bios starved_read_prepared !! 1 = Some sample_write)
    by (vm_compute; reflexivity).
  assert (Hbs : bios starved_read_prepared !! 2
                = Some (bio_attached 500 sample_read))
    by (vm_compute; reflexivity).
  assert (Hrun : bio_integrity_clone 1 2 GFP_NOIO starved_read_prepared
                 = Ret (- ENOMEM) starved_read_prepared)
    by (vm_compute; reflexivity).
  split.
  - exact (proj1 (bio_integrity_clone_failure starved_read_prepared
                    (bio_attached 500 sample_read) sample_write 2 1 GFP_NOIO
                    Hbs Hb)).
  - apply (proj2 (bio_integrity_clone_failure starved_read_prepared
                    sample_write (bio_attached 500 sample_read) 1 2 GFP_NOIO
                    Hb Hbs) _ _ Hrun).
    vm_compute. discriminate.
Defined.

(** ** Unpinning *)

Lemma dirtied_pages_app (e1 e2 : list event) :
  dirtied_pages (e1 ++ e2) = dirtied_pages e1 ++ dirtied_pages e2.
Proof. apply flat_map_app. Qed.

Lemma kfreed_app (e1 e2 : list event) :
  kfreed (e1 ++ e2) = kfreed e1 ++ kfreed e2.
Proof. apply flat_map_app. Qed.

Lemma unpin_events_kfreed (c : Z -> bool) (bv : list bio_vec) (d : bool) :
  kfreed (unpin_events c bv d) = [].
Proof.
  induction bv as [|v bv IH]; [reflexivity|].
  change (unpin_events c (v :: bv) d)
    with (((if d && negb (c (bv_page v))
            then [EvSetPageDirty (bv_page v)] else [])
           ++ [EvUnpin (bv_page v)]) ++ unpin_events c bv d).
  rewrite !kfreed_app, IH.
  destruct (d && negb (c (bv_page v))); reflexivity.
Qed.

Lemma unpin_events_dirtied (c : Z -> bool) (bv : list bio_vec) (d : bool) :
  dirtied_pages (unpin_events c bv d)
  = if d then filter (λ p, c p = false) (map bv_page bv) else [].
Proof.
  induction bv as [|v bv IH]; [destruct d; reflexivity|].
  change (unpin_events c (v :: bv) d)
    with (((if d && negb (c (bv_page v))
            then [EvSetPageDirty (bv_page v)] else [])
           ++ [EvUnpin (bv_page v)]) ++ unpin_events c bv d).
  rewrite !dirtied_pages_app, IH. destruct d; [|reflexivity].
  cbn [map andb]. rewrite filter_cons.
  destruct (c (bv_page v)) eqn:Hc; cbn [negb].
  - rewrite decide_False by discriminate. reflexivity.
  - rewrite decide_True by reflexivity. reflexivity.
Qed.

(** X5: [bio_integrity_unpin_bvec] unpins the page of each of the
    first [nr_vecs] segments once, in order, and changes nothing but the
    trace.  It marks dirty, when asked to, exactly the pages among them
    that are not part of a compound page, and no page when not asked
    to. *)
Theorem bio_integrity_unpin_bvec_pages
    (bv : list bio_vec) (nr_vecs : Z) (dirty : bool) (k : kernel) :
  nr_vecs <= Z.of_nat (length bv) ->
  ∃ evs,
    bio_integrity_unpin_bvec bv nr_vecs dirty k
    = Ret tt (set_trace (λ t, t ++ evs) k)
    ∧ unpinned_pages evs = map bv_page (take (Z.to_nat nr_vecs) bv)
    ∧ dirtied_pages evs
      = (if dirty
         then filter (λ p, PageCompound k p = false)
                (map bv_page (take (Z.to_nat nr_vecs) bv))
         else [])
    ∧ pinned_pages evs = [] ∧ kfreed evs = [].
Proof.
  intros Hn. eexists. split.
  - apply bio_integrity_unpin_bvec_run. exact Hn.
  - split; [apply unpin_events_unpinned|].
    split; [apply unpin_events_dirtied|].
    split; [apply unpin_events_pinned | apply unpin_events_kfreed].
Qed.

(** Of two user segments on pages 1005 and 1006, where 1006 is part of
    a compound page, both are unpinned and 1005 alone is marked. *)
Lemma bio_integrity_unpin_bvec_pages_witness :
  ∃ evs,
    bio_integrity_unpin_bvec [BioVec 1005 3583 513; BioVec 1006 513 0] 2
      true compound_kernel
    = Ret tt (set_trace (λ t, t ++ evs) compound_kernel)
    ∧ unpinned_pages evs = [1005; 1006]
    ∧ dirtied_pages evs = [1005]
    ∧ pinned_pages evs = [] ∧ kfreed evs = [].
Proof.
  assert (Hn : 2 <= Z.of_nat (length [BioVec 1005 3583 513;
                                      BioVec 1006 513 0]))
    by (cbn; lia).
  exact (bio_integrity_unpin_bvec_pages
           [BioVec 1005 3583 513; BioVec 1006 513 0] 2 true compound_kernel
           Hn).
Defined.

(** X6: unmapping a payload that is not in copy mode unpins the pages
    of the first [bip_max_vcnt] entries of its vector, marking them
    dirty for a read (the device wrote to them) and not for a write; it
    frees nothing, copies nothing, and leaves the payload attached. *)
Theorem bio_integrity_unmap_user_zero_copy
    (k : kernel) (b : bio) (bp : bio_integrity_payload) (vp : vec_ptr)
    (vec : list bio_vec) (bio bip : Z) :
  bios k !! bio = Some b ->
  bio_integrity b = Some bip ->
  bips k !! bip = Some bp ->
  Z.land (bip_flags bp) BIP_COPY_USER = 0 ->
  bip_vec bp = Some vp ->
  vec_at k vp = Some vec ->
  bip_max_vcnt bp <= Z.of_nat (length vec) ->
  ∃ evs,
    bio_integrity_unmap_user bio k = Ret tt (set_trace (λ t, t ++ evs) k)
    ∧ unpinned_pages evs
      = map bv_page (take (Z.to_nat (bip_max_vcnt bp)) vec)
    ∧ dirtied_pages evs
      = (if bio_data_dir b =? READ
         then filter (λ p, PageCompound k p = false)
                (map bv_page (take (Z.to_nat (bip_max_vcnt bp)) vec))
         else [])
    ∧ pinned_pages evs = [] ∧ kfreed evs = [].
Proof.
  intros Hb Hi Hp Hfl Hv Hvec Hn.
  pose proof (bio_integrity_unpin_bvec_run vec (bip_max_vcnt bp)
                (bio_data_dir b =? READ) k Hn) as Hrun.
  eexists. split.
  - unfold bio_integrity_unmap_user. mrun. rewrite Hi. mrun.
    rewrite Hfl. change (nonzero 0) with false. cbn beta iota.
    rewrite Hv. mrun. exact Hrun.
  - split; [apply unpin_events_unpinned|].
    split; [apply unpin_events_dirtied|].
    split; [apply unpin_events_pinned | apply unpin_events_kfreed].
Qed.

(** The sample read mapped without a copy is unmapped: its one page,
    1005 in the sample page table, is unpinned and marked dirty. *)
Lemma bio_integrity_unmap_user_zero_copy_witness :
  ∃ evs,
    bio_integrity_unmap_user 2 sample_mapped_read
    = Ret tt (set_trace (λ t, t ++ evs) sample_mapped_read)
    ∧ unpinned_pages evs = [1005]
    ∧ dirtied_pages evs = [1005]
    ∧ pinned_pages evs = [] ∧ kfreed evs = [].
Proof.
  assert (Hb : bios sample_mapped_read !! 2
               = Some (bio_attached 8192 sample_read))
    by (vm_compute; reflexivity).
  assert (Hi : bio_integrity (bio_attached 8192 sample_read) = Some 8192)
    by (vm_compute; reflexivity).
  assert (Hp : bips sample_mapped_read !! 8192 = Some sample_mapped_bip)
    by (vm_compute; reflexivity).
  assert (Hfl : Z.land (bip_flags sample_mapped_bip) BIP_COPY_USER = 0)
    by reflexivity.
  assert (Hv : bip_vec sample_mapped_bip = Some (InlineVecs 8192))
    by reflexivity.
  assert (Hvec : vec_at sample_mapped_read (InlineVecs 8192)
                 = Some [BioVec 1005 1024 512])
    by (vm_compute; reflexivity).
  assert (Hn : bip_max_vcnt sample_mapped_bip
               <= Z.of_nat (length [BioVec 1005 1024 512]))
    by (cbn; lia).
  exact (bio_integrity_unmap_user_zero_copy sample_mapped_read
           (bio_attached 8192 sample_read) sample_mapped_bip
           (InlineVecs 8192) [BioVec 1005 1024 512] 2 8192
           Hb Hi Hp Hfl Hv Hvec Hn).
Defined.

(** ** Coalescing pages into segments: what is unpinned *)

(** X7: given its [nr_vecs] pinned pages, [bvec_from_pages] runs to
    its end and only adds calls of [unpin_user_page] to the trace.
    Every page either heads a segment or is unpinned, once; the segments
    are at most [nr_vecs], their lengths are not negative and take
    [bytes] less what the pages cannot hold; the first segment starts at
    [offset] in the first page and the others at offset 0. *)
Theorem bvec_from_pages_accounts
    (pages : list Z) (nr_vecs bytes offset : Z) (k : kernel) :
  nr_vecs = Z.of_nat (length pages) ->
  0 <= bytes ->
  0 <= offset <= PAGE_SIZE ->
  ∃ bvec ups,
    bvec_from_pages pages nr_vecs bytes offset k
    = Ret bvec (set_trace (λ t, t ++ map EvUnpin ups) k)
    ∧ map bv_page bvec ++ ups ≡ₚ pages
    ∧ segs_len bvec
      = (if 0 <? nr_vecs
         then Z.min bytes (nr_vecs * PAGE_SIZE - offset) else 0)
    ∧ Forall (λ v, 0 <= bv_len v) bvec
    ∧ Z.of_nat (length bvec) <= nr_vecs
    ∧ (∀ v, bvec !! 0%nat = Some v ->
         bv_offset v = offset ∧ pages !! 0%nat = Some (bv_page v))
    ∧ (∀ n v, bvec !! S n = Some v -> bv_offset v = 0).
Proof.
  intros Hnr Hb Hoff. unfold bvec_from_pages.
  destruct (bvec_from_pages_loop_total (Z.to_nat nr_vecs) pages nr_vecs 0
              bytes offset [] k Hnr ltac:(lia) ltac:(lia))
    as (new & ups & Hrun & Hperm & Hfirst & Hrest).
  destruct (bvec_from_pages_loop_spec _ _ _ _ _ _ _ _ _ _ Hrun Hb Hoff
              ltac:(lia))
    as (new' & Hnew & Hsum & Hwf & Hlen & _).
  apply app_inv_head in Hnew. subst new'.
  exists new, ups. split; [exact Hrun|].
  split; [exact Hperm|]. rewrite Z.sub_0_r in Hsum, Hlen.
  split; [exact Hsum|]. split; [exact Hwf|]. split; [lia|].
  split; [exact Hfirst | exact Hrest].
Qed.

(** Two pages of one folio, for 4096 bytes from offset 513. *)
Lemma bvec_from_pages_accounts_witness :
  ∃ bvec ups,
    bvec_from_pages [1005; 1006] 2 4096 513 folio_kernel
    = Ret bvec (set_trace (λ t, t ++ map EvUnpin ups) folio_kernel)
    ∧ map bv_page bvec ++ ups ≡ₚ [1005; 1006]
    ∧ segs_len bvec
      = (if 0 <? 2 then Z.min 4096 (2 * PAGE_SIZE - 513) else 0)
    ∧ Forall (λ v, 0 <= bv_len v) bvec
    ∧ Z.of_nat (length bvec) <= 2
    ∧ (∀ v, bvec !! 0%nat = Some v ->
         bv_offset v = 513 ∧ [1005; 1006] !! 0%nat = Some (bv_page v))
    ∧ (∀ n v, bvec !! S n = Some v -> bv_offset v = 0).
Proof.
  assert (Hnr : 2 = Z.of_nat (length [1005; 1006])) by reflexivity.
  assert (Hb : 0 <= 4096) by lia.
  assert (Hoff : 0 <= 513 <= PAGE_SIZE) by (unfold PAGE_SIZE; lia).
  exact (bvec_from_pages_accounts [1005; 1006] 2 4096 513 folio_kernel
           Hnr Hb Hoff).
Defined.

(** X8: pages that follow one another within the folio of the first
    become one segment: it starts at [offset] in the first page and
    takes [bytes], or what the pages hold from there; every page but the
    first is unpinned, in order. *)
Theorem bvec_from_pages_one_folio
    (p0 : Z) (rest : list Z) (nr_vecs bytes offset : Z) (k : kernel) :
  nr_vecs = Z.of_nat (length (p0 :: rest)) ->
  0 <= bytes ->
  0 <= offset <= PAGE_SIZE ->
  (∀ m, 1 <= m < nr_vecs ->
     joins (page_folio k) (page_folio k p0) (p0 :: rest) m = true) ->
  bvec_from_pages (p0 :: rest) nr_vecs bytes offset k
  = Ret [BioVec p0 (Z.min bytes (nr_vecs * PAGE_SIZE - offset)) offset]
      (set_trace (λ t, t ++ map EvUnpin rest) k).
Proof.
  intros Hnr Hb Hoff Hjoin. unfold bvec_from_pages.
  assert (Hpos : 1 <= nr_vecs) by (cbn [length] in Hnr; lia).
  replace (bvec_from_pages_loop (Z.to_nat nr_vecs))
    with (bvec_from_pages_loop (S (Z.to_nat (nr_vecs - 1))))
    by (f_equal; lia).
  set (fuel := Z.to_nat (nr_vecs - 1)).
  cbn [bvec_from_pages_loop].
  destruct (0 <? nr_vecs) eqn:Hlt; [|apply Z.ltb_ge in Hlt; lia].
  change (Z.to_nat 0) with 0%nat. cbn [lookup list_lookup].
  mrun.
  destruct (bvec_from_pages_run_total (Z.to_nat nr_vecs) (p0 :: rest) nr_vecs
              (page_folio k p0) (0 + 1)
              (Z.min bytes (PAGE_SIZE - offset))
              (bytes - Z.min bytes (PAGE_SIZE - offset)) k Hnr
              ltac:(lia) ltac:(lia))
    as (j & size' & bytes' & Hrun & Hj & _ & Hstop).
  assert (Hjn : j = nr_vecs).
  { destruct (decide (j = nr_vecs)) as [|Hne]; [assumption|].
    rewrite Hjoin in Hstop by lia. specialize (Hstop ltac:(lia)).
    discriminate Hstop. }
  subst j.
  destruct (bvec_from_pages_run_spec _ _ _ _ _ _ _ _ _ _ _ _ Hrun
              ltac:(lia) ltac:(lia)) as (_ & Hsize & Hbytes & _).
  rewrite Hrun. cbn beta iota.
  assert (Hend : ∀ (b' : Z) acc k1,
            bvec_from_pages_loop fuel (p0 :: rest) nr_vecs nr_vecs b' 0
              acc k1 = Ret acc k1).
  { intros b' acc k1. clearbody fuel.
    destruct fuel; cbn [bvec_from_pages_loop];
      [reflexivity|]. rewrite Z.ltb_irrefl. reflexivity. }
  rewrite Hend. cbn [app]. f_equal.
  - f_equal. f_equal. unfold PAGE_SIZE in *. lia.
  - change (Z.to_nat (0 + 1)) with 1%nat. cbn [drop].
    assert (Hl : (length rest <= Z.to_nat (nr_vecs - (0 + 1)))%nat).
    { clear - Hnr. cbn [length] in Hnr. lia. }
    rewrite take_ge by exact Hl. reflexivity.
Qed.

(** Pages 1005 and 1006 of one folio become one segment of 4096 bytes,
    and 1006 is unpinned. *)
Lemma bvec_from_pages_one_folio_witness :
  bvec_from_pages [1005; 1006] 2 4096 513 folio_kernel
  = Ret [BioVec 1005 (Z.min 4096 (2 * PAGE_SIZE - 513)) 513]
      (set_trace (λ t, t ++ map EvUnpin [1006]) folio_kernel).
Proof.
  assert (Hnr : 2 = Z.of_nat (length [1005; 1006])) by reflexivity.
  assert (Hb : 0 <= 4096) by lia.
  assert (Hoff : 0 <= 513 <= PAGE_SIZE) by (unfold PAGE_SIZE; lia).
  assert (Hjoin : ∀ m, 1 <= m < 2 ->
            joins (page_folio folio_kernel) (page_folio folio_kernel 1005)
              [1005; 1006] m = true).
  { intros m Hm. assert (m = 1) as -> by lia. vm_compute. reflexivity. }
  exact (bvec_from_pages_one_folio 1005 [1006] 2 4096 513 folio_kernel
           Hnr Hb Hoff Hjoin).
Defined.

(** ** From preparation to completion *)

Lemma bio_op_attached (bip : Z) (b : bio) :
  bio_op (bio_attached bip b) = bio_op b.
Proof.
  unfold bio_op, bio_attached. cbn [bi_opf bio_with_opf bio_with_integrity].
  apply Z.bits_inj'. intros n Hn.
  rewrite !Z.land_spec, Z.lor_spec.
  destruct (Z.testbit REQ_OP_MASK n) eqn:Hm; [|rewrite !andb_false_r; auto].
  assert (Hr : Z.testbit REQ_INTEGRITY n = false).
  { unfold REQ_INTEGRITY. rewrite Z.shiftl_spec by exact Hn.
    destruct (decide (n = 16)) as [->|Hne].
    - vm_compute in Hm. discriminate Hm.
    - destruct (decide (n < 16)) as [Hlt|Hge].
      + apply Z.testbit_neg_r. lia.
      + change 1 with (Z.ones 1). apply Z.ones_spec_high. lia. }
  rewrite Hr, orb_false_r. reflexivity.
Qed.

(** The exit of [__bio_integrity_endio] that completes the request: the
    buffer and the payload are released. *)
Lemma endio_completes (k : kernel) (b : bio) (bi : blk_integrity)
    (bp : bio_integrity_payload) (vp : vec_ptr) (vec : list bio_vec)
    (v0 : bio_vec) (bio bip : Z) :
  bios k !! bio = Some b ->
  bio_integrity b = Some bip ->
  bips k !! bip = Some bp ->
  blk_get_integrity (bi_bdev b) = Some bi ->
  bip_vec bp = Some vp ->
  vec_at k vp = Some vec ->
  vec !! 0%nat = Some v0 ->
  verify_deferred b bi = false ->
  __bio_integrity_endio bio k
  = Ret true
      (set_bios (insert bio (bio_detached b))
         (set_bios (insert bio (bio_with_integrity None b))
            (set_bips (delete bip)
               (set_trace
                  (λ t, t ++ [EvKfree (bvec_virt v0)]
                          ++ payload_free_events b bip bp) k)))).
Proof.
  intros Hb Hi Hp Hbi Hv Hvec H0 Hd.
  unfold __bio_integrity_endio. mrun. rewrite Hbi, Hi.
  assert (Hst : negb (nonzero (bi_status b)) = (bi_status b =? BLK_STS_OK)).
  { unfold nonzero, BLK_STS_OK. rewrite negb_involutive. reflexivity. }
  rewrite Hst. unfold verify_deferred in Hd.
  assert (Hfree :
    (p ← deref (Some bip); kfree_bip_buf p;; bio_integrity_free bio;;
     mret true) k
    = Ret true
        (set_bios (insert bio (bio_detached b))
           (set_bios (insert bio (bio_with_integrity None b))
              (set_bips (delete bip)
                 (set_trace
                    (λ t, t ++ [EvKfree (bvec_virt v0)]
                            ++ payload_free_events b bip bp) k))))).
  { mrun. rewrite (kfree_bip_buf_run _ _ _ _ _ _ Hp Hv Hvec H0).
    cbn beta iota. mrun.
    erewrite (bio_integrity_free_run _ b bp) by solve_lookup.
    cbn beta iota. mrun. rewrite set_trace_app. reflexivity. }
  destruct ((bio_op b =? REQ_OP_READ) && (bi_status b =? BLK_STS_OK)) eqn:Hc;
    mrun.
  - cbn [andb] in Hd. apply negb_false_iff in Hd.
    unfold nonzero. unfold BLK_INTEGRITY_CSUM_NONE in Hd. rewrite Hd.
    cbn [negb]. exact Hfree.
  - exact Hfree.
Qed.

(** The exit of [__bio_integrity_endio] that defers to the worker. *)
Lemma endio_defers (k : kernel) (b : bio) (bi : blk_integrity)
    (bp : bio_integrity_payload) (bio bip : Z) :
  bios k !! bio = Some b ->
  bio_integrity b = Some bip ->
  bips k !! bip = Some bp ->
  blk_get_integrity (bi_bdev b) = Some bi ->
  verify_deferred b bi = true ->
  __bio_integrity_endio bio k
  = Ret false
      (set_trace (λ t, t ++ [EvQueueWork bip])
         (set_bips
            (insert bip
               (bip_with_work (Some bio_integrity_verify_fn_work) bp)) k)).
Proof.
  intros Hb Hi Hp Hbi Hd.
  unfold __bio_integrity_endio, queue_work. mrun. rewrite Hbi, Hi.
  assert (Hst : negb (nonzero (bi_status b)) = (bi_status b =? BLK_STS_OK)).
  { unfold nonzero, BLK_STS_OK. rewrite negb_involutive. reflexivity. }
  rewrite Hst. unfold verify_deferred in Hd.
  apply andb_true_iff in Hd as [Hc Hn]. rewrite Hc. mrun.
  unfold nonzero. unfold BLK_INTEGRITY_CSUM_NONE in Hn. rewrite Hn.
  mrun. reflexivity.
Qed.

(** X9: a request that [bio_integrity_prep] has given a payload is
    completed by [__bio_integrity_endio], at once or through the
    verification worker when the completion is deferred, whatever the
    device has left in memory in between.  Either way the buffer that
    was allocated for the metadata is the one freed, once, and the
    payload is released after it.  A completion at once leaves the
    request as it was before the preparation; the worker leaves it so
    when the verifier finds a match, and with the data-integrity error
    status when it finds a mismatch. *)
Theorem bio_integrity_prep_endio_round_trip
    (k k1 k2 : kernel) (b : bio) (bi : blk_integrity)
    (bio gfp buf bip : Z) (m : Z -> Z) :
  bios k !! bio = Some b ->
  blk_get_integrity (bi_bdev b) = Some bi ->
  bio_sectors b ≠ 0 ->
  bi_integrity b = None ->
  Z.land (bi_opf b) REQ_INTEGRITY = 0 ->
  bio_integrity_prep_switch bi b = Some gfp ->
  kmalloc (bio_integrity_bytes bi (bio_sectors b)) gfp k
  = Ret (Some buf) k1 ->
  bio_integrity_alloc bio GFP_NOIO 1 k1 = Ret (Ptr bip) k2 ->
  ∃ k' k'' bp,
    bio_integrity_prep bio k = Ret true k'
    ∧ bips k' !! bip = Some bp
    ∧ (if verify_deferred b bi
       then ∃ kq,
              __bio_integrity_endio bio (set_mem (λ _, m) k') = Ret false kq
              ∧ bio_integrity_verify_fn bip kq = Ret tt k''
              ∧ trace k''
                = trace k' ++ [EvQueueWork bip; EvVerify bio]
                    ++ prep_release_events b buf bip ++ [EvEndio bio]
              ∧ bios k'' !! bio
                = Some (bio_verified
                          (csum_verify k m (bio_attached bip b)
                             (bip_with_work
                                (Some bio_integrity_verify_fn_work) bp))
                          b)
       else __bio_integrity_endio bio (set_mem (λ _, m) k') = Ret true k''
            ∧ trace k'' = trace k' ++ prep_release_events b buf bip
            ∧ bios k'' !! bio = Some b)
    ∧ bips k'' !! bip = None
    ∧ mem k'' = m.
Proof.
  intros Hb Hbi Hs Hig Hfl Hsw Hk Ha.
  assert (Hi : bio_integrity b = None).
  { unfold bio_integrity. rewrite Hfl. reflexivity. }
  destruct (bio_integrity_prep_run _ _ _ _ _ _ _ _ _ Hb Hbi Hs Hi Hsw
              Hk Ha)
    as (k' & bp0 & Hrun & Hatt & Hp0 & _ & Hsm).
  destruct Hatt as (bp & Hb' & Hp' & Hbio & Hmax & _ & Hv & Hin & _).
  assert (bp0 = bp) as -> by congruence. clear Hp0.
  destruct Hsm as (_ & _ & _ & _ & Hcv).
  set (b' := bio_attached bip b) in *.
  set (kd := set_mem (λ _, m) k').
  assert (Hbd : bios kd !! bio = Some b') by exact Hb'.
  assert (Hpd : bips kd !! bip = Some bp) by exact Hp'.
  assert (Hi' : bio_integrity b' = Some bip)
    by apply bio_integrity_attached.
  assert (Hbi' : blk_get_integrity (bi_bdev b') = Some bi) by exact Hbi.
  assert (Hvec : vec_at kd (InlineVecs bip) = Some (bip_inline_vecs bp))
    by (unfold vec_at; rewrite Hpd; reflexivity).
  assert (Hd : verify_deferred b' bi = verify_deferred b bi).
  { unfold verify_deferred, b'. rewrite bio_op_attached. reflexivity. }
  assert (Hfree : payload_free_events b' bip bp
                  = (if pool_in_use (bi_pool b)
                     then [EvBvecFree (InlineVecs bip) 1; EvMempoolFree bip]
                     else [EvKfree bip])).
  { unfold payload_free_events. rewrite Hv, Hmax. reflexivity. }
  assert (Hdet : ∀ ok, bio_detached (bio_verified ok b')
                       = bio_verified ok b).
  { intros ok.
    pose proof (bio_detached_attached bip b Hig Hfl) as Hda.
    destruct ok; [exact Hda|]. fold b' in Hda. unfold bio_verified.
    change (bio_detached (bio_with_status BLK_STS_PROTECTION b'))
      with (bio_with_status BLK_STS_PROTECTION (bio_detached b')).
    rewrite Hda. reflexivity. }
  exists k'. destruct (verify_deferred b bi) eqn:Hdef.
  - set (bpq := bip_with_work (Some bio_integrity_verify_fn_work) bp).
    set (kq := set_trace (λ t, t ++ [EvQueueWork bip])
                 (set_bips (insert bip bpq) kd)).
    assert (Hbq : bios kq !! bio = Some b') by exact Hb'.
    assert (Hpq : bips kq !! bip = Some bpq)
      by (unfold kq; kproj; apply lookup_insert_eq).
    assert (Hvq : vec_at kq (InlineVecs bip) = Some (bip_inline_vecs bp))
      by (unfold vec_at; rewrite Hpq; reflexivity).
    destruct (verify_fn_run kq b' bpq (InlineVecs bip) (bip_inline_vecs bp)
                (BioVec (virt_to_page buf)
                   (bio_integrity_bytes bi (bio_sectors b))
                   (offset_in_page buf)) bio bip
                Hbq Hi' Hpq Hbio Hv Hvq Hin)
      as (k'' & Hw & Ht & Hps & Hbs & Hm).
    exists k'', bp. split; [exact Hrun|]. split; [exact Hp'|]. split.
    + exists kq. split.
      { apply (endio_defers kd b' bi bp bio bip Hbd Hi' Hpd Hbi').
        rewrite Hd. reflexivity. }
      split; [exact Hw|]. split.
      * rewrite Ht. rewrite bvec_virt_of_buf. unfold prep_release_events.
        change (payload_free_events b' bip bpq)
          with (payload_free_events b' bip bp).
        rewrite Hfree. unfold kq, kd. kproj. rewrite <- !app_assoc.
        reflexivity.
      * rewrite Hbs, lookup_insert_eq, Hdet.
        unfold kq, kd. kproj. rewrite Hcv. reflexivity.
    + rewrite Hps, lookup_delete_eq, Hm. split; reflexivity.
  - eexists. exists bp. split; [exact Hrun|]. split; [exact Hp'|]. split.
    + split.
      { apply (endio_completes kd b' bi bp (InlineVecs bip)
                 (bip_inline_vecs bp)
                 (BioVec (virt_to_page buf)
                    (bio_integrity_bytes bi (bio_sectors b))
                    (offset_in_page buf)) bio bip
                 Hbd Hi' Hpd Hbi' Hv Hvec Hin).
        rewrite Hd. reflexivity. }
      kproj. rewrite bvec_virt_of_buf. unfold prep_release_events.
      rewrite Hfree. split; [reflexivity|].
      rewrite lookup_insert_eq. f_equal. exact (Hdet true).
    + kproj. split; [apply lookup_delete_eq|reflexivity].
Qed.

(** The sample read is prepared, the device delivers protection
    information that does not match the sample checksum, and the
    request completes through the worker with the data-integrity error
    status, the buffer at 8192 and then the payload at 500 freed. *)
Lemma bio_integrity_prep_endio_round_trip_witness :
  ∃ k' k'' bp,
    bio_integrity_prep 2 sample_kernel = Ret true k'
    ∧ bips k' !! 500 = Some bp
    ∧ (if verify_deferred sample_read sample_profile
       then ∃ kq,
              __bio_integrity_endio 2 (set_mem (λ _, λ _, 3) k')
              = Ret false kq
              ∧ bio_integrity_verify_fn 500 kq = Ret tt k''
              ∧ trace k''
                = trace k' ++ [EvQueueWork 500; EvVerify 2]
                    ++ prep_release_events sample_read 8192 500
                    ++ [EvEndio 2]
              ∧ bios k'' !! 2
                = Some (bio_verified
                          (csum_verify sample_kernel (λ _, 3)
                             (bio_attached 500 sample_read)
                             (bip_with_work
                                (Some bio_integrity_verify_fn_work) bp))
                          sample_read)
       else __bio_integrity_endio 2 (set_mem (λ _, λ _, 3) k')
            = Ret true k''
            ∧ trace k''
              = trace k' ++ prep_release_events sample_read 8192 500
            ∧ bios k'' !! 2 = Some sample_read)
    ∧ bips k'' !! 500 = None
    ∧ mem k'' = (λ _, 3).
Proof.
  assert (Hb : bios sample_kernel !! 2 = Some sample_read)
    by (vm_compute; reflexivity).
  assert (Hbi : blk_get_integrity (bi_bdev sample_read)
                = Some sample_profile) by (vm_compute; reflexivity).
  assert (Hs : bio_sectors sample_read ≠ 0) by (vm_compute; discriminate).
  assert (Hi : bi_integrity sample_read = None) by reflexivity.
  assert (Hfl : Z.land (bi_opf sample_read) REQ_INTEGRITY = 0)
    by (vm_compute; reflexivity).
  assert (Hsw : bio_integrity_prep_switch sample_profile sample_read
                = Some GFP_NOIO) by (vm_compute; reflexivity).
  assert (Hk : kmalloc (bio_integrity_bytes sample_profile
                          (bio_sectors sample_read)) GFP_NOIO sample_kernel
               = Ret (Some 8192) (exec (kmalloc 64 GFP_NOIO) sample_kernel))
    by (vm_compute; reflexivity).
  assert (Ha : bio_integrity_alloc 2 GFP_NOIO 1
                 (exec (kmalloc 64 GFP_NOIO) sample_kernel)
               = Ret (Ptr 500)
                   (exec (bio_integrity_alloc 2 GFP_NOIO 1)
                      (exec (kmalloc 64 GFP_NOIO) sample_kernel)))
    by (vm_compute; reflexivity).
  exact (bio_integrity_prep_endio_round_trip sample_kernel _ _ sample_read
           sample_profile 2 GFP_NOIO 8192 500 (λ _, 3)
           Hb Hbi Hs Hi Hfl Hsw Hk Ha).
Defined.

(** ** The memory handed to the device *)

(** X10: a successful [bio_integrity_prep] writes memory only inside
    the metadata buffer it allocates.  A read leaves memory as it was.
    For a write the buffer holds, from its start and no further than
    its length, the protection information the profile's generator
    gives on memory as the allocation left it; on a profile without a
    checksum the allocation clears the buffer, so that every byte of it
    the generator does not reach is zero and no old kernel memory
    reaches the disk. *)
Theorem bio_integrity_prep_buffer_memory
    (k k1 k2 : kernel) (b : bio) (bi : blk_integrity)
    (bio gfp buf bip : Z) :
  bios k !! bio = Some b ->
  blk_get_integrity (bi_bdev b) = Some bi ->
  bio_sectors b ≠ 0 ->
  bio_integrity b = None ->
  bio_integrity_prep_switch bi b = Some gfp ->
  kmalloc (bio_integrity_bytes bi (bio_sectors b)) gfp k
  = Ret (Some buf) k1 ->
  bio_integrity_alloc bio GFP_NOIO 1 k1 = Ret (Ptr bip) k2 ->
  ∃ k' bp, bio_integrity_prep bio k = Ret true k'
    ∧ bips k' !! bip = Some bp
    ∧ mem k'
      = (if bio_op b =? REQ_OP_WRITE
         then mem_write buf
                (take (Z.to_nat (bio_integrity_bytes bi (bio_sectors b)))
                   (csum_generate k (prep_allocated (mem k) b bi buf)
                      (bio_attached bip b) bp))
                (prep_allocated (mem k) b bi buf)
         else mem k)
    ∧ (∀ x, ¬ (buf <= x < buf + bio_integrity_bytes bi (bio_sectors b)) ->
         mem k' x = mem k x)
    ∧ (bio_op b = REQ_OP_WRITE ->
       csum_type bi = BLK_INTEGRITY_CSUM_NONE ->
       ∀ x, buf + Z.of_nat
                    (length (csum_generate k
                               (prep_allocated (mem k) b bi buf)
                               (bio_attached bip b) bp)) <= x
            < buf + bio_integrity_bytes bi (bio_sectors b) ->
         mem k' x = 0).
Proof.
  intros Hb Hbi Hs Hi Hsw Hk Ha.
  destruct (bio_integrity_prep_run _ _ _ _ _ _ _ _ _ Hb Hbi Hs Hi Hsw Hk Ha)
    as (k' & bp & Hrun & _ & Hp & Hm & _).
  exists k', bp. split; [exact Hrun|]. split; [exact Hp|].
  split; [exact Hm|].
  set (len := bio_integrity_bytes bi (bio_sectors b)) in *.
  set (m1 := prep_allocated (mem k) b bi buf) in *.
  set (gen := csum_generate k m1 (bio_attached bip b) bp) in *.
  assert (Hlt : Z.of_nat (length (take (Z.to_nat len) gen))
                <= Z.max 0 len).
  { rewrite length_take. lia. }
  assert (Hlg : Z.of_nat (length (take (Z.to_nat len) gen))
                <= Z.of_nat (length gen)).
  { rewrite length_take. lia. }
  assert (Hout : ∀ x, ¬ (buf <= x < buf + len) -> m1 x = mem k x).
  { intros x Hx. unfold m1, prep_allocated.
    destruct ((bio_op b =? REQ_OP_WRITE)
              && (csum_type bi =? BLK_INTEGRITY_CSUM_NONE));
      [|reflexivity].
    unfold mem_fill. fold len.
    destruct (buf <=? x) eqn:E1; [|reflexivity].
    destruct (x <? buf + len) eqn:E2; [|reflexivity].
    apply Z.leb_le in E1. apply Z.ltb_lt in E2. lia. }
  split.
  - intros x Hx. rewrite Hm.
    destruct (bio_op b =? REQ_OP_WRITE); [|reflexivity].
    unfold mem_write.
    destruct (buf <=? x) eqn:E1; cbn [andb]; [|apply Hout; exact Hx].
    destruct (x <? buf + Z.of_nat (length (take (Z.to_nat len) gen)))
      eqn:E2; [|apply Hout; exact Hx].
    apply Z.leb_le in E1. apply Z.ltb_lt in E2. lia.
  - intros Hop Hcs x Hx. rewrite Hm, Hop, Z.eqb_refl.
    unfold mem_write.
    destruct (x <? buf + Z.of_nat (length (take (Z.to_nat len) gen)))
      eqn:E2; [apply Z.ltb_lt in E2; lia|].
    rewrite andb_false_r.
    unfold m1, prep_allocated. rewrite Hop, Hcs. cbn [andb Z.eqb].
    rewrite !Z.eqb_refl. cbn [andb]. unfold mem_fill. fold len.
    assert (E3 : (buf <=? x) = true) by (apply Z.leb_le; lia).
    assert (E4 : (x <? buf + len) = true) by (apply Z.ltb_lt; lia).
    rewrite E3, E4. reflexivity.
Qed.

(** A write on a profile without a checksum, whose generator gives
    sixty bytes: the four bytes left of the buffer at 8192 are cleared
    where memory held the byte 7, and memory outside the buffer still
    holds it. *)
Lemma bio_integrity_prep_buffer_memory_witness :
  ∃ k' bp, bio_integrity_prep 1 nocsum_kernel = Ret true k'
    ∧ bips k' !! 500 = Some bp
    ∧ mem k'
      = (if bio_op nocsum_write =? REQ_OP_WRITE
         then mem_write 8192
                (take (Z.to_nat (bio_integrity_bytes nocsum_profile
                                   (bio_sectors nocsum_write)))
                   (csum_generate nocsum_kernel
                      (prep_allocated (mem nocsum_kernel) nocsum_write
                         nocsum_profile 8192)
                      (bio_attached 500 nocsum_write) bp))
                (prep_allocated (mem nocsum_kernel) nocsum_write
                   nocsum_profile 8192)
         else mem nocsum_kernel)
    ∧ (∀ x, ¬ (8192 <= x < 8192 + bio_integrity_bytes nocsum_profile
                                     (bio_sectors nocsum_write)) ->
         mem k' x = mem nocsum_kernel x)
    ∧ (bio_op nocsum_write = REQ_OP_WRITE ->
       csum_type nocsum_profile = BLK_INTEGRITY_CSUM_NONE ->
       ∀ x, 8192 + Z.of_nat
                     (length (csum_generate nocsum_kernel
                                (prep_allocated (mem nocsum_kernel)
                                   nocsum_write nocsum_profile 8192)
                                (bio_attached 500 nocsum_write) bp)) <= x
            < 8192 + bio_integrity_bytes nocsum_profile
                       (bio_sectors nocsum_write) ->
         mem k' x = 0).
Proof.
  assert (Hb : bios nocsum_kernel !! 1 = Some nocsum_write)
    by (vm_compute; reflexivity).
  assert (Hbi : blk_get_integrity (bi_bdev nocsum_write)
                = Some nocsum_profile) by (vm_compute; reflexivity).
  assert (Hs : bio_sectors nocsum_write ≠ 0) by (vm_compute; discriminate).
  assert (Hi : bio_integrity nocsum_write = None)
    by (vm_compute; reflexivity).
  assert (Hsw : bio_integrity_prep_switch nocsum_profile nocsum_write
                = Some (Z.lor GFP_NOIO __GFP_ZERO))
    by (vm_compute; reflexivity).
  assert (Hk : kmalloc (bio_integrity_bytes nocsum_profile
                          (bio_sectors nocsum_write))
                 (Z.lor GFP_NOIO __GFP_ZERO) nocsum_kernel
               = Ret (Some 8192)
                   (exec (kmalloc 64 (Z.lor GFP_NOIO __GFP_ZERO))
                      nocsum_kernel))
    by (vm_compute; reflexivity).
  assert (Ha : bio_integrity_alloc 1 GFP_NOIO 1
                 (exec (kmalloc 64 (Z.lor GFP_NOIO __GFP_ZERO))
                    nocsum_kernel)
               = Ret (Ptr 500)
                   (exec (bio_integrity_alloc 1 GFP_NOIO 1)
                      (exec (kmalloc 64 (Z.lor GFP_NOIO __GFP_ZERO))
                         nocsum_kernel)))
    by (vm_compute; reflexivity).
  exact (bio_integrity_prep_buffer_memory nocsum_kernel _ _
           nocsum_write nocsum_profile 1 (Z.lor GFP_NOIO __GFP_ZERO)
           8192 500 Hb Hbi Hs Hi Hsw Hk Ha).
Defined.

(** ** Advancing in steps *)

(** An advance within the byte total, with the payload it leaves. *)
Lemma advance_run (k : kernel) (b : bio) (bi : blk_integrity)
    (bp : bio_integrity_payload) (vp : vec_ptr) (vec : list bio_vec)
    (bio bip bytes_done : Z) :
  bios k !! bio = Some b ->
  bio_integrity b = Some bip ->
  blk_get_integrity (bi_bdev b) = Some bi ->
  bips k !! bip = Some bp ->
  bip_vec bp = Some vp ->
  vec_at k vp = Some vec ->
  Forall (λ v, 0 <= bv_len v) vec ->
  0 <= bi_idx (bip_iter bp) ->
  0 <= bi_bvec_done (bip_iter bp) ->
  bi_size (bip_iter bp) < 2 ^ 32 ->
  let bytes := bio_integrity_bytes bi (Z.shiftr bytes_done 9) in
  bytes <= bi_size (bip_iter bp) ->
  bip_consistent k bp ->
  ∃ idx' done',
    let bp' :=
      bip_with_iter
        (BvecIter
           (u64 (bi_sector (bip_iter bp)
                 + bio_integrity_intervals bi (Z.shiftr bytes_done 9)))
           (bi_size (bip_iter bp) - bytes) idx' done') bp in
    bio_integrity_advance bio bytes_done k
    = Ret tt (set_bips (insert bip bp') k)
    ∧ 0 <= idx' ∧ 0 <= done'
    ∧ bip_consistent (set_bips (insert bip bp') k) bp'.
Proof.
  intros Hb Hi Hbi Hp Hv Hvec Hwf Hidx Hdone Hsz32 bytes Hle [Hcap Hsum].
  rewrite (bip_remaining_at k bp vp vec Hv Hvec) in Hsum.
  rewrite skipn_firstn_comm in Hsum.
  set (i := Z.to_nat (bi_idx (bip_iter bp))) in *.
  set (n := (Z.to_nat (bip_vcnt bp) - i)%nat) in *.
  assert (Hb0 : 0 <= bytes) by (apply u32_range).
  assert (Hwf' : Forall (λ v, 0 <= bv_len v) (take n (drop i vec))).
  { apply Forall_take, Forall_drop. exact Hwf. }
  destruct (bvec_iter_skip_spec (drop i vec) n (bi_idx (bip_iter bp))
              (bytes + bi_bvec_done (bip_iter bp)) Hwf' ltac:(lia))
    as (j & done & Hskip & Hj & Hd & Hrem).
  exists (bi_idx (bip_iter bp) + Z.of_nat j), done. cbn zeta.
  split.
  { unfold bio_integrity_advance. mrun. rewrite Hi, Hbi. mrun.
    fold bytes.
    set (bp1 := bip_set_seed _ bp).
    assert (Hv1 : bip_vec bp1 = Some vp) by exact Hv.
    assert (Hvec1 : vec_at (set_bips (insert bip bp1) k) vp = Some vec).
    { rewrite (vec_at_update _ _ _ _ _ Hp) by reflexivity. exact Hvec. }
    rewrite Hv1, (vec_load_run _ _ _ Hvec1). cbn beta iota.
    assert (Hadv : bvec_iter_advance vec (bip_iter bp1) bytes
                   = Some (BvecIter (bi_sector (bip_iter bp1))
                             (bi_size (bip_iter bp) - bytes)
                             (bi_idx (bip_iter bp) + Z.of_nat j) done)).
    { unfold bvec_iter_advance.
      change (bi_size (bip_iter bp1)) with (bi_size (bip_iter bp)).
      change (bi_idx (bip_iter bp1)) with (bi_idx (bip_iter bp)).
      change (bi_bvec_done (bip_iter bp1))
        with (bi_bvec_done (bip_iter bp)).
      destruct (bi_size (bip_iter bp) <? bytes) eqn:E;
        [apply Z.ltb_lt in E; lia|].
      fold i. rewrite Hskip. rewrite u32_small by lia. reflexivity. }
    rewrite Hadv. mrun. unfold set_bips. kproj.
    rewrite insert_insert_eq. reflexivity. }
  split; [lia|]. split; [exact Hd|].
  split; [exact Hcap|].
  erewrite bip_remaining_at; [|exact Hv|].
  2:{ rewrite (vec_at_update _ _ _ _ _ Hp) by reflexivity. exact Hvec. }
  bipproj.
  replace (Z.to_nat (bi_idx (bip_iter bp) + Z.of_nat j)) with (i + j)%nat
    by (unfold i; lia).
  rewrite skipn_firstn_comm.
  rewrite <- drop_drop.
  rewrite skipn_firstn_comm in Hrem.
  replace (Z.to_nat (bip_vcnt bp) - (i + j))%nat with (n - j)%nat
    by (unfold n; lia).
  lia.
Qed.

Lemma u64_add_idemp (a x y : Z) : u64 (u64 (a + x) + y) = u64 (a + x + y).
Proof. unfold u64. apply Z.add_mod_idemp_l. lia. Qed.

(** X11: two advances within the byte total are one advance by both:
    the bytes of the two are taken off the total, the seed has moved by
    the intervals of the two, and the payload is consistent after each.
    With the two making up the total, nothing is left. *)
Theorem bio_integrity_advance_twice
    (k : kernel) (b : bio) (bi : blk_integrity)
    (bp : bio_integrity_payload) (vp : vec_ptr) (vec : list bio_vec)
    (bio bip done1 done2 : Z) :
  bios k !! bio = Some b ->
  bio_integrity b = Some bip ->
  blk_get_integrity (bi_bdev b) = Some bi ->
  bips k !! bip = Some bp ->
  bip_vec bp = Some vp ->
  vec_at k vp = Some vec ->
  Forall (λ v, 0 <= bv_len v) vec ->
  0 <= bi_idx (bip_iter bp) ->
  0 <= bi_bvec_done (bip_iter bp) ->
  bi_size (bip_iter bp) < 2 ^ 32 ->
  bio_integrity_bytes bi (Z.shiftr done1 9)
  + bio_integrity_bytes bi (Z.shiftr done2 9) <= bi_size (bip_iter bp) ->
  bip_consistent k bp ->
  ∃ k1 k2 bp2,
    bio_integrity_advance bio done1 k = Ret tt k1
    ∧ bio_integrity_advance bio done2 k1 = Ret tt k2
    ∧ bips k2 !! bip = Some bp2
    ∧ bip_consistent k2 bp2
    ∧ bi_size (bip_iter bp2)
      = bi_size (bip_iter bp)
        - bio_integrity_bytes bi (Z.shiftr done1 9)
        - bio_integrity_bytes bi (Z.shiftr done2 9)
    ∧ bi_sector (bip_iter bp2)
      = u64 (bi_sector (bip_iter bp)
             + bio_integrity_intervals bi (Z.shiftr done1 9)
             + bio_integrity_intervals bi (Z.shiftr done2 9)).
Proof.
  intros Hb Hi Hbi Hp Hv Hvec Hwf Hidx Hdone Hsz32 Hle Hc.
  pose proof (u32_range (bio_integrity_intervals bi (Z.shiftr done1 9)
                         * tuple_size bi)) as Hb1.
  pose proof (u32_range (bio_integrity_intervals bi (Z.shiftr done2 9)
                         * tuple_size bi)) as Hb2.
  fold (bio_integrity_bytes bi (Z.shiftr done1 9)) in Hb1.
  fold (bio_integrity_bytes bi (Z.shiftr done2 9)) in Hb2.
  destruct (advance_run k b bi bp vp vec bio bip done1
              Hb Hi Hbi Hp Hv Hvec Hwf Hidx Hdone Hsz32 ltac:(lia) Hc)
    as (idx1 & dn1 & Hrun1 & Hidx1 & Hdn1 & Hc1).
  cbn zeta in Hrun1, Hc1.
  set (bp1 := bip_with_iter _ bp) in *.
  set (k1 := set_bips (insert bip bp1) k) in *.
  assert (Hp1 : bips k1 !! bip = Some bp1) by apply lookup_insert_eq.
  assert (Hvec1 : vec_at k1 vp = Some vec).
  { unfold k1. rewrite (vec_at_update _ _ _ _ _ Hp) by reflexivity.
    exact Hvec. }
  destruct (advance_run k1 b bi bp1 vp vec bio bip done2
              Hb Hi Hbi Hp1 Hv Hvec1 Hwf Hidx1 Hdn1)
    as (idx2 & dn2 & Hrun2 & _ & _ & Hc2).
  { unfold bp1. bipproj. lia. }
  { unfold bp1. bipproj. lia. }
  { exact Hc1. }
  cbn zeta in Hrun2, Hc2.
  eexists k1, _, _. split; [exact Hrun1|]. split; [exact Hrun2|].
  split; [apply lookup_insert_eq|]. split; [exact Hc2|].
  unfold bp1. bipproj. split; [reflexivity|]. apply u64_add_idemp.
Qed.

(** The prepared read advanced by three sectors and then by five: the
    64 bytes are used up and the seed stands at 108. *)
Lemma bio_integrity_advance_twice_witness :
  ∃ k1 k2 bp2,
    bio_integrity_advance 2 1536 sample_prepared_read = Ret tt k1
    ∧ bio_integrity_advance 2 2560 k1 = Ret tt k2
    ∧ bips k2 !! 500 = Some bp2
    ∧ bip_consistent k2 bp2
    ∧ bi_size (bip_iter bp2) = 64 - 24 - 40
    ∧ bi_sector (bip_iter bp2) = u64 (100 + 3 + 5).
Proof.
  assert (Hb : bios sample_prepared_read !! 2
               = Some (bio_attached 500 sample_read))
    by (vm_compute; reflexivity).
  assert (Hi : bio_integrity (bio_attached 500 sample_read) = Some 500)
    by (vm_compute; reflexivity).
  assert (Hbi : blk_get_integrity (bi_bdev (bio_attached 500 sample_read))
                = Some sample_profile) by (vm_compute; reflexivity).
  assert (Hp : bips sample_prepared_read !! 500 = Some sample_read_bip)
    by (vm_compute; reflexivity).
  assert (Hv : bip_vec sample_read_bip = Some (InlineVecs 500))
    by reflexivity.
  assert (Hvec : vec_at sample_prepared_read (InlineVecs 500)
                 = Some [BioVec 2 64 0]) by (vm_compute; reflexivity).
  assert (Hwf : Forall (λ v, 0 <= bv_len v) [BioVec 2 64 0])
    by (split_forall; cbn; lia).
  assert (Hidx : 0 <= bi_idx (bip_iter sample_read_bip)) by (cbn; lia).
  assert (Hdone : 0 <= bi_bvec_done (bip_iter sample_read_bip))
    by (cbn; lia).
  assert (Hsz : bi_size (bip_iter sample_read_bip) < 2 ^ 32)
    by (cbn; lia).
  assert (Hle : bio_integrity_bytes sample_profile (Z.shiftr 1536 9)
                + bio_integrity_bytes sample_profile (Z.shiftr 2560 9)
                <= bi_size (bip_iter sample_read_bip))
    by (vm_compute; discriminate).
  assert (Hc : bip_consistent sample_prepared_read sample_read_bip)
    by (split; [cbn; lia | vm_compute; reflexivity]).
  exact (bio_integrity_advance_twice sample_prepared_read
           (bio_attached 500 sample_read) sample_profile sample_read_bip
           (InlineVecs 500) [BioVec 2 64 0] 2 500 1536 2560
           Hb Hi Hbi Hp Hv Hvec Hwf Hidx Hdone Hsz Hle Hc).
Defined.

(** ** Pinned pages across a mapping *)

(** A failed [bio_integrity_init_user] is a failed allocation. *)
Lemma init_user_failure (k k' : kernel) (b : bio) (bvec : list bio_vec)
    (bio nr len seed r : Z) :
  bios k !! bio = Some b ->
  bio_integrity_init_user bio bvec nr len seed k = Ret r k' ->
  r ≠ 0 ->
  bios k' = bios k
  ∧ (r = - ENOMEM ∨ r = - EOPNOTSUPP)
  ∧ ∃ evs, trace k' = trace k ++ evs
      ∧ pinned_pages evs = [] ∧ unpinned_pages evs = []
      ∧ kfreed evs = [].
Proof.
  intros Hb. unfold bio_integrity_init_user. mrun.
  destruct (bio_integrity_alloc bio GFP_KERNEL nr k)
    as [[bip|e] k3|] eqn:Ha; cbn beta iota; [| |discriminate].
  - rewrite bind_run. unfold load_bip.
    destruct (bips k3 !! bip) as [bp|]; [|discriminate].
    cbn [deref]. mrun.
    destruct ((match bip_vec bp with
               | Some vp => vec_memcpy vp 0 (take (Z.to_nat nr) bvec)
               | None => if nr =? 0 then mret () else oops
               end) k3) as [[] k4|]; [|discriminate].
    cbn beta iota. rewrite bind_run.
    destruct (bip_update bip _ k4) as [[] k5|]; [|discriminate].
    cbn beta iota. rewrite bind_run.
    destruct (bip_update bip _ k5) as [[] k6|]; [|discriminate].
    cbn beta iota. rewrite bind_run.
    destruct (bip_update bip _ k6) as [[] k7|]; [|discriminate].
    intros [= <- _] Hr. contradiction Hr. reflexivity.
  - mrun. intros [= <- <-] _.
    destruct (bio_integrity_alloc_err_inv _ _ _ _ _ _ _ Hb Ha)
      as (Hbios & _ & _ & Hcase).
    split; [exact Hbios|].
    destruct Hcase as [(-> & _ & ->) | (-> & _ & Hcase)].
    + split; [right; reflexivity|]. exists []. rewrite app_nil_r.
      repeat split.
    + split; [left; reflexivity|].
      destruct Hcase as [(Ht & _) | (p & _ & _ & _ & Ht & _)].
      * exists []. rewrite app_nil_r. repeat split. exact Ht.
      * exists [EvMempoolFree p]. repeat split. exact Ht.
Qed.

(** A failed [bio_integrity_copy_user]: the request is left without a
    payload, the bounce buffer, when there was one, is freed, and no
    page is unpinned. *)
Lemma copy_user_failure (k k' : kernel) (b : bio) (bvec : list bio_vec)
    (bio nr len direction seed r : Z) :
  bios k !! bio = Some b ->
  0 <= nr ->
  bio_integrity_copy_user bio bvec nr len direction seed k = Ret r k' ->
  r ≠ 0 ->
  bios k' = bios k
  ∧ (r = - ENOMEM ∨ r = - EFAULT ∨ r = - EOPNOTSUPP)
  ∧ ∃ evs, trace k' = trace k ++ evs
      ∧ pinned_pages evs = [] ∧ unpinned_pages evs = []
      ∧ kfreed evs
        = match kmalloc_ans k with
          | Some buf :: _ => [buf]
          | _ => []
          end.
Proof.
  intros Hb Hnr. unfold bio_integrity_copy_user. cbn beta iota zeta. mrun.
  destruct (kmalloc len GFP_KERNEL k) as [[buf|] k1|] eqn:Hk; cbn beta iota;
    [| | discriminate].
  2:{ intros [= <- <-] _.
      destruct (kmalloc_inv _ _ _ _ _ Hk) as (Hb1 & _ & _ & Ht1 & _).
      split; [exact Hb1|]. split; [left; reflexivity|].
      exists []. rewrite app_nil_r. split; [exact Ht1|].
      repeat split. revert Hk. unfold kmalloc.
      destruct (kmalloc_ans k) as [|[a|] rest]; try reflexivity.
      destruct (nonzero _); discriminate. }
  apply kmalloc_kernel_inv in Hk as (rest & Hans & ->). rewrite Hans.
  (* what the exits through [free_buf] leave *)
  assert (Hfree : ∀ (e : Z) (k2 : kernel) (evs : list event),
    bios k2 = bios k -> trace k2 = trace k ++ evs ->
    pinned_pages evs = [] -> unpinned_pages evs = [] -> kfreed evs = [] ->
    e = - ENOMEM ∨ e = - EFAULT ∨ e = - EOPNOTSUPP ->
    (kfree buf;; mret e) k2 = Ret r k' ->
    bios k' = bios k
    ∧ (r = - ENOMEM ∨ r = - EFAULT ∨ r = - EOPNOTSUPP)
    ∧ ∃ evs', trace k' = trace k ++ evs'
        ∧ pinned_pages evs' = [] ∧ unpinned_pages evs' = []
        ∧ kfreed evs' = [buf]).
  { intros e k2 evs Hb2 Ht2 Hp Hu Hf He. unfold kfree. mrun.
    intros [= <- <-]. kproj. split; [exact Hb2|]. split; [exact He|].
    exists (evs ++ [EvKfree buf]).
    rewrite Ht2, <- app_assoc, pinned_pages_app, unpinned_pages_app,
      kfreed_app, Hp, Hu, Hf. repeat split. }
  mrun.
  destruct (direction =? ITER_SOURCE).
  - (* write *)
    cbn beta iota. mrun.
    unfold copy_from_iter_full. rewrite Z.min_id. kproj.
    destruct (gather (take (Z.to_nat nr) bvec) buf len (mem k))
      as [m2 c] eqn:Hg.
    cbn beta iota.
    set (k2 := set_trace (λ t, t ++ [EvCopyFromIter buf len])
                 (set_mem (λ _, m2) (set_kmalloc_ans (λ _, rest) k))).
    destruct (c =? len) eqn:Hc; mrun.
    2:{ intros Hrun _.
        apply (Hfree (- EFAULT) k2 [EvCopyFromIter buf len]);
          try reflexivity; [right; left; reflexivity | exact Hrun]. }
    assert (Hb2 : bios k2 !! bio = Some b) by exact Hb.
    destruct (bio_integrity_alloc bio GFP_KERNEL 1 k2)
      as [[bip|e] k3|] eqn:Ha; cbn beta iota; mrun; [| | discriminate].
    2:{ intros Hrun _.
        destruct (bio_integrity_alloc_err_inv _ _ _ _ _ _ _ Hb2 Ha)
          as (Hbios & _ & _ & Hcase).
        destruct Hcase as [(-> & _ & ->) | (-> & _ & Hcase)].
        - apply (Hfree (- EOPNOTSUPP) k2 [EvCopyFromIter buf len]);
            try reflexivity; [right; right; reflexivity | exact Hrun].
        - destruct Hcase as [(Ht & _) | (p & _ & _ & _ & Ht & _)].
          + apply (Hfree (- ENOMEM) k3 [EvCopyFromIter buf len]);
              try reflexivity;
              [exact Hbios | rewrite Ht; reflexivity
              | left; reflexivity | exact Hrun].
          + apply (Hfree (- ENOMEM) k3
                     [EvCopyFromIter buf len; EvMempoolFree p]);
              try reflexivity;
              [exact Hbios
              | rewrite Ht; unfold k2; kproj; rewrite <- app_assoc;
                reflexivity
              | left; reflexivity | exact Hrun]. }
    destruct (bio_integrity_alloc_ok _ _ _ _ _ _ _ Hb2 Ha)
      as (maxv & vec & inline & Hbips3 & Hbios3 & Ht3 & Hm3 & Hmach3
          & Hshape).
    destruct Hshape as [(_ & H0 & _) | [(-> & _ & Hin & -> & _)
                          | (a & g & _ & _ & _ & _ & Hlt & _)]];
      [discriminate H0 | | unfold BIO_INLINE_VECS in Hlt; lia].
    unfold bio_integrity_unpin_bvec.
    destruct (Z.of_nat (length bvec) <? nr) eqn:Hlen; mrun; [discriminate|].
    rewrite unpin_bvecs_run. cbn beta iota.
    set (bp3 := bip_fresh bio (u16 1) (Some (InlineVecs bip)) inline).
    set (k4 := set_trace _ k3).
    assert (Hp4 : bips k4 !! bip = Some bp3)
      by (unfold k4; kproj; rewrite Hbips3; apply lookup_insert_eq).
    assert (Hb4 : bios k4 !! bio = Some (bio_attached bip b))
      by (unfold k4; kproj; rewrite Hbios3; apply lookup_insert_eq).
    assert (Hvec4 : vec_at k4 (InlineVecs bip)
                    = Some (replicate (Z.to_nat inline) (BioVec 0 0 0)))
      by (unfold vec_at; rewrite Hp4; reflexivity).
    destruct (add_page_append k4 (bio_attached bip b) bp3 (InlineVecs bip)
                (replicate (Z.to_nat inline) (BioVec 0 0 0)) bio bip
                (virt_to_page buf) len (offset_in_page buf)
                Hb4 (bio_integrity_attached bip b) Hp4 eq_refl Hvec4)
      as (k5 & Hrun5 & _ & Hp5 & _).
    { cbn [bip_vcnt bp3 bip_fresh]. rewrite length_replicate. lia. }
    { cbn [bip_vcnt bp3 bip_fresh]. lia. }
    rewrite bind_run, Hrun5. cbn beta iota. rewrite Z.eqb_refl. cbn [negb].
    mrun. intros [= <- _] Hr. contradiction Hr. reflexivity.
  - (* read *)
    cbn beta iota. mrun.
    set (k2 := set_mem (mem_fill buf len 0)
                 (set_kmalloc_ans (λ _, rest) k)).
    assert (Hb2 : bios k2 !! bio = Some b) by exact Hb.
    destruct (bio_integrity_alloc bio GFP_KERNEL (nr + 1) k2)
      as [[bip|e] k3|] eqn:Ha; cbn beta iota; mrun; [| | discriminate].
    2:{ intros Hrun _.
        destruct (bio_integrity_alloc_err_inv _ _ _ _ _ _ _ Hb2 Ha)
          as (Hbios & _ & _ & Hcase).
        destruct Hcase as [(-> & _ & ->) | (-> & _ & Hcase)].
        - apply (Hfree (- EOPNOTSUPP) k2 []);
            try reflexivity;
            [kproj; rewrite app_nil_r; reflexivity
            | right; right; reflexivity | exact Hrun].
        - destruct Hcase as [(Ht & _) | (p & _ & _ & _ & Ht & _)].
          + apply (Hfree (- ENOMEM) k3 []);
              try reflexivity;
              [exact Hbios | rewrite Ht, app_nil_r; reflexivity
              | left; reflexivity | exact Hrun].
          + apply (Hfree (- ENOMEM) k3 [EvMempoolFree p]);
              try reflexivity;
              [exact Hbios | exact Ht | left; reflexivity | exact Hrun]. }
    assert (Hn1 : nr + 1 ≠ 0) by lia.
    destruct (bio_integrity_alloc_vec _ _ _ _ _ _ _ Hb2 Hn1 Ha)
      as (maxv & vp & inline & cap & Hp3 & Hb3 & Hvec3 & _).
    mrun. bipproj. unfold bip_fresh at 1. bipproj. mrun.
    set (src := take (Z.to_nat nr) bvec).
    unfold vec_memcpy. mrun. change (1 <? 0) with false. cbn [orb].
    rewrite length_replicate.
    destruct (Z.of_nat cap <? 1 + Z.of_nat (length src)) eqn:Hcap; mrun;
      [discriminate|].
    apply Z.ltb_ge in Hcap.
    rewrite (vec_store_run _ _ _ _ Hvec3). cbn beta iota.
    change (Z.to_nat 1) with 1%nat.
    set (vec1 := take 1 (replicate cap (BioVec 0 0 0)) ++ src
                 ++ drop (1 + length src) (replicate cap (BioVec 0 0 0))).
    set (bp3 := bip_fresh bio maxv (Some vp) inline) in *.
    set (k4 := vec_put vp vec1 k3).
    assert (Hp4 : bips k4 !! bip = Some (own_inline bip vp vec1 bp3))
      by (apply vec_put_bips; exact Hp3).
    assert (Hb4 : bios k4 !! bio = Some (bio_attached bip b))
      by (unfold k4; rewrite vec_put_bios; exact Hb3).
    assert (Hvec4 : vec_at k4 vp = Some vec1)
      by (apply (vec_put_at _ _ _ _ Hvec3)).
    assert (Hl1 : length vec1 = cap).
    { unfold vec1. rewrite !length_app, length_take, length_drop,
        !length_replicate. lia. }
    destruct (add_page_append k4 (bio_attached bip b)
                (own_inline bip vp vec1 bp3) vp vec1 bio bip
                (virt_to_page buf) len (offset_in_page buf)
                Hb4 (bio_integrity_attached bip b) Hp4
                (own_inline_vec _ _ _ _) Hvec4)
      as (k5 & Hrun5 & _ & Hp5 & _).
    { rewrite own_inline_vcnt, Hl1. cbn. lia. }
    { rewrite own_inline_vcnt. cbn. lia. }
    rewrite bind_run, Hrun5. cbn beta iota. rewrite Z.eqb_refl. cbn [negb].
    mrun. intros [= <- _] Hr. contradiction Hr. reflexivity.
Qed.

(** X12: a mapping that fails returns one of [-EINVAL], [-E2BIG],
    [-ENOMEM], [-EFAULT] and [-EOPNOTSUPP], leaves every request as it
    was, and holds no page: the pages unpinned by the time it returns
    are the pages it pinned. *)
Theorem bio_integrity_map_user_failure
    (k k' : kernel) (b : bio) (bio ubuf bytes seed r : Z) :
  bios k !! bio = Some b ->
  0 <= bytes ->
  bio_integrity_map_user bio ubuf bytes seed k = Ret r k' ->
  r ≠ 0 ->
  bios k' = bios k
  ∧ (r = - EINVAL ∨ r = - E2BIG ∨ r = - ENOMEM ∨ r = - EFAULT
     ∨ r = - EOPNOTSUPP)
  ∧ ∃ evs, trace k' = trace k ++ evs
      ∧ unpinned_pages evs ≡ₚ pinned_pages evs.
Proof.
  intros Hb Hneg Hrun Hr.
  destruct (bio_integrity_map_user_stages _ _ _ _ _ _ _ _ Hb Hneg Hrun)
    as [(heap & Hcode & Hs & Ht)
       | (heap & pages & bvec & ups & pre & k4 & k5 & Hs4 & Ht4 & Hp1 & Hp2
          & Hperm & _ & _ & Hlen & _ & _ & _ & Hbuild & ->)].
  - split; [apply Hs|]. split; [tauto|].
    exists (free_bvec_events heap). split; [exact Ht|].
    destruct heap; reflexivity.
  - assert (Hb4 : bios k4 !! bio = Some b)
      by (destruct Hs4 as (-> & _); exact Hb).
    assert (Hfail : bios k5 = bios k4
      ∧ (r = - ENOMEM ∨ r = - EFAULT ∨ r = - EOPNOTSUPP)
      ∧ ∃ evs, trace k5 = trace k4 ++ evs
          ∧ pinned_pages evs = [] ∧ unpinned_pages evs = []).
    { assert (Hn0 : 0 <= Z.of_nat (length bvec)) by lia.
      destruct (map_user_copies b ubuf bytes (Z.of_nat (length bvec))).
      - destruct (copy_user_failure _ _ _ _ _ _ _ _ _ _ Hb4 Hn0
                    Hbuild Hr) as (H1 & H2 & evs & H3 & H4 & H5 & _).
        split; [exact H1|]. split; [exact H2|]. exists evs. auto.
      - destruct (init_user_failure _ _ _ _ _ _ _ _ _ Hb4 Hbuild Hr)
          as (H1 & H2 & evs & H3 & H4 & H5 & _).
        split; [exact H1|]. split; [tauto|]. exists evs. auto. }
    destruct Hfail as (Hb5 & Hcode & evs5 & Ht5 & Hp5 & Hu5).
    kproj. split; [rewrite Hb5; apply Hs4|]. split; [tauto|].
    apply Z.eqb_neq in Hr. rewrite Hr.
    eexists. split.
    { rewrite Ht5, Ht4, <- !app_assoc. reflexivity. }
    rewrite !unpinned_pages_app, !pinned_pages_app.
    rewrite unpinned_pages_pins, pinned_pages_pins, unpinned_pages_unpins,
      pinned_pages_unpins, Hp1, Hp2, Hp5, Hu5, unpin_events_unpinned,
      unpin_events_pinned.
    assert (Hf : unpinned_pages (free_bvec_events heap) = []
                 ∧ pinned_pages (free_bvec_events heap) = [])
      by (destruct heap; split; reflexivity).
    destruct Hf as [-> ->]. cbn [app]. rewrite !app_nil_r.
    rewrite <- Hperm. apply Permutation_app_comm.
Qed.

(** With the allocator starved, mapping the buffer of the sample read
    fails for want of a payload; its page was pinned and is unpinned. *)
Lemma bio_integrity_map_user_failure_witness :
  bios (exec (bio_integrity_map_user 2 20992 1024 7) starved_kernel)
  = bios starved_kernel
  ∧ (- ENOMEM = - EINVAL ∨ - ENOMEM = - E2BIG ∨ - ENOMEM = - ENOMEM
     ∨ - ENOMEM = - EFAULT ∨ - ENOMEM = - EOPNOTSUPP)
  ∧ ∃ evs,
      trace (exec (bio_integrity_map_user 2 20992 1024 7) starved_kernel)
      = trace starved_kernel ++ evs
      ∧ unpinned_pages evs ≡ₚ pinned_pages evs.
Proof.
  assert (Hb : bios starved_kernel !! 2 = Some sample_read)
    by (vm_compute; reflexivity).
  assert (Hneg : 0 <= 1024) by lia.
  assert (Hrun : bio_integrity_map_user 2 20992 1024 7 starved_kernel
                 = Ret (- ENOMEM)
                     (exec (bio_integrity_map_user 2 20992 1024 7)
                        starved_kernel))
    by (vm_compute; reflexivity).
  assert (Hr : - ENOMEM ≠ 0) by (vm_compute; discriminate).
  exact (bio_integrity_map_user_failure starved_kernel _ sample_read
           2 20992 1024 7 (- ENOMEM) Hb Hneg Hrun Hr).
Defined.

(** ** Mapping and unmapping without a pool *)

(** Without a payload pool the payload and its vectors are one
    [kmalloc]: the vector is the inline array, of the size asked for. *)
Lemma bio_integrity_alloc_nopool
    (k k' : kernel) (b : bio) (bio gfp n p : Z) :
  bios k !! bio = Some b ->
  pool_in_use (bi_pool b) = false ->
  bio_integrity_alloc bio gfp n k = Ret (Ptr p) k' ->
  bips k'
  = <[p := bip_fresh bio (u16 n)
             (if n =? 0 then None else Some (InlineVecs p)) n]> (bips k)
  ∧ bios k' = <[bio := bio_attached p b]> (bios k)
  ∧ trace k' = trace k ∧ mem k' = mem k
  ∧ PageCompound k' = PageCompound k.
Proof.
  intros Hb Hpool. unfold bio_integrity_alloc. mrun.
  destruct (bio_has_crypt_ctx b); [discriminate|].
  rewrite Hpool. cbn [negb]. mrun.
  unfold kmalloc_obj.
  destruct (kmalloc_ans k) as [|[a|] rest] eqn:Hans; mrun;
    try discriminate.
  unfold store_bip. mrun.
  rewrite Z.ltb_irrefl. unfold nonzero.
  destruct (n =? 0) eqn:Hz; cbn [negb]; mrun.
  - intros [= <- <-]. apply Z.eqb_eq in Hz. subst n.
    kproj. rewrite !insert_insert_eq. repeat split.
  - intros [= <- <-]. kproj. rewrite !insert_insert_eq. repeat split.
Qed.

Lemma replicate_drop_all {A} (n : nat) (x : A) (l : list A) :
  length l = n -> l ++ drop (length l) (replicate n x) = l.
Proof.
  intros H. rewrite drop_ge by (rewrite length_replicate; lia).
  apply app_nil_r.
Qed.

(** A mapping without a copy and without a pool: the payload's vector
    is the user segments and nothing else. *)
Lemma init_user_nopool (k k' : kernel) (b : bio) (bvec : list bio_vec)
    (bio len seed : Z) :
  bios k !! bio = Some b ->
  pool_in_use (bi_pool b) = false ->
  bvec ≠ [] ->
  Z.of_nat (length bvec) < 2 ^ 16 ->
  bio_integrity_init_user bio bvec (Z.of_nat (length bvec)) len seed k
  = Ret 0 k' ->
  ∃ bip bp,
    bios k' !! bio = Some (bio_attached bip b)
    ∧ bips k' !! bip = Some bp
    ∧ bip_flags bp = 0
    ∧ bip_max_vcnt bp = Z.of_nat (length bvec)
    ∧ bip_vec bp = Some (InlineVecs bip)
    ∧ bip_inline_vecs bp = bvec
    ∧ trace k' = trace k.
Proof.
  intros Hb Hpool Hne Hlen. unfold bio_integrity_init_user. mrun.
  set (nr := Z.of_nat (length bvec)) in *.
  assert (Hnr : nr ≠ 0) by (destruct bvec; [contradiction | cbn in *; lia]).
  destruct (bio_integrity_alloc bio GFP_KERNEL nr k)
    as [[bip|e] k3|] eqn:Ha; cbn beta iota; mrun; [| | discriminate].
  2:{ pose proof (bio_integrity_alloc_err_code _ _ _ _ _ _ _ Hb Ha).
      intros [= -> _]. lia. }
  destruct (bio_integrity_alloc_nopool _ _ _ _ _ _ _ Hb Hpool Ha)
    as (Hbips3 & Hbios3 & Ht3 & _).
  apply Z.eqb_neq in Hnr. rewrite Hnr in Hbips3.
  set (bp3 := bip_fresh bio (u16 nr) (Some (InlineVecs bip)) nr) in *.
  assert (Hp3 : bips k3 !! bip = Some bp3)
    by (rewrite Hbips3; apply lookup_insert_eq).
  assert (Hvec3 : vec_at k3 (InlineVecs bip)
                  = Some (replicate (Z.to_nat nr) (BioVec 0 0 0)))
    by (unfold vec_at; rewrite Hp3; reflexivity).
  mrun. unfold bp3 at 1. unfold bip_fresh at 1. bipproj. mrun.
  assert (Htake : take (Z.to_nat nr) bvec = bvec)
    by (unfold nr; apply take_length_all).
  rewrite Htake.
  rewrite (vec_memcpy_run _ _ _ _ _ Hvec3)
    by (rewrite ?length_replicate; unfold nr; lia).
  cbn beta iota. change (Z.to_nat 0) with 0%nat. cbn [take Nat.add app].
  rewrite replicate_drop_all by (unfold nr; lia).
  assert (Hp4 : bips (vec_put (InlineVecs bip) bvec k3) !! bip
                = Some (own_inline bip (InlineVecs bip) bvec bp3))
    by (apply vec_put_bips; exact Hp3).
  mrun. intros [= <-]. eexists bip, _. kproj.
  rewrite lookup_insert_eq.
  rewrite !Hp3. kproj.
  split; [rewrite Hbios3; apply lookup_insert_eq|].
  split; [reflexivity|].
  unfold bp3, bip_fresh. bipproj.
  split; [reflexivity|].
  split; [apply u16_small; unfold nr; lia|].
  split; [reflexivity|]. split; [reflexivity|].
  rewrite ?vec_put_trace. exact Ht3.
Qed.

(** A mapping with a copy for a read, without a pool: the payload's
    vector is the bounce buffer followed by the user segments. *)
Lemma copy_user_read_nopool (k k' : kernel) (b : bio)
    (bvec : list bio_vec) (bio len seed : Z) :
  bios k !! bio = Some b ->
  pool_in_use (bi_pool b) = false ->
  0 <= len < 2 ^ 32 ->
  Z.of_nat (length bvec) + 1 < 2 ^ 16 ->
  bio_integrity_copy_user bio bvec (Z.of_nat (length bvec)) len ITER_DEST
    seed k = Ret 0 k' ->
  ∃ buf bip bp,
    bios k' !! bio = Some (bio_attached bip b)
    ∧ bips k' !! bip = Some bp
    ∧ Z.land (bip_flags bp) BIP_COPY_USER ≠ 0
    ∧ bip_max_vcnt bp = Z.of_nat (length bvec) + 1
    ∧ bip_vec bp = Some (InlineVecs bip)
    ∧ bip_inline_vecs bp
      = BioVec (virt_to_page buf) len (offset_in_page buf) :: bvec
    ∧ trace k' = trace k.
Proof.
  intros Hb Hpool Hlen Hcnt. unfold bio_integrity_copy_user.
  change (ITER_DEST =? ITER_SOURCE) with false. cbn beta iota zeta. mrun.
  set (nr := Z.of_nat (length bvec)) in *.
  destruct (kmalloc len GFP_KERNEL k) as [[buf|] k1|] eqn:Hk; cbn beta iota;
    [| discriminate | discriminate].
  apply kmalloc_kernel_inv in Hk as (rest & Hans & ->).
  mrun.
  set (k2 := set_mem (mem_fill buf len 0) (set_kmalloc_ans (λ _, rest) k)).
  assert (Hb2 : bios k2 !! bio = Some b) by exact Hb.
  destruct (bio_integrity_alloc bio GFP_KERNEL (nr + 1) k2)
    as [[bip|e] k3|] eqn:Ha; cbn beta iota; mrun; [| | discriminate].
  2:{ pose proof (bio_integrity_alloc_err_code _ _ _ _ _ _ _ Hb2 Ha).
      unfold kfree. mrun. intros [= -> _]. lia. }
  destruct (bio_integrity_alloc_nopool _ _ _ _ _ _ _ Hb2 Hpool Ha)
    as (Hbips3 & Hbios3 & Ht3 & _).
  assert (Hn1 : (nr + 1 =? 0) = false) by (apply Z.eqb_neq; unfold nr; lia).
  rewrite Hn1 in Hbips3.
  set (bp3 := bip_fresh bio (u16 (nr + 1)) (Some (InlineVecs bip)) (nr + 1))
    in *.
  assert (Hp3 : bips k3 !! bip = Some bp3)
    by (rewrite Hbips3; apply lookup_insert_eq).
  assert (Hvec3 : vec_at k3 (InlineVecs bip)
                  = Some (replicate (Z.to_nat (nr + 1)) (BioVec 0 0 0)))
    by (unfold vec_at; rewrite Hp3; reflexivity).
  mrun. unfold bp3 at 1. unfold bip_fresh at 1. bipproj. mrun.
  assert (Htake : take (Z.to_nat nr) bvec = bvec)
    by (unfold nr; apply take_length_all).
  rewrite Htake.
  rewrite (vec_memcpy_run _ _ _ _ _ Hvec3)
    by (rewrite ?length_replicate; unfold nr; lia).
  cbn beta iota. change (Z.to_nat 1) with 1%nat.
  set (vec1 := take 1 (replicate (Z.to_nat (nr + 1)) (BioVec 0 0 0))
               ++ bvec
               ++ drop (1 + length bvec)
                    (replicate (Z.to_nat (nr + 1)) (BioVec 0 0 0))).
  assert (Hvec1 : vec1 = BioVec 0 0 0 :: bvec).
  { unfold vec1.
    rewrite drop_ge by (rewrite length_replicate; unfold nr; lia).
    rewrite app_nil_r.
    replace (Z.to_nat (nr + 1)) with (S (length bvec)) by (unfold nr; lia).
    reflexivity. }
  set (k4 := vec_put (InlineVecs bip) vec1 k3).
  assert (Hp4 : bips k4 !! bip
                = Some (own_inline bip (InlineVecs bip) vec1 bp3))
    by (apply vec_put_bips; exact Hp3).
  assert (Hb4 : bios k4 !! bio = Some (bio_attached bip b)).
  { unfold k4. rewrite vec_put_bios, Hbios3. apply lookup_insert_eq. }
  assert (Hvec4 : vec_at k4 (InlineVecs bip) = Some vec1)
    by (apply (vec_put_at _ _ _ _ Hvec3)).
  destruct (add_page_append k4 (bio_attached bip b)
              (own_inline bip (InlineVecs bip) vec1 bp3) (InlineVecs bip)
              vec1 bio bip (virt_to_page buf) len (offset_in_page buf)
              Hb4 (bio_integrity_attached bip b) Hp4
              (own_inline_vec _ _ _ _) Hvec4)
    as (k5 & Hrun5 & Hvec5 & Hp5 & Hb5 & Ht5 & _).
  { rewrite own_inline_vcnt, Hvec1. cbn. lia. }
  { rewrite own_inline_vcnt. cbn. lia. }
  set (bp5 := Bip bio (BvecIter 0 len 0 0) 1 (u16 (nr + 1)) 0
                (BvecIter 0 0 0 0) None (Some (InlineVecs bip))
                (BioVec (virt_to_page buf) len (offset_in_page buf)
                   :: bvec)).
  assert (Hp5' : bips k5 !! bip = Some bp5).
  { rewrite Hp5. f_equal. rewrite own_inline_vcnt.
    cbn [own_inline]. rewrite !decide_True by reflexivity.
    unfold bip_add_size, bp3, bip_fresh. bipproj. rewrite Hvec1.
    rewrite Z.add_0_l, (u32_small len Hlen). reflexivity. }
  clear Hp5 Hvec5.
  rewrite bind_run, Hrun5. cbn beta iota. rewrite Z.eqb_refl. cbn [negb].
  mrun.
  intros [= <-]. exists buf. eexists bip, _. kproj.
  rewrite lookup_insert_eq.
  split; [rewrite Hb5; exact Hb4|].
  split; [reflexivity|].
  unfold bp5. bipproj.
  split; [vm_compute; discriminate|].
  split; [apply u16_small; unfold nr; lia|].
  split; [reflexivity|].
  split; [reflexivity|].
  rewrite Ht5. unfold k4. rewrite vec_put_trace. exact Ht3.
Qed.

(** Unmapping a read in copy mode, on the trace: the copy back, the
    unpinning of the user pages, and the release of the bounce buffer. *)
Lemma unmap_copy_read_trace (k : kernel) (b : bio)
    (bp : bio_integrity_payload) (vp : vec_ptr) (bounce : bio_vec)
    (orig : list bio_vec) (bio bip : Z) :
  bios k !! bio = Some b ->
  bio_integrity b = Some bip ->
  bips k !! bip = Some bp ->
  Z.land (bip_flags bp) BIP_COPY_USER ≠ 0 ->
  bio_data_dir b = READ ->
  bip_vec bp = Some vp ->
  vec_at k vp = Some (bounce :: orig) ->
  bip_max_vcnt bp = Z.of_nat (length orig) + 1 ->
  Z.of_nat (length orig) < 2 ^ 16 ->
  ∃ k', bio_integrity_unmap_user bio k = Ret tt k'
    ∧ trace k'
      = trace k ++ [EvCopyToIter (bvec_virt bounce) (bv_len bounce)]
          ++ unpin_events (PageCompound k) orig true
          ++ [EvKfree (bvec_virt bounce)].
Proof.
  intros Hb Hi Hp Hfl Hdir Hv Hvec Hmax Hrange.
  unfold bio_integrity_unmap_user. mrun. rewrite Hi. mrun.
  rewrite (nonzero_true _ Hfl). rewrite Hdir. cbn [Z.eqb READ]. mrun.
  unfold bio_integrity_uncopy_user. mrun. rewrite Hv. mrun.
  cbn [lookup list_lookup]. mrun.
  assert (Hn : u16 (bip_max_vcnt bp - 1) = Z.of_nat (length orig)).
  { rewrite Hmax.
    replace (Z.of_nat (length orig) + 1 - 1) with (Z.of_nat (length orig))
      by lia.
    apply u16_small. lia. }
  rewrite Hn, Nat2Z.id. cbn [drop]. rewrite !drop_0.
  rewrite firstn_all.
  unfold copy_to_iter. rewrite Z.min_id.
  destruct (scatter orig (bvec_virt bounce) (bv_len bounce) (mem k))
    as [m' c]. cbn beta iota.
  rewrite bio_integrity_unpin_bvec_run by lia.
  cbn beta iota. mrun.
  erewrite (vec_get_run vp 0 _ (bounce :: orig) bounce);
    [| rewrite !vec_at_set_trace, vec_at_set_mem; exact Hvec
     | lia | reflexivity].
  cbn beta iota. unfold kfree. mrun.
  eexists. split; [reflexivity|]. kproj.
  rewrite Nat2Z.id, firstn_all, <- !app_assoc. reflexivity.
Qed.

(** Unmapping a payload that is not in copy mode, on the trace. *)
Lemma unmap_zero_copy_run (k : kernel) (b : bio)
    (bp : bio_integrity_payload) (vp : vec_ptr) (vec : list bio_vec)
    (bio bip : Z) :
  bios k !! bio = Some b ->
  bio_integrity b = Some bip ->
  bips k !! bip = Some bp ->
  Z.land (bip_flags bp) BIP_COPY_USER = 0 ->
  bip_vec bp = Some vp ->
  vec_at k vp = Some vec ->
  bip_max_vcnt bp <= Z.of_nat (length vec) ->
  bio_integrity_unmap_user bio k
  = Ret tt
      (set_trace
         (λ t, t ++ unpin_events (PageCompound k)
                      (take (Z.to_nat (bip_max_vcnt bp)) vec)
                      (bio_data_dir b =? READ)) k).
Proof.
  intros Hb Hi Hp Hfl Hv Hvec Hn.
  unfold bio_integrity_unmap_user. mrun. rewrite Hi. mrun.
  rewrite Hfl. change (nonzero 0) with false. cbn beta iota.
  rewrite Hv. mrun.
  exact (bio_integrity_unpin_bvec_run vec (bip_max_vcnt bp)
           (bio_data_dir b =? READ) k Hn).
Qed.

Lemma bio_data_dir_attached (bip : Z) (b : bio) :
  bio_data_dir (bio_attached bip b) = bio_data_dir b.
Proof. unfold bio_data_dir. rewrite bio_op_attached. reflexivity. Qed.

(** X13: for a request without a payload pool, a buffer that was
    mapped with success and is then unmapped holds no page: whether the
    mapping copies or not, and whatever the direction, the pages
    unpinned by the two calls are the pages the mapping pinned, each
    once. *)
Theorem bio_integrity_map_unmap_pins
    (k k' : kernel) (b : bio) (bio ubuf bytes seed : Z) :
  bios k !! bio = Some b ->
  pool_in_use (bi_pool b) = false ->
  0 < bytes ->
  bio_integrity_map_user bio ubuf bytes seed k = Ret 0 k' ->
  ∃ k'' evs,
    bio_integrity_unmap_user bio k' = Ret tt k''
    ∧ trace k'' = trace k ++ evs
    ∧ pinned_pages evs ≠ []
    ∧ unpinned_pages evs ≡ₚ pinned_pages evs.
Proof.
  intros Hb Hpool Hpos Hrun.
  assert (Hneg : 0 <= bytes) by lia.
  destruct (bio_integrity_map_user_stages _ _ _ _ _ _ _ _ Hb Hneg Hrun)
    as [(heap & Hcode & _)
       | (heap & pages & bvec & ups & pre & k4 & k5 & Hs4 & Ht4 & Hp1 & Hp2
          & Hperm & Hsum & Hwf & Hlen & Hmax & _ & _ & Hbuild & ->)].
  { exfalso. unfold EINVAL, E2BIG, ENOMEM, EFAULT in Hcode. lia. }
  change (0 =? 0) with true. cbn [app].
  assert (Hb4 : bios k4 !! bio = Some b)
    by (destruct Hs4 as (-> & _); exact Hb).
  assert (Hne : bvec ≠ []).
  { intros ->. change (segs_len []) with 0 in Hsum. lia. }
  assert (Hpg : pages ≠ []).
  { intros ->. apply Permutation_nil_r in Hperm.
    apply app_eq_nil in Hperm as [Hm _]. destruct bvec; [|discriminate].
    contradiction. }
  assert (Hlen32 : 0 <= bytes < 2 ^ 32)
    by (unfold BIO_MAX_VECS, PAGE_SIZE in Hmax; lia).
  assert (Hcnt : Z.of_nat (length bvec) + 1 < 2 ^ 16)
    by (unfold BIO_MAX_VECS in Hlen; lia).
  destruct (free_bvec_events_pins heap) as [Hfp Hfu].
  set (kf := set_trace (λ t, t ++ free_bvec_events heap) k5).
  (* what is left is to unmap, in each of the three ways *)
  assert (Hgoal : ∀ evs5 evs6 k'',
    trace k5 = trace k4 ++ evs5 ->
    bio_integrity_unmap_user bio kf = Ret tt k'' ->
    trace k'' = trace kf ++ evs6 ->
    pinned_pages evs5 = [] -> pinned_pages evs6 = [] ->
    unpinned_pages evs5 ++ unpinned_pages evs6 = map bv_page bvec ->
    ∃ k'' evs,
      bio_integrity_unmap_user bio kf = Ret tt k''
      ∧ trace k'' = trace k ++ evs
      ∧ pinned_pages evs ≠ []
      ∧ unpinned_pages evs ≡ₚ pinned_pages evs).
  { intros evs5 evs6 k'' Ht5 Hun Ht6 Hq5 Hq6 Hu.
    exists k''. eexists. split; [exact Hun|]. split.
    { rewrite Ht6. unfold kf. kproj. rewrite Ht5, Ht4, <- !app_assoc.
      reflexivity. }
    rewrite !unpinned_pages_app, !pinned_pages_app.
    rewrite unpinned_pages_pins, pinned_pages_pins, unpinned_pages_unpins,
      pinned_pages_unpins, Hp1, Hp2, Hq5, Hq6, Hfp, Hfu.
    cbn [app]. rewrite !app_nil_r. split; [exact Hpg|].
    rewrite <- Hperm, Hu. apply Permutation_app_comm. }
  destruct (map_user_copies b ubuf bytes (Z.of_nat (length bvec))).
  - unfold map_user_direction in Hbuild.
    destruct (bio_data_dir b =? READ) eqn:Hdir.
    + (* a read through the bounce buffer *)
      destruct (copy_user_read_nopool _ _ _ _ _ _ _ Hb4 Hpool Hlen32 Hcnt
                  Hbuild)
        as (buf & bip & bp & Hb5 & Hp5 & Hfl & Hmx & Hv & Hin & Ht5).
      destruct (unmap_copy_read_trace kf (bio_attached bip b) bp
                  (InlineVecs bip)
                  (BioVec (virt_to_page buf) bytes (offset_in_page buf))
                  bvec bio bip Hb5 (bio_integrity_attached bip b) Hp5 Hfl)
        as (k'' & Hun & Ht6); try assumption.
      { rewrite bio_data_dir_attached. apply Z.eqb_eq. exact Hdir. }
      { unfold vec_at, kf. kproj. rewrite Hp5. cbn. rewrite Hin.
        reflexivity. }
      { lia. }
      eapply (Hgoal [] _ k'').
      * rewrite app_nil_r. exact Ht5.
      * exact Hun.
      * exact Ht6.
      * reflexivity.
      * rewrite !pinned_pages_app, unpin_events_pinned. reflexivity.
      * rewrite !unpinned_pages_app, unpin_events_unpinned. cbn [app].
        rewrite app_nil_r. reflexivity.
    + (* a write through the bounce buffer *)
      destruct (copy_user_write_ok _ _ _ _ _ _ _ _ Hb4 Hlen32 Hbuild)
        as (buf & rest & m2 & bip & bp & _ & _ & _ & Hb5 & Hp5 & Hfl
            & _ & _ & _ & _ & Hv & Hin & Ht5).
      destruct (bip_inline_vecs bp) as [|v0 vrest] eqn:Hvecs;
        [discriminate|].
      injection Hin as ->.
      pose proof (unmap_copy_write kf (bio_attached bip b) bp
                    (InlineVecs bip)
                    (BioVec (virt_to_page buf) bytes (offset_in_page buf))
                    vrest bio bip Hb5 (bio_integrity_attached bip b) Hp5 Hfl)
        as Hun.
      rewrite take_length_all in Ht5.
      eapply (Hgoal _ [EvKfree _]).
      * exact Ht5.
      * apply Hun; [|exact Hv|].
        -- rewrite bio_data_dir_attached. unfold bio_data_dir in *.
           destruct (op_is_write (bio_op b)); [reflexivity|discriminate].
        -- unfold vec_at, kf. kproj. rewrite Hp5. cbn. rewrite Hvecs.
           reflexivity.
      * reflexivity.
      * rewrite pinned_pages_app, unpin_events_pinned. reflexivity.
      * reflexivity.
      * rewrite unpinned_pages_app, unpin_events_unpinned. cbn [app].
        rewrite app_nil_r. reflexivity.
  - (* the user's pages themselves *)
    assert (Hc16 : Z.of_nat (length bvec) < 2 ^ 16) by lia.
    destruct (init_user_nopool _ _ _ _ _ _ _ Hb4 Hpool Hne Hc16 Hbuild)
      as (bip & bp & Hb5 & Hp5 & Hfl & Hmx & Hv & Hin & Ht5).
    assert (Hvec : vec_at kf (InlineVecs bip) = Some bvec).
    { unfold vec_at, kf. kproj. rewrite Hp5. cbn. rewrite Hin.
      reflexivity. }
    assert (Hfl0 : Z.land (bip_flags bp) BIP_COPY_USER = 0)
      by (rewrite Hfl; reflexivity).
    assert (Hcap : bip_max_vcnt bp <= Z.of_nat (length bvec)) by lia.
    pose proof (unmap_zero_copy_run kf (bio_attached bip b) bp
                  (InlineVecs bip) bvec bio bip Hb5
                  (bio_integrity_attached bip b) Hp5 Hfl0 Hv Hvec Hcap)
      as Hun.
    rewrite Hmx, take_length_all in Hun.
    eapply (Hgoal [] _).
    + rewrite app_nil_r. exact Ht5.
    + exact Hun.
    + reflexivity.
    + reflexivity.
    + apply unpin_events_pinned.
    + cbn [app]. apply unpin_events_unpinned.
Qed.

(** The sample read, mapped in copy mode over two user pages and
    unmapped again. *)
Lemma bio_integrity_map_unmap_pins_witness :
  ∃ k'' evs,
    bio_integrity_unmap_user 2 sample_bounced_read = Ret tt k''
    ∧ trace k'' = trace sample_kernel ++ evs
    ∧ pinned_pages evs ≠ []
    ∧ unpinned_pages evs ≡ₚ pinned_pages evs.
Proof.
  assert (Hb : bios sample_kernel !! 2 = Some sample_read)
    by (vm_compute; reflexivity).
  assert (Hpool : pool_in_use (bi_pool sample_read) = false)
    by reflexivity.
  assert (Hpos : 0 < 4096) by lia.
  assert (Hrun : bio_integrity_map_user 2 20993 4096 7 sample_kernel
                 = Ret 0 sample_bounced_read)
    by (vm_compute; reflexivity).
  exact (bio_integrity_map_unmap_pins sample_kernel sample_bounced_read
           sample_read 2 20993 4096 7 Hb Hpool Hpos Hrun).
Defined.

(** ** The bounce buffer on failure, and the seed *)

(** X14: when [bio_integrity_copy_user] fails it returns [-ENOMEM],
    [-EFAULT] or [-EOPNOTSUPP] and leaves the requests as they were.
    The bounce buffer, if it was allocated, is freed, and nothing else
    is; no page is pinned or unpinned, so that the caller still holds
    the pages of the segments. *)
Theorem bio_integrity_copy_user_failure
    (k k' : kernel) (b : bio) (bvec : list bio_vec)
    (bio nr len direction seed r : Z) :
  bios k !! bio = Some b ->
  0 <= nr ->
  bio_integrity_copy_user bio bvec nr len direction seed k = Ret r k' ->
  r ≠ 0 ->
  bios k' = bios k
  ∧ (r = - ENOMEM ∨ r = - EFAULT ∨ r = - EOPNOTSUPP)
  ∧ ∃ evs, trace k' = trace k ++ evs
      ∧ pinned_pages evs = [] ∧ unpinned_pages evs = []
      ∧ kfreed evs
        = match kmalloc_ans k with
          | Some buf :: _ => [buf]
          | _ => []
          end.
Proof.
  intros Hb Hnr Hrun Hr.
  exact (copy_user_failure k k' b bvec bio nr len direction seed r
           Hb Hnr Hrun Hr).
Qed.

(** With one buffer to give, the bounce buffer at 8192 is allocated,
    the payload is not, and the buffer is freed. *)
Lemma bio_integrity_copy_user_failure_witness :
  bios (exec (bio_integrity_copy_user 2 [BioVec 1005 1024 512] 1 1024
                ITER_DEST 7) one_buffer_kernel)
  = bios one_buffer_kernel
  ∧ (- ENOMEM = - ENOMEM ∨ - ENOMEM = - EFAULT ∨ - ENOMEM = - EOPNOTSUPP)
  ∧ ∃ evs,
      trace (exec (bio_integrity_copy_user 2 [BioVec 1005 1024 512] 1 1024
                     ITER_DEST 7) one_buffer_kernel)
      = trace one_buffer_kernel ++ evs
      ∧ pinned_pages evs = [] ∧ unpinned_pages evs = []
      ∧ kfreed evs
        = match kmalloc_ans one_buffer_kernel with
          | Some buf :: _ => [buf]
          | _ => []
          end.
Proof.
  assert (Hb : bios one_buffer_kernel !! 2 = Some sample_read)
    by (vm_compute; reflexivity).
  assert (Hnr : 0 <= 1) by lia.
  assert (Hrun : bio_integrity_copy_user 2 [BioVec 1005 1024 512] 1 1024
                   ITER_DEST 7 one_buffer_kernel
                 = Ret (- ENOMEM)
                     (exec (bio_integrity_copy_user 2
                              [BioVec 1005 1024 512] 1 1024 ITER_DEST 7)
                        one_buffer_kernel))
    by (vm_compute; reflexivity).
  assert (Hr : - ENOMEM ≠ 0) by (vm_compute; discriminate).
  exact (bio_integrity_copy_user_failure one_buffer_kernel _ sample_read
           [BioVec 1005 1024 512] 2 1 1024 ITER_DEST 7 (- ENOMEM)
           Hb Hnr Hrun Hr).
Defined.

(** X15: after a successful mapping, with or without a copy, the
    payload starts at the seed the caller gave and has the length of the
    user buffer to go. *)
Theorem bio_integrity_map_user_seed
    (k k' : kernel) (b : bio) (bio ubuf bytes seed : Z) :
  bios k !! bio = Some b ->
  bio_integrity_map_user bio ubuf bytes seed k = Ret 0 k' ->
  ∃ bip bp,
    bios k' !! bio = Some (bio_attached bip b)
    ∧ bips k' !! bip = Some bp
    ∧ bi_sector (bip_iter bp) = seed
    ∧ bi_size (bip_iter bp) = bytes.
Proof.
  intros Hb Hrun.
  destruct (bio_integrity_map_user_ok _ _ _ _ _ _ _ Hb Hrun)
    as (bvec & k4 & k5 & _ & Hbytes & _ & _ & Hlen & Hs4 & Hbuild
        & [evs ->]).
  assert (Hb4 : bios k4 !! bio = Some b)
    by (destruct Hs4 as (-> & _); exact Hb).
  assert (Hlen32 : 0 <= bytes < 2 ^ 32)
    by (unfold BIO_MAX_VECS, PAGE_SIZE in Hbytes; lia).
  assert (Hn0 : 0 <= Z.of_nat (length bvec)) by lia.
  kproj.
  destruct (map_user_copies b ubuf bytes (Z.of_nat (length bvec))).
  - unfold map_user_direction in Hbuild.
    destruct (bio_data_dir b =? READ).
    + destruct (copy_user_read_ok _ _ _ _ _ _ _ _ Hb4 Hlen32 Hn0 Hbuild)
        as (buf & rest & bip & bp & vp & pad & _ & _ & Hb5 & Hp5 & _
            & _ & Hsz & Hsec & _).
      exists bip, bp. repeat split; assumption.
    + destruct (copy_user_write_ok _ _ _ _ _ _ _ _ Hb4 Hlen32 Hbuild)
        as (buf & rest & m2 & bip & bp & _ & _ & _ & Hb5 & Hp5 & _
            & _ & _ & Hsz & Hsec & _).
      exists bip, bp. repeat split; assumption.
  - destruct (init_user_ok _ _ _ _ _ _ _ _ Hb4 Hn0 Hbuild)
      as (bip & bp & Hb5 & Hp5 & _ & _ & Hit & _).
    exists bip, bp. rewrite Hit. cbn [bi_sector bi_size].
    repeat split; try assumption. apply u32_small. exact Hlen32.
Qed.

(** The sample read mapped without a copy starts at seed 7 with 1024
    bytes to go. *)
Lemma bio_integrity_map_user_seed_witness :
  ∃ bip bp,
    bios sample_mapped_read !! 2 = Some (bio_attached bip sample_read)
    ∧ bips sample_mapped_read !! bip = Some bp
    ∧ bi_sector (bip_iter bp) = 7
    ∧ bi_size (bip_iter bp) = 1024.
Proof.
  assert (Hb : bios sample_kernel !! 2 = Some sample_read)
    by (vm_compute; reflexivity).
  assert (Hrun : bio_integrity_map_user 2 20992 1024 7 sample_kernel
                 = Ret 0 sample_mapped_read)
    by (vm_compute; reflexivity).
  exact (bio_integrity_map_user_seed sample_kernel sample_mapped_read
           sample_read 2 20992 1024 7 Hb Hrun).
Defined.

(** ** Releasing a clone *)

(** X16: a clone that is released leaves its source as it was: the
    source's payload and every vector are untouched and the destination
    is again without a payload.  Without a pool only the clone's payload
    is freed; with a pool, [bvec_free] is called on the vector the clone
    shares with its source, with the clone's vector count, which
    is 0. *)
Theorem bio_integrity_clone_free_round_trip
    (k k' : kernel) (b bs : bio) (src : bio_integrity_payload)
    (bio bio_src bip_src gfp_mask : Z) :
  bios k !! bio = Some b ->
  bios k !! bio_src = Some bs ->
  bio_integrity bs = Some bip_src ->
  bips k !! bip_src = Some src ->
  0 <= bip_flags src < 2 ^ 16 ->
  allocator_fresh k ->
  bi_integrity b = None ->
  Z.land (bi_opf b) REQ_INTEGRITY = 0 ->
  bio_integrity_clone bio bio_src gfp_mask k = Ret 0 k' ->
  ∃ k'' bip,
    bio_integrity_free bio k' = Ret tt k''
    ∧ bios k'' !! bio = Some b
    ∧ bips k'' !! bip = None
    ∧ bips k'' !! bip_src = Some src
    ∧ (∀ p, p ≠ InlineVecs bip -> vec_at k'' p = vec_at k p)
    ∧ trace k''
      = trace k
        ++ (if pool_in_use (bi_pool b)
            then match bip_vec src with
                 | Some v => [EvBvecFree v 0]
                 | None => []
                 end ++ [EvMempoolFree bip]
            else [EvKfree bip]).
Proof.
  intros Hb Hbs Hi Hsrc Hfl Hfresh Hig Hclean Hrun.
  destruct (bio_integrity_clone_ok _ _ _ _ _ _ _ _ _ Hb Hbs Hi Hsrc Hfl
              Hfresh Hrun)
    as (bip & bp & Hne & Hb' & Hp' & Hmax & _ & Hv & _ & _ & Hsrc' & Hvec
        & _ & _ & Ht).
  eexists _, bip. split.
  { apply (bio_integrity_free_run k' _ bp bio bip Hb'
             (bio_integrity_attached bip b) Hp'). }
  kproj. rewrite bio_detached_attached by assumption.
  split; [apply lookup_insert_eq|].
  split; [apply lookup_delete_eq|].
  split; [rewrite lookup_delete_ne by exact Hne; exact Hsrc'|].
  split.
  { intros p Hp. rewrite <- (Hvec p Hp). destruct p as [q|a]; cbn.
    - rewrite lookup_delete_ne by congruence. reflexivity.
    - reflexivity. }
  rewrite Ht. f_equal. unfold payload_free_events.
  change (bi_pool (bio_attached bip b)) with (bi_pool b).
  rewrite Hv, Hmax. reflexivity.
Qed.

(** The sample write is made a clone of the prepared read and
    released: the payload of the read is as it was. *)
Lemma bio_integrity_clone_free_round_trip_witness :
  ∃ k'' bip,
    bio_integrity_free 1 sample_cloned = Ret tt k''
    ∧ bios k'' !! 1 = Some sample_write
    ∧ bips k'' !! bip = None
    ∧ bips k'' !! 500 = Some sample_read_bip
    ∧ (∀ p, p ≠ InlineVecs bip ->
         vec_at k'' p = vec_at sample_prepared_read p)
    ∧ trace k''
      = trace sample_prepared_read
        ++ (if pool_in_use (bi_pool sample_write)
            then match bip_vec sample_read_bip with
                 | Some v => [EvBvecFree v 0]
                 | None => []
                 end ++ [EvMempoolFree bip]
            else [EvKfree bip]).
Proof.
  assert (Hb : bios sample_prepared_read !! 1 = Some sample_write)
    by (vm_compute; reflexivity).
  assert (Hbs : bios sample_prepared_read !! 2
                = Some (bio_attached 500 sample_read))
    by (vm_compute; reflexivity).
  assert (Hi : bio_integrity (bio_attached 500 sample_read) = Some 500)
    by (vm_compute; reflexivity).
  assert (Hsrc : bips sample_prepared_read !! 500 = Some sample_read_bip)
    by (vm_compute; reflexivity).
  assert (Hfl : 0 <= bip_flags sample_read_bip < 2 ^ 16)
    by (cbn; lia).
  assert (Hfresh : allocator_fresh sample_prepared_read).
  { intros a Hin.
    change (kmalloc_ans sample_prepared_read
            ++ mempool_ans sample_prepared_read) with [Some 600] in Hin.
    apply list_elem_of_singleton in Hin. injection Hin as ->.
    vm_compute. reflexivity. }
  assert (Hig : bi_integrity sample_write = None) by reflexivity.
  assert (Hclean : Z.land (bi_opf sample_write) REQ_INTEGRITY = 0)
    by (vm_compute; reflexivity).
  assert (Hrun : bio_integrity_clone 1 2 GFP_NOIO sample_prepared_read
                 = Ret 0 sample_cloned)
    by (vm_compute; reflexivity).
  exact (bio_integrity_clone_free_round_trip sample_prepared_read
           sample_cloned sample_write (bio_attached 500 sample_read)
           sample_read_bip 1 2 500 GFP_NOIO
           Hb Hbs Hi Hsrc Hfl Hfresh Hig Hclean Hrun).
Defined.

(** ** Pages that do not follow one another *)

Lemma bvec_from_pages_loop_apart (fuel : nat) :
  ∀ (pages : list Z) (nr_vecs i bytes offset : Z) (acc : list bio_vec)
    (k : kernel),
    nr_vecs = Z.of_nat (length pages) ->
    0 <= i <= nr_vecs ->
    nr_vecs - i <= Z.of_nat fuel ->
    (∀ m pm1, 1 <= m < nr_vecs ->
       pages !! Z.to_nat (m - 1) = Some pm1 ->
       joins (page_folio k) (page_folio k pm1) pages m = false) ->
    ∃ new,
      bvec_from_pages_loop fuel pages nr_vecs i bytes offset acc k
      = Ret (acc ++ new) k
      ∧ map bv_page new = drop (Z.to_nat i) pages.
Proof.
  induction fuel as [|fuel IH];
    intros pages nr_vecs i bytes offset acc k Hnr Hi Hfuel Hapart.
  - exists []. cbn [bvec_from_pages_loop map]. mrun.
    rewrite app_nil_r. split; [reflexivity|].
    rewrite drop_ge by lia. reflexivity.
  - cbn [bvec_from_pages_loop].
    destruct (i <? nr_vecs) eqn:Hlt.
    2:{ apply Z.ltb_ge in Hlt. exists []. cbn [map]. mrun.
        rewrite app_nil_r. split; [reflexivity|].
        rewrite drop_ge by lia. reflexivity. }
    apply Z.ltb_lt in Hlt.
    destruct (lookup_lt_is_Some_2 pages (Z.to_nat i) ltac:(lia)) as [pi Hpi].
    mrun. rewrite Hpi. mrun.
    destruct (bvec_from_pages_run_total (Z.to_nat nr_vecs) pages nr_vecs
                (page_folio k pi) (i + 1)
                (Z.min bytes (PAGE_SIZE - offset))
                (bytes - Z.min bytes (PAGE_SIZE - offset)) k Hnr
                ltac:(lia) ltac:(lia))
      as (j & size' & bytes' & Hrun & Hj & Hall & _).
    assert (Hj1 : j = i + 1).
    { destruct (decide (j = i + 1)) as [|Hne]; [assumption|].
      exfalso. specialize (Hall (i + 1) ltac:(lia)).
      rewrite (Hapart (i + 1) pi) in Hall; [discriminate | lia |].
      replace (i + 1 - 1) with i by lia. exact Hpi. }
    subst j. rewrite Z.sub_diag in Hrun. cbn [Z.to_nat take map] in Hrun.
    rewrite set_trace_nil in Hrun. rewrite Hrun. cbn beta iota.
    destruct (IH pages nr_vecs (i + 1) bytes' 0
                (acc ++ [BioVec pi size' offset]) k Hnr ltac:(lia)
                ltac:(lia) Hapart)
      as (new & Hloop & Hmap).
    exists (BioVec pi size' offset :: new). rewrite Hloop.
    split; [rewrite <- app_assoc; reflexivity|].
    cbn [map bv_page]. rewrite Hmap.
    erewrite (drop_S pages pi (Z.to_nat i)) by exact Hpi.
    replace (Z.to_nat (i + 1)) with (S (Z.to_nat i)) by lia. reflexivity.
Qed.

(** X17: when no page follows its predecessor within the
    predecessor's folio, nothing is joined: each page heads a segment of
    its own, in order, no page is unpinned and the state is unchanged. *)
Theorem bvec_from_pages_apart
    (pages : list Z) (nr_vecs bytes offset : Z) (k : kernel) :
  nr_vecs = Z.of_nat (length pages) ->
  (∀ m pm1, 1 <= m < nr_vecs ->
     pages !! Z.to_nat (m - 1) = Some pm1 ->
     joins (page_folio k) (page_folio k pm1) pages m = false) ->
  ∃ bvec,
    bvec_from_pages pages nr_vecs bytes offset k = Ret bvec k
    ∧ map bv_page bvec = pages.
Proof.
  intros Hnr Hapart. unfold bvec_from_pages.
  destruct (bvec_from_pages_loop_apart (Z.to_nat nr_vecs) pages nr_vecs 0
              bytes offset [] k Hnr ltac:(lia) ltac:(lia) Hapart)
    as (new & Hrun & Hmap).
  exists new. split; [exact Hrun | exact Hmap].
Qed.

(** Pages 1005 and 1006 where every page is a folio of its own. *)
Lemma bvec_from_pages_apart_witness :
  ∃ bvec,
    bvec_from_pages [1005; 1006] 2 4096 513 sample_kernel
    = Ret bvec sample_kernel
    ∧ map bv_page bvec = [1005; 1006].
Proof.
  assert (Hnr : 2 = Z.of_nat (length [1005; 1006])) by reflexivity.
  assert (Hapart : ∀ m pm1, 1 <= m < 2 ->
            [1005; 1006] !! Z.to_nat (m - 1) = Some pm1 ->
            joins (page_folio sample_kernel) (page_folio sample_kernel pm1)
              [1005; 1006] m = false).
  { intros m pm1 Hm. assert (m = 1) as -> by lia.
    intros [= <-]. vm_compute. reflexivity. }
  exact (bvec_from_pages_apart [1005; 1006] 2 4096 513 sample_kernel
           Hnr Hapart).
Defined.

(** ** The round trip of copy mode *)


